(** * UVRE: resource lifecycle and command replay of the OpenGL back ends

    A shallow embedding of the two OpenGL render devices of UVRE:
    - [GL33], from [gl_33/gl33_renderdevice.cpp] and [gl_33/gl33_private.hpp]
      (vertex-array groups, deferred command lists);
    - [GL46], from [src_gl/gl_renderdevice.cpp] (direct state access).

    Device code is written in a state-and-error monad over the device, its
    heap objects and the OpenGL context.  The OpenGL context is a small
    interpreter of the commands the devices issue: it keeps the command log
    and the part of the context state the properties below talk about. *)

From stdpp Require Import base option list gmap strings.
From Stdlib Require Import ZArith Lia.

Local Open Scope Z_scope.

(** ** Fixed-width integers *)

(** An unsigned [w]-bit value is a [Z] reduced modulo [2^w]. *)
Definition wrap (w x : Z) : Z := x mod 2 ^ w.

(** The value of a [w]-bit pattern read as a two's complement number
    ([static_cast] to [GLintptr], [GLsizeiptr], [GLsizei], [GLint]). *)
Definition to_signed (w x : Z) : Z :=
  (x + 2 ^ (w - 1)) mod 2 ^ w - 2 ^ (w - 1).

Definition uint32 (x : Z) : Z := wrap 32 x.
Definition int32 (x : Z) : Z := to_signed 32 x.

(** [a / b] and [a % b] on [uint32_t] operands; a zero divisor is undefined. *)
Definition udiv32 (a b : Z) : option Z :=
  if uint32 b =? 0 then None else Some (uint32 a / uint32 b).
Definition umod32 (a b : Z) : option Z :=
  if uint32 b =? 0 then None else Some (uint32 a mod uint32 b).

(** A C [float] is carried as its IEEE-754 bit pattern; the devices only
    store and forward such values. *)
Definition float32 : Type := Z.

(** A [const void *] payload is carried as the bytes it points to. *)
Definition bytes : Type := list Z.

(** ** A state-and-error monad

    [None] is undefined behaviour of the C++ code (a null or dangling
    pointer dereference, a division by zero). *)

Definition M (St A : Type) : Type := St -> option (A * St).

Definition ret {St A} (a : A) : M St A := fun s => Some (a, s).
Definition bind {St A B} (m : M St A) (k : A -> M St B) : M St B :=
  fun s => match m s with
           | Some (a, s') => k a s'
           | None => None
           end.
Definition undefined {St A} : M St A := fun _ => None.
Definition get {St} : M St St := fun s => Some (s, s).
Definition modify {St} (f : St -> St) : M St unit := fun s => Some (tt, f s).
Definition lift_option {St A} (o : option A) : M St A :=
  match o with
  | Some a => ret a
  | None => undefined
  end.

Declare Scope m_scope.
Delimit Scope m_scope with M.
Notation "'do' x <- m ; k" := (bind m (fun x => k))
  (at level 60, x name, m at next level, right associativity,
   only parsing) : m_scope.
Notation "'do' ' pat <- m ; k" :=
  (bind m (fun x => match x with pat => k end))
  (at level 60, pat pattern, m at next level, right associativity,
   only parsing) : m_scope.
Notation "'run' m ; k" := (bind m (fun _ => k))
  (at level 60, m at next level, right associativity,
   only parsing) : m_scope.

(** [for x in l] with a body run for its effects. *)
Fixpoint for_each {St A} (l : list A) (body : A -> M St unit) : M St unit :=
  match l with
  | [] => ret tt
  | x :: l' => bind (body x) (fun _ => for_each l' body)
  end.

(** ** OpenGL enumerants used by the devices ([glad/gl.h]) *)

Definition GL_ZERO : Z := 0.
Definition GL_ONE : Z := 1.
Definition GL_POINTS : Z := 0x0000.
Definition GL_LINES : Z := 0x0001.
Definition GL_LINE_LOOP : Z := 0x0002.
Definition GL_LINE_STRIP : Z := 0x0003.
Definition GL_TRIANGLES : Z := 0x0004.
Definition GL_TRIANGLE_STRIP : Z := 0x0005.
Definition GL_TRIANGLE_FAN : Z := 0x0006.
Definition GL_NEVER : Z := 0x0200.
Definition GL_LESS : Z := 0x0201.
Definition GL_EQUAL : Z := 0x0202.
Definition GL_LEQUAL : Z := 0x0203.
Definition GL_GREATER : Z := 0x0204.
Definition GL_NOTEQUAL : Z := 0x0205.
Definition GL_GEQUAL : Z := 0x0206.
Definition GL_ALWAYS : Z := 0x0207.
Definition GL_SRC_COLOR : Z := 0x0300.
Definition GL_ONE_MINUS_SRC_COLOR : Z := 0x0301.
Definition GL_SRC_ALPHA : Z := 0x0302.
Definition GL_ONE_MINUS_SRC_ALPHA : Z := 0x0303.
Definition GL_DST_ALPHA : Z := 0x0304.
Definition GL_ONE_MINUS_DST_ALPHA : Z := 0x0305.
Definition GL_DST_COLOR : Z := 0x0306.
Definition GL_ONE_MINUS_DST_COLOR : Z := 0x0307.
Definition GL_FRONT : Z := 0x0404.
Definition GL_BACK : Z := 0x0405.
Definition GL_FRONT_AND_BACK : Z := 0x0408.
Definition GL_CW : Z := 0x0900.
Definition GL_CCW : Z := 0x0901.
Definition GL_CULL_FACE : Z := 0x0B44.
Definition GL_DEPTH_TEST : Z := 0x0B71.
Definition GL_BLEND : Z := 0x0BE2.
Definition GL_SCISSOR_TEST : Z := 0x0C11.
Definition GL_TEXTURE_2D : Z := 0x0DE1.
Definition GL_BYTE : Z := 0x1400.
Definition GL_UNSIGNED_BYTE : Z := 0x1401.
Definition GL_SHORT : Z := 0x1402.
Definition GL_UNSIGNED_SHORT : Z := 0x1403.
Definition GL_INT : Z := 0x1404.
Definition GL_UNSIGNED_INT : Z := 0x1405.
Definition GL_FLOAT : Z := 0x1406.
Definition GL_DOUBLE : Z := 0x140A.
Definition GL_POINT : Z := 0x1B00.
Definition GL_LINE : Z := 0x1B01.
Definition GL_FILL : Z := 0x1B02.
Definition GL_FUNC_ADD : Z := 0x8006.
Definition GL_MIN : Z := 0x8007.
Definition GL_MAX : Z := 0x8008.
Definition GL_FUNC_SUBTRACT : Z := 0x800A.
Definition GL_FUNC_REVERSE_SUBTRACT : Z := 0x800B.
Definition GL_TEXTURE0 : Z := 0x84C0.
Definition GL_PROGRAM_SEPARABLE : Z := 0x8258.
Definition GL_ELEMENT_ARRAY_BUFFER : Z := 0x8893.
Definition GL_DYNAMIC_DRAW : Z := 0x88E8.
Definition GL_UNIFORM_BUFFER : Z := 0x8A11.
Definition GL_FRAGMENT_SHADER : Z := 0x8B30.
Definition GL_VERTEX_SHADER : Z := 0x8B31.
Definition GL_READ_FRAMEBUFFER : Z := 0x8CA8.
Definition GL_DRAW_FRAMEBUFFER : Z := 0x8CA9.
Definition GL_FRAMEBUFFER_COMPLETE : Z := 0x8CD5.
Definition GL_FRAMEBUFFER_INCOMPLETE_MISSING_ATTACHMENT : Z := 0x8CD7.
Definition GL_COLOR_ATTACHMENT0 : Z := 0x8CE0.
Definition GL_DEPTH_ATTACHMENT : Z := 0x8D00.
Definition GL_STENCIL_ATTACHMENT : Z := 0x8D20.
Definition GL_FRAMEBUFFER : Z := 0x8D40.
Definition GL_COPY_READ_BUFFER : Z := 0x8F36.
Definition GL_SHADER_BINARY_FORMAT_SPIR_V : Z := 0x9551.
Definition GL_VERTEX_SHADER_BIT : Z := 0x00000001.
Definition GL_FRAGMENT_SHADER_BIT : Z := 0x00000002.
Definition GL_DEBUG_OUTPUT_SYNCHRONOUS : Z := 0x8242.
Definition GL_DEBUG_OUTPUT : Z := 0x92E0.
Definition GL_FALSE : Z := 0.
Definition GL_TRUE : Z := 1.

(** ** The OpenGL context

    The commands the devices issue.  A command that creates an object name
    carries the name the context handed out. *)

Inductive GLCall : Type :=
(* capabilities and fixed-function state *)
| glEnable (cap : Z)
| glDisable (cap : Z)
| glScissor (x y width height : Z)
| glViewport (x y width height : Z)
| glClearDepth (depth : float32)
| glClearColor (red green blue alpha : float32)
| glClear (mask : Z)
| glBlendEquation (mode : Z)
| glBlendFunc (sfactor dfactor : Z)
| glDepthFunc (func : Z)
| glCullFace (mode : Z)
| glFrontFace (mode : Z)
| glPolygonMode (face mode : Z)
| glDebugMessageCallback (installed : bool)
(* shaders and programs *)
| glCreateShader (type name : Z)
| glShaderSource (shader : Z) (source : string)
| glCompileShader (shader : Z)
| glShaderBinary (shader binaryformat : Z) (binary : bytes) (length : Z)
| glSpecializeShader (shader : Z) (entry : string)
| glDeleteShader (shader : Z)
| glCreateProgram (name : Z)
| glProgramParameteri (program pname value : Z)
| glAttachShader (program shader : Z)
| glLinkProgram (program : Z)
| glDeleteProgram (program : Z)
| glUseProgram (program : Z)
| glCreateProgramPipelines (name : Z)
| glUseProgramStages (pipeline stages program : Z)
| glDeleteProgramPipelines (pipeline : Z)
(* vertex arrays *)
| glGenVertexArrays (name : Z)
| glCreateVertexArrays (name : Z)
| glDeleteVertexArrays (array : Z)
| glBindVertexArray (array : Z)
| glEnableVertexAttribArray (index : Z)
| glVertexAttribFormat (index size type normalized relativeoffset : Z)
| glVertexAttribIFormat (index size type relativeoffset : Z)
| glVertexAttribBinding (attribindex bindingindex : Z)
| glBindVertexBuffer (bindingindex buffer offset stride : Z)
| glEnableVertexArrayAttrib (vaobj index : Z)
| glVertexArrayAttribFormat
    (vaobj index size type normalized relativeoffset : Z)
| glVertexArrayVertexBuffer (vaobj bindingindex buffer offset stride : Z)
(* buffers *)
| glGenBuffers (name : Z)
| glCreateBuffers (name : Z)
| glDeleteBuffers (buffer : Z)
| glBindBuffer (target buffer : Z)
| glBindBufferBase (target index buffer : Z)
| glBufferData (target size : Z) (data : option bytes) (usage : Z)
| glBufferSubData (target offset size : Z) (data : bytes)
| glNamedBufferData (buffer size : Z) (data : option bytes) (usage : Z)
| glNamedBufferSubData (buffer offset size : Z) (data : bytes)
(* samplers and textures *)
| glBindSampler (unit sampler : Z)
| glActiveTexture (texture : Z)
| glBindTexture (target texture : Z)
(* framebuffers *)
| glGenFramebuffers (name : Z)
| glCreateFramebuffers (name : Z)
| glDeleteFramebuffers (framebuffer : Z)
| glBindFramebuffer (target framebuffer : Z)
| glFramebufferTexture2D (target attachment textarget texture level : Z)
| glNamedFramebufferTexture (framebuffer attachment texture level : Z)
| glBlitFramebuffer
    (srcX0 srcY0 srcX1 srcY1 dstX0 dstY0 dstX1 dstY1 mask filter : Z)
(* draws *)
| glDrawArraysInstancedBaseInstance
    (mode first count instancecount baseinstance : Z)
| glDrawElementsInstancedBaseVertexBaseInstance
    (mode count type indices instancecount basevertex baseinstance : Z).

(** What the OpenGL driver decides on its own and the devices only query:
    the verdicts of its shader compiler and linker and the completeness of
    a framebuffer. *)
Record Driver : Type := {
  (** [GL_MAX_VERTEX_ATTRIB_BINDINGS] *)
  max_vertex_attrib_bindings : Z;
  (** [GLAD_GL_KHR_debug] *)
  khr_debug : bool;
  (** [glCompileShader]: stage and source to compile status and info log *)
  compile_glsl : Z -> string -> bool * string;
  (** [glSpecializeShader]: stage and SPIR-V binary to status and info log *)
  specialize_spirv : Z -> bytes -> bool * string;
  (** [glLinkProgram]: the attached shader objects to link status and
      info log *)
  link_program : list Z -> bool * string;
  (** [glCheckFramebufferStatus]: the (attachment point, texture) pairs of
      a framebuffer, latest first, to its status *)
  framebuffer_status : list (Z * Z) -> Z
}.

Record ShaderObject : Type := {
  so_type : Z;
  so_source : string;
  so_binary : bytes;
  so_status : bool;
  so_log : string;
  (** flagged for deletion: [glDeleteShader] was called on the object
      while a program had it attached *)
  so_flagged : bool
}.

Record ProgramObject : Type := {
  po_attached : list Z;
  po_status : bool;
  po_log : string
}.

Record GLState : Type := mkGL {
  (** every command issued so far, oldest first *)
  gl_log : list GLCall;
  (** the next object name the context hands out *)
  gl_next_name : Z;
  (** the capabilities enabled with [glEnable] *)
  gl_enabled : gset Z;
  gl_scissor_box : Z * Z * Z * Z;
  gl_viewport : Z * Z * Z * Z;
  gl_clear_color : float32 * float32 * float32 * float32;
  gl_clear_depth : float32;
  gl_vertex_array_binding : Z;
  (** (vertex array, binding index) to the buffer bound there *)
  gl_vertex_buffers : gmap (Z * Z) Z;
  gl_draw_framebuffer : Z;
  gl_read_framebuffer : Z;
  gl_shaders : gmap Z ShaderObject;
  gl_programs : gmap Z ProgramObject;
  (** framebuffer to its (attachment point, texture) pairs, latest first *)
  gl_framebuffers : gmap Z (list (Z * Z))
}.

Definition gl_initial : GLState :=
  mkGL [] 1 ∅ (0, 0, 0, 0) (0, 0, 0, 0) (0, 0, 0, 0) 0 0 ∅ 0 0 ∅ ∅ ∅.

Definition attach (fb attachment texture : Z)
    (fbs : gmap Z (list (Z * Z))) : gmap Z (list (Z * Z)) :=
  <[fb := (attachment, texture) :: default [] (fbs !! fb)]> fbs.

(** The shader object [sh] is attached to a program object. *)
Definition shader_attached (sh : Z) (prs : gmap Z ProgramObject) : bool :=
  existsb (fun kv => bool_decide (sh ∈ po_attached (snd kv)))
    (map_to_list prs).

(** [glDeleteShader]: a shader object that a program has attached is only
    flagged for deletion; any other is deleted. *)
Definition delete_shader (sh : Z) (prs : gmap Z ProgramObject)
    (shs : gmap Z ShaderObject) : gmap Z ShaderObject :=
  if shader_attached sh prs then
    alter (fun o => Build_ShaderObject (so_type o) (so_source o)
                      (so_binary o) (so_status o) (so_log o) true) sh shs
  else delete sh shs.

(** The shader objects once [detached] have been detached from a program
    that is deleted, [prs] being the programs left: one that was flagged
    for deletion and that no program has attached any more is deleted. *)
Definition release_shaders (detached : list Z) (prs : gmap Z ProgramObject)
    (shs : gmap Z ShaderObject) : gmap Z ShaderObject :=
  foldr (fun sh shs =>
           match shs !! sh with
           | Some o =>
               if so_flagged o && negb (shader_attached sh prs)
               then delete sh shs else shs
           | None => shs
           end) shs detached.

(** The effect of one command on the context.  Commands whose effect no
    property below depends on are only logged. *)
Definition gl_exec (D : Driver) (c : GLCall) (g : GLState) : GLState :=
  let 'mkGL log next en sc vp cc cd vab vbs dfb rfb shs prs fbs := g in
  let log := log ++ [c] in
  match c with
  | glEnable cap =>
      mkGL log next ({[cap]} ∪ en) sc vp cc cd vab vbs dfb rfb shs prs fbs
  | glDisable cap =>
      mkGL log next (en ∖ {[cap]}) sc vp cc cd vab vbs dfb rfb shs prs fbs
  | glScissor x y w h =>
      mkGL log next en (x, y, w, h) vp cc cd vab vbs dfb rfb shs prs fbs
  | glViewport x y w h =>
      mkGL log next en sc (x, y, w, h) cc cd vab vbs dfb rfb shs prs fbs
  | glClearColor r gr b a =>
      mkGL log next en sc vp (r, gr, b, a) cd vab vbs dfb rfb shs prs fbs
  | glClearDepth d =>
      mkGL log next en sc vp cc d vab vbs dfb rfb shs prs fbs
  | glCreateShader type name =>
      mkGL log (next + 1) en sc vp cc cd vab vbs dfb rfb
        (<[name := Build_ShaderObject type "" [] false "" false]> shs) prs fbs
  | glShaderSource sh src =>
      mkGL log next en sc vp cc cd vab vbs dfb rfb
        (alter (fun o => Build_ShaderObject (so_type o) src (so_binary o)
                           (so_status o) (so_log o) (so_flagged o)) sh shs)
        prs fbs
  | glCompileShader sh =>
      mkGL log next en sc vp cc cd vab vbs dfb rfb
        (alter (fun o =>
                  let r := compile_glsl D (so_type o) (so_source o) in
                  Build_ShaderObject (so_type o) (so_source o) (so_binary o)
                    (fst r) (snd r) (so_flagged o)) sh shs) prs fbs
  | glShaderBinary sh _ bin _ =>
      mkGL log next en sc vp cc cd vab vbs dfb rfb
        (alter (fun o => Build_ShaderObject (so_type o) (so_source o) bin
                           (so_status o) (so_log o) (so_flagged o)) sh shs)
        prs fbs
  | glSpecializeShader sh _ =>
      mkGL log next en sc vp cc cd vab vbs dfb rfb
        (alter (fun o =>
                  let r := specialize_spirv D (so_type o) (so_binary o) in
                  Build_ShaderObject (so_type o) (so_source o) (so_binary o)
                    (fst r) (snd r) (so_flagged o)) sh shs) prs fbs
  | glDeleteShader sh =>
      mkGL log next en sc vp cc cd vab vbs dfb rfb (delete_shader sh prs shs)
        prs fbs
  | glCreateProgram name =>
      mkGL log (next + 1) en sc vp cc cd vab vbs dfb rfb shs
        (<[name := Build_ProgramObject [] false ""]> prs) fbs
  | glAttachShader p sh =>
      mkGL log next en sc vp cc cd vab vbs dfb rfb shs
        (alter (fun o => Build_ProgramObject (po_attached o ++ [sh])
                           (po_status o) (po_log o)) p prs) fbs
  | glLinkProgram p =>
      mkGL log next en sc vp cc cd vab vbs dfb rfb shs
        (alter (fun o =>
                  let r := link_program D (po_attached o) in
                  Build_ProgramObject (po_attached o) (fst r) (snd r))
           p prs) fbs
  | glDeleteProgram p =>
      mkGL log next en sc vp cc cd vab vbs dfb rfb
        (release_shaders (from_option po_attached [] (prs !! p))
           (delete p prs) shs)
        (delete p prs) fbs
  | glCreateProgramPipelines _ | glGenBuffers _ | glCreateBuffers _
  | glGenVertexArrays _ | glCreateVertexArrays _ =>
      mkGL log (next + 1) en sc vp cc cd vab vbs dfb rfb shs prs fbs
  | glBindVertexArray v =>
      mkGL log next en sc vp cc cd v vbs dfb rfb shs prs fbs
  | glDeleteVertexArrays v =>
      mkGL log next en sc vp cc cd (if vab =? v then 0 else vab)
        (filter (fun kv => fst (fst kv) <> v) vbs) dfb rfb shs prs fbs
  | glBindVertexBuffer i b _ _ =>
      mkGL log next en sc vp cc cd vab (<[(vab, i) := b]> vbs)
        dfb rfb shs prs fbs
  | glVertexArrayVertexBuffer v i b _ _ =>
      mkGL log next en sc vp cc cd vab (<[(v, i) := b]> vbs)
        dfb rfb shs prs fbs
  | glGenFramebuffers name | glCreateFramebuffers name =>
      mkGL log (next + 1) en sc vp cc cd vab vbs dfb rfb shs prs
        (<[name := []]> fbs)
  | glBindFramebuffer target fb =>
      mkGL log next en sc vp cc cd vab vbs
        (if (target =? GL_FRAMEBUFFER) || (target =? GL_DRAW_FRAMEBUFFER)
         then fb else dfb)
        (if (target =? GL_FRAMEBUFFER) || (target =? GL_READ_FRAMEBUFFER)
         then fb else rfb)
        shs prs fbs
  | glFramebufferTexture2D target att _ tex _ =>
      mkGL log next en sc vp cc cd vab vbs dfb rfb shs prs
        (attach (if target =? GL_READ_FRAMEBUFFER then rfb else dfb)
           att tex fbs)
  | glNamedFramebufferTexture fb att tex _ =>
      mkGL log next en sc vp cc cd vab vbs dfb rfb shs prs
        (attach fb att tex fbs)
  | glDeleteFramebuffers fb =>
      mkGL log next en sc vp cc cd vab vbs
        (if dfb =? fb then 0 else dfb) (if rfb =? fb then 0 else rfb)
        shs prs (delete fb fbs)
  | _ => mkGL log next en sc vp cc cd vab vbs dfb rfb shs prs fbs
  end.

(** Queries. *)

(** [GL_INFO_LOG_LENGTH]: zero without a log, else the length of the log
    with its terminating null character. *)
Definition info_log_length (log : string) : Z :=
  if decide (log = "") then 0 else Z.of_nat (String.length log) + 1.

Definition gl_shader_log (g : GLState) (sh : Z) : string :=
  from_option so_log "" (gl_shaders g !! sh).
Definition gl_shader_status (g : GLState) (sh : Z) : bool :=
  from_option so_status false (gl_shaders g !! sh).
Definition gl_program_log (g : GLState) (p : Z) : string :=
  from_option po_log "" (gl_programs g !! p).
Definition gl_program_status (g : GLState) (p : Z) : bool :=
  from_option po_status false (gl_programs g !! p).
Definition gl_check_framebuffer (D : Driver) (g : GLState) (fb : Z) : Z :=
  framebuffer_status D (default [] (gl_framebuffers g !! fb)).
Definition gl_is_enabled (g : GLState) (cap : Z) : bool :=
  bool_decide (cap ∈ gl_enabled g).
Definition gl_vertex_buffer (g : GLState) (vao binding : Z) : option Z :=
  gl_vertex_buffers g !! (vao, binding).

(** The debug-message sink of the application. *)
Inductive DebugMessageLevel : Type := DEBUG | INFO | WARN | ERROR.
Record DebugMessageInfo : Type := {
  level : DebugMessageLevel;
  text : string
}.

(** ** Chains of nodes

    [VBOBinding] nodes form one singly linked chain per device.  A chain is
    kept head first, as [next] walks it.  Nodes are only ever pushed at the
    head and never unlinked, so the number of nodes behind a node never
    changes: that number is the node's address, and a [VBOBinding *] is
    such an address. *)

Definition chain_get {A} (chain : list A) (p : nat) : option A :=
  reverse chain !! p.
Definition chain_set {A} (chain : list A) (p : nat) (x : A) : list A :=
  reverse (<[p := x]> (reverse chain)).

(** Removal of the first entry of a registry ([std::vector] of object
    pointers) whose address is [a]: the scan-and-erase loop of the
    [destroy*] functions. *)
Fixpoint erase_first {A} (a : nat) (l : list (nat * A)) : list (nat * A) :=
  match l with
  | [] => []
  | x :: l' => if decide (fst x = a) then l' else x :: erase_first a l'
  end.

Definition registered {A} (a : nat) (l : list (nat * A)) : bool :=
  bool_decide (a ∈ l.*1).

(** The object at address [a], when it is in the registry. *)
Fixpoint find_object {A} (a : nat) (l : list (nat * A)) : option A :=
  match l with
  | [] => None
  | x :: l' => if decide (fst x = a) then Some (snd x) else find_object a l'
  end.

Definition endl : string := String (Ascii.ascii_of_nat 10) "".

(** ** The OpenGL 3.3 device ([gl_33]) *)

Module GL33.

(** *** Public types ([uvre.hpp], as the device uses them) *)

Inductive ShaderStage : Type := VERTEX | FRAGMENT.
Inductive ShaderFormat : Type := BINARY_SPIRV | SOURCE_GLSL.
(** [OTHER_BUFFER] stands for the enumerators other than [VERTEX_BUFFER]. *)
Inductive BufferType : Type := VERTEX_BUFFER | OTHER_BUFFER (kind : Z).
Inductive BlendEquation : Type := ADD | SUBTRACT | REVERSE_SUBTRACT | MIN | MAX.
Inductive BlendFunc : Type :=
| ZERO | ONE | SRC_COLOR | ONE_MINUS_SRC_COLOR | SRC_ALPHA
| ONE_MINUS_SRC_ALPHA | DST_COLOR | ONE_MINUS_DST_COLOR | DST_ALPHA
| ONE_MINUS_DST_ALPHA.
Inductive DepthFunc : Type :=
| NEVER | ALWAYS | EQUAL | NOT_EQUAL | LESS | LESS_OR_EQUAL | GREATER
| GREATER_OR_EQUAL.
Inductive VertexAttribType : Type := FLOAT32 | SIGNED_INT32 | UNSIGNED_INT32.
Inductive IndexType : Type := INDEX16 | INDEX32.
Inductive PrimitiveMode : Type :=
| POINTS | LINES | LINE_STRIP | LINE_LOOP | TRIANGLES | TRIANGLE_STRIP
| TRIANGLE_FAN.
(** [FILL_POINTS] is [FillMode::POINTS]. *)
Inductive FillMode : Type := FILLED | FILL_POINTS | WIREFRAME.

Record VertexAttrib : Type := {
  id : Z;
  type : VertexAttribType;
  count : Z;
  offset : Z;
  normalized : bool
}.

(** *** Private types ([gl33_private.hpp]) *)

(** The [next] pointer of a [VertexArray_S] is the tail of the chain the
    node is read from (see [vaos] below). *)
Record VertexArray_S : Type := {
  va_index : Z;
  vaobj : Z;
  vbobj : Z
}.

(** The [next] pointer of a [VBOBinding] is its position in the chain. *)
Record VBOBinding : Type := {
  vbo_index : Z;
  is_free : bool
}.

Record Shader_S : Type := {
  shader : Z;
  stage : ShaderStage
}.

(** [vaos] is the chain of [VertexArray_S] nodes reached from the head
    pointer, as addresses into the heap of the device, head first.  Copies
    of a [Pipeline_S] share the nodes; a node pushed through one copy is
    not seen through another. [attributes] carries [num_attributes]. *)
Record Pipeline_S : Type := {
  bound_ibo : Z;
  bound_vao : Z;
  program : Z;
  blending_enabled : bool;
  blending_equation : Z;
  blending_sfactor : Z;
  blending_dfactor : Z;
  depth_testing_enabled : bool;
  depth_testing_func : Z;
  face_culling_enabled : bool;
  face_culling_front_face : Z;
  face_culling_cull_face : Z;
  scissor_test : bool;
  index_size : Z;
  index_type : Z;
  primitive_mode : Z;
  fill_mode : Z;
  vertex_stride : Z;
  attributes : list VertexAttrib;
  vaos : list nat
}.

(** [vbo] is the address of a node of the device's [vbos] chain, or null. *)
Record Buffer_S : Type := {
  bufobj : Z;
  vbo : option nat;
  size : Z
}.

Record Texture_S : Type := {
  texobj : Z;
  format : Z;
  target : Z;
  width : Z;
  height : Z;
  depth : Z
}.

Record RenderTarget_S : Type := {
  fbobj : Z
}.

(** A command record: the [CommandType] tag with the member of the union
    that [submit] reads under that tag. *)
Inductive Command : Type :=
| SET_SCISSOR (x y w h : Z)
| SET_VIEWPORT (x y w h : Z)
| SET_CLEAR_DEPTH (depth : float32)
| SET_CLEAR_COLOR (color0 color1 color2 color3 : float32)
| CLEAR (clear_mask : Z)
| BIND_PIPELINE (pipeline : Pipeline_S)
| BIND_STORAGE_BUFFER (bind_index object : Z)
| BIND_UNIFORM_BUFFER (bind_index object : Z)
| BIND_INDEX_BUFFER (object : Z)
| BIND_VERTEX_BUFFER (buffer : Buffer_S)
| BIND_SAMPLER (bind_index object : Z)
| BIND_TEXTURE (bind_index tex_target object : Z)
| BIND_RENDER_TARGET (object : Z)
| WRITE_BUFFER (buffer offset size : Z) (data_ptr : bytes)
| COPY_RENDER_TARGET
    (src dst sx0 sy0 sx1 sy1 dx0 dy0 dx1 dy1 mask filter : Z)
| DRAW (vertices instances base_vertex base_instance : Z)
| IDRAW (indices instances base_index base_vertex base_instance : Z).

Record CommandListImpl : Type := {
  commands : list Command;
  num_commands : nat
}.

(** *** Creation info ([uvre.hpp], as the device reads it) *)

Record ShaderCreateInfo : Type := {
  sci_stage : ShaderStage;
  sci_format : ShaderFormat;
  sci_code : string
}.

Record PipelineCreateInfo : Type := {
  pci_blending_enabled : bool;
  pci_blending_equation : BlendEquation;
  pci_blending_sfactor : BlendFunc;
  pci_blending_dfactor : BlendFunc;
  pci_depth_testing_enabled : bool;
  pci_depth_testing_func : DepthFunc;
  pci_face_culling_enabled : bool;
  pci_face_culling_flags : Z;
  pci_index_type : IndexType;
  pci_primitive_mode : PrimitiveMode;
  pci_fill_mode : FillMode;
  pci_vertex_stride : Z;
  pci_vertex_attribs : list VertexAttrib;
  pci_shaders : list Shader_S
}.

Record BufferCreateInfo : Type := {
  bci_type : BufferType;
  bci_size : Z;
  bci_data : option bytes
}.

Record ColorAttachment : Type := {
  ca_id : Z;
  ca_color : Texture_S
}.

Record RenderTargetCreateInfo : Type := {
  depth_attachment : option Texture_S;
  stencil_attachment : option Texture_S;
  color_attachments : list ColorAttachment
}.

(** The face-culling flag bits of [uvre.hpp], whose values are not in the
    sources. *)
Record CullFlags : Type := {
  CULL_CLOCKWISE : Z;
  CULL_BACK : Z;
  CULL_FRONT : Z
}.

(** What a freshly allocated object holds in the members the device never
    assigns: [scissor_test] of a [Pipeline_S], [vbobj] of the first
    [VertexArray_S] of a pipeline, and whether the [vaos] pointer of a
    [Pipeline_S] happens to be null before it is assigned. *)
Record Indeterminate : Type := {
  junk_scissor_test : bool;
  junk_vbobj : Z;
  junk_vaos_null : bool
}.

(** *** The device, its heap and its collaborators *)

Record World : Type := mkWorld {
  (* members of RenderDeviceImpl *)
  (** whether [create_info.onDebugMessage] is set *)
  onDebugMessage : bool;
  max_vbo_bindings : Z;
  vbos : list VBOBinding;
  bound_pipeline : Pipeline_S;
  (** live [Pipeline_S] objects by address, in registration order *)
  pipelines : list (nat * Pipeline_S);
  (** registered [Buffer_S] objects by address, in registration order *)
  buffers : list (nat * Buffer_S);
  (* the heap *)
  (** [VertexArray_S] nodes by address; [None] once deleted *)
  vertex_arrays : list (option VertexArray_S);
  (** the address the next [new Pipeline_S] or [new Buffer_S] returns *)
  next_address : nat;
  (* collaborators *)
  gl : GLState;
  (** the messages handed to [onDebugMessage], oldest first *)
  debug_messages : list DebugMessageInfo
}.

Definition set_vbos (v : list VBOBinding) (w : World) : World :=
  mkWorld (onDebugMessage w) (max_vbo_bindings w) v (bound_pipeline w)
    (pipelines w) (buffers w) (vertex_arrays w) (next_address w) (gl w)
    (debug_messages w).
Definition set_bound_pipeline (p : Pipeline_S) (w : World) : World :=
  mkWorld (onDebugMessage w) (max_vbo_bindings w) (vbos w) p
    (pipelines w) (buffers w) (vertex_arrays w) (next_address w) (gl w)
    (debug_messages w).
Definition set_pipelines (l : list (nat * Pipeline_S)) (w : World) : World :=
  mkWorld (onDebugMessage w) (max_vbo_bindings w) (vbos w) (bound_pipeline w)
    l (buffers w) (vertex_arrays w) (next_address w) (gl w)
    (debug_messages w).
Definition set_buffers (l : list (nat * Buffer_S)) (w : World) : World :=
  mkWorld (onDebugMessage w) (max_vbo_bindings w) (vbos w) (bound_pipeline w)
    (pipelines w) l (vertex_arrays w) (next_address w) (gl w)
    (debug_messages w).
Definition set_vertex_arrays (h : list (option VertexArray_S)) (w : World)
    : World :=
  mkWorld (onDebugMessage w) (max_vbo_bindings w) (vbos w) (bound_pipeline w)
    (pipelines w) (buffers w) h (next_address w) (gl w) (debug_messages w).
Definition set_next_address (n : nat) (w : World) : World :=
  mkWorld (onDebugMessage w) (max_vbo_bindings w) (vbos w) (bound_pipeline w)
    (pipelines w) (buffers w) (vertex_arrays w) n (gl w) (debug_messages w).
Definition set_gl (g : GLState) (w : World) : World :=
  mkWorld (onDebugMessage w) (max_vbo_bindings w) (vbos w) (bound_pipeline w)
    (pipelines w) (buffers w) (vertex_arrays w) (next_address w) g
    (debug_messages w).
Definition set_debug_messages (l : list DebugMessageInfo) (w : World)
    : World :=
  mkWorld (onDebugMessage w) (max_vbo_bindings w) (vbos w) (bound_pipeline w)
    (pipelines w) (buffers w) (vertex_arrays w) (next_address w) (gl w) l.

Definition set_bound_ibo (v : Z) (p : Pipeline_S) : Pipeline_S :=
  Build_Pipeline_S v (bound_vao p) (program p) (blending_enabled p)
    (blending_equation p) (blending_sfactor p) (blending_dfactor p)
    (depth_testing_enabled p) (depth_testing_func p) (face_culling_enabled p)
    (face_culling_front_face p) (face_culling_cull_face p) (scissor_test p)
    (index_size p) (index_type p) (primitive_mode p) (fill_mode p)
    (vertex_stride p) (attributes p) (vaos p).
Definition set_bound_vao (v : Z) (p : Pipeline_S) : Pipeline_S :=
  Build_Pipeline_S (bound_ibo p) v (program p) (blending_enabled p)
    (blending_equation p) (blending_sfactor p) (blending_dfactor p)
    (depth_testing_enabled p) (depth_testing_func p) (face_culling_enabled p)
    (face_culling_front_face p) (face_culling_cull_face p) (scissor_test p)
    (index_size p) (index_type p) (primitive_mode p) (fill_mode p)
    (vertex_stride p) (attributes p) (vaos p).
Definition set_vaos (v : list nat) (p : Pipeline_S) : Pipeline_S :=
  Build_Pipeline_S (bound_ibo p) (bound_vao p) (program p)
    (blending_enabled p)
    (blending_equation p) (blending_sfactor p) (blending_dfactor p)
    (depth_testing_enabled p) (depth_testing_func p) (face_culling_enabled p)
    (face_culling_front_face p) (face_culling_cull_face p) (scissor_test p)
    (index_size p) (index_type p) (primitive_mode p) (fill_mode p)
    (vertex_stride p) (attributes p) v.
Definition set_vbobj (v : Z) (n : VertexArray_S) : VertexArray_S :=
  Build_VertexArray_S (va_index n) (vaobj n) v.
Definition set_is_free (b : bool) (n : VBOBinding) : VBOBinding :=
  Build_VBOBinding (vbo_index n) b.

Section Device.

(** [size_bits] is the width of [size_t]. *)
Context (D : Driver) (K : CullFlags) (size_bits : Z).

Local Open Scope m_scope.

(** **** Access to the collaborators and to the heap *)

Definition gl_call (c : GLCall) : M World unit :=
  modify (fun w => set_gl (gl_exec D c (gl w)) w).

(** [glGen*] and [glCreate*]: the context hands out its next name. *)
Definition gl_gen (mk : Z -> GLCall) : M World Z :=
  do w <- get;
  run gl_call (mk (gl_next_name (gl w)));
  ret (gl_next_name (gl w)).

Definition gl_get {A} (query : GLState -> A) : M World A :=
  do w <- get; ret (query (gl w)).

Definition send_debug_message (m : DebugMessageInfo) : M World unit :=
  modify (fun w => set_debug_messages (debug_messages w ++ [m]) w).

Definition new_address : M World nat :=
  do w <- get;
  run modify (set_next_address (S (next_address w)));
  ret (next_address w).

Definition new_vertex_array (node : VertexArray_S) : M World nat :=
  do w <- get;
  run modify (set_vertex_arrays (vertex_arrays w ++ [Some node]));
  ret (length (vertex_arrays w)).

Definition deref_vertex_array (p : nat) : M World VertexArray_S :=
  do w <- get;
  match vertex_arrays w !! p with
  | Some (Some node) => ret node
  | _ => undefined
  end.

Definition delete_vertex_array (p : nat) : M World unit :=
  modify (fun w => set_vertex_arrays (<[p := None]> (vertex_arrays w)) w).

Definition deref_vbo (p : nat) : M World VBOBinding :=
  do w <- get; lift_option (chain_get (vbos w) p).

(** **** Construction *)

Definition null_pipeline : Pipeline_S := {|
  bound_ibo := 0;
  bound_vao := 0;
  program := 0;
  blending_enabled := false;
  blending_equation := 0;
  blending_sfactor := 0;
  blending_dfactor := 0;
  depth_testing_enabled := false;
  depth_testing_func := 0;
  face_culling_enabled := false;
  face_culling_front_face := 0;
  face_culling_cull_face := 0;
  scissor_test := false;
  index_size := 0;
  index_type := GL_UNSIGNED_SHORT;
  primitive_mode := GL_TRIANGLES;
  fill_mode := GL_LINES;
  vertex_stride := 0;
  attributes := [];
  vaos := []
|}.

(** [RenderDeviceImpl::RenderDeviceImpl], on the context [g]. *)
Definition RenderDeviceImpl (create_info_onDebugMessage : bool)
    (g : GLState) : World :=
  let w :=
    mkWorld create_info_onDebugMessage (max_vertex_attrib_bindings D)
      [ {| vbo_index := 0; is_free := true |} ] null_pipeline [] [] [] 0%nat
      g [] in
  let announce : M World unit :=
    if create_info_onDebugMessage then
      if khr_debug D then
        run gl_call (glEnable GL_DEBUG_OUTPUT);
        run gl_call (glEnable GL_DEBUG_OUTPUT_SYNCHRONOUS);
        gl_call (glDebugMessageCallback true)
      else
        send_debug_message
          {| level := WARN; text := "GLAD_GL_KHR_debug not present" |}
    else ret tt in
  match announce w with
  | Some (_, w') => w'
  | None => w
  end.

(** **** Shaders *)

Definition createShader (info : ShaderCreateInfo)
    : M World (option Shader_S) :=
  let ss := "#version 330 core" +:+ endl +:+ "#define _UVRE_ 1" +:+ endl in
  let '(stage, ss) :=
    match sci_stage info with
    | VERTEX =>
        (GL_VERTEX_SHADER, ss +:+ "#define _VERTEX_SHADER_ 1" +:+ endl)
    | FRAGMENT =>
        (GL_FRAGMENT_SHADER, ss +:+ "#define _FRAGMENT_SHADER_ 1" +:+ endl)
    end in
  do shobj <- gl_gen (glCreateShader stage);
  match sci_format info with
  | SOURCE_GLSL =>
      let ss := ss +:+ "#define _GLSL_ 1" +:+ endl in
      let source := ss +:+ sci_code info in
      run gl_call (glShaderSource shobj source);
      run gl_call (glCompileShader shobj);
      do w <- get;
      run (if onDebugMessage w then
             do info_log <- gl_get (fun g => gl_shader_log g shobj);
             if 1 <? info_log_length info_log then
               send_debug_message {| level := INFO; text := info_log |}
             else ret tt
           else ret tt);
      do status <- gl_get (fun g => gl_shader_status g shobj);
      if negb status then
        run gl_call (glDeleteShader shobj);
        ret None
      else
        ret (Some {| shader := shobj; stage := sci_stage info |})
  | _ =>
      run gl_call (glDeleteShader shobj);
      ret None
  end.

(** **** Enumerant translation *)

Definition getBlendEquation (equation : BlendEquation) : Z :=
  match equation with
  | ADD => GL_FUNC_ADD
  | SUBTRACT => GL_FUNC_SUBTRACT
  | REVERSE_SUBTRACT => GL_FUNC_REVERSE_SUBTRACT
  | MIN => GL_MIN
  | MAX => GL_MAX
  end.

Definition getBlendFunc (func : BlendFunc) : Z :=
  match func with
  | ZERO => GL_ZERO
  | ONE => GL_ONE
  | SRC_COLOR => GL_SRC_COLOR
  | ONE_MINUS_SRC_COLOR => GL_ONE_MINUS_SRC_COLOR
  | SRC_ALPHA => GL_SRC_ALPHA
  | ONE_MINUS_SRC_ALPHA => GL_ONE_MINUS_SRC_ALPHA
  | DST_COLOR => GL_DST_COLOR
  | ONE_MINUS_DST_COLOR => GL_ONE_MINUS_DST_COLOR
  | DST_ALPHA => GL_DST_ALPHA
  | ONE_MINUS_DST_ALPHA => GL_ONE_MINUS_DST_ALPHA
  end.

Definition getDepthFunc (func : DepthFunc) : Z :=
  match func with
  | NEVER => GL_NEVER
  | ALWAYS => GL_ALWAYS
  | EQUAL => GL_EQUAL
  | NOT_EQUAL => GL_NOTEQUAL
  | LESS => GL_LESS
  | LESS_OR_EQUAL => GL_LEQUAL
  | GREATER => GL_GREATER
  | GREATER_OR_EQUAL => GL_GEQUAL
  end.

Definition getAttribType (type : VertexAttribType) : Z :=
  match type with
  | FLOAT32 => GL_FLOAT
  | SIGNED_INT32 => GL_INT
  | UNSIGNED_INT32 => GL_UNSIGNED_INT
  end.

Definition getIndexSize (type : IndexType) : Z :=
  match type with
  | INDEX16 => 2
  | INDEX32 => 4
  end.

Definition getIndexType (type : IndexType) : Z :=
  match type with
  | INDEX16 => GL_UNSIGNED_SHORT
  | INDEX32 => GL_UNSIGNED_INT
  end.

Definition getPrimitiveType (type : PrimitiveMode) : Z :=
  match type with
  | POINTS => GL_POINTS
  | LINES => GL_LINES
  | LINE_STRIP => GL_LINE_STRIP
  | LINE_LOOP => GL_LINE_LOOP
  | TRIANGLES => GL_TRIANGLES
  | TRIANGLE_STRIP => GL_TRIANGLE_STRIP
  | TRIANGLE_FAN => GL_TRIANGLE_FAN
  end.

Definition getCullFace (back front : bool) : Z :=
  if back && front then GL_FRONT_AND_BACK
  else if back then GL_BACK
  else if front then GL_FRONT
  else GL_BACK.

Definition getFillMode (mode : FillMode) : Z :=
  match mode with
  | FILLED => GL_FILL
  | FILL_POINTS => GL_POINT
  | WIREFRAME => GL_LINE
  end.

(** [flags & bit] converted to [bool]. *)
Definition has_flag (flags bit : Z) : bool :=
  negb (Z.land flags bit =? 0).

(** **** Vertex arrays *)

(** Every caller passes a node of the heap, never null nor [dummy_vao], so
    the guard of the C++ function holds. *)
Definition setVertexFormat (vao : nat) (pipeline : Pipeline_S)
    : M World unit :=
  do node <- deref_vertex_array vao;
  run gl_call (glBindVertexArray (vaobj node));
  for_each (attributes pipeline) (fun attrib =>
    run gl_call (glEnableVertexAttribArray (id attrib));
    match type attrib with
    | FLOAT32 =>
        gl_call (glVertexAttribFormat (id attrib) (int32 (count attrib))
                   (getAttribType (type attrib))
                   (if normalized attrib then GL_TRUE else GL_FALSE)
                   (uint32 (offset attrib)))
    | SIGNED_INT32 | UNSIGNED_INT32 =>
        gl_call (glVertexAttribIFormat (id attrib) (int32 (count attrib))
                   (getAttribType (type attrib)) (uint32 (offset attrib)))
    end).

(** The search loop of [getVertexArray]. *)
Fixpoint getVertexArray_find (chain : list nat) (index : Z)
    : M World (option nat) :=
  match chain with
  | [] => ret None
  | node :: next =>
      do n <- deref_vertex_array node;
      if decide (index <> va_index n) then getVertexArray_find next index
      else ret (Some node)
  end.

(** Returns the chain now reached from [*head] and the node. *)
Definition getVertexArray (head : list nat) (index : Z)
    (pipeline : Pipeline_S) : M World (list nat * nat) :=
  do found <- getVertexArray_find head index;
  match found with
  | Some node => ret (head, node)
  | None =>
      do first <- lift_option (head !! 0%nat);
      do first_node <- deref_vertex_array first;
      do name <- gl_gen glGenVertexArrays;
      do next <- new_vertex_array {|
                   va_index := uint32 (va_index first_node + 1);
                   vaobj := name;
                   vbobj := 0
                 |};
      run setVertexFormat next pipeline;
      ret (next :: head, next)
  end.

(** **** Pipelines *)

(** One round of the "notify" loops of [createPipeline] and [createBuffer]:
    bind [buffer] into the vertex array of [pipeline] for its slot. *)
Definition bind_into (pipeline : Pipeline_S) (buffer : Buffer_S)
    : M World Pipeline_S :=
  do w <- get;
  do slot <- lift_option (vbo buffer);
  do binding <- deref_vbo slot;
  do group <- lift_option (udiv32 (vbo_index binding) (max_vbo_bindings w));
  do '(head, node) <- getVertexArray (vaos pipeline) group pipeline;
  let pipeline := set_vaos head pipeline in
  do vao <- deref_vertex_array node;
  run gl_call (glBindVertexArray (vaobj vao));
  do point <- lift_option (umod32 (vbo_index binding) (max_vbo_bindings w));
  run gl_call (glBindVertexBuffer point (bufobj buffer) 0
                 (int32 (vertex_stride pipeline)));
  ret pipeline.

Fixpoint notify_buffers (pipeline : Pipeline_S)
    (l : list (nat * Buffer_S)) : M World Pipeline_S :=
  match l with
  | [] => ret pipeline
  | (_, buffer) :: l' =>
      do pipeline <- bind_into pipeline buffer;
      notify_buffers pipeline l'
  end.

(** Returns the address of the new [Pipeline_S], or null. *)
Definition createPipeline (info : PipelineCreateInfo) (junk : Indeterminate)
    : M World (option nat) :=
  do address <- new_address;
  do program <- gl_gen glCreateProgram;
  run for_each (pci_shaders info) (fun s =>
        gl_call (glAttachShader program (shader s)));
  run gl_call (glLinkProgram program);
  do w <- get;
  run (if onDebugMessage w then
         do info_log <- gl_get (fun g => gl_program_log g program);
         if 1 <? info_log_length info_log then
           send_debug_message {| level := INFO; text := info_log |}
         else ret tt
       else ret tt);
  do status <- gl_get (fun g => gl_program_status g program);
  if negb status then
    (* [pipeline = nullptr] runs [destroyPipeline] on the object, whose
       [vaos] has not been assigned yet. *)
    if junk_vaos_null junk then
      run gl_call (glDeleteProgram program);
      ret None
    else undefined
  else
    do name <- gl_gen glGenVertexArrays;
    do first <- new_vertex_array {|
                  va_index := 0;
                  vaobj := name;
                  vbobj := junk_vbobj junk
                |};
    let pipeline := {|
      bound_ibo := 0;
      bound_vao := 0;
      program := program;
      blending_enabled := pci_blending_enabled info;
      blending_equation := getBlendEquation (pci_blending_equation info);
      blending_sfactor := getBlendFunc (pci_blending_sfactor info);
      blending_dfactor := getBlendFunc (pci_blending_dfactor info);
      depth_testing_enabled := pci_depth_testing_enabled info;
      depth_testing_func := getDepthFunc (pci_depth_testing_func info);
      face_culling_enabled := pci_face_culling_enabled info;
      face_culling_front_face :=
        if has_flag (pci_face_culling_flags info) (CULL_CLOCKWISE K)
        then GL_CW else GL_CCW;
      face_culling_cull_face :=
        getCullFace (has_flag (pci_face_culling_flags info) (CULL_BACK K))
          (has_flag (pci_face_culling_flags info) (CULL_FRONT K));
      scissor_test := junk_scissor_test junk;
      index_size := getIndexSize (pci_index_type info);
      index_type := getIndexType (pci_index_type info);
      primitive_mode := getPrimitiveType (pci_primitive_mode info);
      fill_mode := getFillMode (pci_fill_mode info);
      vertex_stride := pci_vertex_stride info;
      attributes := pci_vertex_attribs info;
      vaos := [first]
    |} in
    run setVertexFormat first pipeline;
    (* Notify the buffers *)
    do w <- get;
    do pipeline <- notify_buffers pipeline (buffers w);
    (* Add ourselves to the notify list. *)
    run modify (fun w => set_pipelines (pipelines w ++ [(address, pipeline)]) w);
    ret (Some address).

Definition destroyPipeline (pipeline : nat) : M World unit :=
  do w <- get;
  do object <- lift_option (find_object pipeline (pipelines w));
  (* Remove ourselves from the notify list. *)
  run modify (set_pipelines (erase_first pipeline (pipelines w)));
  (* Chain-free the VAO list *)
  run for_each (vaos object) (fun node =>
        do n <- deref_vertex_array node;
        run gl_call (glDeleteVertexArrays (vaobj n));
        delete_vertex_array node);
  gl_call (glDeleteProgram (program object)).

(** **** Buffers *)

(** The search loop of [getFreeVBOBinding]: the address of the first free
    node from the head. *)
Fixpoint getFreeVBOBinding_find (chain : list VBOBinding) : option nat :=
  match chain with
  | [] => None
  | node :: next =>
      if negb (is_free node) then getFreeVBOBinding_find next
      else Some (length next)
  end.

(** Returns the chain now reached from [*head] and the node; [None] is the
    dereference of a null [*head]. *)
Definition getFreeVBOBinding (head : list VBOBinding)
    : option (list VBOBinding * nat) :=
  match getFreeVBOBinding_find head with
  | Some node => Some (head, node)
  | None =>
      match head with
      | [] => None
      | first :: _ =>
          Some ({| vbo_index := uint32 (vbo_index first + 1);
                   is_free := true |} :: head,
                length head)
      end
  end.

Fixpoint notify_pipelines (buffer : Buffer_S)
    (l : list (nat * Pipeline_S)) : M World (list (nat * Pipeline_S)) :=
  match l with
  | [] => ret []
  | (address, pipeline) :: l' =>
      do pipeline <- bind_into pipeline buffer;
      do l' <- notify_pipelines buffer l';
      ret ((address, pipeline) :: l')
  end.

(** Returns the address of the new [Buffer_S] and the object. *)
Definition createBuffer (info : BufferCreateInfo)
    : M World (nat * Buffer_S) :=
  do address <- new_address;
  do bufobj <- gl_gen glGenBuffers;
  do buffer <-
    match bci_type info with
    | VERTEX_BUFFER =>
        do w <- get;
        do '(head, node) <- lift_option (getFreeVBOBinding (vbos w));
        do binding <- lift_option (chain_get head node);
        run modify (set_vbos (chain_set head node (set_is_free false binding)));
        let buffer :=
          {| bufobj := bufobj; vbo := Some node; size := bci_size info |} in
        (* Notify the pipeline objects *)
        do notified <- notify_pipelines buffer (pipelines w);
        run modify (set_pipelines notified);
        (* Add ourselves to the notify list *)
        run modify (fun w => set_buffers (buffers w ++ [(address, buffer)]) w);
        ret buffer
    | _ => ret {| bufobj := bufobj; vbo := None; size := bci_size info |}
    end;
  run gl_call (glBindBuffer GL_COPY_READ_BUFFER bufobj);
  run gl_call (glBufferData GL_COPY_READ_BUFFER
                 (to_signed size_bits (size buffer)) (bci_data info)
                 GL_DYNAMIC_DRAW);
  ret (address, buffer).

Definition destroyBuffer (buffer : nat * Buffer_S) : M World unit :=
  do w <- get;
  (* Remove ourselves from the notify list. *)
  run (if registered (fst buffer) (buffers w) then
         run modify (set_buffers (erase_first (fst buffer) (buffers w)));
         do slot <- lift_option (vbo (snd buffer));
         do binding <- deref_vbo slot;
         modify (set_vbos (chain_set (vbos w) slot (set_is_free true binding)))
       else ret tt);
  gl_call (glDeleteBuffers (bufobj (snd buffer))).

Definition writeBuffer (buffer : Buffer_S) (offset size : Z) (data : bytes)
    : M World unit :=
  if wrap size_bits (offset + size) >? GL33.size buffer then ret tt
  else
    run gl_call (glBindBuffer GL_COPY_READ_BUFFER (bufobj buffer));
    gl_call (glBufferSubData GL_COPY_READ_BUFFER (to_signed size_bits offset)
               (to_signed size_bits size) data).

(** **** Render targets *)

Definition createRenderTarget (info : RenderTargetCreateInfo)
    : M World (option RenderTarget_S) :=
  do fbobj <- gl_gen glGenFramebuffers;
  run gl_call (glBindFramebuffer GL_FRAMEBUFFER fbobj);
  run (match depth_attachment info with
       | Some t =>
           gl_call (glFramebufferTexture2D GL_FRAMEBUFFER GL_DEPTH_ATTACHMENT
                      GL_TEXTURE_2D (texobj t) 0)
       | None => ret tt
       end);
  run (match stencil_attachment info with
       | Some t =>
           gl_call (glFramebufferTexture2D GL_FRAMEBUFFER
                      GL_STENCIL_ATTACHMENT GL_TEXTURE_2D (texobj t) 0)
       | None => ret tt
       end);
  run for_each (color_attachments info) (fun c =>
        gl_call (glFramebufferTexture2D GL_FRAMEBUFFER
                   (uint32 (GL_COLOR_ATTACHMENT0 + ca_id c)) GL_TEXTURE_2D
                   (texobj (ca_color c)) 0));
  do status <- gl_get (fun g =>
                 gl_check_framebuffer D g (gl_draw_framebuffer g));
  if decide (status <> GL_FRAMEBUFFER_COMPLETE) then
    run gl_call (glDeleteFramebuffers fbobj);
    ret None
  else
    ret (Some {| fbobj := fbobj |}).

(** **** Command lists *)

Definition startRecording (commands : CommandListImpl) : CommandListImpl :=
  {| commands := GL33.commands commands; num_commands := 0 |}.

(** The body of the loop of [submit]: the replay of one record. *)
Definition submit_command (cmd : Command) : M World unit :=
  match cmd with
  | SET_SCISSOR x y w h => gl_call (glScissor x y w h)
  | SET_VIEWPORT x y w h => gl_call (glViewport x y w h)
  | SET_CLEAR_DEPTH depth => gl_call (glClearDepth depth)
  | SET_CLEAR_COLOR c0 c1 c2 c3 => gl_call (glClearColor c0 c1 c2 c3)
  | CLEAR clear_mask => gl_call (glClear clear_mask)
  | BIND_PIPELINE pipeline =>
      run modify (set_bound_pipeline pipeline);
      run gl_call (glDisable GL_BLEND);
      run gl_call (glDisable GL_DEPTH_TEST);
      run gl_call (glDisable GL_CULL_FACE);
      run gl_call (glDisable GL_SCISSOR_TEST);
      run (if blending_enabled pipeline then
             run gl_call (glEnable GL_BLEND);
             run gl_call (glBlendEquation (blending_equation pipeline));
             gl_call (glBlendFunc (blending_sfactor pipeline)
                        (blending_dfactor pipeline))
           else ret tt);
      run (if depth_testing_enabled pipeline then
             run gl_call (glEnable GL_DEPTH_TEST);
             gl_call (glDepthFunc (depth_testing_func pipeline))
           else ret tt);
      run (if face_culling_enabled pipeline then
             run gl_call (glEnable GL_CULL_FACE);
             run gl_call (glCullFace (face_culling_cull_face pipeline));
             gl_call (glFrontFace (face_culling_front_face pipeline))
           else ret tt);
      run (if scissor_test pipeline then gl_call (glEnable GL_SCISSOR_TEST)
           else ret tt);
      run gl_call (glPolygonMode GL_FRONT_AND_BACK (fill_mode pipeline));
      gl_call (glUseProgram (program pipeline))
  | BIND_STORAGE_BUFFER _ _ => ret tt
  | BIND_UNIFORM_BUFFER bind_index object =>
      gl_call (glBindBufferBase GL_UNIFORM_BUFFER bind_index object)
  | BIND_INDEX_BUFFER object =>
      modify (fun w => set_bound_pipeline
                         (set_bound_ibo object (bound_pipeline w)) w)
  | BIND_VERTEX_BUFFER buffer =>
      do w <- get;
      do slot <- lift_option (vbo buffer);
      do binding <- deref_vbo slot;
      do group <- lift_option (udiv32 (vbo_index binding)
                                 (max_vbo_bindings w));
      do '(head, vaonode) <- getVertexArray (vaos (bound_pipeline w)) group
                               (bound_pipeline w);
      run modify (fun w => set_bound_pipeline
                             (set_vaos head (bound_pipeline w)) w);
      do node <- deref_vertex_array vaonode;
      run (if decide (vaobj node <> bound_vao (bound_pipeline w)) then
             run modify (fun w => set_bound_pipeline
                                    (set_bound_vao (vaobj node)
                                       (bound_pipeline w)) w);
             gl_call (glBindVertexArray (vaobj node))
           else ret tt);
      if decide (vbobj node <> bufobj buffer) then
        run modify (fun w => set_vertex_arrays
                               (<[vaonode := Some (set_vbobj (bufobj buffer)
                                                     node)]>
                                  (vertex_arrays w)) w);
        do point <- lift_option (umod32 (vbo_index binding)
                                   (max_vbo_bindings w));
        run for_each (attributes (bound_pipeline w)) (fun attrib =>
              gl_call (glVertexAttribBinding (id attrib) point));
        do w <- get;
        gl_call (glBindBuffer GL_ELEMENT_ARRAY_BUFFER
                   (bound_ibo (bound_pipeline w)))
      else ret tt
  | BIND_SAMPLER bind_index object =>
      gl_call (glBindSampler bind_index object)
  | BIND_TEXTURE bind_index tex_target object =>
      run gl_call (glActiveTexture (uint32 (GL_TEXTURE0 + bind_index)));
      gl_call (glBindTexture tex_target object)
  | BIND_RENDER_TARGET object =>
      gl_call (glBindFramebuffer GL_FRAMEBUFFER object)
  | WRITE_BUFFER buffer offset size data_ptr =>
      run gl_call (glBindBuffer GL_COPY_READ_BUFFER buffer);
      gl_call (glBufferSubData GL_COPY_READ_BUFFER
                 (to_signed size_bits offset) (to_signed size_bits size)
                 data_ptr)
  | COPY_RENDER_TARGET src dst sx0 sy0 sx1 sy1 dx0 dy0 dx1 dy1 mask filter =>
      do last_binding <- gl_get gl_draw_framebuffer;
      run gl_call (glBindFramebuffer GL_READ_FRAMEBUFFER src);
      run gl_call (glBindFramebuffer GL_DRAW_FRAMEBUFFER dst);
      run gl_call (glBlitFramebuffer sx0 sy0 sx1 sy1 dx0 dy0 dx1 dy1 mask
                     filter);
      gl_call (glBindFramebuffer GL_FRAMEBUFFER (uint32 last_binding))
  | DRAW vertices instances base_vertex base_instance =>
      do w <- get;
      gl_call (glDrawArraysInstancedBaseInstance
                 (primitive_mode (bound_pipeline w)) base_vertex vertices
                 instances (uint32 base_instance))
  | IDRAW indices instances base_index base_vertex base_instance =>
      do w <- get;
      gl_call (glDrawElementsInstancedBaseVertexBaseInstance
                 (primitive_mode (bound_pipeline w)) indices
                 (index_type (bound_pipeline w))
                 (wrap size_bits (index_size (bound_pipeline w)
                                  * wrap size_bits base_index))
                 instances base_vertex (uint32 base_instance))
  end.

(** Reading [commands[i]] past the end of the vector is undefined. *)
Definition submit (commands : CommandListImpl) : M World unit :=
  if decide (num_commands commands <= length (GL33.commands commands))%nat
  then for_each (take (num_commands commands) (GL33.commands commands))
         submit_command
  else undefined.

End Device.

End GL33.

(** ** The OpenGL 4.6 device ([src_gl], direct state access) *)

Module GL46.

(** *** Public types ([uvre.hpp], as the device uses them) *)

Inductive ShaderStage : Type := VERTEX | FRAGMENT.
Inductive ShaderFormat : Type := BINARY_SPIRV | SOURCE_GLSL.
(** [OTHER_BUFFER] stands for the enumerators other than [VERTEX_BUFFER]. *)
Inductive BufferType : Type := VERTEX_BUFFER | OTHER_BUFFER (kind : Z).
Inductive BlendEquation : Type := ADD | SUBTRACT | REVERSE_SUBTRACT | MIN | MAX.
Inductive BlendFunc : Type :=
| ZERO | ONE | SRC_COLOR | ONE_MINUS_SRC_COLOR | SRC_ALPHA
| ONE_MINUS_SRC_ALPHA | DST_COLOR | ONE_MINUS_DST_COLOR | DST_ALPHA
| ONE_MINUS_DST_ALPHA.
Inductive DepthFunc : Type :=
| NEVER | ALWAYS | EQUAL | NOT_EQUAL | LESS | LESS_OR_EQUAL | GREATER
| GREATER_OR_EQUAL.
Inductive VertexAttribType : Type :=
| FLOAT32 | FLOAT64 | SIGNED_INT8 | SIGNED_INT16 | SIGNED_INT32
| UNSIGNED_INT8 | UNSIGNED_INT16 | UNSIGNED_INT32.
Inductive IndexType : Type := INDEX16 | INDEX32.
Inductive PrimitiveMode : Type :=
| POINTS | LINES | LINE_STRIP | LINE_LOOP | TRIANGLES | TRIANGLE_STRIP
| TRIANGLE_FAN.
(** [FILL_POINTS] is [FillMode::POINTS]. *)
Inductive FillMode : Type := FILLED | FILL_POINTS | WIREFRAME.

Record VertexAttrib : Type := {
  id : Z;
  type : VertexAttribType;
  count : Z;
  offset : Z;
  normalized : bool
}.

(** *** Private types (as [gl_renderdevice.cpp] uses them) *)

Record VBOBinding : Type := {
  vbo_index : Z;
  is_free : bool
}.

Record Shader : Type := {
  prog : Z;
  stage : ShaderStage;
  stage_bit : Z
}.

Record Pipeline : Type := {
  ppobj : Z;
  vaobj : Z;
  blending_enabled : bool;
  blending_equation : Z;
  blending_sfactor : Z;
  blending_dfactor : Z;
  depth_testing_enabled : bool;
  depth_testing_func : Z;
  face_culling_enabled : bool;
  face_culling_front_face : Z;
  face_culling_cull_face : Z;
  index_type : Z;
  primitive_mode : Z;
  fill_mode : Z;
  vertex_stride : Z;
  attributes : list VertexAttrib
}.

(** [vbo] is the address of a node of the device's [vbos] chain, or null. *)
Record Buffer : Type := {
  bufobj : Z;
  vbo : option nat;
  size : Z
}.

Record Texture : Type := {
  texobj : Z;
  format : Z;
  width : Z;
  height : Z;
  depth : Z
}.

Record RenderTarget : Type := {
  fbobj : Z
}.

(** *** Creation info *)

(** [code] is the memory behind [info.code] read as a C string, and
    [code_binary] the same memory read as [code_size] bytes. *)
Record ShaderInfo : Type := {
  si_stage : ShaderStage;
  si_format : ShaderFormat;
  code : string;
  code_binary : bytes;
  code_size : Z
}.

Record PipelineInfo : Type := {
  pi_blending_enabled : bool;
  pi_blending_equation : BlendEquation;
  pi_blending_sfactor : BlendFunc;
  pi_blending_dfactor : BlendFunc;
  pi_depth_testing_enabled : bool;
  pi_depth_testing_func : DepthFunc;
  pi_face_culling_enabled : bool;
  pi_face_culling_flags : Z;
  pi_index_type : IndexType;
  pi_primitive_mode : PrimitiveMode;
  pi_fill_mode : FillMode;
  pi_vertex_stride : Z;
  pi_vertex_attribs : list VertexAttrib;
  pi_shaders : list (option Shader)
}.

Record BufferInfo : Type := {
  bi_type : BufferType;
  bi_size : Z;
  bi_data : option bytes
}.

Record ColorAttachment : Type := {
  ca_id : Z;
  ca_color : Texture
}.

Record RenderTargetInfo : Type := {
  depth_attachment : option Texture;
  stencil_attachment : option Texture;
  color_attachments : list ColorAttachment
}.

Record CullFlags : Type := {
  CULL_CLOCKWISE : Z;
  CULL_BACK : Z;
  CULL_FRONT : Z
}.

(** *** The device and its collaborators

    The registries hold the live objects by address, in registration
    order. *)

Record World : Type := mkWorld {
  (* members of GLRenderDevice *)
  (** whether [info.onMessage] is set *)
  onMessage : bool;
  idbo : Z;
  vbos : list VBOBinding;
  shaders : list (nat * Shader);
  pipelines : list (nat * Pipeline);
  buffers : list (nat * Buffer);
  rendertargets : list (nat * RenderTarget);
  (* the heap *)
  next_address : nat;
  (* collaborators *)
  gl : GLState;
  (** the messages handed to [onMessage], oldest first *)
  messages : list string
}.

Definition set_vbos (v : list VBOBinding) (w : World) : World :=
  mkWorld (onMessage w) (idbo w) v (shaders w) (pipelines w) (buffers w)
    (rendertargets w) (next_address w) (gl w) (messages w).
Definition set_shaders (l : list (nat * Shader)) (w : World) : World :=
  mkWorld (onMessage w) (idbo w) (vbos w) l (pipelines w) (buffers w)
    (rendertargets w) (next_address w) (gl w) (messages w).
Definition set_pipelines (l : list (nat * Pipeline)) (w : World) : World :=
  mkWorld (onMessage w) (idbo w) (vbos w) (shaders w) l (buffers w)
    (rendertargets w) (next_address w) (gl w) (messages w).
Definition set_buffers (l : list (nat * Buffer)) (w : World) : World :=
  mkWorld (onMessage w) (idbo w) (vbos w) (shaders w) (pipelines w) l
    (rendertargets w) (next_address w) (gl w) (messages w).
Definition set_rendertargets (l : list (nat * RenderTarget)) (w : World)
    : World :=
  mkWorld (onMessage w) (idbo w) (vbos w) (shaders w) (pipelines w)
    (buffers w) l (next_address w) (gl w) (messages w).
Definition set_next_address (n : nat) (w : World) : World :=
  mkWorld (onMessage w) (idbo w) (vbos w) (shaders w) (pipelines w)
    (buffers w) (rendertargets w) n (gl w) (messages w).
Definition set_gl (g : GLState) (w : World) : World :=
  mkWorld (onMessage w) (idbo w) (vbos w) (shaders w) (pipelines w)
    (buffers w) (rendertargets w) (next_address w) g (messages w).
Definition set_messages (l : list string) (w : World) : World :=
  mkWorld (onMessage w) (idbo w) (vbos w) (shaders w) (pipelines w)
    (buffers w) (rendertargets w) (next_address w) (gl w) l.
Definition set_is_free (b : bool) (n : VBOBinding) : VBOBinding :=
  Build_VBOBinding (vbo_index n) b.
Definition set_size (v : Z) (b : Buffer) : Buffer :=
  Build_Buffer (bufobj b) (vbo b) v.

Section Device.

(** [size_bits] is the width of [size_t] and [sizeof_DrawCmd] the size of
    [uvre::DrawCmd]. *)
Context (D : Driver) (K : CullFlags) (size_bits sizeof_DrawCmd : Z).

Local Open Scope m_scope.

Definition gl_call (c : GLCall) : M World unit :=
  modify (fun w => set_gl (gl_exec D c (gl w)) w).

Definition gl_gen (mk : Z -> GLCall) : M World Z :=
  do w <- get;
  run gl_call (mk (gl_next_name (gl w)));
  ret (gl_next_name (gl w)).

Definition gl_get {A} (query : GLState -> A) : M World A :=
  do w <- get; ret (query (gl w)).

Definition send_message (m : string) : M World unit :=
  modify (fun w => set_messages (messages w ++ [m]) w).

Definition new_address : M World nat :=
  do w <- get;
  run modify (set_next_address (S (next_address w)));
  ret (next_address w).

Definition deref_vbo (p : nat) : M World VBOBinding :=
  do w <- get; lift_option (chain_get (vbos w) p).

(** **** Construction *)

(** [GLRenderDevice::GLRenderDevice], on the context [g]. *)
Definition GLRenderDevice (info_onMessage : bool) (g : GLState) : World :=
  let w :=
    mkWorld info_onMessage 0 [ {| vbo_index := 0; is_free := true |} ]
      [] [] [] [] 0%nat g [] in
  let construct : M World unit :=
    do idbo <- gl_gen glCreateBuffers;
    run modify (fun w =>
          mkWorld (onMessage w) idbo (vbos w) (shaders w) (pipelines w)
            (buffers w) (rendertargets w) (next_address w) (gl w)
            (messages w));
    run gl_call (glNamedBufferData idbo (to_signed size_bits sizeof_DrawCmd)
                   None GL_DYNAMIC_DRAW);
    if info_onMessage then
      run gl_call (glEnable GL_DEBUG_OUTPUT);
      run gl_call (glEnable GL_DEBUG_OUTPUT_SYNCHRONOUS);
      gl_call (glDebugMessageCallback true)
    else ret tt in
  match construct w with
  | Some (_, w') => w'
  | None => w
  end.

(** **** Shaders *)

(** Returns the address of the new [Shader], or null. *)
Definition createShader (info : ShaderInfo) : M World (option nat) :=
  let ss := "#version 460 core" +:+ endl +:+ "#define UVRE_SOURCE 1" +:+ endl in
  let '(stage, stage_bit, ss) :=
    match si_stage info with
    | VERTEX =>
        (GL_VERTEX_SHADER, GL_VERTEX_SHADER_BIT,
         ss +:+ "#define VERTEX_SHADER 1" +:+ endl)
    | FRAGMENT =>
        (GL_FRAGMENT_SHADER, GL_FRAGMENT_SHADER_BIT,
         ss +:+ "#define FRAGMENT_SHADER 1" +:+ endl)
    end in
  do shobj <- gl_gen (glCreateShader stage);
  run match si_format info with
      | BINARY_SPIRV =>
          run gl_call (glShaderBinary shobj GL_SHADER_BINARY_FORMAT_SPIR_V
                         (code_binary info) (int32 (code_size info)));
          gl_call (glSpecializeShader shobj "main")
      | SOURCE_GLSL =>
          let source := ss +:+ code info in
          run gl_call (glShaderSource shobj source);
          gl_call (glCompileShader shobj)
      end;
  do w <- get;
  run (if onMessage w then
         do info_log <- gl_get (fun g => gl_shader_log g shobj);
         if 1 <? info_log_length info_log then send_message info_log
         else ret tt
       else ret tt);
  do status <- gl_get (fun g => gl_shader_status g shobj);
  if negb status then
    run gl_call (glDeleteShader shobj);
    ret None
  else
    do prog <- gl_gen glCreateProgram;
    run gl_call (glProgramParameteri prog GL_PROGRAM_SEPARABLE GL_TRUE);
    run gl_call (glAttachShader prog shobj);
    run gl_call (glLinkProgram prog);
    run gl_call (glDeleteShader shobj);
    run (if onMessage w then
           do info_log <- gl_get (fun g => gl_program_log g prog);
           if 1 <? info_log_length info_log then send_message info_log
           else ret tt
         else ret tt);
    do status <- gl_get (fun g => gl_program_status g prog);
    if negb status then
      run gl_call (glDeleteProgram prog);
      ret None
    else
      do address <- new_address;
      let shader :=
        {| prog := prog; stage := si_stage info; stage_bit := stage_bit |} in
      run modify (fun w => set_shaders (shaders w ++ [(address, shader)]) w);
      ret (Some address).

Definition destroyShader (shader : nat) : M World unit :=
  do w <- get;
  match find_object shader (shaders w) with
  | Some object =>
      run modify (set_shaders (erase_first shader (shaders w)));
      gl_call (glDeleteProgram (prog object))
  | None => ret tt
  end.

(** **** Enumerant translation *)

Definition getBlendEquation (equation : BlendEquation) : Z :=
  match equation with
  | ADD => GL_FUNC_ADD
  | SUBTRACT => GL_FUNC_SUBTRACT
  | REVERSE_SUBTRACT => GL_FUNC_REVERSE_SUBTRACT
  | MIN => GL_MIN
  | MAX => GL_MAX
  end.

Definition getBlendFunc (func : BlendFunc) : Z :=
  match func with
  | ZERO => GL_ZERO
  | ONE => GL_ONE
  | SRC_COLOR => GL_SRC_COLOR
  | ONE_MINUS_SRC_COLOR => GL_ONE_MINUS_SRC_COLOR
  | SRC_ALPHA => GL_SRC_ALPHA
  | ONE_MINUS_SRC_ALPHA => GL_ONE_MINUS_SRC_ALPHA
  | DST_COLOR => GL_DST_COLOR
  | ONE_MINUS_DST_COLOR => GL_ONE_MINUS_DST_COLOR
  | DST_ALPHA => GL_DST_ALPHA
  | ONE_MINUS_DST_ALPHA => GL_ONE_MINUS_DST_ALPHA
  end.

Definition getDepthFunc (func : DepthFunc) : Z :=
  match func with
  | NEVER => GL_NEVER
  | ALWAYS => GL_ALWAYS
  | EQUAL => GL_EQUAL
  | NOT_EQUAL => GL_NOTEQUAL
  | LESS => GL_LESS
  | LESS_OR_EQUAL => GL_LEQUAL
  | GREATER => GL_GREATER
  | GREATER_OR_EQUAL => GL_GEQUAL
  end.

Definition getAttribType (type : VertexAttribType) : Z :=
  match type with
  | FLOAT32 => GL_FLOAT
  | FLOAT64 => GL_DOUBLE
  | SIGNED_INT8 => GL_BYTE
  | SIGNED_INT16 => GL_SHORT
  | SIGNED_INT32 => GL_INT
  | UNSIGNED_INT8 => GL_UNSIGNED_BYTE
  | UNSIGNED_INT16 => GL_UNSIGNED_SHORT
  | UNSIGNED_INT32 => GL_UNSIGNED_INT
  end.

Definition getIndexType (type : IndexType) : Z :=
  match type with
  | INDEX16 => GL_UNSIGNED_SHORT
  | INDEX32 => GL_UNSIGNED_INT
  end.

Definition getPrimitiveType (type : PrimitiveMode) : Z :=
  match type with
  | POINTS => GL_POINTS
  | LINES => GL_LINES
  | LINE_STRIP => GL_LINE_STRIP
  | LINE_LOOP => GL_LINE_LOOP
  | TRIANGLES => GL_TRIANGLES
  | TRIANGLE_STRIP => GL_TRIANGLE_STRIP
  | TRIANGLE_FAN => GL_TRIANGLE_FAN
  end.

Definition getCullFace (back front : bool) : Z :=
  if back && front then GL_FRONT_AND_BACK
  else if back then GL_BACK
  else if front then GL_FRONT
  else GL_BACK.

Definition getFillMode (mode : FillMode) : Z :=
  match mode with
  | FILLED => GL_FILL
  | FILL_POINTS => GL_POINT
  | WIREFRAME => GL_LINE
  end.

(** [flags & bit] converted to [bool]. *)
Definition has_flag (flags bit : Z) : bool :=
  negb (Z.land flags bit =? 0).

(** **** Pipelines *)

(** Returns the address of the new [Pipeline]. *)
Definition createPipeline (info : PipelineInfo) : M World nat :=
  do address <- new_address;
  do ppobj <- gl_gen glCreateProgramPipelines;
  do vaobj <- gl_gen glCreateVertexArrays;
  let pipeline := {|
    ppobj := ppobj;
    vaobj := vaobj;
    blending_enabled := pi_blending_enabled info;
    blending_equation := getBlendEquation (pi_blending_equation info);
    blending_sfactor := getBlendFunc (pi_blending_sfactor info);
    blending_dfactor := getBlendFunc (pi_blending_dfactor info);
    depth_testing_enabled := pi_depth_testing_enabled info;
    depth_testing_func := getDepthFunc (pi_depth_testing_func info);
    face_culling_enabled := pi_face_culling_enabled info;
    face_culling_front_face :=
      if has_flag (pi_face_culling_flags info) (CULL_CLOCKWISE K)
      then GL_CW else GL_CCW;
    face_culling_cull_face :=
      getCullFace (has_flag (pi_face_culling_flags info) (CULL_BACK K))
        (has_flag (pi_face_culling_flags info) (CULL_FRONT K));
    index_type := getIndexType (pi_index_type info);
    primitive_mode := getPrimitiveType (pi_primitive_mode info);
    fill_mode := getFillMode (pi_fill_mode info);
    vertex_stride := pi_vertex_stride info;
    attributes := pi_vertex_attribs info
  |} in
  run for_each (attributes pipeline) (fun attrib =>
        run gl_call (glEnableVertexArrayAttrib vaobj (id attrib));
        gl_call (glVertexArrayAttribFormat vaobj (id attrib)
                   (int32 (count attrib)) (getAttribType (type attrib))
                   (if normalized attrib then GL_TRUE else GL_FALSE)
                   (uint32 (offset attrib))));
  run for_each (pi_shaders info) (fun s =>
        match s with
        | Some shader =>
            (* Use this shader stage *)
            gl_call (glUseProgramStages ppobj (stage_bit shader)
                       (prog shader))
        | None => ret tt
        end);
  (* Add all the existing vertex buffers to this pipeline *)
  do w <- get;
  run for_each (buffers w) (fun '(_, buffer) =>
        match vbo buffer with
        | Some slot =>
            do binding <- deref_vbo slot;
            gl_call (glVertexArrayVertexBuffer vaobj (vbo_index binding)
                       (bufobj buffer) 0 (int32 (vertex_stride pipeline)))
        | None => ret tt
        end);
  run modify (fun w => set_pipelines (pipelines w ++ [(address, pipeline)]) w);
  ret address.

Definition destroyPipeline (pipeline : nat) : M World unit :=
  do w <- get;
  match find_object pipeline (pipelines w) with
  | Some object =>
      run modify (set_pipelines (erase_first pipeline (pipelines w)));
      run gl_call (glDeleteVertexArrays (vaobj object));
      gl_call (glDeleteProgramPipelines (ppobj object))
  | None => ret tt
  end.

(** **** Buffers *)

(** The loop of [getFreeVBOBinding] from [binding = chain]; [None] is the
    null pointer returned after the loop. *)
Fixpoint getFreeVBOBinding_loop (begin chain : list VBOBinding)
    : option (list VBOBinding * nat) :=
  match chain with
  | [] => None
  | binding :: next =>
      if is_free binding then
        (* Bullseye *)
        Some (begin, length next)
      else
        (* Create a new binding *)
        match next with
        | [] =>
            Some ({| vbo_index := uint32 (vbo_index binding + 1);
                     is_free := true |} :: begin,
                  length begin)
        | _ :: _ => getFreeVBOBinding_loop begin next
        end
  end.

(** Returns the chain now reached from [*begin] and the node, or null. *)
Definition getFreeVBOBinding (begin : list VBOBinding)
    : option (list VBOBinding * nat) :=
  getFreeVBOBinding_loop begin begin.

(** Returns the address of the new [Buffer]. *)
Definition createBuffer (info : BufferInfo) : M World nat :=
  do address <- new_address;
  do bufobj <- gl_gen glCreateBuffers;
  do buffer <-
    match bi_type info with
    | VERTEX_BUFFER =>
        do w <- get;
        do '(head, node) <- lift_option (getFreeVBOBinding (vbos w));
        do binding <- lift_option (chain_get head node);
        run modify (set_vbos (chain_set head node (set_is_free false binding)));
        (* Add this buffer to all the existing pipelines
           with the respective vertex stride *)
        run for_each (pipelines w) (fun '(_, pipeline) =>
              gl_call (glVertexArrayVertexBuffer (vaobj pipeline)
                         (vbo_index binding) bufobj 0
                         (int32 (vertex_stride pipeline))));
        ret {| bufobj := bufobj; vbo := Some node; size := bi_size info |}
    | _ => ret {| bufobj := bufobj; vbo := None; size := bi_size info |}
    end;
  run (if negb (size buffer =? 0) then
         (* Pre-allocate the buffer *)
         gl_call (glNamedBufferData bufobj (to_signed size_bits (size buffer))
                    (bi_data info) GL_DYNAMIC_DRAW)
       else ret tt);
  run modify (fun w => set_buffers (buffers w ++ [(address, buffer)]) w);
  ret address.

Definition destroyBuffer (buffer : nat) : M World unit :=
  do w <- get;
  match find_object buffer (buffers w) with
  | Some object =>
      run modify (set_buffers (erase_first buffer (buffers w)));
      run gl_call (glDeleteBuffers (bufobj object));
      match vbo object with
      | Some slot =>
          do binding <- deref_vbo slot;
          modify (fun w => set_vbos (chain_set (vbos w) slot
                                       (set_is_free true binding)) w)
      | None => ret tt
      end
  | None => ret tt
  end.

(** [buffer] must be the address of a live [Buffer]. *)
Definition resizeBuffer (buffer : nat) (size : Z) (data : option bytes)
    : M World unit :=
  do w <- get;
  do object <- lift_option (find_object buffer (buffers w));
  run modify (set_buffers
                (map (fun x => if decide (fst x = buffer)
                               then (fst x, set_size size (snd x)) else x)
                   (buffers w)));
  gl_call (glNamedBufferData (bufobj object) (to_signed size_bits size) data
             GL_DYNAMIC_DRAW).

(** [buffer] is the object the [Buffer *] argument designates. *)
Definition writeBuffer (buffer : Buffer) (offset size : Z) (data : bytes)
    : M World bool :=
  if wrap size_bits (offset + size) >=? GL46.size buffer then ret false
  else
    run gl_call (glNamedBufferSubData (bufobj buffer)
                   (to_signed size_bits offset) (to_signed size_bits size)
                   data);
    ret true.

(** **** Render targets *)

(** Returns the address of the new [RenderTarget], or null. *)
Definition createRenderTarget (info : RenderTargetInfo)
    : M World (option nat) :=
  do fbobj <- gl_gen glCreateFramebuffers;
  run (match depth_attachment info with
       | Some t =>
           gl_call (glNamedFramebufferTexture fbobj GL_DEPTH_ATTACHMENT
                      (texobj t) 0)
       | None => ret tt
       end);
  run (match stencil_attachment info with
       | Some t =>
           gl_call (glNamedFramebufferTexture fbobj GL_STENCIL_ATTACHMENT
                      (texobj t) 0)
       | None => ret tt
       end);
  run for_each (color_attachments info) (fun c =>
        gl_call (glNamedFramebufferTexture fbobj
                   (uint32 (GL_COLOR_ATTACHMENT0 + ca_id c))
                   (texobj (ca_color c)) 0));
  do status <- gl_get (fun g => gl_check_framebuffer D g fbobj);
  if decide (status <> GL_FRAMEBUFFER_COMPLETE) then
    run gl_call (glDeleteFramebuffers fbobj);
    ret None
  else
    do address <- new_address;
    run modify (fun w => set_rendertargets
                           (rendertargets w ++ [(address, {| fbobj := fbobj |})])
                           w);
    ret (Some address).

Definition destroyRenderTarget (target : nat) : M World unit :=
  do w <- get;
  match find_object target (rendertargets w) with
  | Some object =>
      run modify (set_rendertargets (erase_first target (rendertargets w)));
      gl_call (glDeleteFramebuffers (fbobj object))
  | None => ret tt
  end.

End Device.

End GL46.

(** ** Reference outcomes and sample collaborators *)

Section Written.

Context (D : Driver) (size_bits : Z).

(** The world after the write of [GL33.writeBuffer] went through. *)
Definition written33 (b : GL33.Buffer_S) (offset size : Z) (data : bytes)
    (w : GL33.World) : GL33.World :=
  GL33.set_gl
    (gl_exec D (glBufferSubData GL_COPY_READ_BUFFER
                  (to_signed size_bits offset) (to_signed size_bits size)
                  data)
       (gl_exec D (glBindBuffer GL_COPY_READ_BUFFER (GL33.bufobj b))
          (GL33.gl w)))
    w.

(** The world after the write of [GL46.writeBuffer] went through. *)
Definition written46 (b : GL46.Buffer) (offset size : Z) (data : bytes)
    (w : GL46.World) : GL46.World :=
  GL46.set_gl
    (gl_exec D (glNamedBufferSubData (GL46.bufobj b)
                  (to_signed size_bits offset) (to_signed size_bits size)
                  data)
       (GL46.gl w))
    w.

End Written.

(** A driver with sixteen vertex-attribute bindings that accepts every
    shader and program without a log, and deems a framebuffer complete as
    soon as it has an attachment. *)
Definition sample_driver : Driver := {|
  max_vertex_attrib_bindings := 16;
  khr_debug := true;
  compile_glsl := fun _ _ => (true, "");
  specialize_spirv := fun _ _ => (true, "");
  link_program := fun _ => (true, "");
  framebuffer_status := fun attachments =>
    match attachments with
    | [] => GL_FRAMEBUFFER_INCOMPLETE_MISSING_ATTACHMENT
    | _ :: _ => GL_FRAMEBUFFER_COMPLETE
    end
|}.

(** Freshly constructed devices on a fresh context. *)
Definition fresh33 (D : Driver) : GL33.World :=
  GL33.RenderDeviceImpl D false gl_initial.
Definition fresh46 (D : Driver) : GL46.World :=
  GL46.GLRenderDevice D 64 20 false gl_initial.

(** The context after the commands [calls], in order. *)
Definition gl_run (D : Driver) (calls : list GLCall) (g : GLState)
    : GLState :=
  fold_left (fun g c => gl_exec D c g) calls g.

(** The commands that [GL33.submit] issues for a [BIND_PIPELINE] record, as
    the specification describes them: the four features are disabled, then
    each is enabled and configured when the pipeline asks for it. *)
Definition bind_pipeline_calls (p : GL33.Pipeline_S) : list GLCall :=
  [glDisable GL_BLEND; glDisable GL_DEPTH_TEST; glDisable GL_CULL_FACE;
   glDisable GL_SCISSOR_TEST]
  ++ (if GL33.blending_enabled p then
        [glEnable GL_BLEND; glBlendEquation (GL33.blending_equation p);
         glBlendFunc (GL33.blending_sfactor p) (GL33.blending_dfactor p)]
      else [])
  ++ (if GL33.depth_testing_enabled p then
        [glEnable GL_DEPTH_TEST; glDepthFunc (GL33.depth_testing_func p)]
      else [])
  ++ (if GL33.face_culling_enabled p then
        [glEnable GL_CULL_FACE; glCullFace (GL33.face_culling_cull_face p);
         glFrontFace (GL33.face_culling_front_face p)]
      else [])
  ++ (if GL33.scissor_test p then [glEnable GL_SCISSOR_TEST] else [])
  ++ [glPolygonMode GL_FRONT_AND_BACK (GL33.fill_mode p);
      glUseProgram (GL33.program p)].

(** The lines that [createShader] puts before a GLSL source: the version,
    the library macro, the macro of the stage and, on the 3.3 device, the
    macro of the source language. *)
Definition preamble33 (stage : GL33.ShaderStage) : string :=
  "#version 330 core" +:+ endl +:+ "#define _UVRE_ 1" +:+ endl
  +:+ match stage with
      | GL33.VERTEX => "#define _VERTEX_SHADER_ 1"
      | GL33.FRAGMENT => "#define _FRAGMENT_SHADER_ 1"
      end
  +:+ endl +:+ "#define _GLSL_ 1" +:+ endl.

Definition preamble46 (stage : GL46.ShaderStage) : string :=
  "#version 460 core" +:+ endl +:+ "#define UVRE_SOURCE 1" +:+ endl
  +:+ match stage with
      | GL46.VERTEX => "#define VERTEX_SHADER 1"
      | GL46.FRAGMENT => "#define FRAGMENT_SHADER 1"
      end
  +:+ endl.

Definition shader_type33 (stage : GL33.ShaderStage) : Z :=
  match stage with
  | GL33.VERTEX => GL_VERTEX_SHADER
  | GL33.FRAGMENT => GL_FRAGMENT_SHADER
  end.

Definition shader_type46 (stage : GL46.ShaderStage) : Z :=
  match stage with
  | GL46.VERTEX => GL_VERTEX_SHADER
  | GL46.FRAGMENT => GL_FRAGMENT_SHADER
  end.

(** "The source is preprocessed with stage-specific macro injection and then
    compiled", for one call of [GL33.createShader]: the call returns, and
    among the commands it issued are the upload of the preprocessed source to
    a shader object and the compilation of that object. *)
Definition compiles_preprocessed_source33 (D : Driver)
    (info : GL33.ShaderCreateInfo) (w : GL33.World) : Prop :=
  exists r w' shobj calls,
    GL33.createShader D info w = Some (r, w')
    /\ gl_log (GL33.gl w') = gl_log (GL33.gl w) ++ calls
    /\ In (glShaderSource shobj
             (preamble33 (GL33.sci_stage info) +:+ GL33.sci_code info)) calls
    /\ In (glCompileShader shobj) calls.

(** The message that reaches the sink for a compiler or linker log. *)
Definition forwarded (registered : bool) (info_log : string) : list string :=
  if registered && negb (bool_decide (info_log = "")) then [info_log] else [].

(** A driver whose compiler rejects every source with the log ["error"]. *)
Definition rejecting_driver : Driver := {|
  max_vertex_attrib_bindings := 16;
  khr_debug := true;
  compile_glsl := fun _ _ => (false, "error");
  specialize_spirv := fun _ _ => (false, "error");
  link_program := fun _ => (false, "error");
  framebuffer_status := fun _ => GL_FRAMEBUFFER_INCOMPLETE_MISSING_ATTACHMENT
|}.

Definition sample_shader33 : GL33.ShaderCreateInfo := {|
  GL33.sci_stage := GL33.FRAGMENT;
  GL33.sci_format := GL33.SOURCE_GLSL;
  GL33.sci_code := "void main() {}"
|}.

Definition sample_shader46 : GL46.ShaderInfo := {|
  GL46.si_stage := GL46.VERTEX;
  GL46.si_format := GL46.SOURCE_GLSL;
  GL46.code := "void main() {}";
  GL46.code_binary := [];
  GL46.code_size := 14
|}.

(** The same for one call of [GL46.createShader]. *)
Definition compiles_preprocessed_source46 (D : Driver)
    (info : GL46.ShaderInfo) (w : GL46.World) : Prop :=
  exists r w' shobj calls,
    GL46.createShader D info w = Some (r, w')
    /\ gl_log (GL46.gl w') = gl_log (GL46.gl w) ++ calls
    /\ In (glShaderSource shobj
             (preamble46 (GL46.si_stage info) +:+ GL46.code info)) calls
    /\ In (glCompileShader shobj) calls.

(** What the 4.6 device hands to the context for the code of a shader, and
    what the context makes of it: a GLSL source is uploaded behind the
    macros of its stage and compiled, a SPIR-V binary is loaded and
    specialized as it is. *)
Definition build_calls46 (info : GL46.ShaderInfo) (shobj : Z) : list GLCall :=
  match GL46.si_format info with
  | GL46.SOURCE_GLSL =>
      [glShaderSource shobj
         (preamble46 (GL46.si_stage info) +:+ GL46.code info);
       glCompileShader shobj]
  | GL46.BINARY_SPIRV =>
      [glShaderBinary shobj GL_SHADER_BINARY_FORMAT_SPIR_V
         (GL46.code_binary info) (int32 (GL46.code_size info));
       glSpecializeShader shobj "main"]
  end.

Definition build_outcome46 (D : Driver) (info : GL46.ShaderInfo)
    : bool * string :=
  match GL46.si_format info with
  | GL46.SOURCE_GLSL =>
      compile_glsl D (shader_type46 (GL46.si_stage info))
        (preamble46 (GL46.si_stage info) +:+ GL46.code info)
  | GL46.BINARY_SPIRV =>
      specialize_spirv D (shader_type46 (GL46.si_stage info))
        (GL46.code_binary info)
  end.

(** A SPIR-V binary for the 4.6 device. *)
Definition sample_binary46 : GL46.ShaderInfo := {|
  GL46.si_stage := GL46.VERTEX;
  GL46.si_format := GL46.BINARY_SPIRV;
  GL46.code := "void main() {}";
  GL46.code_binary := [];
  GL46.code_size := 0
|}.

(** The attachments that [createRenderTarget] makes, in the order it makes
    them, as (attachment point, texture) pairs: depth, stencil, then the
    colour attachments. *)
Definition attachments33 (info : GL33.RenderTargetCreateInfo)
    : list (Z * Z) :=
  match GL33.depth_attachment info with
  | Some t => [(GL_DEPTH_ATTACHMENT, GL33.texobj t)]
  | None => []
  end
  ++ match GL33.stencil_attachment info with
     | Some t => [(GL_STENCIL_ATTACHMENT, GL33.texobj t)]
     | None => []
     end
  ++ map (fun c => (uint32 (GL_COLOR_ATTACHMENT0 + GL33.ca_id c),
                    GL33.texobj (GL33.ca_color c)))
       (GL33.color_attachments info).

Definition attachments46 (info : GL46.RenderTargetInfo) : list (Z * Z) :=
  match GL46.depth_attachment info with
  | Some t => [(GL_DEPTH_ATTACHMENT, GL46.texobj t)]
  | None => []
  end
  ++ match GL46.stencil_attachment info with
     | Some t => [(GL_STENCIL_ATTACHMENT, GL46.texobj t)]
     | None => []
     end
  ++ map (fun c => (uint32 (GL_COLOR_ATTACHMENT0 + GL46.ca_id c),
                    GL46.texobj (GL46.ca_color c)))
       (GL46.color_attachments info).

(** The commands of [createRenderTarget] up to the completeness check. *)
Definition framebuffer_calls33 (fb : Z) (info : GL33.RenderTargetCreateInfo)
    : list GLCall :=
  [glGenFramebuffers fb; glBindFramebuffer GL_FRAMEBUFFER fb]
  ++ map (fun a => glFramebufferTexture2D GL_FRAMEBUFFER (fst a)
                     GL_TEXTURE_2D (snd a) 0)
       (attachments33 info).

Definition framebuffer_calls46 (fb : Z) (info : GL46.RenderTargetInfo)
    : list GLCall :=
  [glCreateFramebuffers fb]
  ++ map (fun a => glNamedFramebufferTexture fb (fst a) (snd a) 0)
       (attachments46 info).

(** A render target without any attachment, and one with a colour
    attachment in slot 0 and a depth attachment. *)
Definition no_attachments33 : GL33.RenderTargetCreateInfo :=
  {| GL33.depth_attachment := None; GL33.stencil_attachment := None;
     GL33.color_attachments := [] |}.
Definition no_attachments46 : GL46.RenderTargetInfo :=
  {| GL46.depth_attachment := None; GL46.stencil_attachment := None;
     GL46.color_attachments := [] |}.

Definition sample_texture46 (name : Z) : GL46.Texture :=
  {| GL46.texobj := name; GL46.format := 0; GL46.width := 640;
     GL46.height := 480; GL46.depth := 0 |}.

(** ** Scenarios on the vertex-binding slots *)

(** The slot of a buffer: the index of the [VBOBinding] it holds. *)
Definition slot33 (w : GL33.World) (buffer : GL33.Buffer_S) : option Z :=
  match GL33.vbo buffer with
  | Some p => GL33.vbo_index <$> chain_get (GL33.vbos w) p
  | None => None
  end.

Definition slot46 (w : GL46.World) (buffer : nat) : option Z :=
  match find_object buffer (GL46.buffers w) with
  | Some object =>
      match GL46.vbo object with
      | Some p => GL46.vbo_index <$> chain_get (GL46.vbos w) p
      | None => None
      end
  | None => None
  end.

Definition vertex_buffer33 (size : Z) : GL33.BufferCreateInfo :=
  {| GL33.bci_type := GL33.VERTEX_BUFFER; GL33.bci_size := size;
     GL33.bci_data := None |}.

Definition vertex_buffer46 (size : Z) : GL46.BufferInfo :=
  {| GL46.bi_type := GL46.VERTEX_BUFFER; GL46.bi_size := size;
     GL46.bi_data := None |}.

Definition sample_cull_flags33 : GL33.CullFlags :=
  {| GL33.CULL_CLOCKWISE := 1; GL33.CULL_BACK := 2; GL33.CULL_FRONT := 4 |}.
Definition sample_cull_flags46 : GL46.CullFlags :=
  {| GL46.CULL_CLOCKWISE := 1; GL46.CULL_BACK := 2; GL46.CULL_FRONT := 4 |}.

(** Three vertex buffers created in a row on the 4.6 device. *)
Definition three_vertex_buffers46 (D : Driver) : M GL46.World (nat * nat * nat) :=
  bind (GL46.createBuffer D 64 (vertex_buffer46 48)) (fun a =>
  bind (GL46.createBuffer D 64 (vertex_buffer46 48)) (fun b =>
  bind (GL46.createBuffer D 64 (vertex_buffer46 48)) (fun c =>
  ret (a, b, c)))).

Fixpoint create_vertex_buffers33 (D : Driver) (n : nat)
    : M GL33.World (list (nat * GL33.Buffer_S)) :=
  match n with
  | O => ret []
  | S n' =>
      bind (GL33.createBuffer D 64 (vertex_buffer33 48)) (fun b =>
      bind (create_vertex_buffers33 D n') (fun l => ret (b :: l)))
  end.

Definition sample_pipeline33 : GL33.PipelineCreateInfo := {|
  GL33.pci_blending_enabled := false;
  GL33.pci_blending_equation := GL33.ADD;
  GL33.pci_blending_sfactor := GL33.ONE;
  GL33.pci_blending_dfactor := GL33.ZERO;
  GL33.pci_depth_testing_enabled := false;
  GL33.pci_depth_testing_func := GL33.LESS;
  GL33.pci_face_culling_enabled := false;
  GL33.pci_face_culling_flags := 0;
  GL33.pci_index_type := GL33.INDEX16;
  GL33.pci_primitive_mode := GL33.TRIANGLES;
  GL33.pci_fill_mode := GL33.FILLED;
  GL33.pci_vertex_stride := 16;
  GL33.pci_vertex_attribs :=
    [ {| GL33.id := 0; GL33.type := GL33.FLOAT32; GL33.count := 2;
         GL33.offset := 0; GL33.normalized := false |} ];
  GL33.pci_shaders := []
|}.

Definition sample_junk : GL33.Indeterminate :=
  {| GL33.junk_scissor_test := false; GL33.junk_vbobj := 0;
     GL33.junk_vaos_null := true |}.

(** Thirty-three vertex buffers are created, the first thirty-two are
    destroyed, and then a pipeline is created.  Returns the surviving
    buffer and the pipeline. *)
Definition survivor_scenario33 (D : Driver)
    : M GL33.World (option (nat * GL33.Buffer_S) * option nat) :=
  bind (create_vertex_buffers33 D 33) (fun created =>
  bind (for_each (take 32 created) (GL33.destroyBuffer D)) (fun _ =>
  bind (GL33.createPipeline D sample_cull_flags33 sample_pipeline33
          sample_junk) (fun pipeline =>
  ret (last created, pipeline)))).

(** The vertex-array groups of a pipeline: for each node of its chain,
    head first, the group index and the vertex-array object. *)
Definition groups33 (w : GL33.World) (pipeline : GL33.Pipeline_S)
    : list (option (Z * Z)) :=
  map (fun p => match GL33.vertex_arrays w !! p with
                | Some (Some n) => Some (GL33.va_index n, GL33.vaobj n)
                | _ => None
                end)
    (GL33.vaos pipeline).

(** The buffer bound in the vertex-array state of [pipeline] for the group
    [group] at the binding point [point], if the pipeline has an object
    for that group. *)
Definition bound_in_group33 (w : GL33.World) (pipeline : GL33.Pipeline_S)
    (group point : Z) : option Z :=
  match list_find (fun g => fst <$> g = Some group) (groups33 w pipeline) with
  | Some (_, Some (_, vao)) => gl_vertex_buffer (GL33.gl w) vao point
  | _ => None
  end.

(** ** Invariants of device code *)

Section Respects.

Context {St : Type} (I : St -> Prop) (R : St -> St -> Prop).

(** Every defined run of [m] from a state in [I] ends in [I], relates the
    two states by [R] and returns a value in [Q]. *)
Definition respects {A} (m : M St A) (Q : A -> Prop) : Prop :=
  forall s a s', I s -> m s = Some (a, s') -> I s' /\ R s s' /\ Q a.

End Respects.

(** The commands that bind the buffer [n] into a vertex array. *)
Definition binds_buffer (n : Z) (c : GLCall) : Prop :=
  match c with
  | glBindVertexBuffer _ buffer _ _ => buffer = n
  | glVertexArrayVertexBuffer _ _ buffer _ _ => buffer = n
  | _ => False
  end.

(** From [g] to [g'] only commands that do not bind [n] were issued. *)
Definition quiet (n : Z) (g g' : GLState) : Prop :=
  exists calls,
    gl_log g' = gl_log g ++ calls
    /\ Forall (fun c => ~ binds_buffer n c) calls.

(** The name [n] has been handed out and no vertex array binds it. *)
Definition unbound (n : Z) (g : GLState) : Prop :=
  n < gl_next_name g
  /\ map_Forall (fun _ buffer => buffer <> n) (gl_vertex_buffers g).

(** No vertex array binds [n] and no buffer of the notification list of
    the 3.3 device bears it. *)
Definition unused33 (n : Z) (w : GL33.World) : Prop :=
  unbound n (GL33.gl w)
  /\ Forall (fun x => GL33.bufobj (snd x) <> n) (GL33.buffers w).

(** No vertex array binds [n] and the buffers of the 4.6 device that bear
    it hold no slot. *)
Definition unused46 (n : Z) (w : GL46.World) : Prop :=
  unbound n (GL46.gl w)
  /\ Forall (fun x => GL46.bufobj (snd x) = n -> GL46.vbo (snd x) = None)
       (GL46.buffers w).

(** The name that the context hands out next is in use nowhere: what
    OpenGL promises of [glGenBuffers] and [glCreateBuffers]. *)
Definition next_name_unused33 (w : GL33.World) : Prop :=
  map_Forall (fun _ buffer => buffer <> gl_next_name (GL33.gl w))
    (gl_vertex_buffers (GL33.gl w))
  /\ Forall (fun x => GL33.bufobj (snd x) <> gl_next_name (GL33.gl w))
       (GL33.buffers w).

Definition next_name_unused46 (w : GL46.World) : Prop :=
  map_Forall (fun _ buffer => buffer <> gl_next_name (GL46.gl w))
    (gl_vertex_buffers (GL46.gl w))
  /\ Forall (fun x => GL46.bufobj (snd x) <> gl_next_name (GL46.gl w))
       (GL46.buffers w).

(** The operations on buffers and pipelines that an application performs
    on a device, with the handles it passes. *)
Inductive Op33 : Type :=
| CreateBuffer33 (info : GL33.BufferCreateInfo)
| DestroyBuffer33 (buffer : nat * GL33.Buffer_S)
| CreatePipeline33 (info : GL33.PipelineCreateInfo)
    (junk : GL33.Indeterminate)
| DestroyPipeline33 (pipeline : nat).

Definition run_op33 (D : Driver) (K : GL33.CullFlags) (size_bits : Z)
    (op : Op33) : M GL33.World unit :=
  match op with
  | CreateBuffer33 info =>
      bind (GL33.createBuffer D size_bits info) (fun _ => ret tt)
  | DestroyBuffer33 buffer => GL33.destroyBuffer D buffer
  | CreatePipeline33 info junk =>
      bind (GL33.createPipeline D K info junk) (fun _ => ret tt)
  | DestroyPipeline33 pipeline => GL33.destroyPipeline D pipeline
  end.

Inductive Op46 : Type :=
| CreateBuffer46 (info : GL46.BufferInfo)
| DestroyBuffer46 (buffer : nat)
| ResizeBuffer46 (buffer : nat) (size : Z) (data : option bytes)
| CreatePipeline46 (info : GL46.PipelineInfo)
| DestroyPipeline46 (pipeline : nat).

Definition run_op46 (D : Driver) (K : GL46.CullFlags) (size_bits : Z)
    (op : Op46) : M GL46.World unit :=
  match op with
  | CreateBuffer46 info =>
      bind (GL46.createBuffer D size_bits info) (fun _ => ret tt)
  | DestroyBuffer46 buffer => GL46.destroyBuffer D buffer
  | ResizeBuffer46 buffer size data =>
      GL46.resizeBuffer D size_bits buffer size data
  | CreatePipeline46 info =>
      bind (GL46.createPipeline D K info) (fun _ => ret tt)
  | DestroyPipeline46 pipeline => GL46.destroyPipeline D pipeline
  end.

(** The relation between the worlds before and after device code that
    issues no command binding the buffer [n]. *)
Definition R33 (n : Z) (w w' : GL33.World) : Prop :=
  quiet n (GL33.gl w) (GL33.gl w').
Definition R46 (n : Z) (w w' : GL46.World) : Prop :=
  quiet n (GL46.gl w) (GL46.gl w').

(** "The buffer does not participate", for one call of
    [GL33.createBuffer]: the call returns a buffer without a slot and
    leaves the notification list as it was. *)
Definition stays_out33 (D : Driver) (size_bits : Z)
    (info : GL33.BufferCreateInfo) (w : GL33.World) : Prop :=
  exists address buffer w',
    GL33.createBuffer D size_bits info w = Some ((address, buffer), w')
    /\ GL33.vbo buffer = None
    /\ GL33.buffers w' = GL33.buffers w.

Definition other_buffer33 (size : Z) : GL33.BufferCreateInfo :=
  {| GL33.bci_type := GL33.OTHER_BUFFER 0; GL33.bci_size := size;
     GL33.bci_data := None |}.
Definition other_buffer46 (size : Z) : GL46.BufferInfo :=
  {| GL46.bi_type := GL46.OTHER_BUFFER 0; GL46.bi_size := size;
     GL46.bi_data := None |}.

Definition sample_pipeline46 : GL46.PipelineInfo := {|
  GL46.pi_blending_enabled := false;
  GL46.pi_blending_equation := GL46.ADD;
  GL46.pi_blending_sfactor := GL46.ONE;
  GL46.pi_blending_dfactor := GL46.ZERO;
  GL46.pi_depth_testing_enabled := false;
  GL46.pi_depth_testing_func := GL46.LESS;
  GL46.pi_face_culling_enabled := false;
  GL46.pi_face_culling_flags := 0;
  GL46.pi_index_type := GL46.INDEX16;
  GL46.pi_primitive_mode := GL46.TRIANGLES;
  GL46.pi_fill_mode := GL46.FILLED;
  GL46.pi_vertex_stride := 16;
  GL46.pi_vertex_attribs :=
    [ {| GL46.id := 0; GL46.type := GL46.FLOAT32; GL46.count := 2;
         GL46.offset := 0; GL46.normalized := false |} ];
  GL46.pi_shaders := []
|}.

(** A pipeline, a vertex buffer and a second pipeline. *)
Definition sample_ops33 : list Op33 :=
  [CreatePipeline33 sample_pipeline33 sample_junk;
   CreateBuffer33 (vertex_buffer33 48);
   CreatePipeline33 sample_pipeline33 sample_junk].
Definition sample_ops46 : list Op46 :=
  [CreatePipeline46 sample_pipeline46;
   CreateBuffer46 (vertex_buffer46 48);
   CreatePipeline46 sample_pipeline46].

(** ** Command lists: what their replay is to give *)

(** The records of a command list: the entries of its vector that [submit]
    visits, in the order of their recording. *)
Definition recorded (cl : GL33.CommandListImpl) : list GL33.Command :=
  take (GL33.num_commands cl) (GL33.commands cl).









(** The node [p] of the heap of vertex arrays is allocated. *)
Definition is_live (heap : list (option GL33.VertexArray_S)) (p : nat)
    : bool :=
  match heap !! p with
  | Some (Some _) => true
  | _ => false
  end.

(** [getVertexArray] can walk [chain]: it has a head and reaches allocated
    nodes only. *)
Definition chain_ok (heap : list (option GL33.VertexArray_S))
    (chain : list nat) : bool :=
  match chain with
  | [] => false
  | _ => forallb (is_live heap) chain
  end.



(** A device with one vertex buffer and one pipeline, and a command list
    that draws with them. *)
Definition sample_scene33 (D : Driver)
    : M GL33.World (GL33.Buffer_S * option GL33.Pipeline_S) :=
  bind (GL33.createBuffer D 64 (vertex_buffer33 48)) (fun buffer =>
  bind (GL33.createPipeline D sample_cull_flags33 sample_pipeline33
          sample_junk) (fun pipeline =>
  bind get (fun w =>
  ret (snd buffer,
       match pipeline with
       | Some address => find_object address (GL33.pipelines w)
       | None => None
       end)))).








(** ** The replay of one record, by the contract of its kind *)





(** * Textures and samplers

    [createTexture], the [writeTexture] family and [createSampler] use no
    member of the 3.3 device, and on the 4.6 device only the registries
    [textures] and [samplers].  They are modelled on the commands they give
    to the context. *)

(** ** Enumerants ([glad/gl.h]) *)

Definition GL_RED : Z := 0x1903.
Definition GL_RGB : Z := 0x1907.
Definition GL_RGBA : Z := 0x1908.
Definition GL_RG : Z := 0x8227.
Definition GL_R8 : Z := 0x8229.
Definition GL_R16 : Z := 0x822A.
Definition GL_RG8 : Z := 0x822B.
Definition GL_RG16 : Z := 0x822C.
Definition GL_R16F : Z := 0x822D.
Definition GL_R32F : Z := 0x822E.
Definition GL_RG16F : Z := 0x822F.
Definition GL_RG32F : Z := 0x8230.
Definition GL_R8I : Z := 0x8231.
Definition GL_R8UI : Z := 0x8232.
Definition GL_R16I : Z := 0x8233.
Definition GL_R16UI : Z := 0x8234.
Definition GL_R32I : Z := 0x8235.
Definition GL_R32UI : Z := 0x8236.
Definition GL_RG8I : Z := 0x8237.
Definition GL_RG8UI : Z := 0x8238.
Definition GL_RG16I : Z := 0x8239.
Definition GL_RG16UI : Z := 0x823A.
Definition GL_RG32I : Z := 0x823B.
Definition GL_RG32UI : Z := 0x823C.
Definition GL_RGB8 : Z := 0x8051.
Definition GL_RGB16 : Z := 0x8054.
Definition GL_RGBA8 : Z := 0x8058.
Definition GL_RGBA16 : Z := 0x805B.
Definition GL_RGBA32F : Z := 0x8814.
Definition GL_RGB32F : Z := 0x8815.
Definition GL_RGBA16F : Z := 0x881A.
Definition GL_RGB16F : Z := 0x881B.
Definition GL_RGBA32UI : Z := 0x8D70.
Definition GL_RGB32UI : Z := 0x8D71.
Definition GL_RGBA16UI : Z := 0x8D76.
Definition GL_RGB16UI : Z := 0x8D77.
Definition GL_RGBA8UI : Z := 0x8D7C.
Definition GL_RGB8UI : Z := 0x8D7D.
Definition GL_RGBA32I : Z := 0x8D82.
Definition GL_RGB32I : Z := 0x8D83.
Definition GL_RGBA16I : Z := 0x8D88.
Definition GL_RGB16I : Z := 0x8D89.
Definition GL_RGBA8I : Z := 0x8D8E.
Definition GL_RGB8I : Z := 0x8D8F.
Definition GL_DEPTH_COMPONENT16 : Z := 0x81A5.
Definition GL_DEPTH_COMPONENT32F : Z := 0x8CAC.
Definition GL_STENCIL_INDEX8 : Z := 0x8D48.
Definition GL_TEXTURE_CUBE_MAP : Z := 0x8513.
Definition GL_TEXTURE_2D_ARRAY : Z := 0x8C1A.
Definition GL_NEAREST : Z := 0x2600.
Definition GL_LINEAR : Z := 0x2601.
Definition GL_TEXTURE_MAG_FILTER : Z := 0x2800.
Definition GL_TEXTURE_MIN_FILTER : Z := 0x2801.
Definition GL_TEXTURE_WRAP_S : Z := 0x2802.
Definition GL_TEXTURE_WRAP_T : Z := 0x2803.
Definition GL_TEXTURE_WRAP_R : Z := 0x8072.
Definition GL_REPEAT : Z := 0x2901.
Definition GL_CLAMP_TO_EDGE : Z := 0x812F.
Definition GL_TEXTURE_MIN_LOD : Z := 0x813A.
Definition GL_TEXTURE_MAX_LOD : Z := 0x813B.
Definition GL_TEXTURE_LOD_BIAS : Z := 0x8501.
Definition GL_TEXTURE_MAX_ANISOTROPY : Z := 0x84FE.

(** ** Public types ([uvre.hpp], as both devices use them) *)

(** [OTHER_FORMAT] stands for the values no [case] of the devices names. *)
Inductive PixelFormat : Type :=
| R8_UNORM | R8_SINT | R8_UINT
| R8G8_UNORM | R8G8_SINT | R8G8_UINT
| R8G8B8_UNORM | R8G8B8_SINT | R8G8B8_UINT
| R8G8B8A8_UNORM | R8G8B8A8_SINT | R8G8B8A8_UINT
| R16_UNORM | R16_SINT | R16_UINT | R16_FLOAT
| R16G16_UNORM | R16G16_SINT | R16G16_UINT | R16G16_FLOAT
| R16G16B16_UNORM | R16G16B16_SINT | R16G16B16_UINT | R16G16B16_FLOAT
| R16G16B16A16_UNORM | R16G16B16A16_SINT | R16G16B16A16_UINT
| R16G16B16A16_FLOAT
| R32_SINT | R32_UINT | R32_FLOAT
| R32G32_SINT | R32G32_UINT | R32G32_FLOAT
| R32G32B32_SINT | R32G32B32_UINT | R32G32B32_FLOAT
| R32G32B32A32_SINT | R32G32B32A32_UINT | R32G32B32A32_FLOAT
| D16_UNORM | D32_FLOAT | S8_UINT
| OTHER_FORMAT (value : Z).

(** [OTHER_TEXTURE] stands for the values no [case] of the devices names. *)
Inductive TextureType : Type :=
| TEXTURE_2D | TEXTURE_CUBE | TEXTURE_ARRAY | OTHER_TEXTURE (value : Z).

(** [type], [format], [width], [height], [depth] and [mip_levels] of
    [TextureCreateInfo] and [TextureInfo]. *)
Record TextureInfo : Type := {
  ti_type : TextureType;
  ti_format : PixelFormat;
  ti_width : Z;
  ti_height : Z;
  ti_depth : Z;
  ti_mip_levels : Z
}.

(** [flags], [aniso_level], [min_lod], [max_lod] and [lod_bias] of
    [SamplerCreateInfo] and [SamplerInfo]. *)
Record SamplerInfo : Type := {
  sa_flags : Z;
  sa_aniso_level : float32;
  sa_min_lod : float32;
  sa_max_lod : float32;
  sa_lod_bias : float32
}.

(** The sampler flag bits of [uvre.hpp], whose values are not in the
    sources. *)
Record SamplerFlags : Type := {
  SAMPLER_CLAMP_S : Z;
  SAMPLER_CLAMP_T : Z;
  SAMPLER_CLAMP_R : Z;
  SAMPLER_FILTER : Z;
  SAMPLER_FILTER_ANISO : Z
}.

(** ** The commands on textures and samplers *)

(** A [GLfloat] argument: an integer enumerant converted to [float], or a
    [float] of the caller. *)
Inductive GLfloat : Type :=
| float_of_int (n : Z)
| float_bits (f : float32).

Inductive TexCall : Type :=
| glGenTextures (name : Z)
| glCreateTextures (target name : Z)
| glDeleteTextures (texture : Z)
| glTexImage2D
    (target level internalformat width height border format type : Z)
    (pixels : option bytes)
| glTexImage3D
    (target level internalformat width height depth border format type : Z)
    (pixels : option bytes)
| glTexSubImage2D
    (target level xoffset yoffset width height format type : Z)
    (pixels : bytes)
| glTexSubImage3D
    (target level xoffset yoffset zoffset width height depth format type : Z)
    (pixels : bytes)
| glTextureStorage2D (texture levels internalformat width height : Z)
| glTextureStorage3D (texture levels internalformat width height depth : Z)
| glTextureSubImage2D
    (texture level xoffset yoffset width height format type : Z)
    (pixels : bytes)
| glTextureSubImage3D
    (texture level xoffset yoffset zoffset width height depth format type : Z)
    (pixels : bytes)
| glGenSamplers (name : Z)
| glCreateSamplers (name : Z)
| glDeleteSamplers (sampler : Z)
| glSamplerParameteri (sampler pname param : Z)
| glSamplerParameterf (sampler pname : Z) (param : GLfloat).

(** The context as these functions command it: the commands given, oldest
    first, among them [glBindTexture] of [GLCall], and the next names of
    the texture and sampler name spaces. *)
Record TexContext : Type := mkTex {
  tex_log : list (GLCall + TexCall);
  next_texture : Z;
  next_sampler : Z
}.

Definition tex_initial : TexContext := mkTex [] 1 1.

Definition tex_exec (c : GLCall + TexCall) (t : TexContext) : TexContext :=
  let log := tex_log t ++ [c] in
  match c with
  | inr (glGenTextures _) | inr (glCreateTextures _ _) =>
      mkTex log (next_texture t + 1) (next_sampler t)
  | inr (glGenSamplers _) | inr (glCreateSamplers _) =>
      mkTex log (next_texture t) (next_sampler t + 1)
  | _ => mkTex log (next_texture t) (next_sampler t)
  end.

(** ** The pixel format tables (the same text in both devices) *)

Definition getInternalFormat (format : PixelFormat) : Z :=
  match format with
  | R8_UNORM => GL_R8
  | R8_SINT => GL_R8I
  | R8_UINT => GL_R8UI
  | R8G8_UNORM => GL_RG8
  | R8G8_SINT => GL_RG8I
  | R8G8_UINT => GL_RG8UI
  | R8G8B8_UNORM => GL_RGB8
  | R8G8B8_SINT => GL_RGB8I
  | R8G8B8_UINT => GL_RGB8UI
  | R8G8B8A8_UNORM => GL_RGBA8
  | R8G8B8A8_SINT => GL_RGBA8I
  | R8G8B8A8_UINT => GL_RGBA8UI
  | R16_UNORM => GL_R16
  | R16_SINT => GL_R16I
  | R16_UINT => GL_R16UI
  | R16_FLOAT => GL_R16F
  | R16G16_UNORM => GL_RG16
  | R16G16_SINT => GL_RG16I
  | R16G16_UINT => GL_RG16UI
  | R16G16_FLOAT => GL_RG16F
  | R16G16B16_UNORM => GL_RGB16
  | R16G16B16_SINT => GL_RGB16I
  | R16G16B16_UINT => GL_RGB16UI
  | R16G16B16_FLOAT => GL_RGB16F
  | R16G16B16A16_UNORM => GL_RGBA16
  | R16G16B16A16_SINT => GL_RGBA16I
  | R16G16B16A16_UINT => GL_RGBA16UI
  | R16G16B16A16_FLOAT => GL_RGBA16F
  | R32_SINT => GL_R32I
  | R32_UINT => GL_R32UI
  | R32_FLOAT => GL_R32F
  | R32G32_SINT => GL_RG32I
  | R32G32_UINT => GL_RG32UI
  | R32G32_FLOAT => GL_RG32F
  | R32G32B32_SINT => GL_RGB32I
  | R32G32B32_UINT => GL_RGB32UI
  | R32G32B32_FLOAT => GL_RGB32F
  | R32G32B32A32_SINT => GL_RGBA32I
  | R32G32B32A32_UINT => GL_RGBA32UI
  | R32G32B32A32_FLOAT => GL_RGBA32F
  | D16_UNORM => GL_DEPTH_COMPONENT16
  | D32_FLOAT => GL_DEPTH_COMPONENT32F
  | S8_UINT => GL_STENCIL_INDEX8
  | OTHER_FORMAT _ => 0
  end.

(** The first [switch] of [getExternalFormat]: [fmt], or [return false]. *)
Definition external_fmt (format : PixelFormat) : option Z :=
  match format with
  | R8_UNORM | R8_SINT | R8_UINT | R16_UNORM | R16_SINT | R16_UINT
  | R16_FLOAT | R32_SINT | R32_UINT | R32_FLOAT => Some GL_RED
  | R8G8_UNORM | R8G8_SINT | R8G8_UINT | R16G16_UNORM | R16G16_SINT
  | R16G16_UINT | R16G16_FLOAT | R32G32_SINT | R32G32_UINT
  | R32G32_FLOAT => Some GL_RG
  | R8G8B8_UNORM | R8G8B8_SINT | R8G8B8_UINT | R16G16B16_UNORM
  | R16G16B16_SINT | R16G16B16_UINT | R16G16B16_FLOAT | R32G32B32_SINT
  | R32G32B32_UINT | R32G32B32_FLOAT => Some GL_RGB
  | R8G8B8A8_UNORM | R8G8B8A8_SINT | R8G8B8A8_UINT | R16G16B16A16_UNORM
  | R16G16B16A16_SINT | R16G16B16A16_UINT | R16G16B16A16_FLOAT
  | R32G32B32A32_SINT | R32G32B32A32_UINT | R32G32B32A32_FLOAT =>
      Some GL_RGBA
  | _ => None
  end.

(** The second [switch] of [getExternalFormat]: [type], or
    [return false]. *)
Definition external_type (format : PixelFormat) : option Z :=
  match format with
  | R8_SINT | R8G8_SINT | R8G8B8_SINT | R8G8B8A8_SINT => Some GL_BYTE
  | R8_UNORM | R8_UINT | R8G8_UNORM | R8G8_UINT | R8G8B8_UNORM
  | R8G8B8_UINT | R8G8B8A8_UNORM | R8G8B8A8_UINT => Some GL_UNSIGNED_BYTE
  | R16_SINT | R16G16_SINT | R16G16B16_SINT | R16G16B16A16_SINT =>
      Some GL_SHORT
  | R16_UNORM | R16_UINT | R16G16_UNORM | R16G16_UINT | R16G16B16_UNORM
  | R16G16B16_UINT | R16G16B16A16_UNORM | R16G16B16A16_UINT =>
      Some GL_UNSIGNED_SHORT
  | R32_SINT | R32G32_SINT | R32G32B32_SINT | R32G32B32A32_SINT =>
      Some GL_INT
  | R32_UINT | R32G32_UINT | R32G32B32_UINT | R32G32B32A32_UINT =>
      Some GL_UNSIGNED_INT
  | R32_FLOAT | R32G32_FLOAT | R32G32B32_FLOAT | R32G32B32A32_FLOAT =>
      Some GL_FLOAT
  | _ => None
  end.

(** [Some (fmt, type)] when the function returns [true]. *)
Definition getExternalFormat (format : PixelFormat) : option (Z * Z) :=
  match external_fmt format with
  | Some fmt =>
      match external_type format with
      | Some type => Some (fmt, type)
      | None => None
      end
  | None => None
  end.

Definition tex_call {St} (ctx : St -> TexContext)
    (set_ctx : TexContext -> St -> St) (c : GLCall + TexCall) : M St unit :=
  modify (fun s => set_ctx (tex_exec c (ctx s)) s).

(** ** The 3.3 device ([gl33_renderdevice.cpp]) *)

Module Tex33.

Record Sampler_S : Type := {
  ssobj : Z
}.

Section Device.

Context (F : SamplerFlags).

Local Open Scope m_scope.

Definition gl_call (c : GLCall + TexCall) : M TexContext unit :=
  tex_call (fun t => t) (fun t _ => t) c.

(** [glGenTextures] and [glGenSamplers]: the context hands out the next
    name of the name space. *)
Definition gl_gen_texture : M TexContext Z :=
  do t <- get;
  run gl_call (inr (glGenTextures (next_texture t)));
  ret (next_texture t).

Definition gl_gen_sampler : M TexContext Z :=
  do t <- get;
  run gl_call (inr (glGenSamplers (next_sampler t)));
  ret (next_sampler t).

Definition destroySampler (sampler : Sampler_S) : M TexContext unit :=
  gl_call (inr (glDeleteSamplers (ssobj sampler))).

Definition destroyTexture (texture : GL33.Texture_S) : M TexContext unit :=
  gl_call (inr (glDeleteTextures (GL33.texobj texture))).

Definition createSampler (info : SamplerInfo) : M TexContext Sampler_S :=
  do ssobj <- gl_gen_sampler;
  run gl_call (inr (glSamplerParameteri ssobj GL_TEXTURE_WRAP_S
                      (if GL33.has_flag (sa_flags info) (SAMPLER_CLAMP_S F)
                       then GL_CLAMP_TO_EDGE else GL_REPEAT)));
  run gl_call (inr (glSamplerParameteri ssobj GL_TEXTURE_WRAP_T
                      (if GL33.has_flag (sa_flags info) (SAMPLER_CLAMP_T F)
                       then GL_CLAMP_TO_EDGE else GL_REPEAT)));
  run gl_call (inr (glSamplerParameteri ssobj GL_TEXTURE_WRAP_R
                      (if GL33.has_flag (sa_flags info) (SAMPLER_CLAMP_R F)
                       then GL_CLAMP_TO_EDGE else GL_REPEAT)));
  run (if GL33.has_flag (sa_flags info) (SAMPLER_FILTER F) then
         run gl_call (inr (glSamplerParameterf ssobj GL_TEXTURE_MIN_FILTER
                             (float_of_int GL_LINEAR)));
         gl_call (inr (glSamplerParameterf ssobj GL_TEXTURE_MAG_FILTER
                         (float_of_int GL_LINEAR)))
       else
         run gl_call (inr (glSamplerParameterf ssobj GL_TEXTURE_MIN_FILTER
                             (float_of_int GL_NEAREST)));
         gl_call (inr (glSamplerParameterf ssobj GL_TEXTURE_MAG_FILTER
                         (float_of_int GL_NEAREST))));
  run gl_call (inr (glSamplerParameterf ssobj GL_TEXTURE_MIN_LOD
                      (float_bits (sa_min_lod info))));
  run gl_call (inr (glSamplerParameterf ssobj GL_TEXTURE_MAX_LOD
                      (float_bits (sa_max_lod info))));
  run gl_call (inr (glSamplerParameterf ssobj GL_TEXTURE_LOD_BIAS
                      (float_bits (sa_lod_bias info))));
  ret {| ssobj := ssobj |}.

(** [mip_levels] is computed and not used.  [None] is the null handle. *)
Definition createTexture (info : TextureInfo)
    : M TexContext (option GL33.Texture_S) :=
  let format := getInternalFormat (ti_format info) in
  do texobj <- gl_gen_texture;
  do target <-
    match ti_type info with
    | TEXTURE_2D =>
        let target := GL_TEXTURE_2D in
        run gl_call (inl (glBindTexture target texobj));
        run gl_call (inr (glTexImage2D target 0 (int32 format)
                            (int32 (ti_width info)) (int32 (ti_height info))
                            0 GL_RED GL_FLOAT None));
        ret (Some target)
    | TEXTURE_CUBE =>
        let target := GL_TEXTURE_CUBE_MAP in
        run gl_call (inl (glBindTexture target texobj));
        run gl_call (inr (glTexImage2D target 0 (int32 format)
                            (int32 (ti_width info)) (int32 (ti_height info))
                            0 GL_RED GL_FLOAT None));
        ret (Some target)
    | TEXTURE_ARRAY =>
        let target := GL_TEXTURE_2D_ARRAY in
        run gl_call (inl (glBindTexture target texobj));
        run gl_call (inr (glTexImage3D target 0 (int32 format)
                            (int32 (ti_width info)) (int32 (ti_height info))
                            (int32 (ti_depth info)) 0 GL_RED GL_FLOAT None));
        ret (Some target)
    | OTHER_TEXTURE _ => ret None
    end;
  match target with
  | Some target =>
      ret (Some {| GL33.texobj := texobj; GL33.format := format;
                   GL33.target := target;
                   GL33.width := int32 (ti_width info);
                   GL33.height := int32 (ti_height info);
                   GL33.depth := int32 (ti_depth info) |})
  | None => ret None
  end.

Definition writeTexture2D (texture : GL33.Texture_S) (x y w h : Z)
    (format : PixelFormat) (data : bytes) : M TexContext unit :=
  match getExternalFormat format with
  | None => ret tt
  | Some (fmt, type) =>
      run gl_call (inl (glBindTexture GL_TEXTURE_2D (GL33.texobj texture)));
      gl_call (inr (glTexSubImage2D GL_TEXTURE_2D 0 x y w h fmt type data))
  end.

Definition writeTextureCube (texture : GL33.Texture_S) (face x y w h : Z)
    (format : PixelFormat) (data : bytes) : M TexContext unit :=
  match getExternalFormat format with
  | None => ret tt
  | Some (fmt, type) =>
      run gl_call (inl (glBindTexture GL_TEXTURE_CUBE_MAP
                          (GL33.texobj texture)));
      gl_call (inr (glTexSubImage3D GL_TEXTURE_CUBE_MAP 0 x y face w h 1
                      fmt type data))
  end.

Definition writeTextureArray (texture : GL33.Texture_S) (x y z w h d : Z)
    (format : PixelFormat) (data : bytes) : M TexContext unit :=
  match getExternalFormat format with
  | None => ret tt
  | Some (fmt, type) =>
      run gl_call (inl (glBindTexture GL_TEXTURE_2D_ARRAY
                          (GL33.texobj texture)));
      gl_call (inr (glTexSubImage3D GL_TEXTURE_2D_ARRAY 0 x y z w h d
                      fmt type data))
  end.

End Device.

End Tex33.

(** ** The 4.6 device ([gl_renderdevice.cpp]) *)

Module Tex46.

Record Sampler : Type := {
  ssobj : Z
}.

(** The members of [GLRenderDevice] that these functions use, with the
    heap addresses and the context. *)
Record World : Type := mkWorld {
  samplers : list (nat * Sampler);
  textures : list (nat * GL46.Texture);
  next_address : nat;
  ctx : TexContext
}.

Definition set_samplers (l : list (nat * Sampler)) (w : World) : World :=
  mkWorld l (textures w) (next_address w) (ctx w).
Definition set_textures (l : list (nat * GL46.Texture)) (w : World)
    : World :=
  mkWorld (samplers w) l (next_address w) (ctx w).
Definition set_next_address (n : nat) (w : World) : World :=
  mkWorld (samplers w) (textures w) n (ctx w).
Definition set_ctx (t : TexContext) (w : World) : World :=
  mkWorld (samplers w) (textures w) (next_address w) t.

Section Device.

Context (F : SamplerFlags).

Local Open Scope m_scope.

Definition gl_call (c : GLCall + TexCall) : M World unit :=
  tex_call ctx set_ctx c.

(** [glCreateTextures] and [glCreateSamplers]: the context hands out the
    next name of the name space. *)
Definition gl_create_texture (target : Z) : M World Z :=
  do w <- get;
  run gl_call (inr (glCreateTextures target (next_texture (ctx w))));
  ret (next_texture (ctx w)).

Definition gl_create_sampler : M World Z :=
  do w <- get;
  run gl_call (inr (glCreateSamplers (next_sampler (ctx w))));
  ret (next_sampler (ctx w)).

Definition new_address : M World nat :=
  do w <- get;
  run modify (set_next_address (S (next_address w)));
  ret (next_address w).

(** Returns the address of the new [Sampler]. *)
Definition createSampler (info : SamplerInfo) : M World nat :=
  do ssobj <- gl_create_sampler;
  run gl_call (inr (glSamplerParameteri ssobj GL_TEXTURE_WRAP_S
                      (if GL46.has_flag (sa_flags info) (SAMPLER_CLAMP_S F)
                       then GL_CLAMP_TO_EDGE else GL_REPEAT)));
  run gl_call (inr (glSamplerParameteri ssobj GL_TEXTURE_WRAP_T
                      (if GL46.has_flag (sa_flags info) (SAMPLER_CLAMP_T F)
                       then GL_CLAMP_TO_EDGE else GL_REPEAT)));
  run gl_call (inr (glSamplerParameteri ssobj GL_TEXTURE_WRAP_R
                      (if GL46.has_flag (sa_flags info) (SAMPLER_CLAMP_R F)
                       then GL_CLAMP_TO_EDGE else GL_REPEAT)));
  run (if GL46.has_flag (sa_flags info) (SAMPLER_FILTER F) then
         run (if GL46.has_flag (sa_flags info) (SAMPLER_FILTER_ANISO F) then
                gl_call (inr (glSamplerParameterf ssobj
                                GL_TEXTURE_MAX_ANISOTROPY
                                (float_bits (sa_aniso_level info))))
              else ret tt);
         run gl_call (inr (glSamplerParameterf ssobj GL_TEXTURE_MIN_FILTER
                             (float_of_int GL_LINEAR)));
         gl_call (inr (glSamplerParameterf ssobj GL_TEXTURE_MAG_FILTER
                         (float_of_int GL_LINEAR)))
       else
         run gl_call (inr (glSamplerParameterf ssobj GL_TEXTURE_MIN_FILTER
                             (float_of_int GL_NEAREST)));
         gl_call (inr (glSamplerParameterf ssobj GL_TEXTURE_MAG_FILTER
                         (float_of_int GL_NEAREST))));
  run gl_call (inr (glSamplerParameterf ssobj GL_TEXTURE_MIN_LOD
                      (float_bits (sa_min_lod info))));
  run gl_call (inr (glSamplerParameterf ssobj GL_TEXTURE_MAX_LOD
                      (float_bits (sa_max_lod info))));
  run gl_call (inr (glSamplerParameterf ssobj GL_TEXTURE_LOD_BIAS
                      (float_bits (sa_lod_bias info))));
  do address <- new_address;
  run modify (fun w =>
        set_samplers (samplers w ++ [(address, {| ssobj := ssobj |})]) w);
  ret address.

Definition destroySampler (sampler : nat) : M World unit :=
  do w <- get;
  match find_object sampler (samplers w) with
  | Some object =>
      run modify (set_samplers (erase_first sampler (samplers w)));
      gl_call (inr (glDeleteSamplers (ssobj object)))
  | None => ret tt
  end.

(** Returns the address of the new [Texture], or null. *)
Definition createTexture (info : TextureInfo) : M World (option nat) :=
  do address <- new_address;
  let format := getInternalFormat (ti_format info) in
  let width := int32 (ti_width info) in
  let height := int32 (ti_height info) in
  let depth := int32 (ti_depth info) in
  let levels := int32 (Z.max 1 (uint32 (ti_mip_levels info))) in
  do texobj <-
    match ti_type info with
    | TEXTURE_2D =>
        do texobj <- gl_create_texture GL_TEXTURE_2D;
        run gl_call (inr (glTextureStorage2D texobj levels format width
                            height));
        ret (Some texobj)
    | TEXTURE_CUBE =>
        do texobj <- gl_create_texture GL_TEXTURE_CUBE_MAP;
        run gl_call (inr (glTextureStorage2D texobj levels format width
                            height));
        ret (Some texobj)
    | TEXTURE_ARRAY =>
        do texobj <- gl_create_texture GL_TEXTURE_2D_ARRAY;
        run gl_call (inr (glTextureStorage3D texobj levels format width
                            height depth));
        ret (Some texobj)
    | OTHER_TEXTURE _ => ret None
    end;
  match texobj with
  | Some texobj =>
      let texture := {| GL46.texobj := texobj; GL46.format := format;
                        GL46.width := width; GL46.height := height;
                        GL46.depth := depth |} in
      run modify (fun w =>
            set_textures (textures w ++ [(address, texture)]) w);
      ret (Some address)
  | None => ret None
  end.

Definition destroyTexture (texture : nat) : M World unit :=
  do w <- get;
  match find_object texture (textures w) with
  | Some object =>
      run modify (set_textures (erase_first texture (textures w)));
      gl_call (inr (glDeleteTextures (GL46.texobj object)))
  | None => ret tt
  end.

Definition writeTexture2D (texture : GL46.Texture) (x y w h : Z)
    (format : PixelFormat) (data : bytes) : M World bool :=
  match getExternalFormat format with
  | Some (fmt, type) =>
      run gl_call (inr (glTextureSubImage2D (GL46.texobj texture) 0 x y w h
                          fmt type data));
      ret true
  | None => ret false
  end.

Definition writeTextureCube (texture : GL46.Texture) (face x y w h : Z)
    (format : PixelFormat) (data : bytes) : M World bool :=
  match getExternalFormat format with
  | Some (fmt, type) =>
      run gl_call (inr (glTextureSubImage3D (GL46.texobj texture) 0 x y face
                          w h 1 fmt type data));
      ret true
  | None => ret false
  end.

Definition writeTextureArray (texture : GL46.Texture) (x y z w h d : Z)
    (format : PixelFormat) (data : bytes) : M World bool :=
  match getExternalFormat format with
  | Some (fmt, type) =>
      run gl_call (inr (glTextureSubImage3D (GL46.texobj texture) 0 x y z
                          w h d fmt type data));
      ret true
  | None => ret false
  end.

End Device.

End Tex46.

(** The formats for which [getInternalFormat] has a case and
    [getExternalFormat] returns [false]: the half-float formats, which the
    second [switch] of [getExternalFormat] does not name, and the depth and
    stencil formats. *)
Definition unwritable_formats : list PixelFormat :=
  [R16_FLOAT; R16G16_FLOAT; R16G16B16_FLOAT; R16G16B16A16_FLOAT;
   D16_UNORM; D32_FLOAT; S8_UINT].

Definition named_texture_type (type : TextureType) : bool :=
  match type with
  | OTHER_TEXTURE _ => false
  | _ => true
  end.

Definition sets_anisotropy (c : GLCall + TexCall) : Prop :=
  match c with
  | inr (glSamplerParameterf _ pname _) => pname = GL_TEXTURE_MAX_ANISOTROPY
  | _ => False
  end.

Definition sample_sampler_flags : SamplerFlags :=
  {| SAMPLER_CLAMP_S := 1; SAMPLER_CLAMP_T := 2; SAMPLER_CLAMP_R := 4;
     SAMPLER_FILTER := 8; SAMPLER_FILTER_ANISO := 16 |}.

Definition sample_texture_info (format : PixelFormat) : TextureInfo :=
  {| ti_type := TEXTURE_2D; ti_format := format; ti_width := 640;
     ti_height := 480; ti_depth := 1; ti_mip_levels := 0 |}.

Definition fresh_tex46 : Tex46.World := Tex46.mkWorld [] [] 0 tex_initial.


(** ** Single records *)

(** The group object that the replay of a vertex-buffer bind asks for:
    the slot of the buffer divided by [max_vbo_bindings]. *)
Definition slot_group (w : GL33.World) (buffer : GL33.Buffer_S) : option Z :=
  match GL33.vbo buffer with
  | Some slot =>
      match chain_get (GL33.vbos w) slot with
      | Some binding =>
          udiv32 (GL33.vbo_index binding) (GL33.max_vbo_bindings w)
      | None => None
      end
  | None => None
  end.

(** [chain] has a node of index [group]. *)
Definition has_group (heap : list (option GL33.VertexArray_S))
    (chain : list nat) (group : Z) : bool :=
  existsb (fun p => match heap !! p with
                    | Some (Some n) => GL33.va_index n =? group
                    | _ => false
                    end) chain.

(** The sample device with its pipeline bound by the replay of a
    [BIND_PIPELINE] record; returns the vertex buffer. *)
Definition sample_bound33 (D : Driver) : M GL33.World GL33.Buffer_S :=
  bind (sample_scene33 D) (fun scene =>
  match snd scene with
  | Some pipeline =>
      bind (GL33.submit_command D 64 (GL33.BIND_PIPELINE pipeline))
        (fun _ => ret (fst scene))
  | None => undefined
  end).

(** The commands that bind an index buffer in the context. *)
Definition binds_index_buffer (c : GLCall) : Prop :=
  match c with
  | glBindBuffer target _ => target = GL_ELEMENT_ARRAY_BUFFER
  | _ => False
  end.

Definition is_bind_vertex_buffer (cmd : GL33.Command) : bool :=
  match cmd with
  | GL33.BIND_VERTEX_BUFFER _ => true
  | _ => false
  end.

(** From [g] to [g'] the context was given commands of [P] only. *)
Definition issued (D : Driver) (P : GLCall -> Prop) (g g' : GLState)
    : Prop :=
  exists calls, g' = gl_run D calls g /\ Forall P calls.

(** A command list that binds an index buffer and draws with it, and binds
    no vertex buffer. *)
Definition indexed_commands33 (pipeline : GL33.Pipeline_S)
    : GL33.CommandListImpl :=
  {| GL33.commands :=
       [GL33.BIND_PIPELINE pipeline; GL33.BIND_INDEX_BUFFER 7;
        GL33.WRITE_BUFFER 7 0 6 []; GL33.IDRAW 3 1 0 0 0];
     GL33.num_commands := 4 |}.


(** ** The slot allocator *)

(** The nodes of a chain are numbered by their addresses: a node bears the
    number of the nodes behind it. *)
Fixpoint numbered33 (chain : list GL33.VBOBinding) : bool :=
  match chain with
  | [] => true
  | node :: next =>
      (GL33.vbo_index node =? Z.of_nat (length next)) && numbered33 next
  end.

(** [m] leaves [f] of the state as it was, whenever it returns. *)
Definition keeps {St A X} (f : St -> X) (m : M St A) : Prop :=
  forall s a s', m s = Some (a, s') -> f s' = f s.

(** What the operations on pipelines leave alone on the 3.3 device: the
    slot chain, the notification list of the buffers and the number of
    bindings of a vertex array. *)
Definition slots_of33 (w : GL33.World)
    : list GL33.VBOBinding * list (nat * GL33.Buffer_S) * Z :=
  (GL33.vbos w, GL33.buffers w, GL33.max_vbo_bindings w).

(** What the walk of a chain of vertex arrays leaves alone: all of the
    device but the heap of vertex arrays and the context. *)
Definition rest33 (w : GL33.World) :=
  (GL33.onDebugMessage w, GL33.max_vbo_bindings w, GL33.vbos w,
   GL33.bound_pipeline w, GL33.pipelines w, GL33.buffers w,
   GL33.next_address w, GL33.debug_messages w).

(** The handle that an application passes to destroy a buffer designates
    the object at its address. *)
Definition valid_op33 (w : GL33.World) (op : Op33) : Prop :=
  match op with
  | DestroyBuffer33 buffer =>
      registered (fst buffer) (GL33.buffers w) = true ->
      buffer ∈ GL33.buffers w
  | _ => True
  end.

(** The devices that an application reaches from a new device by creating
    and destroying buffers and pipelines. *)
Inductive reachable33 (D : Driver) (K : GL33.CullFlags) (size_bits : Z)
    : GL33.World -> Prop :=
| reachable33_new info_onDebugMessage g :
    reachable33 D K size_bits (GL33.RenderDeviceImpl D info_onDebugMessage g)
| reachable33_step w op w' :
    reachable33 D K size_bits w ->
    valid_op33 w op ->
    run_op33 D K size_bits op w = Some (tt, w') ->
    reachable33 D K size_bits w'.

(** The nodes that the registered buffers hold. *)
Definition held33 (w : GL33.World) : list (option nat) :=
  (fun x => GL33.vbo (snd x)) <$> GL33.buffers w.

(** What the device keeps of its slot chain and its notification list. *)
Definition slots_inv33 (w : GL33.World) : Prop :=
  GL33.vbos w <> []
  /\ numbered33 (GL33.vbos w) = true
  /\ Forall (fun x => (fst x < GL33.next_address w)%nat) (GL33.buffers w)
  /\ NoDup (GL33.buffers w).*1
  /\ NoDup (held33 w)
  /\ forall o,
       o ∈ held33 w <->
       exists p binding,
         o = Some p /\ chain_get (GL33.vbos w) p = Some binding
         /\ GL33.is_free binding = false.

(** The device after [op], and the device itself where [op] is undefined. *)
Definition after33 (D : Driver) (K : GL33.CullFlags) (size_bits : Z)
    (op : Op33) (w : GL33.World) : GL33.World :=
  match run_op33 D K size_bits op w with
  | Some (_, w') => w'
  | None => w
  end.

(** The handle of the buffer registered first. *)
Definition sample_handle33 (w : GL33.World) : nat * GL33.Buffer_S :=
  match GL33.buffers w with
  | handle :: _ => handle
  | [] => (0%nat, {| GL33.bufobj := 0; GL33.size := 0; GL33.vbo := None |})
  end.

(** A device that has created three vertex buffers and a pipeline, destroyed
    the first of the buffers, and then created a fourth. *)
Definition sample_reached33 : GL33.World :=
  let step := after33 sample_driver sample_cull_flags33 64 in
  let w := step (CreateBuffer33 (vertex_buffer33 48))
             (fresh33 sample_driver) in
  let w := step (CreatePipeline33 sample_pipeline33 sample_junk) w in
  let w := step (CreateBuffer33 (vertex_buffer33 16)) w in
  let w := step (CreateBuffer33 (vertex_buffer33 32)) w in
  let w := step (DestroyBuffer33 (sample_handle33 w)) w in
  step (CreateBuffer33 (vertex_buffer33 24)) w.


(** ** The slot allocator of the 4.6 device *)

(** The numbers that the allocator of the 4.6 device gives: 0 to the tail
    of the chain and 1 to every node before it. *)
Fixpoint tail_numbered46 (chain : list GL46.VBOBinding) : bool :=
  match chain with
  | [] => false
  | node :: next =>
      match next with
      | [] => GL46.vbo_index node =? 0
      | _ :: _ => (GL46.vbo_index node =? 1) && tail_numbered46 next
      end
  end.

(** What the calls of the context leave alone on the 4.6 device: the slot
    chain, the list of buffers and the next address. *)
Definition slots_of46 (w : GL46.World)
    : list GL46.VBOBinding * list (nat * GL46.Buffer) * nat :=
  (GL46.vbos w, GL46.buffers w, GL46.next_address w).

(** The devices that an application reaches from a new 4.6 device by
    creating, resizing and destroying buffers and pipelines. *)
Inductive reachable46 (D : Driver) (K : GL46.CullFlags)
    (size_bits sizeof_DrawCmd : Z) : GL46.World -> Prop :=
| reachable46_new info_onMessage g :
    reachable46 D K size_bits sizeof_DrawCmd
      (GL46.GLRenderDevice D size_bits sizeof_DrawCmd info_onMessage g)
| reachable46_step w op w' :
    reachable46 D K size_bits sizeof_DrawCmd w ->
    run_op46 D K size_bits op w = Some (tt, w') ->
    reachable46 D K size_bits sizeof_DrawCmd w'.

Definition after46 (D : Driver) (K : GL46.CullFlags) (size_bits : Z)
    (op : Op46) (w : GL46.World) : GL46.World :=
  match run_op46 D K size_bits op w with
  | Some (_, w') => w'
  | None => w
  end.

(** A 4.6 device that has created four vertex buffers and a pipeline and
    destroyed the buffer registered first. *)
Definition sample_reached46 : GL46.World :=
  let step := after46 sample_driver sample_cull_flags46 64 in
  let w := step (CreateBuffer46 (vertex_buffer46 48))
             (fresh46 sample_driver) in
  let w := step (CreatePipeline46 sample_pipeline46) w in
  let w := step (CreateBuffer46 (vertex_buffer46 16)) w in
  let w := step (CreateBuffer46 (vertex_buffer46 32)) w in
  let w := step (CreateBuffer46 (vertex_buffer46 24)) w in
  step (DestroyBuffer46 0%nat) w.

(** What the 4.6 device keeps of its buffers: the addresses of the live
    buffers are distinct and below the next address, and the nodes they
    hold are nodes of the slot chain. *)
Definition buffers_inv46 (w : GL46.World) : Prop :=
  tail_numbered46 (GL46.vbos w) = true
  /\ Forall (fun x => (fst x < GL46.next_address w)%nat) (GL46.buffers w)
  /\ NoDup (GL46.buffers w).*1
  /\ Forall (fun x => forall p, GL46.vbo (snd x) = Some p ->
                                (p < length (GL46.vbos w))%nat)
       (GL46.buffers w).

(** A vertex buffer of 48 bytes on a new 4.6 device. *)
Definition sample_buffer46 : GL46.World :=
  after46 sample_driver sample_cull_flags46 64
    (CreateBuffer46 (vertex_buffer46 48)) (fresh46 sample_driver).


(** ** The vertex array of a new pipeline of the 4.6 device *)

(** The slot of a buffer object of the 4.6 device. *)
Definition slot_of46 (w : GL46.World) (buffer : GL46.Buffer) : option Z :=
  match GL46.vbo buffer with
  | Some p => GL46.vbo_index <$> chain_get (GL46.vbos w) p
  | None => None
  end.

(** The live buffer of slot [i] that was registered last. *)
Definition last_of_slot46 (w : GL46.World) (i : Z) : option Z :=
  (fun x => GL46.bufobj (snd x))
  <$> last (filter (fun x => slot_of46 w (snd x) = Some i) (GL46.buffers w)).

(** The command that binds [x] into the vertex array [vaobj], for the
    buffers that hold a slot. *)
Definition vertex_buffer_call46 (w : GL46.World) (vaobj stride : Z)
    (x : nat * GL46.Buffer) : option GLCall :=
  (fun i => glVertexArrayVertexBuffer vaobj i (GL46.bufobj (snd x)) 0
              (int32 stride))
  <$> slot_of46 w (snd x).

(** Every node that a live buffer holds is a node of the slot chain. *)
Definition held_in_chain46 (w : GL46.World) : Prop :=
  Forall (fun x => forall p, GL46.vbo (snd x) = Some p ->
                             (p < length (GL46.vbos w))%nat)
    (GL46.buffers w).

(** * Properties *)

(** ** The OpenGL context *)

Lemma gl_exec_log D c g : gl_log (gl_exec D c g) = gl_log g ++ [c].
Proof. destruct g, c; reflexivity. Qed.

Lemma wrap_small w x : 0 <= x < 2 ^ w -> wrap w x = x.
Proof. intros H. unfold wrap. apply Z.mod_small, H. Qed.

(** ** Immediate buffer writes *)

Section WriteBuffer.

Context (D : Driver) (size_bits : Z).

Lemma writeBuffer33_spec b offset size data w :
  GL33.writeBuffer D size_bits b offset size data w =
  if wrap size_bits (offset + size) >? GL33.size b then Some (tt, w)
  else Some (tt, written33 D size_bits b offset size data w).
Proof.
  unfold GL33.writeBuffer. destruct (_ >? _); reflexivity.
Qed.

Lemma writeBuffer46_spec b offset size data w :
  GL46.writeBuffer D size_bits b offset size data w =
  if wrap size_bits (offset + size) >=? GL46.size b then Some (false, w)
  else Some (true, written46 D size_bits b offset size data w).
Proof.
  unfold GL46.writeBuffer. destruct (_ >=? _); reflexivity.
Qed.

Lemma written33_log b offset size data w :
  gl_log (GL33.gl (written33 D size_bits b offset size data w)) =
  gl_log (GL33.gl w)
  ++ [glBindBuffer GL_COPY_READ_BUFFER (GL33.bufobj b);
      glBufferSubData GL_COPY_READ_BUFFER (to_signed size_bits offset)
        (to_signed size_bits size) data].
Proof.
  unfold written33. cbn. rewrite !gl_exec_log, <- app_assoc. reflexivity.
Qed.

Lemma written46_log b offset size data w :
  gl_log (GL46.gl (written46 D size_bits b offset size data w)) =
  gl_log (GL46.gl w)
  ++ [glNamedBufferSubData (GL46.bufobj b) (to_signed size_bits offset)
        (to_signed size_bits size) data].
Proof. unfold written46. cbn. apply gl_exec_log. Qed.

(** Without overflow of [offset + size], a write past the end of the
    buffer is rejected by both devices: nothing is issued, the world is
    unchanged, and the 4.6 device returns [false]. *)
Lemma writeBuffer_rejects_out_of_range b33 b46 offset size data w33 w46 :
  0 <= offset -> 0 <= size -> offset + size < 2 ^ size_bits ->
  offset + size > GL33.size b33 ->
  offset + size > GL46.size b46 ->
  GL33.writeBuffer D size_bits b33 offset size data w33 = Some (tt, w33)
  /\ GL46.writeBuffer D size_bits b46 offset size data w46 = Some (false, w46).
Proof.
  intros Ho Hs Hsum H33 H46.
  rewrite writeBuffer33_spec, writeBuffer46_spec, wrap_small by lia.
  destruct (Z.gtb_spec (offset + size) (GL33.size b33)); [|lia].
  destruct (Z.geb_spec (offset + size) (GL46.size b46)); [|lia].
  split; reflexivity.
Qed.

End WriteBuffer.

(** C4 (fails on the code).  With a 64-bit [size_t], a write of one byte
    at offset [2^64 - 1] into a buffer of 16 bytes ends past the buffer,
    and yet both devices issue it to OpenGL; the 4.6 device reports
    success. *)
Theorem writeBuffer_overflow_is_issued :
  forall D data (w33 : GL33.World) (w46 : GL46.World),
    let b33 := {| GL33.bufobj := 7; GL33.vbo := None; GL33.size := 16 |} in
    let b46 := {| GL46.bufobj := 7; GL46.vbo := None; GL46.size := 16 |} in
    let offset := 2 ^ 64 - 1 in
    offset + 1 > 16
    /\ GL33.writeBuffer D 64 b33 offset 1 data w33
       = Some (tt, written33 D 64 b33 offset 1 data w33)
    /\ GL46.writeBuffer D 64 b46 offset 1 data w46
       = Some (true, written46 D 64 b46 offset 1 data w46)
    /\ In (glBufferSubData GL_COPY_READ_BUFFER (-1) 1 data)
         (gl_log (GL33.gl (written33 D 64 b33 offset 1 data w33)))
    /\ In (glNamedBufferSubData 7 (-1) 1 data)
         (gl_log (GL46.gl (written46 D 64 b46 offset 1 data w46))).
Proof.
  intros D data w33 w46 b33 b46 offset.
  split; [subst offset; lia|].
  split; [rewrite writeBuffer33_spec; reflexivity|].
  split; [rewrite writeBuffer46_spec; reflexivity|].
  rewrite written33_log, written46_log, !in_app_iff.
  split; right; cbn; auto.
Qed.

(** C9.  The guard of [writeBuffer] is evaluated on [offset + size] reduced
    modulo [2^size_bits]: each device issues the write exactly when the
    reduced sum passes its comparison with the capacity.  So for every
    capacity that is not zero there are an offset and a size, both values
    of [size_t], whose sum exceeds the capacity and wraps to a small
    value, for which the guard of both devices passes and the write is
    issued. *)
Theorem writeBuffer_guard_wraps :
  forall D size_bits (b33 : GL33.Buffer_S) (b46 : GL46.Buffer)
         (w33 : GL33.World) (w46 : GL46.World) data,
    0 < size_bits ->
    0 < GL33.size b33 < 2 ^ size_bits ->
    0 < GL46.size b46 < 2 ^ size_bits ->
    (forall offset size,
        GL33.writeBuffer D size_bits b33 offset size data w33
        = Some (tt, if (offset + size) mod 2 ^ size_bits >? GL33.size b33
                    then w33 else written33 D size_bits b33 offset size data w33)
        /\ GL46.writeBuffer D size_bits b46 offset size data w46
           = if (offset + size) mod 2 ^ size_bits >=? GL46.size b46
             then Some (false, w46)
             else Some (true, written46 D size_bits b46 offset size data w46))
    /\ exists offset size,
        0 <= offset < 2 ^ size_bits /\ 0 <= size < 2 ^ size_bits
        /\ offset + size > GL33.size b33
        /\ offset + size > GL46.size b46
        /\ GL33.writeBuffer D size_bits b33 offset size data w33
           = Some (tt, written33 D size_bits b33 offset size data w33)
        /\ GL46.writeBuffer D size_bits b46 offset size data w46
           = Some (true, written46 D size_bits b46 offset size data w46).
Proof.
  intros D size_bits b33 b46 w33 w46 data Hw H33 H46.
  split.
  - intros offset size.
    rewrite writeBuffer33_spec, writeBuffer46_spec. unfold wrap.
    split; [destruct (_ >? _) | destruct (_ >=? _)]; reflexivity.
  - assert (Hpow : 2 <= 2 ^ size_bits).
    { change 2 with (2 ^ 1) at 1. apply Z.pow_le_mono_r; lia. }
    exists (2 ^ size_bits - 1), 1.
    assert (Hwrap : wrap size_bits (2 ^ size_bits - 1 + 1) = 0).
    { unfold wrap. replace (2 ^ size_bits - 1 + 1) with (2 ^ size_bits) by lia.
      apply Z.mod_same. lia. }
    rewrite writeBuffer33_spec, writeBuffer46_spec, Hwrap.
    destruct (Z.gtb_spec 0 (GL33.size b33)); [lia|].
    destruct (Z.geb_spec 0 (GL46.size b46)); [lia|].
    repeat split; try lia.
Qed.

Lemma writeBuffer_guard_wraps_witness :
  let D := sample_driver in
  let w33 := fresh33 D in
  let w46 := fresh46 D in
  exists offset size,
    0 <= offset < 2 ^ 64 /\ 0 <= size < 2 ^ 64
    /\ offset + size > 16 /\ offset + size > 16
    /\ GL33.writeBuffer D 64 (GL33.Build_Buffer_S 3 None 16) offset size [1] w33
       = Some (tt, written33 D 64 (GL33.Build_Buffer_S 3 None 16) offset size
                     [1] w33)
    /\ GL46.writeBuffer D 64 (GL46.Build_Buffer 3 None 16) offset size [1] w46
       = Some (true, written46 D 64 (GL46.Build_Buffer 3 None 16) offset size
                       [1] w46).
Proof.
  intros D w33 w46.
  apply (writeBuffer_guard_wraps D 64 (GL33.Build_Buffer_S 3 None 16)
           (GL46.Build_Buffer 3 None 16) w33 w46 [1]); cbn; lia.
Defined.

(** C10.  At the capacity boundary the two devices disagree: when
    [offset + size] is exactly the capacity (and does not overflow), the
    3.3 device issues the write and the 4.6 device rejects it, returning
    [false] and leaving everything as it was. *)
Theorem writeBuffer_variants_differ_at_capacity :
  forall D size_bits (b33 : GL33.Buffer_S) (b46 : GL46.Buffer)
         offset size data (w33 : GL33.World) (w46 : GL46.World),
    0 <= offset -> 0 <= size -> offset + size < 2 ^ size_bits ->
    offset + size = GL33.size b33 ->
    offset + size = GL46.size b46 ->
    GL33.writeBuffer D size_bits b33 offset size data w33
    = Some (tt, written33 D size_bits b33 offset size data w33)
    /\ gl_log (GL33.gl (written33 D size_bits b33 offset size data w33))
       = gl_log (GL33.gl w33)
         ++ [glBindBuffer GL_COPY_READ_BUFFER (GL33.bufobj b33);
             glBufferSubData GL_COPY_READ_BUFFER (to_signed size_bits offset)
               (to_signed size_bits size) data]
    /\ GL46.writeBuffer D size_bits b46 offset size data w46
       = Some (false, w46).
Proof.
  intros D size_bits b33 b46 offset size data w33 w46 Ho Hs Hsum H33 H46.
  rewrite writeBuffer33_spec, writeBuffer46_spec, wrap_small by lia.
  destruct (Z.gtb_spec (offset + size) (GL33.size b33)); [lia|].
  destruct (Z.geb_spec (offset + size) (GL46.size b46)); [|lia].
  split; [reflexivity|]. split; [apply written33_log | reflexivity].
Qed.

Lemma writeBuffer_variants_differ_at_capacity_witness :
    let D := sample_driver in
    let w33 := fresh33 D in
    let w46 := fresh46 D in
    let b33 := GL33.Build_Buffer_S 3 None 16 in
    let b46 := GL46.Build_Buffer 3 None 16 in
    GL33.writeBuffer D 64 b33 12 4 [1; 2; 3; 4] w33
    = Some (tt, written33 D 64 b33 12 4 [1; 2; 3; 4] w33)
    /\ gl_log (GL33.gl (written33 D 64 b33 12 4 [1; 2; 3; 4] w33))
       = gl_log (GL33.gl w33)
         ++ [glBindBuffer GL_COPY_READ_BUFFER 3;
             glBufferSubData GL_COPY_READ_BUFFER (to_signed 64 12)
               (to_signed 64 4) [1; 2; 3; 4]]
    /\ GL46.writeBuffer D 64 b46 12 4 [1; 2; 3; 4] w46 = Some (false, w46).
Proof.
  intros D w33 w46 b33 b46.
  apply (writeBuffer_variants_differ_at_capacity D 64 b33 b46 12 4
           [1; 2; 3; 4] w33 w46); cbn; lia.
Defined.

(** ** Replay of a bind-pipeline record *)

Lemma gl_run_log D calls g : gl_log (gl_run D calls g) = gl_log g ++ calls.
Proof.
  unfold gl_run. revert g.
  induction calls as [|c calls IH]; intros g; cbn [fold_left].
  - symmetry. apply app_nil_r.
  - rewrite IH, gl_exec_log, <- app_assoc. reflexivity.
Qed.

Lemma gl_run_app D l1 l2 g : gl_run D (l1 ++ l2) g = gl_run D l2 (gl_run D l1 g).
Proof. apply fold_left_app. Qed.

Lemma gl_exec_enabled D c g :
  gl_enabled (gl_exec D c g) =
  match c with
  | glEnable cap => {[cap]} ∪ gl_enabled g
  | glDisable cap => gl_enabled g ∖ {[cap]}
  | _ => gl_enabled g
  end.
Proof. destruct g, c; reflexivity. Qed.

Lemma submit_bind_pipeline D size_bits p w :
  GL33.submit_command D size_bits (GL33.BIND_PIPELINE p) w =
  Some (tt, GL33.set_gl (gl_run D (bind_pipeline_calls p) (GL33.gl w))
              (GL33.set_bound_pipeline p w)).
Proof.
  unfold bind_pipeline_calls.
  destruct p as [? ? ? be ? ? ? de ? ce ? ? se ? ? ? ? ? ? ?].
  destruct be, de, ce, se; reflexivity.
Qed.

Lemma capabilities_distinct :
  GL_BLEND <> GL_DEPTH_TEST /\ GL_BLEND <> GL_CULL_FACE
  /\ GL_BLEND <> GL_SCISSOR_TEST /\ GL_DEPTH_TEST <> GL_CULL_FACE
  /\ GL_DEPTH_TEST <> GL_SCISSOR_TEST /\ GL_CULL_FACE <> GL_SCISSOR_TEST.
Proof. repeat split; discriminate. Qed.

Lemma bind_pipeline_enabled D p g cap :
  cap ∈ gl_enabled (gl_run D (bind_pipeline_calls p) g) <->
  (cap = GL_BLEND /\ GL33.blending_enabled p = true)
  \/ (cap = GL_DEPTH_TEST /\ GL33.depth_testing_enabled p = true)
  \/ (cap = GL_CULL_FACE /\ GL33.face_culling_enabled p = true)
  \/ (cap = GL_SCISSOR_TEST /\ GL33.scissor_test p = true)
  \/ (cap ∈ gl_enabled g /\ cap <> GL_BLEND /\ cap <> GL_DEPTH_TEST
      /\ cap <> GL_CULL_FACE /\ cap <> GL_SCISSOR_TEST).
Proof.
  destruct capabilities_distinct as (Hbd & Hbc & Hbs & Hdc & Hds & Hcs).
  unfold bind_pipeline_calls.
  destruct (GL33.blending_enabled p), (GL33.depth_testing_enabled p),
    (GL33.face_culling_enabled p), (GL33.scissor_test p);
    cbn [app gl_run fold_left]; rewrite !gl_exec_enabled;
    rewrite ?elem_of_union, ?elem_of_difference, ?elem_of_singleton;
    intuition congruence.
Qed.

(** C5.  The replay of a bind-pipeline record makes the recorded pipeline
    the bound one and issues: the unconditional [glDisable] of blending,
    depth test, face culling and scissor test; then, for each of the four
    in turn, its [glEnable] with its parameters when the pipeline has the
    feature enabled, and nothing otherwise.  Afterwards each of the four
    capabilities is enabled in the context exactly when the pipeline being
    bound enables it, whatever was enabled before. *)
Theorem bind_pipeline_resets_features :
  forall D size_bits (p : GL33.Pipeline_S) (w : GL33.World),
  exists w',
    GL33.submit_command D size_bits (GL33.BIND_PIPELINE p) w = Some (tt, w')
    /\ GL33.bound_pipeline w' = p
    /\ gl_log (GL33.gl w') = gl_log (GL33.gl w) ++ bind_pipeline_calls p
    /\ (exists rest,
          bind_pipeline_calls p =
          [glDisable GL_BLEND; glDisable GL_DEPTH_TEST;
           glDisable GL_CULL_FACE; glDisable GL_SCISSOR_TEST] ++ rest
          /\ (In (glEnable GL_BLEND) rest <->
              GL33.blending_enabled p = true)
          /\ (In (glEnable GL_DEPTH_TEST) rest <->
              GL33.depth_testing_enabled p = true)
          /\ (In (glEnable GL_CULL_FACE) rest <->
              GL33.face_culling_enabled p = true)
          /\ (In (glEnable GL_SCISSOR_TEST) rest <->
              GL33.scissor_test p = true))
    /\ gl_is_enabled (GL33.gl w') GL_BLEND = GL33.blending_enabled p
    /\ gl_is_enabled (GL33.gl w') GL_DEPTH_TEST
       = GL33.depth_testing_enabled p
    /\ gl_is_enabled (GL33.gl w') GL_CULL_FACE = GL33.face_culling_enabled p
    /\ gl_is_enabled (GL33.gl w') GL_SCISSOR_TEST = GL33.scissor_test p.
Proof.
  intros D size_bits p w. eexists. split; [apply submit_bind_pipeline|].
  split; [reflexivity|]. split; [apply gl_run_log|]. split.
  - eexists. split; [reflexivity|].
    destruct (GL33.blending_enabled p), (GL33.depth_testing_enabled p),
      (GL33.face_culling_enabled p), (GL33.scissor_test p); cbn;
      repeat split; intros; try tauto; try discriminate;
      repeat match goal with
             | H : _ \/ _ |- _ => destruct H
             | H : False |- _ => destruct H
             end; discriminate.
  - destruct capabilities_distinct as (Hbd & Hbc & Hbs & Hdc & Hds & Hcs).
    unfold gl_is_enabled. cbn [GL33.gl GL33.set_gl].
    repeat split.
    all: match goal with
         | |- bool_decide _ = ?b =>
             destruct b eqn:E;
             [apply bool_decide_eq_true_2 | apply bool_decide_eq_false_2];
             rewrite bind_pipeline_enabled; rewrite ?E; intuition congruence
         end.
Qed.

(** ** Running device code *)

(** Unfold the monad and the accessors of the world; the context commands
    ([gl_exec]) stay folded. *)
Ltac run33 :=
  cbv [bind ret get modify undefined lift_option
       GL33.gl_call GL33.gl_gen GL33.gl_get GL33.send_debug_message
       GL33.new_address GL33.new_vertex_array GL33.deref_vertex_array
       GL33.delete_vertex_array GL33.deref_vbo
       GL33.onDebugMessage GL33.max_vbo_bindings GL33.vbos
       GL33.bound_pipeline GL33.pipelines GL33.buffers GL33.vertex_arrays
       GL33.next_address GL33.gl GL33.debug_messages
       GL33.set_vbos GL33.set_bound_pipeline GL33.set_pipelines
       GL33.set_buffers GL33.set_vertex_arrays GL33.set_next_address
       GL33.set_gl GL33.set_debug_messages].

Ltac run46 :=
  cbv [bind ret get modify undefined lift_option
       GL46.gl_call GL46.gl_gen GL46.gl_get GL46.send_message
       GL46.new_address GL46.deref_vbo
       GL46.onMessage GL46.idbo GL46.vbos GL46.shaders GL46.pipelines
       GL46.buffers GL46.rendertargets GL46.next_address GL46.gl
       GL46.messages
       GL46.set_vbos GL46.set_shaders GL46.set_pipelines GL46.set_buffers
       GL46.set_rendertargets GL46.set_next_address GL46.set_gl
       GL46.set_messages].

Lemma run_bind {St A B} (m : M St A) (k : A -> M St B) s :
  bind m k s = match m s with Some (a, s') => k a s' | None => None end.
Proof. reflexivity. Qed.

Lemma run_ret {St A} (a : A) (s : St) : ret a s = Some (a, s).
Proof. reflexivity. Qed.

Lemma gl_run_cons D c l g : gl_run D (c :: l) g = gl_run D l (gl_exec D c g).
Proof. reflexivity. Qed.

Lemma gl_run_nil D g : gl_run D [] g = g.
Proof. reflexivity. Qed.

Lemma gl_set_gl33 g w : GL33.gl (GL33.set_gl g w) = g.
Proof. reflexivity. Qed.

Lemma gl_set_gl46 g w : GL46.gl (GL46.set_gl g w) = g.
Proof. reflexivity. Qed.

Section Run.

Context (D : Driver).

Lemma set_gl_gl33 w : GL33.set_gl (GL33.gl w) w = w.
Proof. destruct w; reflexivity. Qed.

Lemma set_gl_set_gl33 g g' w :
  GL33.set_gl g (GL33.set_gl g' w) = GL33.set_gl g w.
Proof. reflexivity. Qed.

Lemma run_gl_call33 c w :
  GL33.gl_call D c w = Some (tt, GL33.set_gl (gl_exec D c (GL33.gl w)) w).
Proof. reflexivity. Qed.

Lemma run_gl_gen33 mk w :
  GL33.gl_gen D mk w =
  Some (gl_next_name (GL33.gl w),
        GL33.set_gl (gl_exec D (mk (gl_next_name (GL33.gl w))) (GL33.gl w))
          w).
Proof. reflexivity. Qed.

Lemma run_gl_get33 {A} (q : GLState -> A) w :
  GL33.gl_get q w = Some (q (GL33.gl w), w).
Proof. reflexivity. Qed.

Lemma for_each_gl_call33 {A} (f : A -> GLCall) l w :
  for_each l (fun x => GL33.gl_call D (f x)) w
  = Some (tt, GL33.set_gl (gl_run D (map f l) (GL33.gl w)) w).
Proof.
  revert w. induction l as [|x l IH]; intros w; cbn [for_each map].
  - rewrite gl_run_nil, set_gl_gl33. reflexivity.
  - rewrite run_bind, run_gl_call33, IH. reflexivity.
Qed.

Lemma set_gl_gl46 w : GL46.set_gl (GL46.gl w) w = w.
Proof. destruct w; reflexivity. Qed.

Lemma set_gl_set_gl46 g g' w :
  GL46.set_gl g (GL46.set_gl g' w) = GL46.set_gl g w.
Proof. reflexivity. Qed.

Lemma run_gl_call46 c w :
  GL46.gl_call D c w = Some (tt, GL46.set_gl (gl_exec D c (GL46.gl w)) w).
Proof. reflexivity. Qed.

Lemma run_gl_gen46 mk w :
  GL46.gl_gen D mk w =
  Some (gl_next_name (GL46.gl w),
        GL46.set_gl (gl_exec D (mk (gl_next_name (GL46.gl w))) (GL46.gl w))
          w).
Proof. reflexivity. Qed.

Lemma run_gl_get46 {A} (q : GLState -> A) w :
  GL46.gl_get q w = Some (q (GL46.gl w), w).
Proof. reflexivity. Qed.

Lemma for_each_gl_call46 {A} (f : A -> GLCall) l w :
  for_each l (fun x => GL46.gl_call D (f x)) w
  = Some (tt, GL46.set_gl (gl_run D (map f l) (GL46.gl w)) w).
Proof.
  revert w. induction l as [|x l IH]; intros w; cbn [for_each map].
  - rewrite gl_run_nil, set_gl_gl46. reflexivity.
  - rewrite run_bind, run_gl_call46, IH. reflexivity.
Qed.

End Run.

(** One step of the code at the head of a [bind]. *)
Ltac mstep33 :=
  rewrite run_bind;
  first [ rewrite run_gl_call33 | rewrite run_gl_gen33 | rewrite run_gl_get33
        | rewrite for_each_gl_call33 | rewrite run_ret ];
  cbv beta iota;
  rewrite ?gl_set_gl33, ?set_gl_set_gl33.

Ltac mstep46 :=
  rewrite run_bind;
  first [ rewrite run_gl_call46 | rewrite run_gl_gen46 | rewrite run_gl_get46
        | rewrite for_each_gl_call46 | rewrite run_ret ];
  cbv beta iota;
  rewrite ?gl_set_gl46, ?set_gl_set_gl46.

(** ** Shader creation *)

Lemma gl_exec_next_name_shader D c g :
  gl_next_name (gl_exec D c g) =
  match c with
  | glCreateShader _ _ | glCreateProgram _ | glCreateProgramPipelines _
  | glGenBuffers _ | glCreateBuffers _ | glGenVertexArrays _
  | glCreateVertexArrays _ | glGenFramebuffers _ | glCreateFramebuffers _ =>
      gl_next_name g + 1
  | _ => gl_next_name g
  end.
Proof. destruct g, c; reflexivity. Qed.

(** What the context answers about a shader object that was created, given
    a source and compiled. *)
Lemma gl_compiled_shader D type src g n :
  gl_shaders (gl_exec D (glCompileShader n)
                (gl_exec D (glShaderSource n src)
                   (gl_exec D (glCreateShader type n) g))) !! n
  = Some {| so_type := type; so_source := src; so_binary := [];
            so_status := fst (compile_glsl D type src);
            so_log := snd (compile_glsl D type src);
            so_flagged := false |}.
Proof.
  destruct g. cbn [gl_exec gl_shaders].
  rewrite !lookup_alter_eq, lookup_insert_eq. reflexivity.
Qed.

Lemma gl_specialized_shader D type bin fmt len entry g n :
  gl_shaders (gl_exec D (glSpecializeShader n entry)
                (gl_exec D (glShaderBinary n fmt bin len)
                   (gl_exec D (glCreateShader type n) g))) !! n
  = Some {| so_type := type; so_source := ""; so_binary := bin;
            so_status := fst (specialize_spirv D type bin);
            so_log := snd (specialize_spirv D type bin);
            so_flagged := false |}.
Proof.
  destruct g as [log next en sc vp cc cd vab vbs dfb rfb shs prs fbs].
  cbn [gl_exec gl_shaders].
  rewrite !lookup_alter_eq, lookup_insert_eq. reflexivity.
Qed.

Lemma info_log_forwarded (info_log : string) :
  (1 <? info_log_length info_log) = negb (bool_decide (info_log = "")).
Proof.
  unfold info_log_length. destruct (decide (info_log = "")) as [E|E].
  - rewrite bool_decide_eq_true_2 by exact E. reflexivity.
  - rewrite bool_decide_eq_false_2 by exact E. cbn [negb].
    apply Z.ltb_lt. destruct info_log; [congruence | cbn; lia].
Qed.

Lemma createShader33_other_format D info w :
  GL33.sci_format info <> GL33.SOURCE_GLSL ->
  GL33.createShader D info w =
  Some (None,
        GL33.set_gl
          (gl_run D [glCreateShader (shader_type33 (GL33.sci_stage info))
                       (gl_next_name (GL33.gl w));
                     glDeleteShader (gl_next_name (GL33.gl w))]
             (GL33.gl w)) w).
Proof.
  intros H. unfold GL33.createShader.
  destruct (GL33.sci_stage info), (GL33.sci_format info); try congruence;
    reflexivity.
Qed.

Lemma createShader33_glsl D info w :
  GL33.sci_format info = GL33.SOURCE_GLSL ->
  let shobj := gl_next_name (GL33.gl w) in
  let type := shader_type33 (GL33.sci_stage info) in
  let source := preamble33 (GL33.sci_stage info) +:+ GL33.sci_code info in
  let status := fst (compile_glsl D type source) in
  let info_log := snd (compile_glsl D type source) in
  exists w',
    GL33.createShader D info w
    = Some (if status
            then Some {| GL33.shader := shobj;
                         GL33.stage := GL33.sci_stage info |}
            else None, w')
    /\ gl_log (GL33.gl w')
       = gl_log (GL33.gl w)
         ++ [glCreateShader type shobj; glShaderSource shobj source;
             glCompileShader shobj]
         ++ (if status then [] else [glDeleteShader shobj])
    /\ GL33.debug_messages w'
       = GL33.debug_messages w
         ++ map (Build_DebugMessageInfo INFO)
              (forwarded (GL33.onDebugMessage w) info_log).
Proof.
  intros Hf shobj type source status info_log.
  subst shobj type status info_log source.
  unfold GL33.createShader. rewrite Hf.
  destruct w as [odm mvb vb bp ps bs vas na g dm].
  destruct (GL33.sci_stage info) eqn:Es;
    match goal with
    | |- context [preamble33 ?s] =>
        change (_ +:+ GL33.sci_code info)
          with (preamble33 s +:+ GL33.sci_code info);
        generalize (preamble33 s +:+ GL33.sci_code info)
    end;
    intros source;
    (destruct odm; run33;
     unfold gl_shader_status, gl_shader_log;
     rewrite ?gl_compiled_shader; cbn [from_option so_status so_log];
     rewrite ?info_log_forwarded;
     cbv [shader_type33 forwarded andb];
     destruct (compile_glsl D _ source) as [st lg] eqn:Ec; cbn [fst snd];
     destruct st; try destruct (bool_decide (lg = ""));
     cbn [negb]; run33;
     unfold gl_shader_status; rewrite ?gl_compiled_shader;
     cbn [from_option so_status]; rewrite ?Ec; cbn [fst negb]; run33;
     (eexists; split; [reflexivity|]); cbn [map];
     cbv [GL33.gl GL33.debug_messages];
     rewrite ?gl_exec_log, <- ?app_assoc, ?app_nil_r; split; reflexivity).
Qed.

Lemma createShader46_glsl D info w :
  GL46.si_format info = GL46.SOURCE_GLSL ->
  let shobj := gl_next_name (GL46.gl w) in
  let type := shader_type46 (GL46.si_stage info) in
  let source := preamble46 (GL46.si_stage info) +:+ GL46.code info in
  let status := fst (compile_glsl D type source) in
  let info_log := snd (compile_glsl D type source) in
  exists r w' calls msgs,
    GL46.createShader D info w = Some (r, w')
    /\ gl_log (GL46.gl w')
       = gl_log (GL46.gl w)
         ++ [glCreateShader type shobj; glShaderSource shobj source;
             glCompileShader shobj]
         ++ calls
    /\ GL46.messages w'
       = GL46.messages w ++ forwarded (GL46.onMessage w) info_log ++ msgs
    /\ (status = false ->
        r = None /\ calls = [glDeleteShader shobj] /\ msgs = []
        /\ GL46.shaders w' = GL46.shaders w).
Proof.
  intros Hf shobj type source status info_log.
  subst shobj type status info_log source.
  unfold GL46.createShader. rewrite Hf.
  destruct w as [om ib vb ss ps bs rs na g ms].
  destruct (GL46.si_stage info) eqn:Es;
    match goal with
    | |- context [preamble46 ?s] =>
        change (_ +:+ GL46.code info)
          with (preamble46 s +:+ GL46.code info);
        generalize (preamble46 s +:+ GL46.code info)
    end;
    intros source;
    (destruct om; run46;
     unfold gl_shader_status, gl_shader_log;
     rewrite ?gl_compiled_shader; cbn [from_option so_status so_log];
     rewrite ?info_log_forwarded;
     cbv [shader_type46 forwarded andb];
     destruct (compile_glsl D _ source) as [st lg] eqn:Ec; cbn [fst snd];
     destruct st; try destruct (bool_decide (lg = ""));
     cbn [negb]; run46;
     unfold gl_shader_status; rewrite ?gl_compiled_shader;
     cbn [from_option so_status]; rewrite ?Ec; cbn [fst negb]; run46;
     repeat match goal with
       | |- context [if 1 <? ?x then _ else _] => destruct (1 <? x); run46
       | |- context [if negb ?x then _ else _] => destruct x; cbn [negb]; run46
       end;
     do 4 eexists; (split; [reflexivity|]);
     cbv [GL46.gl GL46.messages GL46.shaders];
     rewrite ?gl_exec_log, <- ?app_assoc; cbn [app];
     (split; [reflexivity|]);
     (split; [first [reflexivity | symmetry; apply app_nil_r]
             | try discriminate; intros _; repeat split; reflexivity])).
Qed.

Lemma createShader46_spirv D info w :
  GL46.si_format info = GL46.BINARY_SPIRV ->
  let shobj := gl_next_name (GL46.gl w) in
  let type := shader_type46 (GL46.si_stage info) in
  let status := fst (specialize_spirv D type (GL46.code_binary info)) in
  let info_log := snd (specialize_spirv D type (GL46.code_binary info)) in
  exists r w' calls msgs,
    GL46.createShader D info w = Some (r, w')
    /\ gl_log (GL46.gl w')
       = gl_log (GL46.gl w)
         ++ [glCreateShader type shobj;
             glShaderBinary shobj GL_SHADER_BINARY_FORMAT_SPIR_V
               (GL46.code_binary info) (int32 (GL46.code_size info));
             glSpecializeShader shobj "main"]
         ++ calls
    /\ GL46.messages w'
       = GL46.messages w ++ forwarded (GL46.onMessage w) info_log ++ msgs
    /\ (status = false ->
        r = None /\ calls = [glDeleteShader shobj] /\ msgs = []
        /\ GL46.shaders w' = GL46.shaders w).
Proof.
  intros Hf shobj type status info_log.
  subst shobj type status info_log.
  unfold GL46.createShader. rewrite Hf.
  destruct w as [om ib vb ss ps bs rs na g ms].
  generalize (GL46.code_binary info). intros bin.
  destruct (GL46.si_stage info) eqn:Es;
    (destruct om; run46;
     unfold gl_shader_status, gl_shader_log;
     rewrite ?gl_specialized_shader; cbn [from_option so_status so_log];
     rewrite ?info_log_forwarded;
     cbv [shader_type46 forwarded andb];
     destruct (specialize_spirv D _ bin) as [st lg] eqn:Ec; cbn [fst snd];
     destruct st; try destruct (bool_decide (lg = ""));
     cbn [negb]; run46;
     unfold gl_shader_status; rewrite ?gl_specialized_shader;
     cbn [from_option so_status]; rewrite ?Ec; cbn [fst negb]; run46;
     repeat match goal with
       | |- context [if 1 <? ?x then _ else _] => destruct (1 <? x); run46
       | |- context [if negb ?x then _ else _] => destruct x; cbn [negb]; run46
       end;
     do 4 eexists; (split; [reflexivity|]);
     cbv [GL46.gl GL46.messages GL46.shaders];
     rewrite ?gl_exec_log, <- ?app_assoc; cbn [app];
     (split; [reflexivity|]);
     (split; [first [reflexivity | symmetry; apply app_nil_r]
             | try discriminate; intros _; repeat split; reflexivity])).
Qed.

Lemma createShader46_any_format D info w :
  let shobj := gl_next_name (GL46.gl w) in
  let type := shader_type46 (GL46.si_stage info) in
  let status := fst (build_outcome46 D info) in
  let info_log := snd (build_outcome46 D info) in
  exists r w' calls msgs,
    GL46.createShader D info w = Some (r, w')
    /\ gl_log (GL46.gl w')
       = gl_log (GL46.gl w)
         ++ [glCreateShader type shobj] ++ build_calls46 info shobj ++ calls
    /\ GL46.messages w'
       = GL46.messages w ++ forwarded (GL46.onMessage w) info_log ++ msgs
    /\ (status = false ->
        r = None /\ calls = [glDeleteShader shobj] /\ msgs = []
        /\ GL46.shaders w' = GL46.shaders w).
Proof.
  unfold build_outcome46, build_calls46.
  destruct (GL46.si_format info) eqn:Hf.
  - exact (createShader46_spirv D info w Hf).
  - exact (createShader46_glsl D info w Hf).
Qed.


(** C7 (as stated, fails): a call with a SPIR-V binary is not preprocessed.
    The 3.3 device does not compile it either: it releases the shader
    object and returns null.  The 4.6 device loads the binary and
    specializes it, and uploads no source. *)
Lemma createShader_spirv_not_compiled :
  ~ compiles_preprocessed_source33 sample_driver
      {| GL33.sci_stage := GL33.VERTEX;
         GL33.sci_format := GL33.BINARY_SPIRV;
         GL33.sci_code := "void main() {}" |}
      (fresh33 sample_driver)
  /\ ~ compiles_preprocessed_source46 sample_driver sample_binary46
         (fresh46 sample_driver).
Proof.
  split.
  - intros (r & w' & shobj & calls & H & Hlog & _ & Hc).
    rewrite createShader33_other_format in H by discriminate.
    injection H as _ <-. rewrite gl_set_gl33 in Hlog.
    change (gl_log (GL33.gl (fresh33 sample_driver))) with (@nil GLCall)
      in Hlog.
    cbn [gl_log app] in Hlog. subst calls.
    cbn in Hc. destruct Hc as [Hc|[Hc|[]]]; discriminate Hc.
  - intros (r & w' & shobj & calls & H & Hlog & _ & Hc).
    vm_compute in H. injection H as _ <-. vm_compute in Hlog.
    injection Hlog as <-. cbn in Hc.
    repeat destruct Hc as [Hc|Hc]; try discriminate Hc. exact Hc.
Qed.

(** C7 (amended).  For every shader creation call of a format that the
    device takes, GLSL source on the 3.3 device and GLSL source or a SPIR-V
    binary on the 4.6 device: a GLSL source is handed to the shader object
    prefixed with the macros of its stage and is then compiled, and a SPIR-V
    binary is loaded and specialized as it is; when that fails the shader
    object is deleted and the call returns null (on the 4.6 device the
    registry of shaders is unchanged); and when a debug-message callback is
    registered, the log, if not empty, is handed to it right after the
    compilation or specialization, whether it succeeded or failed. *)
Theorem createShader_compiles_and_reports :
  forall D (info33 : GL33.ShaderCreateInfo) (w33 : GL33.World)
         (info46 : GL46.ShaderInfo) (w46 : GL46.World),
    GL33.sci_format info33 = GL33.SOURCE_GLSL ->
    (let shobj := gl_next_name (GL33.gl w33) in
     let type := shader_type33 (GL33.sci_stage info33) in
     let source :=
       preamble33 (GL33.sci_stage info33) +:+ GL33.sci_code info33 in
     let status := fst (compile_glsl D type source) in
     let info_log := snd (compile_glsl D type source) in
     exists w',
       GL33.createShader D info33 w33
       = Some (if status
               then Some {| GL33.shader := shobj;
                            GL33.stage := GL33.sci_stage info33 |}
               else None, w')
       /\ gl_log (GL33.gl w')
          = gl_log (GL33.gl w33)
            ++ [glCreateShader type shobj; glShaderSource shobj source;
                glCompileShader shobj]
            ++ (if status then [] else [glDeleteShader shobj])
       /\ GL33.debug_messages w'
          = GL33.debug_messages w33
            ++ map (Build_DebugMessageInfo INFO)
                 (forwarded (GL33.onDebugMessage w33) info_log))
    /\ (let shobj := gl_next_name (GL46.gl w46) in
        let type := shader_type46 (GL46.si_stage info46) in
        let status := fst (build_outcome46 D info46) in
        let info_log := snd (build_outcome46 D info46) in
        exists r w' calls msgs,
          GL46.createShader D info46 w46 = Some (r, w')
          /\ gl_log (GL46.gl w')
             = gl_log (GL46.gl w46)
               ++ [glCreateShader type shobj] ++ build_calls46 info46 shobj
               ++ calls
          /\ GL46.messages w'
             = GL46.messages w46
               ++ forwarded (GL46.onMessage w46) info_log ++ msgs
          /\ (status = false ->
              r = None /\ calls = [glDeleteShader shobj] /\ msgs = []
              /\ GL46.shaders w' = GL46.shaders w46)).
Proof.
  intros D info33 w33 info46 w46 H33. split.
  - apply createShader33_glsl, H33.
  - apply createShader46_any_format.
Qed.

(** A compiler that rejects everything, with the callback registered: a
    GLSL source on both devices, and a SPIR-V binary on the 4.6 device. *)
Lemma createShader_compiles_and_reports_witness :
  (exists w',
     GL33.createShader rejecting_driver sample_shader33
       (GL33.RenderDeviceImpl rejecting_driver true gl_initial)
     = Some (None, w')
     /\ GL33.debug_messages w' = [ {| level := INFO; text := "error" |} ])
  /\ (exists w',
        GL46.createShader rejecting_driver sample_shader46
          (GL46.GLRenderDevice rejecting_driver 64 20 true gl_initial)
        = Some (None, w')
        /\ GL46.messages w' = ["error"])
  /\ (exists w',
        GL46.createShader rejecting_driver sample_binary46
          (GL46.GLRenderDevice rejecting_driver 64 20 true gl_initial)
        = Some (None, w')
        /\ GL46.messages w' = ["error"]).
Proof.
  destruct (createShader_compiles_and_reports rejecting_driver
              sample_shader33
              (GL33.RenderDeviceImpl rejecting_driver true gl_initial)
              sample_shader46
              (GL46.GLRenderDevice rejecting_driver 64 20 true gl_initial)
              eq_refl)
    as [(w33 & E33 & _ & M33) (r & w46 & calls & msgs & E46 & _ & M46 & F46)].
  destruct (F46 eq_refl) as (-> & _ & -> & _).
  destruct (createShader_compiles_and_reports rejecting_driver
              sample_shader33
              (GL33.RenderDeviceImpl rejecting_driver true gl_initial)
              sample_binary46
              (GL46.GLRenderDevice rejecting_driver 64 20 true gl_initial)
              eq_refl)
    as [_ (r & wb & calls' & msgs' & Eb & _ & Mb & Fb)].
  destruct (Fb eq_refl) as (-> & _ & -> & _).
  split; [exists w33 | split; [exists w46 | exists wb]]; split; assumption.
Defined.

(** ** Render target creation *)

Lemma createRenderTarget33_run D info w :
  let fb := gl_next_name (GL33.gl w) in
  let g := gl_run D (framebuffer_calls33 fb info) (GL33.gl w) in
  GL33.createRenderTarget D info w =
  if decide (gl_check_framebuffer D g (gl_draw_framebuffer g)
             <> GL_FRAMEBUFFER_COMPLETE)
  then Some (None, GL33.set_gl (gl_exec D (glDeleteFramebuffers fb) g) w)
  else Some (Some {| GL33.fbobj := fb |}, GL33.set_gl g w).
Proof.
  intros fb g. subst fb g.
  unfold GL33.createRenderTarget, framebuffer_calls33, attachments33.
  rewrite !map_app, !gl_run_app.
  destruct (GL33.depth_attachment info), (GL33.stencil_attachment info);
    repeat mstep33; rewrite ?map_map; cbn [map fst snd];
    rewrite ?gl_run_cons, ?gl_run_nil;
    (destruct (decide _); [repeat mstep33|]; rewrite run_ret; reflexivity).
Qed.

Lemma createRenderTarget46_run D info w :
  let fb := gl_next_name (GL46.gl w) in
  let g := gl_run D (framebuffer_calls46 fb info) (GL46.gl w) in
  GL46.createRenderTarget D info w =
  if decide (gl_check_framebuffer D g fb <> GL_FRAMEBUFFER_COMPLETE)
  then Some (None, GL46.set_gl (gl_exec D (glDeleteFramebuffers fb) g) w)
  else Some (Some (GL46.next_address w),
             GL46.set_rendertargets
               (GL46.rendertargets w
                ++ [(GL46.next_address w, {| GL46.fbobj := fb |})])
               (GL46.set_next_address (S (GL46.next_address w))
                  (GL46.set_gl g w))).
Proof.
  intros fb g. subst fb g.
  unfold GL46.createRenderTarget, framebuffer_calls46, attachments46.
  rewrite !map_app, !gl_run_app.
  destruct (GL46.depth_attachment info), (GL46.stencil_attachment info);
    repeat mstep46; rewrite ?map_map; cbn [map fst snd];
    rewrite ?gl_run_cons, ?gl_run_nil;
    (destruct (decide _); [repeat mstep46; rewrite run_ret|]; reflexivity).
Qed.









Section RenderTargets.

Context (D : Driver).





End RenderTargets.



(** ** Vertex-binding slots *)

(** C1 (the code of the 4.6 device fails it).  On a fresh 4.6 device,
    three vertex buffers created in a row are all alive and registered,
    and the second and the third hold different [VBOBinding] nodes with the
    same slot index 1: [getFreeVBOBinding] numbers a new node after the
    tail of the chain, which always has index 0. *)
Theorem getFreeVBOBinding46_duplicates_slot :
  exists a b c w,
    three_vertex_buffers46 sample_driver (fresh46 sample_driver)
    = Some ((a, b, c), w)
    /\ b <> c
    /\ registered b (GL46.buffers w) = true
    /\ registered c (GL46.buffers w) = true
    /\ (GL46.vbo <$> find_object b (GL46.buffers w)) = Some (Some 1%nat)
    /\ (GL46.vbo <$> find_object c (GL46.buffers w)) = Some (Some 2%nat)
    /\ slot46 w a = Some 0
    /\ slot46 w b = Some 1
    /\ slot46 w c = Some 1.
Proof.
  exists 0%nat, 1%nat, 2%nat. eexists.
  split; [vm_compute; reflexivity|].
  split; [discriminate|].
  repeat split; vm_compute; reflexivity.
Qed.

(** C2 (the code of the 3.3 device fails it).  With sixteen bindings per
    vertex array, the buffer that survives in [survivor_scenario33] holds
    slot 32, of group 32 / 16 = 2.  The pipeline created afterwards has
    group objects 1 and 0 only: [getVertexArray], asked for group 2,
    creates the object of group 1 and the buffer is bound in that one.
    No object of group 2 exists, so the buffer is not bound in the group
    of its slot. *)
Theorem getVertexArray33_binds_in_wrong_group :
  exists address buffer pipeline object w,
    survivor_scenario33 sample_driver (fresh33 sample_driver)
    = Some ((Some (address, buffer), Some pipeline), w)
    /\ GL33.max_vbo_bindings w = 16
    /\ GL33.buffers w = [(address, buffer)]
    /\ slot33 w buffer = Some 32
    /\ find_object pipeline (GL33.pipelines w) = Some object
    /\ map (fmap fst) (groups33 w object) = [Some 1; Some 0]
    /\ bound_in_group33 w object 1 0 = Some (GL33.bufobj buffer)
    /\ bound_in_group33 w object 2 0 = None.
Proof.
  do 5 eexists.
  split; [vm_compute; reflexivity|].
  repeat split; vm_compute; reflexivity.
Qed.

(** ** Buffers that take no part in the vertex layout *)

Section RespectsRules.
Context {St : Type} (I : St -> Prop) (R : St -> St -> Prop).
Hypothesis R_refl : forall s, R s s.
Hypothesis R_trans : forall s1 s2 s3, R s1 s2 -> R s2 s3 -> R s1 s3.

Lemma respects_ret {A} (a : A) (Q : A -> Prop) : Q a -> respects I R (ret a) Q.
Proof. intros HQ s a' s' Hs [= <- <-]. auto. Qed.

Lemma respects_bind {A B} (m : M St A) (k : A -> M St B) Q1 Q2 :
  respects I R m Q1 -> (forall a, Q1 a -> respects I R (k a) Q2) ->
  respects I R (bind m k) Q2.
Proof.
  intros Hm Hk s b s' Hs E. unfold bind in E.
  destruct (m s) as [[a s1]|] eqn:Em; [|discriminate].
  destruct (Hm _ _ _ Hs Em) as (I1 & R1 & Q1a).
  destruct (Hk a Q1a _ _ _ I1 E) as (I2 & R2 & Q2b). eauto.
Qed.

Lemma respects_weaken {A} (m : M St A) (Q Q' : A -> Prop) :
  respects I R m Q -> (forall a, Q a -> Q' a) -> respects I R m Q'.
Proof. intros Hm HQ s a s' Hs E. destruct (Hm _ _ _ Hs E) as (? & ? & ?). auto. Qed.

Lemma respects_undefined {A} (Q : A -> Prop) : respects I R undefined Q.
Proof. intros s a s' _ [=]. Qed.

Lemma respects_lift_option {A} (o : option A) :
  respects I R (lift_option o) (fun a => o = Some a).
Proof. destruct o; [apply respects_ret; reflexivity | apply respects_undefined]. Qed.

Lemma respects_get : respects I R get I.
Proof. intros s a s' Hs [= <- <-]. auto. Qed.

Lemma respects_modify (f : St -> St) :
  (forall s, I s -> I (f s) /\ R s (f s)) ->
  respects I R (modify f) (fun _ => True).
Proof. intros Hf s a s' Hs [= <- <-]. destruct (Hf s Hs). auto. Qed.

Lemma respects_for_each {A} (l : list A) (body : A -> M St unit) :
  (forall x, In x l -> respects I R (body x) (fun _ => True)) ->
  respects I R (for_each l body) (fun _ => True).
Proof.
  induction l as [|x l IH]; intros H; cbn [for_each].
  - apply respects_ret. exact Logic.I.
  - eapply respects_bind; [apply H; left; reflexivity|].
    intros _ _. apply IH. intros y Hy. apply H. right. exact Hy.
Qed.
End RespectsRules.

Lemma quiet_refl n g : quiet n g g.
Proof. exists []. split; [symmetry; apply app_nil_r | constructor]. Qed.
Lemma quiet_trans n g1 g2 g3 : quiet n g1 g2 -> quiet n g2 g3 -> quiet n g1 g3.
Proof.
  intros (c1 & E1 & F1) (c2 & E2 & F2). exists (c1 ++ c2).
  split; [rewrite E2, E1, app_assoc; reflexivity | apply Forall_app; auto].
Qed.
Lemma quiet_exec D n c g : ~ binds_buffer n c -> quiet n g (gl_exec D c g).
Proof. intros H. exists [c]. split; [apply gl_exec_log | repeat constructor; exact H]. Qed.

Lemma unbound_exec D n c g :
  ~ binds_buffer n c -> unbound n g -> unbound n (gl_exec D c g).
Proof.
  intros Hc [Hn Hm]. split.
  - rewrite gl_exec_next_name_shader. destruct c; lia.
  - destruct g, c; cbn in *; try exact Hm.
    + apply map_Forall_lookup. intros k b Hk.
      apply map_lookup_filter_Some in Hk as [Hk _]. exact (Hm k b Hk).
    + apply map_Forall_insert_2; [intros E; apply Hc; exact E | exact Hm].
    + apply map_Forall_insert_2; [intros E; apply Hc; exact E | exact Hm].
Qed.

Section Unused33.
Context (D : Driver) (K : GL33.CullFlags) (size_bits : Z) (n : Z).

Local Abbreviation resp := (respects (unused33 n) (R33 n)).

Lemma R33_refl w : R33 n w w.
Proof. apply quiet_refl. Qed.
Lemma R33_trans w1 w2 w3 : R33 n w1 w2 -> R33 n w2 w3 -> R33 n w1 w3.
Proof. apply quiet_trans. Qed.

Lemma resp_frame33 {A} (m : M GL33.World A) :
  (forall w a w', m w = Some (a, w') ->
                  GL33.gl w' = GL33.gl w /\ GL33.buffers w' = GL33.buffers w) ->
  resp m (fun _ => True).
Proof.
  intros H w a w' [Hg Hb] E. destruct (H _ _ _ E) as [Eg Eb].
  unfold unused33, R33. rewrite Eg, Eb. auto using quiet_refl.
Qed.

Lemma resp_gl_call33 c : ~ binds_buffer n c -> resp (GL33.gl_call D c) (fun _ => True).
Proof.
  intros Hc w a w' [Hg Hb] [= <- <-]. unfold R33. rewrite gl_set_gl33.
  split; [split; [apply unbound_exec; assumption | exact Hb]|].
  split; [apply quiet_exec; assumption | exact Logic.I].
Qed.

Lemma resp_gl_gen33 mk :
  (forall k, ~ binds_buffer n (mk k)) -> resp (GL33.gl_gen D mk) (fun name => name <> n).
Proof.
  intros Hc w a w' [Hg Hb] E. rewrite run_gl_gen33 in E. injection E as <- <-.
  unfold R33. rewrite gl_set_gl33.
  split; [split; [apply unbound_exec; auto | exact Hb]|].
  split; [apply quiet_exec; auto | destruct Hg; lia].
Qed.

Lemma resp_gl_get33 {A} (q : GLState -> A) : resp (GL33.gl_get q) (fun _ => True).
Proof. apply resp_frame33. intros w a w' [= <- <-]. auto. Qed.

Lemma resp_send_debug_message33 m : resp (GL33.send_debug_message m) (fun _ => True).
Proof. apply resp_frame33. intros w a w' [= <- <-]. auto. Qed.

Lemma resp_new_address33 : resp GL33.new_address (fun _ => True).
Proof. apply resp_frame33. intros w a w' [= <- <-]. auto. Qed.

Lemma resp_new_vertex_array33 node : resp (GL33.new_vertex_array node) (fun _ => True).
Proof. apply resp_frame33. intros w a w' [= <- <-]. auto. Qed.

Lemma resp_deref_vertex_array33 p : resp (GL33.deref_vertex_array p) (fun _ => True).
Proof.
  apply resp_frame33. intros w a w' E. unfold GL33.deref_vertex_array in E.
  rewrite run_bind in E. cbn in E.
  destruct (GL33.vertex_arrays w !! p) as [[node|]|]; inversion E; auto.
Qed.

Lemma resp_delete_vertex_array33 p : resp (GL33.delete_vertex_array p) (fun _ => True).
Proof. apply resp_frame33. intros w a w' [= <- <-]. auto. Qed.

Lemma resp_deref_vbo33 p : resp (GL33.deref_vbo p) (fun _ => True).
Proof.
  apply resp_frame33. intros w a w' E. unfold GL33.deref_vbo in E.
  rewrite run_bind in E. cbn in E.
  destruct (chain_get (GL33.vbos w) p); inversion E; auto.
Qed.

Lemma resp_modify_frame33 f :
  (forall w, GL33.gl (f w) = GL33.gl w /\ GL33.buffers (f w) = GL33.buffers w) ->
  resp (modify f) (fun _ => True).
Proof. intros H. apply resp_frame33. intros w a w' [= <- <-]. apply H. Qed.

End Unused33.

Ltac resp33 :=
  lazymatch goal with
  | |- respects _ _ (bind _ _) _ =>
      eapply respects_bind; [apply R33_trans | resp33 | intros ? ?; resp33]
  | |- respects _ _ (ret _) _ =>
      apply respects_ret; [apply R33_refl | try exact Logic.I]
  | |- respects _ _ undefined _ => apply respects_undefined
  | |- respects _ _ get _ => apply respects_get; apply R33_refl
  | |- respects _ _ (lift_option _) _ =>
      apply respects_lift_option; apply R33_refl
  | |- respects _ _ (GL33.gl_call _ _) _ =>
      apply resp_gl_call33; try (cbn; tauto); try (cbn; assumption)
  | |- respects _ _ (modify _) _ =>
      first [ apply resp_modify_frame33; intros ?; split; reflexivity
            | apply respects_modify ]
  | |- respects _ _ (GL33.gl_gen _ _) _ => apply resp_gl_gen33; try (intros ?; cbn; tauto)
  | |- respects _ _ (GL33.gl_get _) _ => apply resp_gl_get33
  | |- respects _ _ (GL33.send_debug_message _) _ => apply resp_send_debug_message33
  | |- respects _ _ GL33.new_address _ => apply resp_new_address33
  | |- respects _ _ (GL33.new_vertex_array _) _ => apply resp_new_vertex_array33
  | |- respects _ _ (GL33.deref_vertex_array _) _ => apply resp_deref_vertex_array33
  | |- respects _ _ (GL33.delete_vertex_array _) _ => apply resp_delete_vertex_array33
  | |- respects _ _ (GL33.deref_vbo _) _ => apply resp_deref_vbo33
  | |- respects _ _ (for_each _ _) _ =>
      apply respects_for_each; [apply R33_refl | apply R33_trans | intros ? ?; resp33]
  | |- respects _ _ (match ?x with _ => _ end) _ => destruct x; resp33
  | |- respects _ _ (if ?x then _ else _) _ => destruct x; resp33
  | |- _ => idtac
  end.

Section Ops33.
Context (D : Driver) (K : GL33.CullFlags) (size_bits : Z) (n : Z).
Local Abbreviation resp := (respects (unused33 n) (R33 n)).

Lemma resp_setVertexFormat vao p : resp (GL33.setVertexFormat D vao p) (fun _ => True).
Proof. unfold GL33.setVertexFormat. resp33. Qed.

Lemma resp_getVertexArray_find chain index :
  resp (GL33.getVertexArray_find chain index) (fun _ => True).
Proof.
  induction chain as [|node next IH]; cbn [GL33.getVertexArray_find].
  - resp33.
  - resp33. exact IH.
Qed.

Lemma resp_getVertexArray head index p :
  resp (GL33.getVertexArray D head index p) (fun _ => True).
Proof.
  unfold GL33.getVertexArray.
  eapply respects_bind; [apply R33_trans|apply resp_getVertexArray_find|].
  intros found _. resp33. apply resp_setVertexFormat.
Qed.

Lemma resp_bind_into p b :
  GL33.bufobj b <> n -> resp (GL33.bind_into D p b) (fun _ => True).
Proof.
  intros Hb. unfold GL33.bind_into. resp33. apply resp_getVertexArray.
Qed.

Lemma resp_notify_buffers p l :
  Forall (fun x => GL33.bufobj (snd x) <> n) l ->
  resp (GL33.notify_buffers D p l) (fun _ => True).
Proof.
  revert p. induction l as [|[a b] l IH]; intros p Hl;
    cbn [GL33.notify_buffers].
  - resp33.
  - inversion Hl; subst. resp33; [apply resp_bind_into; assumption|].
    apply IH. assumption.
Qed.

Lemma resp_notify_pipelines b l :
  GL33.bufobj b <> n -> resp (GL33.notify_pipelines D b l) (fun _ => True).
Proof.
  intros Hb. induction l as [|[a p] l IH]; cbn [GL33.notify_pipelines].
  - resp33.
  - resp33; [apply resp_bind_into; assumption | exact IH].
Qed.

Lemma resp_createPipeline info junk :
  resp (GL33.createPipeline D K info junk) (fun _ => True).
Proof.
  unfold GL33.createPipeline. resp33.
  - apply resp_setVertexFormat.
  - apply resp_notify_buffers.
    match goal with H : unused33 _ _ |- _ => apply H end.
Qed.

Lemma resp_destroyPipeline pipeline :
  resp (GL33.destroyPipeline D pipeline) (fun _ => True).
Proof. unfold GL33.destroyPipeline. resp33. Qed.

Lemma Forall_erase_first {A} (P : nat * A -> Prop) a l :
  Forall P l -> Forall P (erase_first a l).
Proof.
  induction 1 as [|x l Hx Hl IH]; cbn [erase_first]; [constructor|].
  destruct (decide (x.1 = a)); [assumption | constructor; assumption].
Qed.

Lemma resp_destroyBuffer buffer :
  resp (GL33.destroyBuffer D buffer) (fun _ => True).
Proof.
  unfold GL33.destroyBuffer. resp33.
  intros s [Hg Hb]. split; [|exact (quiet_refl _ _)].
  split; [exact Hg|]. cbn. apply Forall_erase_first.
  match goal with H : unused33 _ _ |- _ => apply H end.
Qed.

Lemma resp_createBuffer info :
  resp (GL33.createBuffer D size_bits info) (fun h => GL33.bufobj (snd h) <> n).
Proof.
  unfold GL33.createBuffer.
  eapply respects_bind; [apply R33_trans | resp33 |]. intros address _.
  eapply respects_bind; [apply R33_trans | resp33 |]. intros bufobj Hname.
  eapply respects_bind with (Q1 := fun b => GL33.bufobj b <> n);
    [apply R33_trans | |].
  - destruct (GL33.bci_type info); resp33; try exact Hname.
    + apply resp_notify_pipelines. exact Hname.
    + intros s [Hg Hb]. split; [|exact (quiet_refl _ _)].
      split; [exact Hg|]. cbn. apply Forall_app. split; [exact Hb|].
      repeat constructor. exact Hname.
  - intros buffer Hb. resp33. exact Hb.
Qed.

Lemma resp_run_op33 op : resp (run_op33 D K size_bits op) (fun _ => True).
Proof.
  destruct op; cbn [run_op33].
  - eapply respects_bind; [apply R33_trans | apply resp_createBuffer |].
    intros ? _. resp33.
  - apply resp_destroyBuffer.
  - eapply respects_bind; [apply R33_trans | apply resp_createPipeline |].
    intros ? _. resp33.
  - apply resp_destroyPipeline.
Qed.

Lemma resp_run_ops33 ops :
  resp (for_each ops (run_op33 D K size_bits)) (fun _ => True).
Proof.
  apply respects_for_each; [apply R33_refl | apply R33_trans |].
  intros op _. apply resp_run_op33.
Qed.
End Ops33.

Section Unused46.
Context (D : Driver) (K : GL46.CullFlags) (size_bits : Z) (n : Z).

Local Abbreviation resp := (respects (unused46 n) (R46 n)).

Lemma R46_refl w : R46 n w w.
Proof. apply quiet_refl. Qed.
Lemma R46_trans w1 w2 w3 : R46 n w1 w2 -> R46 n w2 w3 -> R46 n w1 w3.
Proof. apply quiet_trans. Qed.

Lemma resp_frame46 {A} (m : M GL46.World A) :
  (forall w a w', m w = Some (a, w') ->
                  GL46.gl w' = GL46.gl w /\ GL46.buffers w' = GL46.buffers w) ->
  resp m (fun _ => True).
Proof.
  intros H w a w' [Hg Hb] E. destruct (H _ _ _ E) as [Eg Eb].
  unfold unused46, R46. rewrite Eg, Eb. auto using quiet_refl.
Qed.

Lemma resp_gl_call46 c : ~ binds_buffer n c -> resp (GL46.gl_call D c) (fun _ => True).
Proof.
  intros Hc w a w' [Hg Hb] [= <- <-]. unfold R46. rewrite gl_set_gl46.
  split; [split; [apply unbound_exec; assumption | exact Hb]|].
  split; [apply quiet_exec; assumption | exact Logic.I].
Qed.

Lemma resp_gl_gen46 mk :
  (forall k, ~ binds_buffer n (mk k)) -> resp (GL46.gl_gen D mk) (fun name => name <> n).
Proof.
  intros Hc w a w' [Hg Hb] E. rewrite run_gl_gen46 in E. injection E as <- <-.
  unfold R46. rewrite gl_set_gl46.
  split; [split; [apply unbound_exec; auto | exact Hb]|].
  split; [apply quiet_exec; auto | destruct Hg; lia].
Qed.

Lemma resp_gl_get46 {A} (q : GLState -> A) : resp (GL46.gl_get q) (fun _ => True).
Proof. apply resp_frame46. intros w a w' [= <- <-]. auto. Qed.

Lemma resp_send_message46 m : resp (GL46.send_message m) (fun _ => True).
Proof. apply resp_frame46. intros w a w' [= <- <-]. auto. Qed.

Lemma resp_new_address46 : resp GL46.new_address (fun _ => True).
Proof. apply resp_frame46. intros w a w' [= <- <-]. auto. Qed.

Lemma resp_deref_vbo46 p : resp (GL46.deref_vbo p) (fun _ => True).
Proof.
  apply resp_frame46. intros w a w' E. unfold GL46.deref_vbo in E.
  rewrite run_bind in E. cbn in E.
  destruct (chain_get (GL46.vbos w) p); inversion E; auto.
Qed.

Lemma resp_modify_frame46 f :
  (forall w, GL46.gl (f w) = GL46.gl w /\ GL46.buffers (f w) = GL46.buffers w) ->
  resp (modify f) (fun _ => True).
Proof. intros H. apply resp_frame46. intros w a w' [= <- <-]. apply H. Qed.

End Unused46.

Ltac resp46 :=
  lazymatch goal with
  | |- respects _ _ (bind _ _) _ =>
      eapply respects_bind; [apply R46_trans | resp46 | intros ? ?; resp46]
  | |- respects _ _ (ret _) _ =>
      apply respects_ret; [apply R46_refl | try exact Logic.I]
  | |- respects _ _ undefined _ => apply respects_undefined
  | |- respects _ _ get _ => apply respects_get; apply R46_refl
  | |- respects _ _ (lift_option _) _ =>
      apply respects_lift_option; apply R46_refl
  | |- respects _ _ (GL46.gl_call _ _) _ =>
      apply resp_gl_call46; try (cbn; tauto); try (cbn; assumption)
  | |- respects _ _ (modify _) _ =>
      first [ apply resp_modify_frame46; intros ?; split; reflexivity
            | apply respects_modify ]
  | |- respects _ _ (GL46.gl_gen _ _) _ => apply resp_gl_gen46; try (intros ?; cbn; tauto)
  | |- respects _ _ (GL46.gl_get _) _ => apply resp_gl_get46
  | |- respects _ _ (GL46.send_message _) _ => apply resp_send_message46
  | |- respects _ _ GL46.new_address _ => apply resp_new_address46
  | |- respects _ _ (GL46.deref_vbo _) _ => apply resp_deref_vbo46
  | |- respects _ _ (for_each _ _) _ =>
      apply respects_for_each; [apply R46_refl | apply R46_trans | intros ? ?; resp46]
  | |- respects _ _ (match ?x with _ => _ end) _ => destruct x eqn:?; resp46
  | |- respects _ _ (if ?x then _ else _) _ => destruct x; resp46
  | |- _ => idtac
  end.

Section Ops46.
Context (D : Driver) (K : GL46.CullFlags) (size_bits : Z) (n : Z).
Local Abbreviation resp := (respects (unused46 n) (R46 n)).

Lemma resp_createPipeline46 info :
  resp (GL46.createPipeline D K info) (fun _ => True).
Proof.
  unfold GL46.createPipeline. resp46.
  cbn. intros E.
  match goal with
  | H : unused46 _ _, Hin : In _ _, Hv : GL46.vbo _ = Some _ |- _ =>
      destruct H as [_ Hb];
      pose proof (proj1 (List.Forall_forall _ _) Hb _ Hin E) as Hn;
      cbn in Hn; congruence
  end.
Qed.

Lemma resp_destroyPipeline46 pipeline :
  resp (GL46.destroyPipeline D pipeline) (fun _ => True).
Proof. unfold GL46.destroyPipeline. resp46. Qed.

Lemma resp_destroyBuffer46 buffer :
  resp (GL46.destroyBuffer D buffer) (fun _ => True).
Proof.
  unfold GL46.destroyBuffer. resp46.
  all: intros s [Hg Hb]; (split; [|exact (quiet_refl _ _)]);
    (split; [exact Hg|]); cbn; apply Forall_erase_first;
    match goal with H : unused46 _ _ |- _ => apply H end.
Qed.

Lemma resp_resizeBuffer46 buffer size data :
  resp (GL46.resizeBuffer D size_bits buffer size data) (fun _ => True).
Proof.
  unfold GL46.resizeBuffer. resp46.
  intros s [Hg Hb]. split; [|exact (quiet_refl _ _)].
  split; [exact Hg|]. cbn.
  match goal with H : unused46 _ _ |- _ => destruct H as [_ Hl] end.
  apply List.Forall_map. revert Hl. apply List.Forall_impl.
  intros [xa xb] Hx. destruct (decide _); exact Hx.
Qed.

Lemma resp_createBuffer46 info :
  resp (GL46.createBuffer D size_bits info) (fun _ => True).
Proof.
  unfold GL46.createBuffer.
  eapply respects_bind; [apply R46_trans | resp46 |]. intros address _.
  eapply respects_bind; [apply R46_trans | resp46 |]. intros bufobj Hname.
  eapply respects_bind with (Q1 := fun b => GL46.bufobj b <> n);
    [apply R46_trans | |].
  - destruct (GL46.bi_type info); resp46; try exact Hname.
  - intros buffer Hb. resp46.
    intros s [Hg Hl]. split; [|exact (quiet_refl _ _)].
    split; [exact Hg|]. cbn. apply Forall_app. split; [exact Hl|].
    repeat constructor. cbn. intros E. contradiction.
Qed.

Lemma resp_run_op46 op : resp (run_op46 D K size_bits op) (fun _ => True).
Proof.
  destruct op; cbn [run_op46].
  - eapply respects_bind; [apply R46_trans | apply resp_createBuffer46 |].
    intros ? _. resp46.
  - apply resp_destroyBuffer46.
  - apply resp_resizeBuffer46.
  - eapply respects_bind; [apply R46_trans | apply resp_createPipeline46 |].
    intros ? _. resp46.
  - apply resp_destroyPipeline46.
Qed.

Lemma resp_run_ops46 ops :
  resp (for_each ops (run_op46 D K size_bits)) (fun _ => True).
Proof.
  apply respects_for_each; [apply R46_refl | apply R46_trans |].
  intros op _. apply resp_run_op46.
Qed.
End Ops46.

Lemma createBuffer33_other D size_bits info w :
  GL33.bci_type info <> GL33.VERTEX_BUFFER ->
  let n := gl_next_name (GL33.gl w) in
  GL33.createBuffer D size_bits info w =
  Some ((GL33.next_address w,
         {| GL33.bufobj := n; GL33.vbo := None;
            GL33.size := GL33.bci_size info |}),
        GL33.set_gl
          (gl_run D [glGenBuffers n; glBindBuffer GL_COPY_READ_BUFFER n;
                     glBufferData GL_COPY_READ_BUFFER
                       (to_signed size_bits (GL33.bci_size info))
                       (GL33.bci_data info) GL_DYNAMIC_DRAW]
             (GL33.gl w))
          (GL33.set_next_address (S (GL33.next_address w)) w)).
Proof.
  intros H n. unfold GL33.createBuffer.
  destruct (GL33.bci_type info); [congruence|]. reflexivity.
Qed.

Lemma createBuffer46_other D size_bits info w :
  GL46.bi_type info <> GL46.VERTEX_BUFFER ->
  let n := gl_next_name (GL46.gl w) in
  let buffer := {| GL46.bufobj := n; GL46.vbo := None;
                   GL46.size := GL46.bi_size info |} in
  GL46.createBuffer D size_bits info w =
  Some (GL46.next_address w,
        GL46.set_buffers (GL46.buffers w ++ [(GL46.next_address w, buffer)])
          (GL46.set_gl
             (gl_run D
                (glCreateBuffers n
                 :: if GL46.bi_size info =? 0 then []
                    else [glNamedBufferData n
                            (to_signed size_bits (GL46.bi_size info))
                            (GL46.bi_data info) GL_DYNAMIC_DRAW])
                (GL46.gl w))
             (GL46.set_next_address (S (GL46.next_address w)) w))).
Proof.
  intros H n buffer. unfold GL46.createBuffer.
  destruct (GL46.bi_type info); [congruence|].
  subst buffer. unfold bind at 1. cbn.
  destruct (GL46.bi_size info =? 0); reflexivity.
Qed.

Lemma gl_run_vertex_buffers D calls g :
  Forall (fun c => match c with
                   | glBindVertexBuffer _ _ _ _
                   | glVertexArrayVertexBuffer _ _ _ _ _
                   | glDeleteVertexArrays _ => False
                   | _ => True
                   end) calls ->
  gl_vertex_buffers (gl_run D calls g) = gl_vertex_buffers g.
Proof.
  intros H. revert g. induction H as [|c calls Hc _ IH]; intros g.
  - reflexivity.
  - rewrite gl_run_cons, IH. destruct g, c; try reflexivity; contradiction.
Qed.

Lemma quiet_run D n calls g :
  Forall (fun c => ~ binds_buffer n c) calls -> quiet n g (gl_run D calls g).
Proof. intros H. exists calls. split; [apply gl_run_log | exact H]. Qed.

Lemma gl_run_next_name_le D calls g :
  gl_next_name g <= gl_next_name (gl_run D calls g).
Proof.
  revert g. induction calls as [|c calls IH]; intros g.
  - reflexivity.
  - rewrite gl_run_cons. etransitivity; [|apply IH].
    rewrite gl_exec_next_name_shader. destruct c; lia.
Qed.

(** A buffer that is not a vertex buffer, on the 3.3 device. *)
Lemma createBuffer33_other_stays_out D K size_bits info w :
  GL33.bci_type info <> GL33.VERTEX_BUFFER ->
  next_name_unused33 w ->
  let n := gl_next_name (GL33.gl w) in
  exists address buffer w1,
    GL33.createBuffer D size_bits info w = Some ((address, buffer), w1)
    /\ GL33.bufobj buffer = n
    /\ GL33.vbo buffer = None
    /\ GL33.vbos w1 = GL33.vbos w
    /\ GL33.buffers w1 = GL33.buffers w
    /\ GL33.pipelines w1 = GL33.pipelines w
    /\ GL33.vertex_arrays w1 = GL33.vertex_arrays w
    /\ gl_vertex_buffers (GL33.gl w1) = gl_vertex_buffers (GL33.gl w)
    /\ quiet n (GL33.gl w) (GL33.gl w1)
    /\ forall ops w2,
         for_each ops (run_op33 D K size_bits) w1 = Some (tt, w2) ->
         quiet n (GL33.gl w1) (GL33.gl w2) /\ unused33 n w2.
Proof.
  intros Ht [Hm Hb] n. do 3 eexists.
  split; [apply createBuffer33_other, Ht|]. fold n.
  assert (Hv : gl_vertex_buffers
                 (gl_run D [glGenBuffers n; glBindBuffer GL_COPY_READ_BUFFER n;
                            glBufferData GL_COPY_READ_BUFFER
                              (to_signed size_bits (GL33.bci_size info))
                              (GL33.bci_data info) GL_DYNAMIC_DRAW]
                    (GL33.gl w))
               = gl_vertex_buffers (GL33.gl w)).
  { apply gl_run_vertex_buffers. repeat constructor. }
  repeat (split; [first [reflexivity | exact Hv]|]).
  rewrite gl_set_gl33. split.
  - apply quiet_run. repeat constructor; cbn; tauto.
  - intros ops w2 E.
    match type of E with
    | for_each _ _ ?w1 = _ => assert (Hu : unused33 n w1)
    end.
    { split; [split|exact Hb].
      - rewrite gl_set_gl33.
        pose proof (gl_run_next_name_le D
                      [glBindBuffer GL_COPY_READ_BUFFER n;
                       glBufferData GL_COPY_READ_BUFFER
                         (to_signed size_bits (GL33.bci_size info))
                         (GL33.bci_data info) GL_DYNAMIC_DRAW]
                      (gl_exec D (glGenBuffers n) (GL33.gl w))) as Hle.
        rewrite gl_exec_next_name_shader in Hle. rewrite gl_run_cons.
        subst n. lia.
      - rewrite gl_set_gl33, Hv. exact Hm. }
    destruct (resp_run_ops33 D K size_bits n ops _ _ _ Hu E) as (Hu2 & Hq & _).
    split; [exact Hq | exact Hu2].
Qed.

(** A buffer that is not a vertex buffer, on the 4.6 device. *)
Lemma createBuffer46_other_stays_out D K size_bits info w :
  GL46.bi_type info <> GL46.VERTEX_BUFFER ->
  next_name_unused46 w ->
  let n := gl_next_name (GL46.gl w) in
  exists address buffer w1,
    GL46.createBuffer D size_bits info w = Some (address, w1)
    /\ GL46.bufobj buffer = n
    /\ GL46.vbo buffer = None
    /\ GL46.vbos w1 = GL46.vbos w
    /\ GL46.buffers w1 = GL46.buffers w ++ [(address, buffer)]
    /\ GL46.pipelines w1 = GL46.pipelines w
    /\ gl_vertex_buffers (GL46.gl w1) = gl_vertex_buffers (GL46.gl w)
    /\ quiet n (GL46.gl w) (GL46.gl w1)
    /\ forall ops w2,
         for_each ops (run_op46 D K size_bits) w1 = Some (tt, w2) ->
         quiet n (GL46.gl w1) (GL46.gl w2) /\ unused46 n w2.
Proof.
  intros Ht [Hm Hb] n.
  exists (GL46.next_address w),
    {| GL46.bufobj := n; GL46.vbo := None; GL46.size := GL46.bi_size info |}.
  eexists.
  split; [apply createBuffer46_other, Ht|]. fold n.
  match goal with
  | |- context [gl_run D ?calls (GL46.gl w)] =>
      assert (Hv : gl_vertex_buffers (gl_run D calls (GL46.gl w))
                   = gl_vertex_buffers (GL46.gl w))
        by (apply gl_run_vertex_buffers;
            destruct (GL46.bi_size info =? 0); repeat constructor);
      assert (Hq : quiet n (GL46.gl w) (gl_run D calls (GL46.gl w)))
        by (apply quiet_run;
            destruct (GL46.bi_size info =? 0); repeat constructor;
            cbn; tauto);
      assert (Hn : n < gl_next_name (gl_run D calls (GL46.gl w)))
        by (rewrite gl_run_cons;
            pose proof (gl_run_next_name_le D
                          (if GL46.bi_size info =? 0 then []
                           else [glNamedBufferData n
                                   (to_signed size_bits (GL46.bi_size info))
                                   (GL46.bi_data info) GL_DYNAMIC_DRAW])
                          (gl_exec D (glCreateBuffers n) (GL46.gl w)));
            rewrite gl_exec_next_name_shader in *; lia)
  end.
  repeat (split; [first [reflexivity | exact Hv | exact Hq]|]).
  intros ops w2 E.
  match type of E with
  | for_each _ _ ?w1 = _ => assert (Hu : unused46 n w1)
  end.
  { split; [split|].
    - exact Hn.
    - rewrite <- Hv in Hm. exact Hm.
    - change (Forall
                (fun x => GL46.bufobj x.2 = n -> GL46.vbo x.2 = None)
                (GL46.buffers w
                 ++ [(GL46.next_address w,
                      {| GL46.bufobj := n; GL46.vbo := None;
                         GL46.size := GL46.bi_size info |})])).
      apply Forall_app. split.
      + revert Hb. apply List.Forall_impl. intros x Hx Ex. contradiction.
      + repeat constructor. }
  destruct (resp_run_ops46 D K size_bits n ops _ _ _ Hu E) as (Hu2 & Hq2 & _).
  split; [exact Hq2 | exact Hu2].
Qed.

(** C8 (as stated, fails): a vertex buffer of zero bytes created on a
    fresh 3.3 device claims slot 0 and joins the notification list. *)
Lemma createBuffer_zero_bytes_participates :
  ~ stays_out33 sample_driver 64 (vertex_buffer33 0) (fresh33 sample_driver).
Proof.
  intros (address & buffer & w' & E & Hv & _).
  vm_compute in E. injection E as _ <- _. discriminate Hv.
Qed.

(** C8 (amended).  For every buffer created with a buffer type other than
    the vertex type, whatever its size, on a device whose next OpenGL name
    is unused: the buffer holds no vertex-binding slot and the chain of
    slots is as before; on the 3.3 device it is not added to the
    notification list (the 4.6 device keeps every buffer in its one list of
    buffers); the creation issues no command that binds it into a vertex
    array and leaves the bindings of all vertex arrays as they were; and in
    every defined run of later creations and destructions of buffers and
    pipelines, no command binding it into a vertex array is issued, no
    vertex array binds it, and it is in no notification list as a buffer
    holding a slot. *)
Theorem createBuffer_other_type_stays_out :
  forall D K33 K46 size_bits
         (info33 : GL33.BufferCreateInfo) (w33 : GL33.World)
         (info46 : GL46.BufferInfo) (w46 : GL46.World),
    GL33.bci_type info33 <> GL33.VERTEX_BUFFER ->
    GL46.bi_type info46 <> GL46.VERTEX_BUFFER ->
    next_name_unused33 w33 ->
    next_name_unused46 w46 ->
    (let n := gl_next_name (GL33.gl w33) in
     exists address buffer w1,
       GL33.createBuffer D size_bits info33 w33
       = Some ((address, buffer), w1)
       /\ GL33.bufobj buffer = n
       /\ GL33.vbo buffer = None
       /\ GL33.vbos w1 = GL33.vbos w33
       /\ GL33.buffers w1 = GL33.buffers w33
       /\ GL33.pipelines w1 = GL33.pipelines w33
       /\ GL33.vertex_arrays w1 = GL33.vertex_arrays w33
       /\ gl_vertex_buffers (GL33.gl w1) = gl_vertex_buffers (GL33.gl w33)
       /\ quiet n (GL33.gl w33) (GL33.gl w1)
       /\ forall ops w2,
            for_each ops (run_op33 D K33 size_bits) w1 = Some (tt, w2) ->
            quiet n (GL33.gl w1) (GL33.gl w2) /\ unused33 n w2)
    /\ (let n := gl_next_name (GL46.gl w46) in
        exists address buffer w1,
          GL46.createBuffer D size_bits info46 w46 = Some (address, w1)
          /\ GL46.bufobj buffer = n
          /\ GL46.vbo buffer = None
          /\ GL46.vbos w1 = GL46.vbos w46
          /\ GL46.buffers w1 = GL46.buffers w46 ++ [(address, buffer)]
          /\ GL46.pipelines w1 = GL46.pipelines w46
          /\ gl_vertex_buffers (GL46.gl w1)
             = gl_vertex_buffers (GL46.gl w46)
          /\ quiet n (GL46.gl w46) (GL46.gl w1)
          /\ forall ops w2,
               for_each ops (run_op46 D K46 size_bits) w1 = Some (tt, w2) ->
               quiet n (GL46.gl w1) (GL46.gl w2) /\ unused46 n w2).
Proof.
  intros D K33 K46 size_bits info33 w33 info46 w46 H33 H46 U33 U46. split.
  - apply createBuffer33_other_stays_out; assumption.
  - apply createBuffer46_other_stays_out; assumption.
Qed.

Lemma fresh33_next_name_unused : next_name_unused33 (fresh33 sample_driver).
Proof. split; [apply map_Forall_empty | constructor]. Qed.

Lemma fresh46_next_name_unused : next_name_unused46 (fresh46 sample_driver).
Proof. split; [apply map_Forall_empty | constructor]. Qed.

Lemma createBuffer_other_type_stays_out_witness :
  exists buffer w1 w2,
    GL33.createBuffer sample_driver 64 (other_buffer33 0)
      (fresh33 sample_driver) = Some ((0%nat, buffer), w1)
    /\ GL33.vbo buffer = None
    /\ for_each sample_ops33 (run_op33 sample_driver sample_cull_flags33 64)
         w1 = Some (tt, w2)
    /\ length (GL33.pipelines w2) = 2%nat
    /\ quiet 1 (GL33.gl w1) (GL33.gl w2)
    /\ unused33 1 w2.
Proof.
  destruct (createBuffer_other_type_stays_out sample_driver
              sample_cull_flags33 sample_cull_flags46 64
              (other_buffer33 0) (fresh33 sample_driver)
              (other_buffer46 0) (fresh46 sample_driver)
              ltac:(discriminate) ltac:(discriminate)
              fresh33_next_name_unused fresh46_next_name_unused)
    as [(address & buffer & w1 & E & _ & Hv & _ & _ & _ & _ & _ & _ & Hops) _].
  pose proof E as E0. vm_compute in E0. injection E0 as Ha Hb Hw.
  subst address.
  destruct (for_each sample_ops33
              (run_op33 sample_driver sample_cull_flags33 64) w1)
    as [[[] w2]|] eqn:Erun.
  - exists buffer, w1, w2.
    split; [exact E|]. split; [exact Hv|]. split; [exact Erun|].
    split; [|exact (Hops _ _ Erun)].
    rewrite <- Hw in Erun. vm_compute in Erun.
    injection Erun as <-. reflexivity.
  - exfalso. rewrite <- Hw in Erun. vm_compute in Erun. discriminate Erun.
Defined.

(** ** Replay of a command list *)










Lemma is_live_lookup heap p :
  is_live heap p = true <-> exists node, heap !! p = Some (Some node).
Proof.
  unfold is_live. destruct (heap !! p) as [[node|]|]; split;
    try discriminate; try (intros (? & [=])); eauto.
Qed.






Section Replay.

Context (D : Driver) (size_bits : Z).

Lemma deref_vertex_array_live p w :
  is_live (GL33.vertex_arrays w) p = true ->
  exists node,
    GL33.deref_vertex_array p w = Some (node, w)
    /\ GL33.vertex_arrays w !! p = Some (Some node).
Proof.
  rewrite is_live_lookup. intros (n & H). exists n.
  unfold GL33.deref_vertex_array, bind, get. rewrite H. auto.
Qed.











End Replay.








(** * Textures and samplers *)

Lemma getInternalFormat_zero format :
  getInternalFormat format = 0 <-> exists value, format = OTHER_FORMAT value.
Proof.
  split.
  - destruct format; try discriminate. eauto.
  - intros [value ->]. reflexivity.
Qed.

(** X1: the pixel formats that the devices name have pairwise distinct
    internal formats, none of them zero; zero is the internal format of
    the values they do not name, and of those only. *)
Theorem getInternalFormat_injective f1 f2 :
  getInternalFormat f1 = getInternalFormat f2 ->
  (getInternalFormat f1 <> 0 /\ f1 = f2)
  \/ (exists v1 v2, f1 = OTHER_FORMAT v1 /\ f2 = OTHER_FORMAT v2).
Proof.
  intros H.
  destruct f1; try (right; destruct f2; try discriminate H; eauto; fail);
    left; (split; [discriminate|]);
    destruct f2; try discriminate H; reflexivity.
Qed.

Lemma getInternalFormat_injective_witness :
  getInternalFormat R8G8B8A8_UNORM = getInternalFormat R8G8B8A8_UNORM
  /\ ((getInternalFormat R8G8B8A8_UNORM <> 0
       /\ R8G8B8A8_UNORM = R8G8B8A8_UNORM)
      \/ exists v1 v2,
           R8G8B8A8_UNORM = OTHER_FORMAT v1
           /\ R8G8B8A8_UNORM = OTHER_FORMAT v2).
Proof.
  split; [reflexivity|].
  exact (getInternalFormat_injective R8G8B8A8_UNORM R8G8B8A8_UNORM eq_refl).
Defined.

(** X2: the formats that a texture can be created with (they have an
    internal format) and that no write accepts are the four half-float
    formats and the depth and stencil formats, and no other. *)
Theorem getExternalFormat_unwritable format :
  (getExternalFormat format = None /\ getInternalFormat format <> 0)
  <-> In format unwritable_formats.
Proof.
  unfold unwritable_formats. cbn [In]. split.
  - intros [He Hi].
    destruct format; try discriminate He; try (exfalso; apply Hi; reflexivity);
      auto 8.
  - intros H. repeat destruct H as [<-|H]; try destruct H;
      (split; [reflexivity | discriminate]).
Qed.

(** Registries: an address that no entry bears. *)

Lemma find_object_fresh {A} a (l : list (nat * A)) :
  Forall (fun x => (fst x < a)%nat) l -> find_object a l = None.
Proof.
  induction 1 as [|x l Hx _ IH]; [reflexivity|]. cbn [find_object].
  destruct (decide (fst x = a)); [lia | exact IH].
Qed.

Lemma find_object_app_fresh {A} a (x : A) l :
  Forall (fun y => (fst y < a)%nat) l ->
  find_object a (l ++ [(a, x)]) = Some x.
Proof.
  induction 1 as [|y l Hy _ IH]; cbn [app find_object fst snd].
  - destruct (decide (a = a)); [reflexivity | congruence].
  - destruct (decide (fst y = a)); [lia | exact IH].
Qed.

Lemma erase_first_app_fresh {A} a (x : A) l :
  Forall (fun y => (fst y < a)%nat) l ->
  erase_first a (l ++ [(a, x)]) = l.
Proof.
  induction 1 as [|y l Hy _ IH]; cbn [app erase_first fst].
  - destruct (decide (a = a)); [reflexivity | congruence].
  - destruct (decide (fst y = a)); [lia | rewrite IH; reflexivity].
Qed.

Lemma unwritable_formats_have_no_external format :
  In format unwritable_formats ->
  getExternalFormat format = None /\ getInternalFormat format <> 0.
Proof.
  unfold unwritable_formats. cbn [In]. intros H.
  repeat destruct H as [<-|H]; try destruct H;
    (split; [reflexivity | discriminate]).
Qed.

(** X3: a texture of a half-float, depth or stencil format is created like
    any other, on both devices, and no write to it with its own format
    reaches the context: the 4.6 device returns [false], the 3.3 device
    returns, and neither gives a command. *)
Theorem unwritable_texture_is_created_and_never_written
    info (t : TexContext) (w : Tex46.World) x y z width height depth face data :
  named_texture_type (ti_type info) = true ->
  In (ti_format info) unwritable_formats ->
  (exists texture t',
     Tex33.createTexture info t = Some (Some texture, t')
     /\ GL33.format texture = getInternalFormat (ti_format info)
     /\ GL33.format texture <> 0
     /\ Tex33.writeTexture2D texture x y width height (ti_format info) data t'
        = Some (tt, t')
     /\ Tex33.writeTextureCube texture face x y width height
          (ti_format info) data t' = Some (tt, t')
     /\ Tex33.writeTextureArray texture x y z width height depth
          (ti_format info) data t' = Some (tt, t'))
  /\ (exists address texture w',
        Tex46.createTexture info w = Some (Some address, w')
        /\ Tex46.textures w' = Tex46.textures w ++ [(address, texture)]
        /\ GL46.format texture = getInternalFormat (ti_format info)
        /\ GL46.format texture <> 0
        /\ Tex46.writeTexture2D texture x y width height (ti_format info)
             data w' = Some (false, w')
        /\ Tex46.writeTextureCube texture face x y width height
             (ti_format info) data w' = Some (false, w')
        /\ Tex46.writeTextureArray texture x y z width height depth
             (ti_format info) data w' = Some (false, w')).
Proof.
  intros Htype Hformat.
  apply unwritable_formats_have_no_external in Hformat as [He Hi].
  unfold Tex33.writeTexture2D, Tex33.writeTextureCube,
    Tex33.writeTextureArray, Tex46.writeTexture2D, Tex46.writeTextureCube,
    Tex46.writeTextureArray.
  rewrite He.
  unfold Tex33.createTexture, Tex46.createTexture.
  destruct (ti_type info); try discriminate Htype;
    (split; [do 2 eexists | do 3 eexists]; repeat split; exact Hi).
Qed.

Lemma unwritable_texture_is_created_and_never_written_witness :
  let info := sample_texture_info R16G16B16A16_FLOAT in
  named_texture_type (ti_type info) = true
  /\ In (ti_format info) unwritable_formats
  /\ (exists texture t',
        Tex33.createTexture info tex_initial = Some (Some texture, t')
        /\ GL33.format texture = getInternalFormat (ti_format info)
        /\ GL33.format texture <> 0
        /\ Tex33.writeTexture2D texture 0 0 640 480 (ti_format info) [] t'
           = Some (tt, t')
        /\ Tex33.writeTextureCube texture 0 0 0 640 480 (ti_format info)
             [] t' = Some (tt, t')
        /\ Tex33.writeTextureArray texture 0 0 0 640 480 1 (ti_format info)
             [] t' = Some (tt, t'))
  /\ (exists address texture w',
        Tex46.createTexture info fresh_tex46 = Some (Some address, w')
        /\ Tex46.textures w'
           = Tex46.textures fresh_tex46 ++ [(address, texture)]
        /\ GL46.format texture = getInternalFormat (ti_format info)
        /\ GL46.format texture <> 0
        /\ Tex46.writeTexture2D texture 0 0 640 480 (ti_format info) [] w'
           = Some (false, w')
        /\ Tex46.writeTextureCube texture 0 0 0 640 480 (ti_format info)
             [] w' = Some (false, w')
        /\ Tex46.writeTextureArray texture 0 0 0 640 480 1
             (ti_format info) [] w' = Some (false, w')).
Proof.
  cbv zeta.
  assert (Ht : named_texture_type
                 (ti_type (sample_texture_info R16G16B16A16_FLOAT)) = true)
    by reflexivity.
  assert (Hf : In (ti_format (sample_texture_info R16G16B16A16_FLOAT))
                 unwritable_formats)
    by (cbn; auto).
  split; [exact Ht|]. split; [exact Hf|].
  exact (unwritable_texture_is_created_and_never_written
           (sample_texture_info R16G16B16A16_FLOAT) tex_initial fresh_tex46
           0 0 0 640 480 1 0 [] Ht Hf).
Defined.

(** X4: a texture type that the devices do not name.  The 3.3 device has
    taken a texture name by then and returns null without deleting it; the
    4.6 device returns null with its registry and the context as they
    were. *)
Theorem createTexture_unknown_type
    value format width height depth mip_levels (t : TexContext)
    (w : Tex46.World) :
  let info := {| ti_type := OTHER_TEXTURE value; ti_format := format;
                 ti_width := width; ti_height := height; ti_depth := depth;
                 ti_mip_levels := mip_levels |} in
  (exists t',
     Tex33.createTexture info t = Some (None, t')
     /\ tex_log t' = tex_log t ++ [inr (glGenTextures (next_texture t))]
     /\ next_texture t' = next_texture t + 1)
  /\ (exists w',
        Tex46.createTexture info w = Some (None, w')
        /\ Tex46.textures w' = Tex46.textures w
        /\ Tex46.samplers w' = Tex46.samplers w
        /\ Tex46.ctx w' = Tex46.ctx w).
Proof.
  cbv zeta. split.
  - eexists. split; [reflexivity|]. split; reflexivity.
  - exists (Tex46.set_next_address (S (Tex46.next_address w)) w).
    repeat split.
Qed.

(** Unfold the monad and the accessors of the texture half of the devices. *)
Ltac run_tex46 :=
  cbv [bind ret get modify tex_call tex_exec tex_log next_texture
       next_sampler Tex46.gl_call Tex46.gl_create_texture
       Tex46.gl_create_sampler Tex46.new_address Tex46.samplers
       Tex46.textures Tex46.next_address Tex46.ctx Tex46.set_samplers
       Tex46.set_textures Tex46.set_next_address Tex46.set_ctx].

(** X5: on the 4.6 device a texture that has been created is destroyed by
    its handle: the registry is as it was before the creation, the last
    command deletes the texture object that the creation named, and a
    second destruction of the same handle does nothing. *)
Theorem createTexture_destroyTexture_round_trip info w :
  named_texture_type (ti_type info) = true ->
  Forall (fun x => (fst x < Tex46.next_address w)%nat) (Tex46.textures w) ->
  exists address w1 w2,
    Tex46.createTexture info w = Some (Some address, w1)
    /\ Tex46.destroyTexture address w1 = Some (tt, w2)
    /\ Tex46.textures w2 = Tex46.textures w
    /\ last (tex_log (Tex46.ctx w2))
       = Some (inr (glDeleteTextures (next_texture (Tex46.ctx w))))
    /\ Tex46.destroyTexture address w2 = Some (tt, w2).
Proof.
  intros Htype Hfresh. destruct w as [smp tex na t].
  cbn [Tex46.textures Tex46.next_address Tex46.ctx] in *.
  unfold Tex46.createTexture.
  unfold Tex46.destroyTexture.
  destruct (ti_type info) eqn:Et; try discriminate Htype; run_tex46;
    (eexists; eexists; eexists; split; [reflexivity|]);
    run_tex46;
    rewrite (find_object_app_fresh _ _ _ Hfresh),
      (erase_first_app_fresh _ _ _ Hfresh);
    (split; [reflexivity|]); (split; [reflexivity|]);
    (split; [apply last_snoc|]);
    run_tex46; rewrite (find_object_fresh _ _ Hfresh); reflexivity.
Qed.

Lemma createTexture_destroyTexture_round_trip_witness :
  let info := sample_texture_info R8G8B8A8_UNORM in
  named_texture_type (ti_type info) = true
  /\ Forall (fun x => (fst x < Tex46.next_address fresh_tex46)%nat)
       (Tex46.textures fresh_tex46)
  /\ exists address w1 w2,
       Tex46.createTexture info fresh_tex46 = Some (Some address, w1)
       /\ Tex46.destroyTexture address w1 = Some (tt, w2)
       /\ Tex46.textures w2 = Tex46.textures fresh_tex46
       /\ last (tex_log (Tex46.ctx w2))
          = Some (inr (glDeleteTextures
                         (next_texture (Tex46.ctx fresh_tex46))))
       /\ Tex46.destroyTexture address w2 = Some (tt, w2).
Proof.
  cbv zeta.
  assert (Ht : named_texture_type
                 (ti_type (sample_texture_info R8G8B8A8_UNORM)) = true)
    by reflexivity.
  assert (Hf : Forall (fun x => (fst x < Tex46.next_address fresh_tex46)%nat)
                 (Tex46.textures fresh_tex46))
    by constructor.
  split; [exact Ht|]. split; [exact Hf|].
  exact (createTexture_destroyTexture_round_trip
           (sample_texture_info R8G8B8A8_UNORM) fresh_tex46 Ht Hf).
Defined.

Ltac run_tex33 :=
  cbv [bind ret get modify tex_call tex_exec tex_log next_texture
       next_sampler Tex33.gl_call Tex33.gl_gen_texture
       Tex33.gl_gen_sampler].

(** X6: anisotropic filtering is asked of the context by the 4.6 device
    alone, and only for a sampler with both [SAMPLER_FILTER] and
    [SAMPLER_FILTER_ANISO]: without [SAMPLER_FILTER] the anisotropy flag
    and level are ignored, and the 3.3 device ignores them always. *)
Theorem createSampler_anisotropy F info (t : TexContext) (w : Tex46.World) :
  (exists sampler t' calls,
     Tex33.createSampler F info t = Some (sampler, t')
     /\ tex_log t' = tex_log t ++ calls
     /\ ~ Exists sets_anisotropy calls)
  /\ (exists address w' calls,
        Tex46.createSampler F info w = Some (address, w')
        /\ tex_log (Tex46.ctx w') = tex_log (Tex46.ctx w) ++ calls
        /\ (Exists sets_anisotropy calls <->
            GL46.has_flag (sa_flags info) (SAMPLER_FILTER F) = true
            /\ GL46.has_flag (sa_flags info) (SAMPLER_FILTER_ANISO F)
               = true)).
Proof.
  split.
  - unfold Tex33.createSampler.
    destruct (GL33.has_flag (sa_flags info) (SAMPLER_FILTER F));
      run_tex33;
      (eexists; eexists; eexists; split; [reflexivity|]);
      cbn [tex_log]; rewrite <- !app_assoc; cbn [app];
      (split; [reflexivity|]);
      rewrite !Exists_cons, Exists_nil; cbn [sets_anisotropy];
      intros H; decompose [or] H; try discriminate; assumption.
  - unfold Tex46.createSampler. destruct w as [smp tex na [log nt ns]].
    destruct (GL46.has_flag (sa_flags info) (SAMPLER_FILTER F));
      destruct (GL46.has_flag (sa_flags info) (SAMPLER_FILTER_ANISO F));
      run_tex46;
      (eexists; eexists; eexists; split; [reflexivity|]);
      run_tex46; rewrite <- !app_assoc; cbn [app];
      (split; [reflexivity|]);
      rewrite !Exists_cons, Exists_nil; cbn [sets_anisotropy];
      (split;
       [ intros H; decompose [or] H; try discriminate; try contradiction;
         auto
       | intros [H1 H2]; try discriminate H1; try discriminate H2;
         tauto ]).
Qed.

(** * Replay of single records *)

(** X7: the replay of a render-target copy leaves the framebuffer that was
    bound for drawing bound again, for drawing and for reading: the
    framebuffer that was bound for reading is not bound again.  The context
    is given the two bindings of the copy, the copy and the binding that
    restores. *)
Theorem copy_render_target_restores_draw_binding
    D size_bits src dst sx0 sy0 sx1 sy1 dx0 dy0 dx1 dy1 mask filter w :
  0 <= gl_draw_framebuffer (GL33.gl w) < 2 ^ 32 ->
  exists w',
    GL33.submit_command D size_bits
      (GL33.COPY_RENDER_TARGET src dst sx0 sy0 sx1 sy1 dx0 dy0 dx1 dy1 mask
         filter) w = Some (tt, w')
    /\ gl_draw_framebuffer (GL33.gl w') = gl_draw_framebuffer (GL33.gl w)
    /\ gl_read_framebuffer (GL33.gl w') = gl_draw_framebuffer (GL33.gl w)
    /\ gl_log (GL33.gl w')
       = gl_log (GL33.gl w)
         ++ [glBindFramebuffer GL_READ_FRAMEBUFFER src;
             glBindFramebuffer GL_DRAW_FRAMEBUFFER dst;
             glBlitFramebuffer sx0 sy0 sx1 sy1 dx0 dy0 dx1 dy1 mask filter;
             glBindFramebuffer GL_FRAMEBUFFER
               (gl_draw_framebuffer (GL33.gl w))].
Proof.
  intros Hrange. eexists. split; [reflexivity|].
  destruct w as [odm maxb vbos bp pls bufs heap na g msgs].
  cbn [GL33.gl GL33.set_gl].
  assert (Eu : uint32 (gl_draw_framebuffer g) = gl_draw_framebuffer g)
    by (apply wrap_small, Hrange).
  rewrite !gl_exec_log, <- !app_assoc. cbn [app]. rewrite Eu.
  destruct g; repeat split.
Qed.

Lemma copy_render_target_restores_draw_binding_witness :
  let w := fresh33 sample_driver in
  0 <= gl_draw_framebuffer (GL33.gl w) < 2 ^ 32
  /\ exists w',
       GL33.submit_command sample_driver 64
         (GL33.COPY_RENDER_TARGET 1 0 0 0 640 480 32 32 608 448 16384 1) w
       = Some (tt, w')
       /\ gl_draw_framebuffer (GL33.gl w') = gl_draw_framebuffer (GL33.gl w)
       /\ gl_read_framebuffer (GL33.gl w') = gl_draw_framebuffer (GL33.gl w)
       /\ gl_log (GL33.gl w')
          = gl_log (GL33.gl w)
            ++ [glBindFramebuffer GL_READ_FRAMEBUFFER 1;
                glBindFramebuffer GL_DRAW_FRAMEBUFFER 0;
                glBlitFramebuffer 0 0 640 480 32 32 608 448 16384 1;
                glBindFramebuffer GL_FRAMEBUFFER
                  (gl_draw_framebuffer (GL33.gl w))].
Proof.
  cbv zeta.
  assert (H : 0 <= gl_draw_framebuffer (GL33.gl (fresh33 sample_driver))
              < 2 ^ 32) by (vm_compute; split; [discriminate | reflexivity]).
  split; [exact H|].
  exact (copy_render_target_restores_draw_binding sample_driver 64
           1 0 0 0 640 480 32 32 608 448 16384 1 _ H).
Defined.

Section Rebind.

Context (D : Driver) (size_bits : Z).

Lemma getVertexArray_find_found chain group w :
  forallb (is_live (GL33.vertex_arrays w)) chain = true ->
  has_group (GL33.vertex_arrays w) chain group = true ->
  exists node n,
    GL33.getVertexArray_find chain group w = Some (Some node, w)
    /\ GL33.vertex_arrays w !! node = Some (Some n)
    /\ GL33.va_index n = group.
Proof.
  induction chain as [|p chain IH];
    cbn [forallb has_group existsb GL33.getVertexArray_find];
    [discriminate|].
  intros Hlive Hgroup. apply andb_prop in Hlive as [Hp Hc].
  destruct (deref_vertex_array_live _ _ Hp) as (n & E & En).
  rewrite run_bind, E. cbv beta iota. rewrite En in Hgroup.
  destruct (decide (group <> GL33.va_index n)) as [Hne|Heq].
  - apply orb_prop in Hgroup as [Hg|Hg]; [apply Z.eqb_eq in Hg; congruence|].
    exact (IH Hc Hg).
  - exists p, n. split; [reflexivity|]. split; [exact En|].
    destruct (decide (GL33.va_index n = group)); [assumption|].
    exfalso. apply Heq. congruence.
Qed.

(** The search looks at the indices of the nodes it reaches, and at
    nothing else of the device. *)
Lemma getVertexArray_find_ext chain group w w' r :
  (forall p m,
     GL33.vertex_arrays w !! p = Some (Some m) ->
     exists m',
       GL33.vertex_arrays w' !! p = Some (Some m')
       /\ GL33.va_index m' = GL33.va_index m) ->
  GL33.getVertexArray_find chain group w = Some (r, w) ->
  GL33.getVertexArray_find chain group w' = Some (r, w').
Proof.
  intros Hext. revert r.
  induction chain as [|p chain IH]; intros r;
    cbn [GL33.getVertexArray_find].
  - intros [= <-]. reflexivity.
  - intros H. rewrite run_bind in H |- *.
    unfold GL33.deref_vertex_array in H |- *. cbv [bind get] in H |- *.
    destruct (GL33.vertex_arrays w !! p) as [[m|]|] eqn:Em;
      try discriminate H.
    destruct (Hext _ _ Em) as (m' & -> & Ei).
    cbv [ret] in H |- *. rewrite Ei.
    destruct (decide (group <> GL33.va_index m)); [apply IH, H|].
    injection H as <-. reflexivity.
Qed.

(** The replay of a vertex-buffer bind whose search finds [node]. *)
Lemma bind_vertex_buffer_found buffer w slot binding node n :
  GL33.vbo buffer = Some slot ->
  chain_get (GL33.vbos w) slot = Some binding ->
  (uint32 (GL33.max_vbo_bindings w) =? 0) = false ->
  GL33.getVertexArray_find (GL33.vaos (GL33.bound_pipeline w))
    (uint32 (GL33.vbo_index binding) / uint32 (GL33.max_vbo_bindings w)) w
  = Some (Some node, w) ->
  GL33.vertex_arrays w !! node = Some (Some n) ->
  exists w1 n1,
    GL33.submit_command D size_bits (GL33.BIND_VERTEX_BUFFER buffer) w
    = Some (tt, w1)
    /\ GL33.vbos w1 = GL33.vbos w
    /\ GL33.max_vbo_bindings w1 = GL33.max_vbo_bindings w
    /\ GL33.vaos (GL33.bound_pipeline w1) = GL33.vaos (GL33.bound_pipeline w)
    /\ GL33.vertex_arrays w1 !! node = Some (Some n1)
    /\ GL33.vaobj n1 = GL33.bound_vao (GL33.bound_pipeline w1)
    /\ GL33.vbobj n1 = GL33.bufobj buffer
    /\ (forall p m,
          GL33.vertex_arrays w !! p = Some (Some m) ->
          exists m',
            GL33.vertex_arrays w1 !! p = Some (Some m')
            /\ GL33.va_index m' = GL33.va_index m)
    /\ (GL33.vaobj n = GL33.bound_vao (GL33.bound_pipeline w) ->
        GL33.vbobj n = GL33.bufobj buffer -> w1 = w).
Proof.
  intros Eslot Eb Hmax Ef En.
  cbn [GL33.submit_command].
  cbv [bind get lift_option GL33.deref_vbo ret modify].
  rewrite Eslot, Eb. unfold udiv32, umod32. rewrite Hmax.
  unfold GL33.getVertexArray. rewrite run_bind, Ef.
  cbv [GL33.deref_vertex_array bind get ret].
  change (GL33.vertex_arrays (GL33.set_bound_pipeline _ w))
    with (GL33.vertex_arrays w).
  rewrite En.
  assert (Hins : forall b p m,
    GL33.vertex_arrays w !! p = Some (Some m) ->
    exists m',
      <[node := Some (GL33.set_vbobj b n)]> (GL33.vertex_arrays w) !! p
      = Some (Some m')
      /\ GL33.va_index m' = GL33.va_index m).
  { intros b p m Em. destruct (decide (p = node)) as [->|Hne].
    - rewrite list_lookup_insert_eq by (eapply lookup_lt_Some, En).
      eexists. split; [reflexivity|].
      rewrite En in Em. injection Em as <-. reflexivity.
    - rewrite list_lookup_insert_ne by congruence. eauto. }
  destruct (decide (GL33.vaobj n <> GL33.bound_vao (GL33.bound_pipeline w)))
    as [Hvao|Hvao];
    destruct (decide (GL33.vbobj n <> GL33.bufobj buffer)) as [Hvbo|Hvbo];
    rewrite ?run_gl_call33, ?for_each_gl_call33, ?run_gl_call33;
    destruct w as [odm maxb vbos bp pls bufs heap na g msgs];
    destruct bp;
    cbn [GL33.vbos GL33.max_vbo_bindings GL33.vertex_arrays
         GL33.bound_pipeline GL33.gl GL33.set_gl GL33.set_vertex_arrays
         GL33.set_bound_pipeline GL33.vaos GL33.set_vaos GL33.set_bound_vao
         GL33.bound_vao] in *;
    eexists; eexists; (split; [reflexivity|]);
    cbn [GL33.vbos GL33.max_vbo_bindings GL33.vertex_arrays
         GL33.bound_pipeline GL33.vaos GL33.bound_vao];
    (split; [reflexivity|]); (split; [reflexivity|]);
    (split; [reflexivity|]).
  - split; [apply list_lookup_insert_eq; eapply lookup_lt_Some, En|].
    split; [reflexivity|]. split; [reflexivity|].
    split; [apply Hins | intros H; destruct (Hvao H)].
  - split; [exact En|]. split; [reflexivity|].
    split; [apply dec_stable in Hvbo; exact Hvbo|].
    split; [eauto | intros H; destruct (Hvao H)].
  - split; [apply list_lookup_insert_eq; eapply lookup_lt_Some, En|].
    split; [apply dec_stable in Hvao; exact Hvao|]. split; [reflexivity|].
    split; [apply Hins | intros _ H; destruct (Hvbo H)].
  - split; [exact En|].
    split; [apply dec_stable in Hvao; exact Hvao|].
    split; [apply dec_stable in Hvbo; exact Hvbo|].
    split; [eauto | reflexivity].
Qed.

(** X8: a vertex buffer bound twice in a row.  When the chain of the bound
    pipeline has a group object for the slot of the buffer, the second
    replay of the record gives the context no command and leaves the
    device as the first replay left it. *)
Theorem bind_vertex_buffer_again_is_skipped buffer w group :
  chain_ok (GL33.vertex_arrays w) (GL33.vaos (GL33.bound_pipeline w)) = true ->
  slot_group w buffer = Some group ->
  has_group (GL33.vertex_arrays w) (GL33.vaos (GL33.bound_pipeline w)) group
  = true ->
  exists w1,
    GL33.submit_command D size_bits (GL33.BIND_VERTEX_BUFFER buffer) w
    = Some (tt, w1)
    /\ GL33.submit_command D size_bits (GL33.BIND_VERTEX_BUFFER buffer) w1
       = Some (tt, w1).
Proof.
  intros Hok Hslot Hgroup. unfold slot_group in Hslot.
  destruct (GL33.vbo buffer) as [slot|] eqn:Eslot; [|discriminate].
  destruct (chain_get (GL33.vbos w) slot) as [binding|] eqn:Eb;
    [|discriminate].
  assert (Hmax : (uint32 (GL33.max_vbo_bindings w) =? 0) = false).
  { unfold udiv32 in Hslot.
    destruct (uint32 (GL33.max_vbo_bindings w) =? 0);
      [discriminate | reflexivity]. }
  assert (Eg : group = uint32 (GL33.vbo_index binding)
                       / uint32 (GL33.max_vbo_bindings w)).
  { unfold udiv32 in Hslot. rewrite Hmax in Hslot. congruence. }
  assert (Hlive : forallb (is_live (GL33.vertex_arrays w))
                    (GL33.vaos (GL33.bound_pipeline w)) = true).
  { destruct (GL33.vaos (GL33.bound_pipeline w)); [discriminate | exact Hok]. }
  destruct (getVertexArray_find_found _ _ _ Hlive Hgroup)
    as (node & n & Ef & En & _).
  rewrite Eg in Ef.
  destruct (bind_vertex_buffer_found buffer w slot binding node n
              Eslot Eb Hmax Ef En)
    as (w1 & n1 & E1 & Hv & Hm & Hc & En1 & Hvao & Hvbo & Hext & _).
  exists w1. split; [exact E1|].
  rewrite <- Hv in Eb. rewrite <- Hm in Hmax.
  pose proof (getVertexArray_find_ext _ _ _ _ _ Hext Ef) as Ef1.
  rewrite <- Hc, <- Hm in Ef1.
  destruct (bind_vertex_buffer_found buffer w1 slot binding node n1
              Eslot Eb Hmax Ef1 En1)
    as (w2 & n2 & E2 & _ & _ & _ & _ & _ & _ & _ & Hsame).
  rewrite E2, (Hsame Hvao Hvbo). reflexivity.
Qed.

End Rebind.

Lemma bind_vertex_buffer_again_is_skipped_witness :
  exists buffer w group,
    sample_bound33 sample_driver (fresh33 sample_driver) = Some (buffer, w)
    /\ chain_ok (GL33.vertex_arrays w) (GL33.vaos (GL33.bound_pipeline w))
       = true
    /\ slot_group w buffer = Some group
    /\ has_group (GL33.vertex_arrays w) (GL33.vaos (GL33.bound_pipeline w))
         group = true
    /\ exists w1,
         GL33.submit_command sample_driver 64
           (GL33.BIND_VERTEX_BUFFER buffer) w = Some (tt, w1)
         /\ GL33.submit_command sample_driver 64
              (GL33.BIND_VERTEX_BUFFER buffer) w1 = Some (tt, w1).
Proof.
  destruct (sample_bound33 sample_driver (fresh33 sample_driver))
    as [[buffer w]|] eqn:E; [|vm_compute in E; discriminate E].
  exists buffer, w, 0. split; [reflexivity|].
  pose proof E as E0. vm_compute in E0. injection E0 as Hb Hw.
  assert (Hok : chain_ok (GL33.vertex_arrays w)
                  (GL33.vaos (GL33.bound_pipeline w)) = true)
    by (rewrite <- Hw; vm_compute; reflexivity).
  assert (Hs : slot_group w buffer = Some 0)
    by (rewrite <- Hw, <- Hb; vm_compute; reflexivity).
  assert (Hg : has_group (GL33.vertex_arrays w)
                 (GL33.vaos (GL33.bound_pipeline w)) 0 = true)
    by (rewrite <- Hw; vm_compute; reflexivity).
  split; [exact Hok|]. split; [exact Hs|]. split; [exact Hg|].
  exact (bind_vertex_buffer_again_is_skipped sample_driver 64 buffer w 0
           Hok Hs Hg).
Defined.

(** ** Index buffers *)

Lemma issued_refl D P g : issued D P g g.
Proof. exists []. split; [reflexivity | constructor]. Qed.

Lemma issued_trans D P g1 g2 g3 :
  issued D P g1 g2 -> issued D P g2 g3 -> issued D P g1 g3.
Proof.
  intros (l1 & -> & H1) (l2 & -> & H2). exists (l1 ++ l2).
  split; [symmetry; apply gl_run_app | apply Forall_app; auto].
Qed.

Lemma issued_exec D (P : GLCall -> Prop) c g :
  P c -> issued D P g (gl_exec D c g).
Proof.
  intros H. exists [c]. split; [reflexivity | repeat constructor; exact H].
Qed.

Lemma issued_log D P g g' :
  issued D P g g' ->
  exists calls, gl_log g' = gl_log g ++ calls /\ Forall P calls.
Proof. intros (calls & -> & H). exists calls. split; [apply gl_run_log | exact H]. Qed.

Lemma submit_command_no_index_buffer D size_bits cmd w :
  is_bind_vertex_buffer cmd = false ->
  exists w',
    GL33.submit_command D size_bits cmd w = Some (tt, w')
    /\ issued D (fun c => ~ binds_index_buffer c) (GL33.gl w) (GL33.gl w').
Proof.
  intros Hcmd.
  destruct cmd as
    [ x y sw sh | x y vw vh | depth | color0 color1 color2 color3
    | clear_mask | pipeline | bind_index object | bind_index object
    | object | buffer | bind_index object | bind_index tex_target object
    | object | buffer offset size data_ptr
    | src dst sx0 sy0 sx1 sy1 dx0 dy0 dx1 dy1 mask filter
    | vertices instances base_vertex base_instance
    | indices instances base_index base_vertex base_instance ];
    try discriminate Hcmd;
    try (eexists; split; [reflexivity|];
         destruct w; cbn [GL33.gl GL33.set_gl GL33.set_bound_pipeline];
         repeat first
           [ apply issued_refl
           | eapply issued_trans;
               [|apply issued_exec; cbn [binds_index_buffer];
                 first [exact (fun H => H) | discriminate]] ]; fail).
  eexists. split; [apply submit_bind_pipeline|].
  rewrite gl_set_gl33.
  change (GL33.gl (GL33.set_bound_pipeline pipeline w)) with (GL33.gl w).
  exists (bind_pipeline_calls pipeline). split; [reflexivity|].
  unfold bind_pipeline_calls.
  destruct (GL33.blending_enabled pipeline),
    (GL33.depth_testing_enabled pipeline),
    (GL33.face_culling_enabled pipeline), (GL33.scissor_test pipeline);
    repeat constructor; exact (fun H => H).
Qed.

(** X9: a command list that records no vertex-buffer bind is replayed
    without an index buffer reaching the context, whatever index buffers it
    binds: the replay returns, and none of the commands it gives binds
    [GL_ELEMENT_ARRAY_BUFFER]. *)
Theorem index_buffer_bound_with_vertex_buffer_only D size_bits cl w :
  (GL33.num_commands cl <= length (GL33.commands cl))%nat ->
  existsb is_bind_vertex_buffer (recorded cl) = false ->
  exists w' calls,
    GL33.submit D size_bits cl w = Some (tt, w')
    /\ gl_log (GL33.gl w') = gl_log (GL33.gl w) ++ calls
    /\ Forall (fun c => ~ binds_index_buffer c) calls.
Proof.
  intros Hn Hrecords. unfold GL33.submit.
  destruct (decide (GL33.num_commands cl <= length (GL33.commands cl))%nat)
    as [_|Hno]; [|destruct (Hno Hn)].
  fold (recorded cl).
  assert (Hrun : exists w',
    for_each (recorded cl) (GL33.submit_command D size_bits) w
    = Some (tt, w')
    /\ issued D (fun c => ~ binds_index_buffer c) (GL33.gl w) (GL33.gl w')).
  { revert w Hrecords. generalize (recorded cl). clear cl Hn.
    intros records. induction records as [|cmd records IH]; intros w H.
    - exists w. split; [reflexivity | apply issued_refl].
    - cbn [existsb] in H. apply orb_false_elim in H as [Hcmd Hrest].
      destruct (submit_command_no_index_buffer D size_bits cmd w Hcmd)
        as (w1 & E1 & H1).
      destruct (IH w1 Hrest) as (w' & E & H').
      exists w'. cbn [for_each]. rewrite run_bind, E1.
      split; [exact E | eapply issued_trans; eassumption]. }
  destruct Hrun as (w' & E & Hissued).
  destruct (issued_log _ _ _ _ Hissued) as (calls & Hl & Hc).
  exists w', calls. auto.
Qed.

Lemma index_buffer_bound_with_vertex_buffer_only_witness :
  let cl := indexed_commands33 GL33.null_pipeline in
  let w := fresh33 sample_driver in
  (GL33.num_commands cl <= length (GL33.commands cl))%nat
  /\ existsb is_bind_vertex_buffer (recorded cl) = false
  /\ exists w' calls,
       GL33.submit sample_driver 64 cl w = Some (tt, w')
       /\ gl_log (GL33.gl w') = gl_log (GL33.gl w) ++ calls
       /\ Forall (fun c => ~ binds_index_buffer c) calls.
Proof.
  cbv zeta.
  assert (Hn : (GL33.num_commands (indexed_commands33 GL33.null_pipeline)
                <= length (GL33.commands
                             (indexed_commands33 GL33.null_pipeline)))%nat)
    by (cbn; lia).
  assert (Hr : existsb is_bind_vertex_buffer
                 (recorded (indexed_commands33 GL33.null_pipeline)) = false)
    by reflexivity.
  split; [exact Hn|]. split; [exact Hr|].
  exact (index_buffer_bound_with_vertex_buffer_only sample_driver 64
           (indexed_commands33 GL33.null_pipeline) (fresh33 sample_driver)
           Hn Hr).
Defined.

(** * Framebuffer bindings and render targets *)

Lemma gl_run_attach33_bindings D (l : list (Z * Z)) g :
  let g' := gl_run D (map (fun a => glFramebufferTexture2D GL_FRAMEBUFFER
                                      (fst a) GL_TEXTURE_2D (snd a) 0) l) g in
  gl_draw_framebuffer g' = gl_draw_framebuffer g
  /\ gl_read_framebuffer g' = gl_read_framebuffer g.
Proof.
  cbv zeta. revert g. induction l as [|a l IH]; intros g; [split; reflexivity|].
  cbn [map]. rewrite gl_run_cons.
  destruct (IH (gl_exec D (glFramebufferTexture2D GL_FRAMEBUFFER (fst a)
                             GL_TEXTURE_2D (snd a) 0) g)) as [-> ->].
  destruct g; split; reflexivity.
Qed.

Lemma gl_run_attach46_bindings D fb (l : list (Z * Z)) g :
  let g' := gl_run D (map (fun a => glNamedFramebufferTexture fb (fst a)
                                      (snd a) 0) l) g in
  gl_draw_framebuffer g' = gl_draw_framebuffer g
  /\ gl_read_framebuffer g' = gl_read_framebuffer g.
Proof.
  cbv zeta. revert g. induction l as [|a l IH]; intros g; [split; reflexivity|].
  cbn [map]. rewrite gl_run_cons.
  destruct (IH (gl_exec D (glNamedFramebufferTexture fb (fst a) (snd a) 0) g))
    as [-> ->].
  destruct g; split; reflexivity.
Qed.

(** X10: what the creation of a render target does to the framebuffer
    bindings of the context.  The 3.3 device leaves the new framebuffer
    bound for drawing and reading, or no framebuffer when the creation
    fails: what was bound before is not bound again.  The 4.6 device leaves
    the bindings as they were. *)
Theorem createRenderTarget_bindings D info33 info46 w33 w46 :
  gl_draw_framebuffer (GL46.gl w46) < gl_next_name (GL46.gl w46) ->
  gl_read_framebuffer (GL46.gl w46) < gl_next_name (GL46.gl w46) ->
  (exists target w',
     GL33.createRenderTarget D info33 w33 = Some (target, w')
     /\ gl_draw_framebuffer (GL33.gl w')
        = from_option GL33.fbobj 0 target
     /\ gl_read_framebuffer (GL33.gl w')
        = from_option GL33.fbobj 0 target)
  /\ (exists target w',
        GL46.createRenderTarget D info46 w46 = Some (target, w')
        /\ gl_draw_framebuffer (GL46.gl w')
           = gl_draw_framebuffer (GL46.gl w46)
        /\ gl_read_framebuffer (GL46.gl w')
           = gl_read_framebuffer (GL46.gl w46)).
Proof.
  intros Hdraw Hread. split.
  - rewrite createRenderTarget33_run. cbv zeta.
    set (fb := gl_next_name (GL33.gl w33)).
    assert (Hb : gl_draw_framebuffer
                   (gl_run D (framebuffer_calls33 fb info33) (GL33.gl w33))
                 = fb
                 /\ gl_read_framebuffer
                      (gl_run D (framebuffer_calls33 fb info33)
                         (GL33.gl w33))
                    = fb).
    { unfold framebuffer_calls33. rewrite gl_run_app.
      destruct (gl_run_attach33_bindings D (attachments33 info33)
                  (gl_run D [glGenFramebuffers fb;
                             glBindFramebuffer GL_FRAMEBUFFER fb]
                     (GL33.gl w33))) as [-> ->].
      destruct (GL33.gl w33); split; reflexivity. }
    destruct Hb as [Hd Hr].
    destruct (decide _); eexists; eexists; (split; [reflexivity|]);
      rewrite gl_set_gl33; cbn [from_option GL33.fbobj]; [|auto].
    revert Hd Hr.
    generalize (gl_run D (framebuffer_calls33 fb info33) (GL33.gl w33)).
    intros g Hd Hr. destruct g; cbn in *. subst.
    rewrite Z.eqb_refl. split; reflexivity.
  - rewrite createRenderTarget46_run. cbv zeta.
    set (fb := gl_next_name (GL46.gl w46)) in *.
    assert (Hb : gl_draw_framebuffer
                   (gl_run D (framebuffer_calls46 fb info46) (GL46.gl w46))
                 = gl_draw_framebuffer (GL46.gl w46)
                 /\ gl_read_framebuffer
                      (gl_run D (framebuffer_calls46 fb info46)
                         (GL46.gl w46))
                    = gl_read_framebuffer (GL46.gl w46)).
    { unfold framebuffer_calls46. rewrite gl_run_app.
      destruct (gl_run_attach46_bindings D fb (attachments46 info46)
                  (gl_run D [glCreateFramebuffers fb] (GL46.gl w46)))
        as [-> ->].
      destruct (GL46.gl w46); split; reflexivity. }
    destruct Hb as [Hd Hr].
    destruct (decide _); eexists; eexists; (split; [reflexivity|]).
    + rewrite gl_set_gl46. revert Hd Hr.
      generalize (gl_run D (framebuffer_calls46 fb info46) (GL46.gl w46)).
      intros g Hd Hr. destruct g; cbn in *. subst.
      destruct (Z.eqb_spec (gl_draw_framebuffer (GL46.gl w46)) fb); [lia|].
      destruct (Z.eqb_spec (gl_read_framebuffer (GL46.gl w46)) fb); [lia|].
      split; reflexivity.
    + destruct w46; cbn in *. auto.
Qed.

Lemma createRenderTarget_bindings_witness :
  let w33 := fresh33 sample_driver in
  let w46 := fresh46 sample_driver in
  gl_draw_framebuffer (GL46.gl w46) < gl_next_name (GL46.gl w46)
  /\ gl_read_framebuffer (GL46.gl w46) < gl_next_name (GL46.gl w46)
  /\ (exists target w',
        GL33.createRenderTarget sample_driver no_attachments33 w33
        = Some (target, w')
        /\ gl_draw_framebuffer (GL33.gl w')
           = from_option GL33.fbobj 0 target
        /\ gl_read_framebuffer (GL33.gl w')
           = from_option GL33.fbobj 0 target)
  /\ (exists target w',
        GL46.createRenderTarget sample_driver no_attachments46 w46
        = Some (target, w')
        /\ gl_draw_framebuffer (GL46.gl w')
           = gl_draw_framebuffer (GL46.gl w46)
        /\ gl_read_framebuffer (GL46.gl w')
           = gl_read_framebuffer (GL46.gl w46)).
Proof.
  cbv zeta.
  assert (Hd : gl_draw_framebuffer (GL46.gl (fresh46 sample_driver))
               < gl_next_name (GL46.gl (fresh46 sample_driver)))
    by (vm_compute; reflexivity).
  assert (Hr : gl_read_framebuffer (GL46.gl (fresh46 sample_driver))
               < gl_next_name (GL46.gl (fresh46 sample_driver)))
    by (vm_compute; reflexivity).
  split; [exact Hd|]. split; [exact Hr|].
  exact (createRenderTarget_bindings sample_driver no_attachments33
           no_attachments46 (fresh33 sample_driver) (fresh46 sample_driver)
           Hd Hr).
Defined.

(** * Shader and pipeline creation: what is left behind *)

(** ** Shader objects of the 4.6 device *)

Lemma shader_attached_true sh prs :
  shader_attached sh prs = true
  <-> exists p o, prs !! p = Some o /\ sh ∈ po_attached o.
Proof.
  unfold shader_attached. rewrite existsb_exists. split.
  - intros ([p o] & Hin & Hsh). exists p, o.
    apply list_elem_of_In, elem_of_map_to_list in Hin.
    apply bool_decide_eq_true in Hsh. auto.
  - intros (p & o & Hp & Hsh). exists (p, o). split.
    + apply list_elem_of_In, elem_of_map_to_list, Hp.
    + apply bool_decide_eq_true. exact Hsh.
Qed.

Lemma shader_attached_false sh prs :
  shader_attached sh prs = false
  <-> forall p o, prs !! p = Some o -> sh ∉ po_attached o.
Proof.
  rewrite <- not_true_iff_false, shader_attached_true. split.
  - intros H p o Hp Hsh. apply H. eauto.
  - intros H (p & o & Hp & Hsh). exact (H p o Hp Hsh).
Qed.

(** The programs of [prs'] are programs of [prs]. *)
Lemma shader_attached_subset sh (prs prs' : gmap Z ProgramObject) :
  (forall p o, prs' !! p = Some o -> prs !! p = Some o) ->
  shader_attached sh prs = false -> shader_attached sh prs' = false.
Proof.
  rewrite !shader_attached_false. intros Hsub H p o Hp. eauto.
Qed.

(** The shader object that [glCreateShader] names [n], once it has been
    compiled or specialized: it is in the context, not flagged, and the
    other shader objects and the programs are as they were. *)
Lemma gl_shader_built D type c1 c2 g :
  let n := gl_next_name g in
  (exists src, c1 = glShaderSource n src /\ c2 = glCompileShader n)
  \/ (exists fmt bin len entry,
        c1 = glShaderBinary n fmt bin len /\ c2 = glSpecializeShader n entry) ->
  let G1 := gl_exec D c2 (gl_exec D c1 (gl_exec D (glCreateShader type n) g)) in
  (exists o, gl_shaders G1 !! n = Some o /\ so_flagged o = false)
  /\ (forall s, s <> n -> gl_shaders G1 !! s = gl_shaders g !! s)
  /\ gl_programs G1 = gl_programs g.
Proof.
  intros n H G1. subst n G1.
  destruct g as [log next en sc vp cc cd vab vbs dfb rfb shs prs fbs].
  cbn [gl_next_name] in *.
  destruct H as [(src & -> & ->) | (fmt & bin & len & entry & -> & ->)];
    cbn [gl_exec gl_shaders gl_programs];
    (split; [eexists; rewrite !lookup_alter_eq, lookup_insert_eq;
             split; reflexivity|]);
    (split; [|reflexivity]);
    intros s Hs; rewrite !lookup_alter_ne, lookup_insert_ne by congruence;
    reflexivity.
Qed.

(** A shader object deleted while no program has it attached. *)
Lemma gl_delete_shader_unattached D G n :
  shader_attached n (gl_programs G) = false ->
  gl_shaders (gl_exec D (glDeleteShader n) G) = delete n (gl_shaders G)
  /\ gl_programs (gl_exec D (glDeleteShader n) G) = gl_programs G.
Proof.
  destruct G as [log next en sc vp cc cd vab vbs dfb rfb shs prs fbs].
  cbn [gl_exec gl_shaders gl_programs]. intros H.
  unfold delete_shader. rewrite H. auto.
Qed.

(** The program that [glCreateProgram] names [p], with [n] attached, linked,
    and [n] deleted: the shader object is flagged, not deleted. *)
Lemma gl_program_built D G1 n pname value :
  let p := gl_next_name G1 in
  let G3 :=
    gl_exec D (glDeleteShader n)
      (gl_exec D (glLinkProgram p)
         (gl_exec D (glAttachShader p n)
            (gl_exec D (glProgramParameteri p pname value)
               (gl_exec D (glCreateProgram p) G1)))) in
  gl_programs G3 !! p
  = Some {| po_attached := [n]; po_status := fst (link_program D [n]);
            po_log := snd (link_program D [n]) |}
  /\ (forall q, q <> p -> gl_programs G3 !! q = gl_programs G1 !! q)
  /\ gl_shaders G3
     = alter (fun o => Build_ShaderObject (so_type o) (so_source o)
                         (so_binary o) (so_status o) (so_log o) true)
         n (gl_shaders G1).
Proof.
  intros p G3. subst p G3.
  destruct G1 as [log next en sc vp cc cd vab vbs dfb rfb shs prs fbs].
  cbn [gl_next_name gl_exec gl_shaders gl_programs].
  assert (Hp : alter (fun o => Build_ProgramObject (po_attached o)
                                 (fst (link_program D (po_attached o)))
                                 (snd (link_program D (po_attached o))))
                 next
                 (alter (fun o => Build_ProgramObject (po_attached o ++ [n])
                                    (po_status o) (po_log o)) next
                    (<[next := Build_ProgramObject [] false ""]> prs))
               !! next
               = Some {| po_attached := [n];
                         po_status := fst (link_program D [n]);
                         po_log := snd (link_program D [n]) |}).
  { rewrite !lookup_alter_eq, lookup_insert_eq. reflexivity. }
  split; [exact Hp|]. split.
  - intros q Hq. rewrite !lookup_alter_ne, lookup_insert_ne by congruence.
    reflexivity.
  - unfold delete_shader.
    match goal with
    | |- (if shader_attached n ?m then _ else _) = _ =>
        assert (Ha : shader_attached n m = true)
    end.
    { apply shader_attached_true. eexists; eexists. split; [exact Hp|].
      cbn [po_attached]. apply list_elem_of_singleton. reflexivity. }
    rewrite Ha. reflexivity.
Qed.

(** A program deleted with one shader object attached, which is flagged
    and which no other program has attached: the shader object goes with
    it. *)
Lemma gl_delete_program_releases D G p po n o :
  gl_programs G !! p = Some po ->
  po_attached po = [n] ->
  gl_shaders G !! n = Some o ->
  so_flagged o = true ->
  shader_attached n (delete p (gl_programs G)) = false ->
  gl_shaders (gl_exec D (glDeleteProgram p) G) = delete n (gl_shaders G)
  /\ gl_programs (gl_exec D (glDeleteProgram p) G) = delete p (gl_programs G).
Proof.
  destruct G as [log next en sc vp cc cd vab vbs dfb rfb shs prs fbs].
  cbn [gl_exec gl_shaders gl_programs].
  intros Hp Ha Hn Hf Hu. rewrite Hp. cbn [from_option]. rewrite Ha.
  cbn [release_shaders foldr]. rewrite Hn, Hf, Hu. auto.
Qed.

(** The run of [createShader] on the 4.6 device, by its outcome: [G1] is
    the context once the shader object has been compiled or specialized. *)
Lemma createShader46_run D info w :
  let n := gl_next_name (GL46.gl w) in
  exists r w' G1,
    GL46.createShader D info w = Some (r, w')
    /\ (let p := gl_next_name G1 in
        let G3 :=
          gl_exec D (glDeleteShader n)
            (gl_exec D (glLinkProgram p)
               (gl_exec D (glAttachShader p n)
                  (gl_exec D (glProgramParameteri p GL_PROGRAM_SEPARABLE
                                GL_TRUE)
                     (gl_exec D (glCreateProgram p) G1)))) in
        (r = None /\ GL46.shaders w' = GL46.shaders w
         /\ GL46.gl w' = gl_exec D (glDeleteShader n) G1)
        \/ (r = None /\ GL46.shaders w' = GL46.shaders w
            /\ GL46.gl w' = gl_exec D (glDeleteProgram p) G3)
        \/ (r = Some (GL46.next_address w)
            /\ (exists shader,
                  GL46.shaders w'
                  = GL46.shaders w ++ [(GL46.next_address w, shader)]
                  /\ GL46.prog shader = p)
            /\ gl_program_status G3 p = true
            /\ GL46.gl w' = G3))
    /\ (exists o, gl_shaders G1 !! n = Some o /\ so_flagged o = false)
    /\ (forall s, s <> n -> gl_shaders G1 !! s = gl_shaders (GL46.gl w) !! s)
    /\ gl_programs G1 = gl_programs (GL46.gl w).
Proof.
  intros n. subst n. unfold GL46.createShader.
  destruct w as [om ib vb ss ps bs rs na g ms].
  cbn [GL46.gl GL46.shaders GL46.next_address].
  destruct (GL46.si_stage info), (GL46.si_format info); destruct om; run46;
    repeat match goal with
      | |- context [if 1 <? ?x then _ else _] => destruct (1 <? x); run46
      | |- context [if negb ?x then _ else _] =>
          destruct x eqn:?; cbn [negb]; run46
      end;
    (eexists; eexists;
     eexists (gl_exec D _ (gl_exec D _ (gl_exec D (glCreateShader _ _) g)));
     split; [reflexivity|]);
    cbn [GL46.gl GL46.shaders]; cbv zeta;
    (split;
     [ first [ left; repeat split; reflexivity
             | right; left; repeat split; reflexivity
             | right; right; split; [reflexivity|];
               split; [eexists; split; reflexivity|];
               split; [assumption | reflexivity] ]
     | apply gl_shader_built;
       first [ left; eexists; split; reflexivity
             | right; do 4 eexists; split; reflexivity ] ]).
Qed.

(** X11: the shader object that the 4.6 creation of a shader compiles, in
    a context where no program has the next name attached and on a device
    whose shaders have addresses below the next one.  When the creation
    fails, by compilation or by linking, the shader object is gone from the
    context when it returns, and no program is left.  When it succeeds the
    shader object is still in the context: it was deleted while attached
    to the new program, which only flags it.  It is released when
    [destroyShader] deletes the program.  The other shader objects are
    never touched. *)
Theorem createShader46_shader_object_lifetime D info w :
  shader_attached (gl_next_name (GL46.gl w)) (gl_programs (GL46.gl w))
  = false ->
  Forall (fun x => (fst x < GL46.next_address w)%nat) (GL46.shaders w) ->
  let shobj := gl_next_name (GL46.gl w) in
  exists r w',
    GL46.createShader D info w = Some (r, w')
    /\ (forall s, s <> shobj ->
                  gl_shaders (GL46.gl w') !! s = gl_shaders (GL46.gl w) !! s)
    /\ match r with
       | Some address =>
           exists shader o po,
             GL46.shaders w' = GL46.shaders w ++ [(address, shader)]
             /\ gl_program_status (GL46.gl w') (GL46.prog shader) = true
             /\ gl_programs (GL46.gl w') !! GL46.prog shader = Some po
             /\ po_attached po = [shobj]
             /\ gl_shaders (GL46.gl w') !! shobj = Some o
             /\ so_flagged o = true
             /\ (forall p o',
                   gl_programs (GL46.gl w') !! p = Some o' ->
                   p = GL46.prog shader
                   \/ gl_programs (GL46.gl w) !! p = Some o')
             /\ exists w'',
                  GL46.destroyShader D address w' = Some (tt, w'')
                  /\ GL46.shaders w'' = GL46.shaders w
                  /\ gl_shaders (GL46.gl w'') !! shobj = None
                  /\ gl_programs (GL46.gl w'') !! GL46.prog shader = None
                  /\ forall s, s <> shobj ->
                       gl_shaders (GL46.gl w'') !! s
                       = gl_shaders (GL46.gl w) !! s
       | None =>
           GL46.shaders w' = GL46.shaders w
           /\ gl_shaders (GL46.gl w') !! shobj = None
           /\ forall p o,
                gl_programs (GL46.gl w') !! p = Some o ->
                gl_programs (GL46.gl w) !! p = Some o
       end.
Proof.
  intros Hfree Haddr shobj.
  destruct (createShader46_run D info w)
    as (r & w' & G1 & E & Hcase & (o1 & Ho1 & Hf1) & Hothers & Hprs).
  fold shobj in Hcase, Ho1, Hothers. cbv zeta in Hcase.
  set (p := gl_next_name G1) in *.
  pose proof (gl_program_built D G1 shobj GL_PROGRAM_SEPARABLE GL_TRUE)
    as (Hp3 & Hq3 & Hs3).
  fold p in Hp3, Hq3, Hs3.
  set (G3 := gl_exec D (glDeleteShader shobj)
               (gl_exec D (glLinkProgram p) _)) in *.
  assert (Hfree3 : shader_attached shobj (delete p (gl_programs G3)) = false).
  { apply (shader_attached_subset _ (gl_programs (GL46.gl w))); [|exact Hfree].
    intros q o Hq. destruct (decide (q = p)) as [->|Hne].
    - rewrite lookup_delete_eq in Hq. discriminate Hq.
    - rewrite lookup_delete_ne, Hq3, Hprs in Hq by congruence. exact Hq. }
  assert (Hflag : gl_shaders G3 !! shobj
                  = Some (Build_ShaderObject (so_type o1) (so_source o1)
                            (so_binary o1) (so_status o1) (so_log o1) true)).
  { rewrite Hs3, lookup_alter_eq, Ho1. reflexivity. }
  assert (Hkeep3 : forall s, s <> shobj ->
            gl_shaders G3 !! s = gl_shaders (GL46.gl w) !! s).
  { intros s Hs. rewrite Hs3, lookup_alter_ne by congruence.
    apply Hothers, Hs. }
  destruct (gl_delete_program_releases D G3 p _ shobj _ Hp3 eq_refl Hflag
              eq_refl Hfree3) as [Hdel_s Hdel_p].
  exists r, w'. split; [exact E|].
  destruct Hcase as [(-> & Hss & Hg) | [(-> & Hss & Hg)
                                       | (-> & (shader & Hss & Hprog) & Hst & Hg)]].
  - (* compilation failed *)
    rewrite Hg.
    destruct (gl_delete_shader_unattached D G1 shobj) as [Hs Hp];
      [rewrite Hprs; exact Hfree|].
    rewrite Hs, Hp. split.
    { intros s Hs'. rewrite lookup_delete_ne by congruence.
      apply Hothers, Hs'. }
    split; [exact Hss|]. split; [apply lookup_delete_eq|].
    intros q o. rewrite Hprs. exact (fun H => H).
  - (* linking failed *)
    rewrite Hg, Hdel_s, Hdel_p. split.
    { intros s Hs'. rewrite lookup_delete_ne by congruence.
      apply Hkeep3, Hs'. }
    split; [exact Hss|]. split; [apply lookup_delete_eq|].
    intros q o Hq. destruct (decide (q = p)) as [->|Hne].
    + rewrite lookup_delete_eq in Hq. discriminate Hq.
    + rewrite lookup_delete_ne, Hq3, Hprs in Hq by congruence. exact Hq.
  - (* a handle is returned *)
    rewrite Hg. split; [exact Hkeep3|].
    exists shader. eexists. eexists. rewrite Hprog.
    split; [exact Hss|]. split; [exact Hst|]. split; [exact Hp3|].
    split; [reflexivity|]. split; [exact Hflag|]. split; [reflexivity|].
    split.
    { intros q o Hq. destruct (decide (q = p)) as [->|Hne]; [left; reflexivity|].
      right. rewrite Hq3, Hprs in Hq by exact Hne. exact Hq. }
    unfold GL46.destroyShader. cbv [bind get]. rewrite Hss.
    rewrite (find_object_app_fresh _ _ _ Haddr).
    cbv [modify GL46.gl_call]. rewrite (erase_first_app_fresh _ _ _ Haddr).
    eexists. split; [reflexivity|]. rewrite Hprog.
    split; [reflexivity|].
    rewrite gl_set_gl46.
    change (GL46.gl (GL46.set_shaders (GL46.shaders w) w')) with (GL46.gl w').
    rewrite Hg, Hdel_s, Hdel_p.
    split; [apply lookup_delete_eq|]. split; [apply lookup_delete_eq|].
    intros s Hs'. rewrite lookup_delete_ne by congruence. apply Hkeep3, Hs'.
Qed.

Lemma createShader46_shader_object_lifetime_witness :
  let w := fresh46 sample_driver in
  let shobj := gl_next_name (GL46.gl w) in
  shader_attached shobj (gl_programs (GL46.gl w)) = false
  /\ Forall (fun x => (fst x < GL46.next_address w)%nat) (GL46.shaders w)
  /\ exists r w',
       GL46.createShader sample_driver sample_shader46 w = Some (r, w')
       /\ (forall s, s <> shobj ->
             gl_shaders (GL46.gl w') !! s = gl_shaders (GL46.gl w) !! s)
       /\ match r with
          | Some address =>
              exists shader o po,
                GL46.shaders w' = GL46.shaders w ++ [(address, shader)]
                /\ gl_program_status (GL46.gl w') (GL46.prog shader) = true
                /\ gl_programs (GL46.gl w') !! GL46.prog shader = Some po
                /\ po_attached po = [shobj]
                /\ gl_shaders (GL46.gl w') !! shobj = Some o
                /\ so_flagged o = true
                /\ (forall p o',
                      gl_programs (GL46.gl w') !! p = Some o' ->
                      p = GL46.prog shader
                      \/ gl_programs (GL46.gl w) !! p = Some o')
                /\ exists w'',
                     GL46.destroyShader sample_driver address w'
                     = Some (tt, w'')
                     /\ GL46.shaders w'' = GL46.shaders w
                     /\ gl_shaders (GL46.gl w'') !! shobj = None
                     /\ gl_programs (GL46.gl w'') !! GL46.prog shader = None
                     /\ forall s, s <> shobj ->
                          gl_shaders (GL46.gl w'') !! s
                          = gl_shaders (GL46.gl w) !! s
          | None =>
              GL46.shaders w' = GL46.shaders w
              /\ gl_shaders (GL46.gl w') !! shobj = None
              /\ forall p o,
                   gl_programs (GL46.gl w') !! p = Some o ->
                   gl_programs (GL46.gl w) !! p = Some o
          end.
Proof.
  cbv zeta.
  assert (H1 : shader_attached (gl_next_name (GL46.gl (fresh46 sample_driver)))
                 (gl_programs (GL46.gl (fresh46 sample_driver))) = false)
    by (vm_compute; reflexivity).
  assert (H2 : Forall (fun x => (fst x < GL46.next_address
                                           (fresh46 sample_driver))%nat)
                 (GL46.shaders (fresh46 sample_driver)))
    by (vm_compute; constructor).
  split; [exact H1|]. split; [exact H2|].
  exact (createShader46_shader_object_lifetime sample_driver sample_shader46
           _ H1 H2).
Defined.

Lemma gl_run_attach_program D p (shaders : list Z) g o :
  gl_programs g !! p = Some o ->
  let g' := gl_run D (map (glAttachShader p) shaders) g in
  gl_programs g' !! p
  = Some {| po_attached := po_attached o ++ shaders;
            po_status := po_status o; po_log := po_log o |}
  /\ gl_next_name g' = gl_next_name g
  /\ gl_shaders g' = gl_shaders g
  /\ (forall q, q <> p -> gl_programs g' !! q = gl_programs g !! q).
Proof.
  cbv zeta. revert g o. induction shaders as [|s shaders IH]; intros g o Ho.
  - rewrite app_nil_r. destruct o. cbn [map]. rewrite gl_run_nil. auto.
  - cbn [map]. rewrite gl_run_cons.
    destruct g as [log next en sc vp cc cd vab vbs dfb rfb shs prs fbs].
    cbn [gl_programs] in Ho.
    edestruct (IH (gl_exec D (glAttachShader p s)
                     (mkGL log next en sc vp cc cd vab vbs dfb rfb shs prs
                        fbs))) as (E1 & E2 & E3 & E4).
    { cbn [gl_exec gl_programs]. rewrite lookup_alter_eq, Ho. reflexivity. }
    split.
    { rewrite E1. cbn [po_attached po_status po_log].
      rewrite <- app_assoc. reflexivity. }
    split; [rewrite E2; reflexivity|]. split; [rewrite E3; reflexivity|].
    intros q Hq. rewrite (E4 q Hq). cbn [gl_exec gl_programs].
    apply lookup_alter_ne. congruence.
Qed.

(** X12: a pipeline whose program does not link, on the 3.3 device.  The
    handle is dropped while the member [vaos] of the new object has not
    been assigned, and its deleter walks that pointer: the call is defined
    only if the member happens to be null.  Then it returns null, the
    program is deleted, and the registries, the slot chain and the vertex
    arrays of the device are as they were. *)
Theorem createPipeline33_link_failure D K info junk w :
  fst (link_program D (map GL33.shader (GL33.pci_shaders info))) = false ->
  if GL33.junk_vaos_null junk then
    exists w',
      GL33.createPipeline D K info junk w = Some (None, w')
      /\ GL33.pipelines w' = GL33.pipelines w
      /\ GL33.buffers w' = GL33.buffers w
      /\ GL33.vbos w' = GL33.vbos w
      /\ GL33.vertex_arrays w' = GL33.vertex_arrays w
      /\ gl_programs (GL33.gl w') !! gl_next_name (GL33.gl w) = None
      /\ gl_next_name (GL33.gl w') = gl_next_name (GL33.gl w) + 1
  else GL33.createPipeline D K info junk w = None.
Proof.
  intros Hlink. unfold GL33.createPipeline.
  destruct w as [odm maxb vbos bp pls bufs heap na g msgs].
  cbv [bind GL33.new_address get modify ret GL33.set_next_address
       GL33.next_address GL33.onDebugMessage GL33.max_vbo_bindings GL33.vbos
       GL33.bound_pipeline GL33.pipelines GL33.buffers GL33.vertex_arrays
       GL33.gl GL33.debug_messages].
  rewrite run_gl_gen33. cbv beta iota.
  rewrite for_each_gl_call33
    with (f := fun s => glAttachShader _ (GL33.shader s)).
  rewrite run_gl_call33. cbn [GL33.gl GL33.set_gl GL33.onDebugMessage].
  set (p := gl_next_name g).
  rewrite <- (map_map GL33.shader (glAttachShader p)).
  set (G := gl_exec D (glLinkProgram p) _).
  assert (HG : gl_program_status G p = false /\ gl_next_name G = p + 1).
  { subst G.
    destruct (gl_run_attach_program D p
                (map GL33.shader (GL33.pci_shaders info))
                (gl_exec D (glCreateProgram p) g)
                {| po_attached := []; po_status := false; po_log := "" |})
      as (E1 & E2 & _).
    { destruct g as [log next en sc vp cc cd vab vbs dfb rfb shs prs fbs].
      cbn [gl_exec gl_programs]. apply lookup_insert_eq. }
    revert E1 E2.
    generalize (gl_run D (map (glAttachShader p)
                            (map GL33.shader (GL33.pci_shaders info)))
                  (gl_exec D (glCreateProgram p) g)).
    intros g1 E1 E2. unfold gl_program_status.
    destruct g1 as [log next en sc vp cc cd vab vbs dfb rfb shs prs fbs].
    cbn [gl_exec gl_programs gl_next_name] in *.
    rewrite lookup_alter_eq, E1. cbn [option_map fmap from_option po_status
                                     po_attached app].
    split; [exact Hlink|]. rewrite E2. subst p.
    destruct g; reflexivity. }
  destruct HG as [Hstatus Hnext]. clearbody G.
  assert (Hdel : gl_programs (gl_exec D (glDeleteProgram p) G) !! p = None
                 /\ gl_next_name (gl_exec D (glDeleteProgram p) G) = p + 1).
  { destruct G as [log next en sc vp cc cd vab vbs dfb rfb shs prs fbs].
    cbn [gl_exec gl_programs gl_next_name] in *.
    split; [apply lookup_delete_eq | exact Hnext]. }
  destruct odm;
    rewrite ?run_gl_get33; cbn [GL33.gl GL33.set_gl];
    try destruct (1 <? info_log_length (gl_program_log G p));
    cbv [GL33.send_debug_message modify];
    rewrite ?run_gl_get33; cbn [GL33.gl GL33.set_gl GL33.set_debug_messages];
    rewrite Hstatus; cbn [negb];
    (destruct (GL33.junk_vaos_null junk); [|reflexivity]);
    rewrite run_gl_call33; cbn [GL33.gl GL33.set_gl];
    (eexists; split; [reflexivity|]);
    cbn [GL33.pipelines GL33.buffers GL33.vbos GL33.vertex_arrays GL33.gl];
    destruct Hdel; auto 8.
Qed.

Lemma createPipeline33_link_failure_witness :
  let D := rejecting_driver in
  let w := fresh33 D in
  fst (link_program D (map GL33.shader (GL33.pci_shaders sample_pipeline33)))
  = false
  /\ if GL33.junk_vaos_null sample_junk then
       exists w',
         GL33.createPipeline D sample_cull_flags33 sample_pipeline33
           sample_junk w = Some (None, w')
         /\ GL33.pipelines w' = GL33.pipelines w
         /\ GL33.buffers w' = GL33.buffers w
         /\ GL33.vbos w' = GL33.vbos w
         /\ GL33.vertex_arrays w' = GL33.vertex_arrays w
         /\ gl_programs (GL33.gl w') !! gl_next_name (GL33.gl w) = None
         /\ gl_next_name (GL33.gl w') = gl_next_name (GL33.gl w) + 1
     else GL33.createPipeline D sample_cull_flags33 sample_pipeline33
            sample_junk w = None.
Proof.
  cbv zeta.
  assert (H : fst (link_program rejecting_driver
                     (map GL33.shader (GL33.pci_shaders sample_pipeline33)))
              = false) by reflexivity.
  split; [exact H|].
  exact (createPipeline33_link_failure rejecting_driver sample_cull_flags33
           sample_pipeline33 sample_junk (fresh33 rejecting_driver) H).
Defined.

(** * The slot allocator of the 3.3 device *)

Lemma chain_get_cons {A} (x : A) l p :
  chain_get (x :: l) p
  = if decide (p = length l) then Some x else chain_get l p.
Proof.
  unfold chain_get. rewrite reverse_cons.
  destruct (decide (p = length l)) as [->|Hne].
  - rewrite <- (length_reverse l). apply list_lookup_middle. reflexivity.
  - destruct (decide (p < length l)%nat) as [Hlt|Hge].
    + apply lookup_app_l. rewrite length_reverse. exact Hlt.
    + rewrite !lookup_ge_None_2; [reflexivity | |];
        rewrite ?length_app, length_reverse; cbn [length]; lia.
Qed.

Lemma chain_get_lt {A} (l : list A) p x :
  chain_get l p = Some x -> (p < length l)%nat.
Proof.
  unfold chain_get. intros H. apply lookup_lt_Some in H.
  rewrite length_reverse in H. exact H.
Qed.

Lemma chain_set_cons {A} (x y : A) l p :
  chain_set (x :: l) p y
  = if decide (p = length l) then y :: l
    else x :: chain_set l p y.
Proof.
  unfold chain_set. rewrite reverse_cons.
  destruct (decide (p = length l)) as [->|Hne].
  - rewrite insert_app_r_alt by (rewrite length_reverse; lia).
    rewrite length_reverse, Nat.sub_diag. cbn [insert list_insert].
    rewrite reverse_app, reverse_involutive. reflexivity.
  - destruct (decide (p < length l)%nat) as [Hlt|Hge].
    + rewrite insert_app_l by (rewrite length_reverse; exact Hlt).
      rewrite reverse_app. reflexivity.
    + rewrite !list_insert_ge;
        rewrite ?length_app, ?length_reverse; cbn [length]; try lia.
      rewrite reverse_app, !reverse_involutive. reflexivity.
Qed.

Lemma chain_set_length {A} (l : list A) p y :
  length (chain_set l p y) = length l.
Proof. unfold chain_set. rewrite length_reverse, length_insert, length_reverse. reflexivity. Qed.

Lemma chain_get_set {A} (l : list A) p q y :
  (p < length l)%nat ->
  chain_get (chain_set l p y) q
  = if decide (q = p) then Some y else chain_get l q.
Proof.
  intros Hp. unfold chain_get, chain_set. rewrite reverse_involutive.
  destruct (decide (q = p)) as [->|Hne].
  - apply list_lookup_insert_eq. rewrite length_reverse. exact Hp.
  - apply list_lookup_insert_ne. congruence.
Qed.

Lemma numbered33_index chain p node :
  numbered33 chain = true -> chain_get chain p = Some node ->
  GL33.vbo_index node = Z.of_nat p.
Proof.
  induction chain as [|x l IH]; [discriminate 2|].
  cbn [numbered33]. intros H. apply andb_prop in H as [Hx Hl].
  rewrite chain_get_cons. destruct (decide (p = length l)) as [->|Hne].
  - intros [= <-]. apply Z.eqb_eq, Hx.
  - apply IH, Hl.
Qed.

Lemma numbered33_set chain p node b :
  numbered33 chain = true -> chain_get chain p = Some node ->
  numbered33 (chain_set chain p (GL33.set_is_free b node)) = true.
Proof.
  revert p. induction chain as [|x l IH]; intros p; [discriminate 2|].
  cbn [numbered33]. intros H. apply andb_prop in H as [Hx Hl].
  rewrite chain_get_cons, chain_set_cons.
  destruct (decide (p = length l)) as [->|Hne].
  - intros [= <-]. cbn [numbered33 GL33.set_is_free GL33.vbo_index].
    rewrite Hx, Hl. reflexivity.
  - intros Hp. cbn [numbered33]. rewrite chain_set_length, Hx.
    apply IH; assumption.
Qed.

(** The search loop: the free node nearest the head. *)
Lemma getFreeVBOBinding_find_spec chain :
  match GL33.getFreeVBOBinding_find chain with
  | Some p =>
      existsb GL33.is_free chain = true
      /\ exists b,
           chain_get chain p = Some b /\ GL33.is_free b = true
           /\ forall q b', (p < q)%nat -> chain_get chain q = Some b' ->
                           GL33.is_free b' = false
  | None => existsb GL33.is_free chain = false
  end.
Proof.
  induction chain as [|x l IH]; [reflexivity|].
  cbn [GL33.getFreeVBOBinding_find existsb].
  destruct (GL33.is_free x) eqn:Ex; cbn [negb orb].
  - split; [reflexivity|]. exists x.
    rewrite chain_get_cons, decide_True by reflexivity.
    split; [reflexivity|]. split; [exact Ex|].
    intros q b' Hq Hb. apply chain_get_lt in Hb. cbn [length] in Hb. lia.
  - destruct (GL33.getFreeVBOBinding_find l) as [p|]; [|exact IH].
    destruct IH as (He & b & Hb & Hf & Hafter).
    split; [exact He|]. exists b.
    pose proof (chain_get_lt _ _ _ Hb) as Hlt.
    rewrite chain_get_cons, decide_False by lia.
    split; [exact Hb|]. split; [exact Hf|].
    intros q b' Hq. rewrite chain_get_cons.
    destruct (decide (q = length l)); [intros [= <-]; exact Ex|].
    apply Hafter, Hq.
Qed.

(** X13: the allocator of the 3.3 device on a chain numbered by addresses.
    It returns a free node, the one nearest the head; a free node of the
    chain is taken before the chain grows, and the chain grows by one node,
    which bears the next number, only when no node is free. *)
Theorem getFreeVBOBinding33_reuses_before_it_grows head :
  head <> [] ->
  numbered33 head = true ->
  Z.of_nat (length head) < 2 ^ 32 ->
  exists head' node binding,
    GL33.getFreeVBOBinding head = Some (head', node)
    /\ chain_get head' node = Some binding
    /\ GL33.is_free binding = true
    /\ GL33.vbo_index binding = Z.of_nat node
    /\ numbered33 head' = true
    /\ (forall q b, (node < q)%nat -> chain_get head' q = Some b ->
                    GL33.is_free b = false)
    /\ if existsb GL33.is_free head then head' = head
       else head' = binding :: head.
Proof.
  intros Hne Hnum Hlen. unfold GL33.getFreeVBOBinding.
  pose proof (getFreeVBOBinding_find_spec head) as Hfind.
  destruct (GL33.getFreeVBOBinding_find head) as [p|].
  - destruct Hfind as (He & b & Hb & Hf & Hafter).
    exists head, p, b. rewrite He.
    split; [reflexivity|]. split; [exact Hb|]. split; [exact Hf|].
    split; [eapply numbered33_index; eassumption|]. auto.
  - destruct head as [|first rest]; [congruence|].
    rewrite Hfind. eexists; eexists; eexists. split; [reflexivity|].
    assert (Hfirst : GL33.vbo_index first = Z.of_nat (length rest)).
    { cbn [numbered33] in Hnum. apply andb_prop in Hnum as [H _].
      apply Z.eqb_eq, H. }
    assert (Hidx : uint32 (GL33.vbo_index first + 1)
                   = Z.of_nat (length (first :: rest))).
    { rewrite Hfirst. cbn [length] in *. unfold uint32.
      rewrite wrap_small by lia. lia. }
    rewrite chain_get_cons, decide_True by reflexivity.
    split; [reflexivity|]. split; [reflexivity|].
    split; [exact Hidx|].
    split; [cbn [numbered33 GL33.vbo_index] in *; rewrite Hidx, Z.eqb_refl;
            exact Hnum|].
    split; [|reflexivity].
    intros q b Hq Hb. apply chain_get_lt in Hb. cbn [length] in *. lia.
Qed.

Lemma getFreeVBOBinding33_reuses_before_it_grows_witness :
  let head := GL33.vbos (fresh33 sample_driver) in
  head <> []
  /\ numbered33 head = true
  /\ Z.of_nat (length head) < 2 ^ 32
  /\ exists head' node binding,
       GL33.getFreeVBOBinding head = Some (head', node)
       /\ chain_get head' node = Some binding
       /\ GL33.is_free binding = true
       /\ GL33.vbo_index binding = Z.of_nat node
       /\ numbered33 head' = true
       /\ (forall q b, (node < q)%nat -> chain_get head' q = Some b ->
                       GL33.is_free b = false)
       /\ if existsb GL33.is_free head then head' = head
          else head' = binding :: head.
Proof.
  cbv zeta.
  assert (H1 : GL33.vbos (fresh33 sample_driver) <> []) by discriminate.
  assert (H2 : numbered33 (GL33.vbos (fresh33 sample_driver)) = true)
    by reflexivity.
  assert (H3 : Z.of_nat (length (GL33.vbos (fresh33 sample_driver)))
               < 2 ^ 32) by (vm_compute; reflexivity).
  split; [exact H1|]. split; [exact H2|]. split; [exact H3|].
  exact (getFreeVBOBinding33_reuses_before_it_grows _ H1 H2 H3).
Defined.

(** ** What an operation leaves alone *)

Lemma bind_inv {St A B} (m : M St A) (k : A -> M St B) s b s' :
  bind m k s = Some (b, s') ->
  exists a s1, m s = Some (a, s1) /\ k a s1 = Some (b, s').
Proof.
  unfold bind. destruct (m s) as [[a s1]|]; [eauto | discriminate].
Qed.

Section Keeps.

Context {St X : Type} (f : St -> X).

Lemma keeps_ret {A} (a : A) : keeps f (ret a).
Proof. intros s a' s' [= <- <-]. reflexivity. Qed.

Lemma keeps_bind {A B} (m : M St A) (k : A -> M St B) :
  keeps f m -> (forall a, keeps f (k a)) -> keeps f (bind m k).
Proof.
  intros Hm Hk s b s' E. apply bind_inv in E as (a & s1 & E1 & E2).
  rewrite (Hk _ _ _ _ E2). exact (Hm _ _ _ E1).
Qed.

Lemma keeps_undefined {A} : keeps f (@undefined St A).
Proof. intros s a s' [=]. Qed.

Lemma keeps_get : keeps f get.
Proof. intros s a s' [= <- <-]. reflexivity. Qed.

Lemma keeps_lift_option {A} (o : option A) : keeps f (lift_option o).
Proof. destruct o; [apply keeps_ret | apply keeps_undefined]. Qed.

Lemma keeps_modify (g : St -> St) :
  (forall s, f (g s) = f s) -> keeps f (modify g).
Proof. intros H s a s' [= <- <-]. apply H. Qed.

Lemma keeps_for_each {A} (l : list A) (body : A -> M St unit) :
  (forall x, keeps f (body x)) -> keeps f (for_each l body).
Proof.
  intros H. induction l as [|x l IH]; cbn [for_each].
  - apply keeps_ret.
  - apply keeps_bind; [apply H | intros _; exact IH].
Qed.

Lemma keeps_weaken {A Y} (g : St -> Y) (m : M St A) :
  (forall s s', f s' = f s -> g s' = g s) -> keeps f m -> keeps g m.
Proof. intros Hfg Hm s a s' E. apply Hfg, (Hm _ _ _ E). Qed.

End Keeps.

Ltac keeps33 :=
  lazymatch goal with
  | |- keeps _ (bind _ _) =>
      apply keeps_bind; [keeps33 | intros ?; keeps33]
  | |- keeps _ (ret _) => apply keeps_ret
  | |- keeps _ undefined => apply keeps_undefined
  | |- keeps _ get => apply keeps_get
  | |- keeps _ (lift_option _) => apply keeps_lift_option
  | |- keeps _ (modify _) =>
      first [apply keeps_modify; intros []; reflexivity | idtac]
  | |- keeps _ (for_each _ _) =>
      apply keeps_for_each; intros ?; keeps33
  | |- keeps _ (GL33.gl_call _ _) => unfold GL33.gl_call; keeps33
  | |- keeps _ (GL33.gl_gen _ _) => unfold GL33.gl_gen; keeps33
  | |- keeps _ (GL33.gl_get _) => unfold GL33.gl_get; keeps33
  | |- keeps _ (GL33.send_debug_message _) =>
      unfold GL33.send_debug_message; keeps33
  | |- keeps _ GL33.new_address => unfold GL33.new_address; keeps33
  | |- keeps _ (GL33.new_vertex_array _) =>
      unfold GL33.new_vertex_array; keeps33
  | |- keeps _ (GL33.deref_vertex_array _) =>
      unfold GL33.deref_vertex_array; keeps33
  | |- keeps _ (GL33.delete_vertex_array _) =>
      unfold GL33.delete_vertex_array; keeps33
  | |- keeps _ (GL33.deref_vbo _) => unfold GL33.deref_vbo; keeps33
  | |- keeps _ (match ?x with _ => _ end) => destruct x; keeps33
  | |- _ => idtac
  end.

Ltac run33_in H :=
  cbv [bind ret get modify undefined lift_option
       GL33.gl_call GL33.gl_gen GL33.gl_get GL33.send_debug_message
       GL33.new_address GL33.new_vertex_array GL33.deref_vertex_array
       GL33.delete_vertex_array GL33.deref_vbo
       GL33.onDebugMessage GL33.max_vbo_bindings GL33.vbos
       GL33.bound_pipeline GL33.pipelines GL33.buffers GL33.vertex_arrays
       GL33.next_address GL33.gl GL33.debug_messages
       GL33.set_vbos GL33.set_bound_pipeline GL33.set_pipelines
       GL33.set_buffers GL33.set_vertex_arrays GL33.set_next_address
       GL33.set_gl GL33.set_debug_messages] in H.

Section Slots33.

Context (D : Driver) (K : GL33.CullFlags) (size_bits : Z).

Lemma keeps_setVertexFormat vao p :
  keeps rest33 (GL33.setVertexFormat D vao p).
Proof. unfold GL33.setVertexFormat. keeps33. Qed.

Lemma keeps_getVertexArray_find chain index :
  keeps rest33 (GL33.getVertexArray_find chain index).
Proof.
  induction chain as [|node next IH]; cbn [GL33.getVertexArray_find];
    keeps33. exact IH.
Qed.

Lemma keeps_getVertexArray head index p :
  keeps rest33 (GL33.getVertexArray D head index p).
Proof.
  unfold GL33.getVertexArray.
  apply keeps_bind; [apply keeps_getVertexArray_find|].
  intros found. keeps33. apply keeps_setVertexFormat.
Qed.

Lemma keeps_bind_into p b : keeps rest33 (GL33.bind_into D p b).
Proof. unfold GL33.bind_into. keeps33. apply keeps_getVertexArray. Qed.

Lemma keeps_notify_buffers p l :
  keeps rest33 (GL33.notify_buffers D p l).
Proof.
  revert p. induction l as [|[a b] l IH]; intros p;
    cbn [GL33.notify_buffers]; keeps33; [apply keeps_bind_into | apply IH].
Qed.

Lemma keeps_notify_pipelines b l :
  keeps rest33 (GL33.notify_pipelines D b l).
Proof.
  induction l as [|[a p] l IH]; cbn [GL33.notify_pipelines]; keeps33;
    [apply keeps_bind_into | exact IH].
Qed.

Lemma rest33_slots w w' : rest33 w' = rest33 w -> slots_of33 w' = slots_of33 w.
Proof. unfold rest33, slots_of33. intros [= _ -> -> _ _ -> _ _]. reflexivity. Qed.

Lemma keeps_createPipeline info junk :
  keeps slots_of33 (GL33.createPipeline D K info junk).
Proof.
  unfold GL33.createPipeline. keeps33.
  - apply (keeps_weaken rest33); [apply rest33_slots|].
    apply keeps_setVertexFormat.
  - apply (keeps_weaken rest33); [apply rest33_slots|].
    apply keeps_notify_buffers.
Qed.

Lemma keeps_destroyPipeline pipeline :
  keeps slots_of33 (GL33.destroyPipeline D pipeline).
Proof. unfold GL33.destroyPipeline. keeps33. Qed.

(** What [createBuffer] makes of the slot chain and of the notification
    list. *)
Lemma createBuffer33_inv info w a b w' :
  GL33.createBuffer D size_bits info w = Some ((a, b), w') ->
  a = GL33.next_address w
  /\ GL33.next_address w' = S (GL33.next_address w)
  /\ GL33.max_vbo_bindings w' = GL33.max_vbo_bindings w
  /\ GL33.bufobj b = gl_next_name (GL33.gl w)
  /\ GL33.size b = GL33.bci_size info
  /\ match GL33.bci_type info with
     | GL33.VERTEX_BUFFER =>
         exists head node binding,
           GL33.getFreeVBOBinding (GL33.vbos w) = Some (head, node)
           /\ chain_get head node = Some binding
           /\ GL33.vbos w'
              = chain_set head node (GL33.set_is_free false binding)
           /\ GL33.buffers w' = GL33.buffers w ++ [(a, b)]
           /\ GL33.vbo b = Some node
     | GL33.OTHER_BUFFER _ =>
         GL33.vbos w' = GL33.vbos w
         /\ GL33.buffers w' = GL33.buffers w
         /\ GL33.vbo b = None
     end.
Proof.
  unfold GL33.createBuffer. intros E.
  destruct w as [odm maxb vbos bp pls bufs heap na g msgs].
  destruct (GL33.bci_type info); run33_in E.
  - destruct (GL33.getFreeVBOBinding vbos) as [[head node]|] eqn:Ea;
      [|discriminate E].
    destruct (chain_get head node) as [binding|] eqn:Eb; [|discriminate E].
    match type of E with
    | context [GL33.notify_pipelines D ?b ?l ?s] =>
        destruct (GL33.notify_pipelines D b l s) as [[notified s']|] eqn:En;
          [|discriminate E];
        pose proof (keeps_notify_pipelines _ _ _ _ _ En) as Hk
    end.
    injection E as <- <- <-. destruct s'.
    injection Hk as -> -> -> -> -> -> -> ->. cbn.
    do 5 (split; [reflexivity|]).
    exists head, node, binding. auto.
  - injection E as <- <- <-. cbn. auto 8.
Qed.

(** What [destroyBuffer] makes of them. *)
Lemma destroyBuffer33_inv buffer w w' :
  GL33.destroyBuffer D buffer w = Some (tt, w') ->
  GL33.next_address w' = GL33.next_address w
  /\ GL33.max_vbo_bindings w' = GL33.max_vbo_bindings w
  /\ if registered (fst buffer) (GL33.buffers w) then
       exists slot binding,
         GL33.vbo (snd buffer) = Some slot
         /\ chain_get (GL33.vbos w) slot = Some binding
         /\ GL33.vbos w'
            = chain_set (GL33.vbos w) slot (GL33.set_is_free true binding)
         /\ GL33.buffers w' = erase_first (fst buffer) (GL33.buffers w)
     else GL33.vbos w' = GL33.vbos w /\ GL33.buffers w' = GL33.buffers w.
Proof.
  unfold GL33.destroyBuffer. intros E.
  destruct w as [odm maxb vbos bp pls bufs heap na g msgs].
  run33_in E.
  cbn [GL33.buffers GL33.vbos GL33.next_address GL33.max_vbo_bindings].
  destruct (registered (fst buffer) bufs).
  - destruct (GL33.vbo (snd buffer)) as [slot|] eqn:Es; [|discriminate E].
    destruct (chain_get vbos slot) as [binding|] eqn:Eb; [|discriminate E].
    injection E as <-. cbn. do 2 (split; [reflexivity|]).
    exists slot, binding. auto.
  - injection E as <-. cbn. auto.
Qed.

End Slots33.

(** ** The replay of one record *)





(** ** The slots of the live vertex buffers *)

Lemma erase_first_NoDup {A} a (b : A) l :
  NoDup l.*1 -> (a, b) ∈ l ->
  exists l1 l2, l = l1 ++ (a, b) :: l2 /\ erase_first a l = l1 ++ l2.
Proof.
  induction l as [|[a' b'] l IH]; intros Hnd Hin.
  - apply elem_of_nil in Hin. contradiction.
  - cbn [fmap list_fmap fst] in Hnd. apply NoDup_cons in Hnd as [Hn Hnd].
    cbn [erase_first fst]. destruct (decide (a' = a)) as [->|Hne].
    + apply elem_of_cons in Hin as [[= <-]|Hin].
      * exists [], l. split; reflexivity.
      * exfalso. apply Hn. apply list_elem_of_fmap. exists (a, b). auto.
    + apply elem_of_cons in Hin as [[= -> ->]|Hin]; [congruence|].
      destruct (IH Hnd Hin) as (l1 & l2 & -> & ->).
      exists ((a', b') :: l1), l2. split; reflexivity.
Qed.

(** What the allocator returns on a numbered chain, whichever way it took. *)
Lemma getFreeVBOBinding33_cases head head' node :
  numbered33 head = true ->
  GL33.getFreeVBOBinding head = Some (head', node) ->
  Z.of_nat (length head') < 2 ^ 32 ->
  exists binding,
    chain_get head' node = Some binding
    /\ GL33.is_free binding = true
    /\ numbered33 head' = true
    /\ (forall q, q <> node -> chain_get head' q = chain_get head q)
    /\ forall b, chain_get head node = Some b -> GL33.is_free b = true.
Proof.
  intros Hnum E Hlen. unfold GL33.getFreeVBOBinding in E.
  pose proof (getFreeVBOBinding_find_spec head) as Hfind.
  destruct (GL33.getFreeVBOBinding_find head) as [p|].
  - injection E as <- <-. destruct Hfind as (_ & b & Hb & Hf & _).
    exists b. rewrite Hb. split; [reflexivity|]. split; [exact Hf|].
    split; [exact Hnum|]. split; [reflexivity|]. intros ? [= <-]. exact Hf.
  - destruct head as [|first rest]; [discriminate E|].
    injection E as <- <-. eexists.
    rewrite chain_get_cons, decide_True by reflexivity.
    split; [reflexivity|]. split; [reflexivity|]. split; [|split].
    + cbn [numbered33 GL33.vbo_index] in *. rewrite Hnum, andb_true_r.
      apply andb_prop in Hnum as [H _]. apply Z.eqb_eq in H. rewrite H.
      apply Z.eqb_eq. cbn [length] in *. unfold uint32.
      rewrite wrap_small by lia. lia.
    + intros q Hq. rewrite (chain_get_cons _ (first :: rest)).
      rewrite decide_False by exact Hq. reflexivity.
    + intros b Hb. apply chain_get_lt in Hb. cbn [length] in Hb. lia.
Qed.

Lemma getFreeVBOBinding33_length head head' node :
  GL33.getFreeVBOBinding head = Some (head', node) ->
  (length head <= length head')%nat.
Proof.
  unfold GL33.getFreeVBOBinding.
  destruct (GL33.getFreeVBOBinding_find head).
  - intros [= <- _]. lia.
  - destruct head; [discriminate|]. intros [= <- _]. cbn [length]. lia.
Qed.

Section SlotsInv33.

Context (D : Driver) (K : GL33.CullFlags) (size_bits : Z).

Lemma rest33_next_address w w' :
  rest33 w' = rest33 w -> GL33.next_address w' = GL33.next_address w.
Proof. unfold rest33. intros [= _ _ _ _ _ _ -> _]. reflexivity. Qed.

Lemma createPipeline33_next_address info junk w r w' :
  GL33.createPipeline D K info junk w = Some (r, w') ->
  GL33.next_address w' = S (GL33.next_address w).
Proof.
  unfold GL33.createPipeline. intros E.
  apply bind_inv in E as (a & w1 & E1 & E).
  injection E1 as <- <-.
  match type of E with
  | ?m ?s = _ => assert (Hk : keeps GL33.next_address m)
  end.
  { keeps33.
    - apply (keeps_weaken rest33); [apply rest33_next_address|].
      apply keeps_setVertexFormat.
    - apply (keeps_weaken rest33); [apply rest33_next_address|].
      apply keeps_notify_buffers. }
  rewrite (Hk _ _ _ E). destruct w; reflexivity.
Qed.

Lemma destroyPipeline33_next_address p :
  keeps GL33.next_address (GL33.destroyPipeline D p).
Proof. unfold GL33.destroyPipeline. keeps33. Qed.

(** The slot chain never shrinks. *)
Lemma run_op33_chain_grows op w w' :
  run_op33 D K size_bits op w = Some (tt, w') ->
  (length (GL33.vbos w) <= length (GL33.vbos w'))%nat.
Proof.
  destruct op as [info | buffer | info junk | pipeline]; cbn [run_op33];
    intros E.
  - apply bind_inv in E as ([a b] & w1 & E & [= <-]).
    apply createBuffer33_inv in E as (_ & _ & _ & _ & _ & E).
    destruct (GL33.bci_type info).
    + destruct E as (head & node & binding & Ea & _ & -> & _).
      rewrite chain_set_length.
      eapply getFreeVBOBinding33_length, Ea.
    + destruct E as (-> & _). lia.
  - apply destroyBuffer33_inv in E as (_ & _ & E).
    destruct (registered (fst buffer) (GL33.buffers w)).
    + destruct E as (slot & binding & _ & _ & -> & _).
      rewrite chain_set_length. lia.
    + destruct E as (-> & _). lia.
  - apply bind_inv in E as (r & w1 & E & [= <-]).
    apply keeps_createPipeline in E. injection E as -> _ _. lia.
  - apply keeps_destroyPipeline in E. injection E as -> _ _. lia.
Qed.

Lemma slots_inv33_new f g : slots_inv33 (GL33.RenderDeviceImpl D f g).
Proof.
  assert (H : slots_of33 (GL33.RenderDeviceImpl D f g)
              = ([ {| GL33.vbo_index := 0; GL33.is_free := true |} ], [],
                 max_vertex_attrib_bindings D)
              /\ GL33.next_address (GL33.RenderDeviceImpl D f g) = 0%nat).
  { unfold GL33.RenderDeviceImpl. destruct f; [destruct (khr_debug D)|];
      split; reflexivity. }
  destruct H as [H Hna]. unfold slots_of33 in H.
  injection H as Hv Hb _. unfold slots_inv33, held33. rewrite Hv, Hb.
  split; [discriminate|]. split; [reflexivity|].
  split; [constructor|]. split; [constructor|]. split; [constructor|].
  intros o. split.
  - intros Ho. apply elem_of_nil in Ho. contradiction.
  - intros (p & b & _ & Hp & Hf). exfalso.
    rewrite chain_get_cons in Hp. cbn [length] in Hp.
    destruct (decide (p = 0%nat)); [injection Hp as <-; discriminate Hf|].
    discriminate Hp.
Qed.

Lemma slots_inv33_step w op w' :
  slots_inv33 w -> valid_op33 w op ->
  run_op33 D K size_bits op w = Some (tt, w') ->
  Z.of_nat (length (GL33.vbos w')) < 2 ^ 32 ->
  slots_inv33 w'.
Proof.
  intros (Hne & Hnum & Hfresh & Hnd & Hheld & Hocc) Hvalid E Hlen.
  unfold slots_inv33, held33 in *.
  destruct op as [info | [a b] | info junk | pipeline]; cbn [run_op33] in E.
  - apply bind_inv in E as ([a b] & w1 & E & [= <-]).
    apply createBuffer33_inv in E as (-> & Hna & _ & _ & _ & E).
    rewrite Hna. destruct (GL33.bci_type info).
    + destruct E as (head & node & binding & Ea & Eb & Ev & Ebufs & Evbo).
      rewrite Ev, Ebufs in *. rewrite chain_set_length in Hlen.
      destruct (getFreeVBOBinding33_cases _ _ _ Hnum Ea Hlen)
        as (binding' & Eb' & Hf & Hnum' & Hsame & Hnode).
      rewrite Eb in Eb'. injection Eb' as <-.
      pose proof (chain_get_lt _ _ _ Eb) as Hlt.
      assert (Hnew : Some node ∉ (fun x => GL33.vbo (snd x))
                                   <$> GL33.buffers w).
      { intros Hin. apply Hocc in Hin as (p & b' & [= <-] & Hp & Hb').
        rewrite (Hnode _ Hp) in Hb'. discriminate Hb'. }
      split; [intros H; apply (f_equal length) in H;
              rewrite chain_set_length in H; cbn in H; lia|].
      split; [apply numbered33_set; assumption|].
      split.
      { apply Forall_app. split.
        - eapply Forall_impl; [exact Hfresh|]. cbn. intros; lia.
        - constructor; [cbn; lia | constructor]. }
      rewrite !fmap_app. cbn [fmap list_fmap fst snd]. rewrite Evbo.
      split.
      { apply NoDup_app. split; [exact Hnd|]. split; [|apply NoDup_singleton].
        intros x Hx Hx'. apply list_elem_of_singleton in Hx'. subst x.
        apply list_elem_of_fmap in Hx as ([a' b'] & Ha & Hin).
        rewrite Forall_forall in Hfresh. apply Hfresh in Hin.
        cbn in Ha, Hin. lia. }
      split.
      { apply NoDup_app. split; [exact Hheld|].
        split; [|apply NoDup_singleton].
        intros x Hx Hx'. apply list_elem_of_singleton in Hx'. subst x.
        exact (Hnew Hx). }
      intros o. rewrite elem_of_app, list_elem_of_singleton, Hocc. split.
      * intros [(p & b' & -> & Hp & Hb') | ->].
        -- exists p, b'. split; [reflexivity|].
           rewrite chain_get_set by exact Hlt.
           destruct (decide (p = node)) as [->|Hpn].
           ++ rewrite (Hnode _ Hp) in Hb'. discriminate Hb'.
           ++ rewrite Hsame by exact Hpn. auto.
        -- exists node, (GL33.set_is_free false binding).
           split; [reflexivity|].
           rewrite chain_get_set, decide_True by (exact Hlt || reflexivity).
           split; reflexivity.
      * intros (p & b' & -> & Hp & Hb').
        rewrite chain_get_set in Hp by exact Hlt.
        destruct (decide (p = node)) as [->|Hpn]; [right; reflexivity|].
        left. exists p, b'. rewrite <- Hsame by exact Hpn. auto.
    + destruct E as (-> & -> & _).
      split; [exact Hne|]. split; [exact Hnum|].
      split; [eapply Forall_impl; [exact Hfresh|]; cbn; intros; lia|].
      auto.
  - apply destroyBuffer33_inv in E as (Hna & _ & E). cbn [fst snd] in *.
    cbn [valid_op33 fst] in Hvalid.
    rewrite Hna. destruct (registered a (GL33.buffers w)) eqn:Er.
    + destruct E as (slot & binding & Es & Eb & -> & ->).
      destruct (erase_first_NoDup a b _ Hnd (Hvalid eq_refl))
        as (l1 & l2 & El & ->).
      rewrite El in *. clear El.
      pose proof (chain_get_lt _ _ _ Eb) as Hlt.
      rewrite !fmap_app in *. cbn [fmap list_fmap fst snd] in *.
      rewrite Es in *.
      apply Forall_app in Hfresh as [Hf1 Hf2].
      apply Forall_cons in Hf2 as [_ Hf2].
      apply NoDup_app in Hnd as (Hn1 & Hn12 & Hn2).
      apply NoDup_cons in Hn2 as [_ Hn2].
      apply NoDup_app in Hheld as (Hh1 & Hh12 & Hh2).
      apply NoDup_cons in Hh2 as [Hs2 Hh2].
      assert (Hs1 : Some slot ∉ (fun x => GL33.vbo (snd x)) <$> l1).
      { intros H. apply (Hh12 _ H). apply elem_of_cons. auto. }
      split; [intros H; apply (f_equal length) in H;
              rewrite chain_set_length in H;
              destruct (GL33.vbos w); [congruence | discriminate H]|].
      split; [apply numbered33_set; assumption|].
      split; [apply Forall_app; auto|].
      split.
      { apply NoDup_app. split; [exact Hn1|]. split; [|exact Hn2].
        intros x Hx Hx'. apply (Hn12 _ Hx). apply elem_of_cons. auto. }
      split.
      { apply NoDup_app. split; [exact Hh1|]. split; [|exact Hh2].
        intros x Hx Hx'. apply (Hh12 _ Hx). apply elem_of_cons. auto. }
      intros o. split.
      * intros Ho.
        assert (Hin : o ∈ ((fun x => GL33.vbo (snd x)) <$> l1)
                          ++ Some slot
                             :: ((fun x => GL33.vbo (snd x)) <$> l2)).
        { apply elem_of_app in Ho as [Ho|Ho]; apply elem_of_app;
            [left | right; apply elem_of_cons; right]; exact Ho. }
        apply Hocc in Hin as (p & b' & -> & Hp & Hb').
        assert (Hps : p <> slot).
        { intros ->. apply elem_of_app in Ho as [Ho|Ho]; auto. }
        exists p, b'. rewrite chain_get_set, decide_False by assumption.
        auto.
      * intros (p & b' & -> & Hp & Hb').
        rewrite chain_get_set in Hp by exact Hlt.
        destruct (decide (p = slot)) as [->|Hps];
          [injection Hp as <-; discriminate Hb'|].
        assert (Hin : Some p ∈ ((fun x => GL33.vbo (snd x)) <$> l1)
                          ++ Some slot
                             :: ((fun x => GL33.vbo (snd x)) <$> l2)).
        { apply Hocc. exists p, b'. auto. }
        apply elem_of_app in Hin as [Hin|Hin]; apply elem_of_app;
          [left; exact Hin|].
        apply elem_of_cons in Hin as [[= ->]|Hin]; [congruence|].
        right; exact Hin.
    + destruct E as (-> & ->). auto 8.
  - apply bind_inv in E as (r & w1 & E & [= <-]).
    pose proof (createPipeline33_next_address _ _ _ _ _ E) as Hna.
    apply keeps_createPipeline in E. injection E as -> -> _. rewrite Hna.
    split; [exact Hne|]. split; [exact Hnum|].
    split; [eapply Forall_impl; [exact Hfresh|]; cbn; intros; lia|].
    auto.
  - pose proof (destroyPipeline33_next_address _ _ _ _ E) as Hna.
    apply keeps_destroyPipeline in E. injection E as -> -> _. rewrite Hna.
    auto 8.
Qed.

Lemma reachable33_slots_inv w :
  reachable33 D K size_bits w ->
  Z.of_nat (length (GL33.vbos w)) < 2 ^ 32 ->
  slots_inv33 w.
Proof.
  induction 1 as [f g | w op w' Hr IH Hv E]; intros Hlen.
  - apply slots_inv33_new.
  - pose proof (run_op33_chain_grows _ _ _ E) as Hgrow.
    eapply slots_inv33_step; [apply IH; lia | exact Hv | exact E | exact Hlen].
Qed.

End SlotsInv33.

Lemma NoDup_fmap_through {A B C} (f : A -> B) (g : A -> C) l :
  (forall x y, x ∈ l -> y ∈ l -> g x = g y -> f x = f y) ->
  NoDup (f <$> l) -> NoDup (g <$> l).
Proof.
  induction l as [|x l IH]; intros Hfg Hnd; [constructor|].
  cbn [fmap list_fmap] in *. apply NoDup_cons in Hnd as [Hx Hnd].
  apply NoDup_cons. split.
  - intros Hin. apply Hx. apply list_elem_of_fmap in Hin as (y & Hy & Hin).
    apply list_elem_of_fmap. exists y. split; [|exact Hin].
    apply Hfg; [left | right; exact Hin | exact Hy].
  - apply IH; [|exact Hnd]. intros a b Ha Hb. apply Hfg; right; assumption.
Qed.

Lemma reachable33_after D K size_bits op w :
  reachable33 D K size_bits w -> valid_op33 w op ->
  run_op33 D K size_bits op w <> None ->
  reachable33 D K size_bits (after33 D K size_bits op w).
Proof.
  intros Hr Hv Hd. unfold after33.
  destruct (run_op33 D K size_bits op w) as [[[] w']|] eqn:E;
    [|congruence].
  eapply reachable33_step; eassumption.
Qed.

(** X14: on a 3.3 device reached from a new one by creating and destroying
    buffers and pipelines, whose chain has fewer than 2^32 nodes, the live
    vertex buffers hold pairwise distinct slots, each the number of a node
    of the chain, and a node of the chain is taken exactly when a live
    buffer holds it. *)
Theorem live_vertex_buffers_hold_distinct_slots33 D K size_bits w :
  reachable33 D K size_bits w ->
  Z.of_nat (length (GL33.vbos w)) < 2 ^ 32 ->
  NoDup ((fun x => slot33 w (snd x)) <$> GL33.buffers w)
  /\ Forall (fun x => exists i,
                 slot33 w (snd x) = Some i
                 /\ 0 <= i < Z.of_nat (length (GL33.vbos w)))
       (GL33.buffers w)
  /\ forall p binding,
       chain_get (GL33.vbos w) p = Some binding ->
       (GL33.is_free binding = false
        <-> exists x, x ∈ GL33.buffers w /\ GL33.vbo (snd x) = Some p).
Proof.
  intros Hr Hlen.
  destruct (reachable33_slots_inv _ _ _ _ Hr Hlen)
    as (_ & Hnum & _ & _ & Hheld & Hocc).
  unfold held33 in *.
  assert (Hslot : forall x, x ∈ GL33.buffers w ->
            exists p, GL33.vbo (snd x) = Some p
                      /\ slot33 w (snd x) = Some (Z.of_nat p)
                      /\ (p < length (GL33.vbos w))%nat).
  { intros x Hx.
    assert (Hin : GL33.vbo (snd x)
                  ∈ (fun x => GL33.vbo (snd x)) <$> GL33.buffers w)
      by (apply list_elem_of_fmap; eauto).
    apply Hocc in Hin as (p & b & Hp & Hb & _). exists p.
    split; [exact Hp|]. unfold slot33. rewrite Hp, Hb. cbn.
    rewrite (numbered33_index _ _ _ Hnum Hb).
    split; [reflexivity|]. eapply chain_get_lt, Hb. }
  split; [|split].
  - refine (NoDup_fmap_through _ _ _ _ Hheld). intros x y Hx Hy E.
    destruct (Hslot x Hx) as (p & -> & Ep & _).
    destruct (Hslot y Hy) as (q & -> & Eq & _).
    rewrite Ep, Eq in E. injection E as E. f_equal. lia.
  - apply Forall_forall. intros x Hx.
    destruct (Hslot x Hx) as (p & _ & Ep & Hp).
    exists (Z.of_nat p). split; [exact Ep | lia].
  - intros p binding Hb. split.
    + intros Hf.
      assert (Hin : Some p ∈ (fun x => GL33.vbo (snd x)) <$> GL33.buffers w)
        by (apply Hocc; eauto).
      apply list_elem_of_fmap in Hin as (x & Hx & Hin). eauto.
    + intros (x & Hx & Hp).
      assert (Hin : Some p ∈ (fun x => GL33.vbo (snd x)) <$> GL33.buffers w)
        by (apply list_elem_of_fmap; eauto).
      apply Hocc in Hin as (q & b & [= <-] & Hq & Hf). congruence.
Qed.

Lemma live_vertex_buffers_hold_distinct_slots33_witness :
  let w := sample_reached33 in
  reachable33 sample_driver sample_cull_flags33 64 w
  /\ Z.of_nat (length (GL33.vbos w)) < 2 ^ 32
  /\ NoDup ((fun x => slot33 w (snd x)) <$> GL33.buffers w)
  /\ Forall (fun x => exists i,
                 slot33 w (snd x) = Some i
                 /\ 0 <= i < Z.of_nat (length (GL33.vbos w)))
       (GL33.buffers w)
  /\ forall p binding,
       chain_get (GL33.vbos w) p = Some binding ->
       (GL33.is_free binding = false
        <-> exists x, x ∈ GL33.buffers w /\ GL33.vbo (snd x) = Some p).
Proof.
  cbv zeta.
  assert (Hr : reachable33 sample_driver sample_cull_flags33 64
                 sample_reached33).
  { unfold sample_reached33. cbv zeta.
    repeat (apply reachable33_after;
            [| first [exact I
                     | intros _; apply list_elem_of_In; vm_compute; auto]
             | vm_compute; discriminate]).
    apply reachable33_new. }
  assert (Hlen : Z.of_nat (length (GL33.vbos sample_reached33)) < 2 ^ 32)
    by (vm_compute; reflexivity).
  split; [exact Hr|]. split; [exact Hlen|].
  exact (live_vertex_buffers_hold_distinct_slots33 _ _ _ _ Hr Hlen).
Defined.

(** * The slot allocator of the 4.6 device *)

Ltac keeps46 :=
  lazymatch goal with
  | |- keeps _ (bind _ _) =>
      apply keeps_bind; [keeps46 | intros ?; keeps46]
  | |- keeps _ (ret _) => apply keeps_ret
  | |- keeps _ undefined => apply keeps_undefined
  | |- keeps _ get => apply keeps_get
  | |- keeps _ (lift_option _) => apply keeps_lift_option
  | |- keeps _ (modify _) =>
      first [apply keeps_modify; intros []; reflexivity | idtac]
  | |- keeps _ (for_each _ _) =>
      apply keeps_for_each; intros ?; keeps46
  | |- keeps _ (GL46.gl_call _ _) => unfold GL46.gl_call; keeps46
  | |- keeps _ (GL46.gl_gen _ _) => unfold GL46.gl_gen; keeps46
  | |- keeps _ (GL46.gl_get _) => unfold GL46.gl_get; keeps46
  | |- keeps _ (GL46.send_message _) => unfold GL46.send_message; keeps46
  | |- keeps _ GL46.new_address => unfold GL46.new_address; keeps46
  | |- keeps _ (GL46.deref_vbo _) => unfold GL46.deref_vbo; keeps46
  | |- keeps _ (match ?x with _ => _ end) => destruct x; keeps46
  | |- keeps _ (let '(_, _) := ?x in _) => destruct x; keeps46
  | |- _ => idtac
  end.

Lemma tail_numbered46_index chain p binding :
  tail_numbered46 chain = true -> chain_get chain p = Some binding ->
  GL46.vbo_index binding = if decide (p = 0%nat) then 0 else 1.
Proof.
  induction chain as [|x l IH]; [discriminate 1|].
  cbn [tail_numbered46]. rewrite chain_get_cons. destruct l as [|y l].
  - intros Hx. cbn [length]. destruct (decide (p = 0%nat)).
    + intros [= <-]. apply Z.eqb_eq, Hx.
    + discriminate 1.
  - intros H. apply andb_prop in H as [Hx Hl].
    destruct (decide (p = length (y :: l))) as [->|Hne].
    + intros [= <-]. cbn [length]. rewrite decide_False by lia.
      apply Z.eqb_eq, Hx.
    + apply IH, Hl.
Qed.

Lemma tail_numbered46_set chain p node b :
  tail_numbered46 chain = true -> chain_get chain p = Some node ->
  tail_numbered46 (chain_set chain p (GL46.set_is_free b node)) = true.
Proof.
  revert p. induction chain as [|x l IH]; intros p; [discriminate 1|].
  rewrite chain_get_cons, chain_set_cons.
  destruct (decide (p = length l)) as [->|Hne].
  - intros H [= <-]. exact H.
  - intros H Hp. specialize (IH p).
    pose proof (chain_set_length l p (GL46.set_is_free b node)) as Hlen.
    destruct l as [|y l]; [discriminate Hp|].
    cbn [tail_numbered46] in H. apply andb_prop in H as [Hx Hl].
    destruct (chain_set (y :: l) p (GL46.set_is_free b node)) as [|y' l'];
      [discriminate Hlen|].
    cbn [tail_numbered46]. rewrite Hx. apply IH; assumption.
Qed.

(** The loop of the allocator on the rest of a chain. *)
Lemma getFreeVBOBinding46_loop_spec begin chain head node :
  tail_numbered46 begin = true ->
  tail_numbered46 chain = true ->
  (forall q, (q < length chain)%nat -> chain_get begin q = chain_get chain q) ->
  GL46.getFreeVBOBinding_loop begin chain = Some (head, node) ->
  tail_numbered46 head = true
  /\ (length begin <= length head)%nat
  /\ exists binding,
       chain_get head node = Some binding /\ GL46.is_free binding = true.
Proof.
  intros Hbegin. induction chain as [|x l IH]; [discriminate 1|].
  intros Hchain Hsame. cbn [GL46.getFreeVBOBinding_loop].
  destruct (GL46.is_free x) eqn:Hx.
  - intros [= <- <-]. split; [exact Hbegin|]. split; [lia|]. exists x.
    rewrite Hsame by (cbn [length]; lia).
    rewrite chain_get_cons, decide_True by reflexivity. auto.
  - destruct l as [|y l].
    + intros [= <- <-]. cbn [tail_numbered46] in Hchain.
      apply Z.eqb_eq in Hchain. rewrite Hchain.
      split; [|split; [cbn [length]; lia|]].
      * destruct begin as [|b0 begin]; [discriminate Hbegin|].
        cbn [tail_numbered46 GL46.vbo_index]. exact Hbegin.
      * eexists. rewrite chain_get_cons, decide_True by reflexivity.
        split; reflexivity.
    + cbn [tail_numbered46] in Hchain. apply andb_prop in Hchain as [_ Hl].
      apply IH; [exact Hl|]. intros q Hq.
      rewrite Hsame by (cbn [length] in *; lia).
      rewrite chain_get_cons, decide_False by lia. reflexivity.
Qed.

Ltac run46_in H :=
  cbv [bind ret get modify undefined lift_option
       GL46.gl_call GL46.gl_gen GL46.gl_get GL46.send_message
       GL46.new_address GL46.deref_vbo
       GL46.onMessage GL46.idbo GL46.vbos GL46.shaders GL46.pipelines
       GL46.buffers GL46.rendertargets GL46.next_address GL46.gl
       GL46.messages
       GL46.set_vbos GL46.set_shaders GL46.set_pipelines GL46.set_buffers
       GL46.set_rendertargets GL46.set_next_address GL46.set_gl
       GL46.set_messages] in H.

Section Slots46.

Context (D : Driver) (K : GL46.CullFlags) (size_bits sizeof_DrawCmd : Z).

Lemma keeps_createPipeline46 info :
  keeps GL46.vbos (GL46.createPipeline D K info).
Proof. unfold GL46.createPipeline. keeps46. Qed.

Lemma keeps_destroyPipeline46 pipeline :
  keeps GL46.vbos (GL46.destroyPipeline D pipeline).
Proof. unfold GL46.destroyPipeline. keeps46. Qed.

Lemma keeps_resizeBuffer46 buffer size data :
  keeps GL46.vbos (GL46.resizeBuffer D size_bits buffer size data).
Proof. unfold GL46.resizeBuffer. keeps46. Qed.

(** What [createBuffer] makes of the slot chain and of the list of
    buffers. *)
Lemma createBuffer46_inv info w a w' :
  GL46.createBuffer D size_bits info w = Some (a, w') ->
  a = GL46.next_address w
  /\ GL46.next_address w' = S (GL46.next_address w)
  /\ exists b,
       GL46.buffers w' = GL46.buffers w ++ [(a, b)]
       /\ GL46.bufobj b = gl_next_name (GL46.gl w)
       /\ GL46.size b = GL46.bi_size info
       /\ match GL46.bi_type info with
          | GL46.VERTEX_BUFFER =>
              exists head node binding,
                GL46.getFreeVBOBinding (GL46.vbos w) = Some (head, node)
                /\ chain_get head node = Some binding
                /\ GL46.vbos w'
                   = chain_set head node (GL46.set_is_free false binding)
                /\ GL46.vbo b = Some node
          | GL46.OTHER_BUFFER _ =>
              GL46.vbos w' = GL46.vbos w /\ GL46.vbo b = None
          end.
Proof.
  unfold GL46.createBuffer. intros E.
  apply bind_inv in E as (address & w1 & E1 & E).
  apply bind_inv in E as (bufobj & w2 & E2 & E).
  apply bind_inv in E as (buffer & w3 & E3 & E).
  apply bind_inv in E as ([] & w4 & E4 & E).
  apply bind_inv in E as ([] & w5 & E5 & [= <- <-]).
  assert (H12 : slots_of46 w2
                = (GL46.vbos w, GL46.buffers w, S (GL46.next_address w))
                /\ address = GL46.next_address w
                /\ bufobj = gl_next_name (GL46.gl w)).
  { assert (Hb : keeps slots_of46 (GL46.gl_gen D glCreateBuffers))
      by keeps46.
    rewrite (Hb _ _ _ E2). injection E1 as <- <-.
    assert (Hg : keeps GL46.gl (@GL46.new_address)) by keeps46.
    split; [destruct w; reflexivity|]. split; [reflexivity|].
    injection E2 as <- _. destruct w; reflexivity. }
  destruct H12 as (H12 & -> & ->).
  assert (H35 : slots_of46 w5
                = (GL46.vbos w3,
                   GL46.buffers w3 ++ [(GL46.next_address w, buffer)],
                   GL46.next_address w3)).
  { injection E5 as <-.
    assert (H34 : slots_of46 w4 = slots_of46 w3).
    { revert E4. destruct (negb (GL46.size buffer =? 0)).
      - assert (Hb : forall c, keeps slots_of46 (GL46.gl_call D c))
          by (intros c; keeps46).
        apply Hb.
      - intros [= <-]. reflexivity. }
    unfold slots_of46 in H34. injection H34 as H1 H2 H3.
    destruct w4. cbn in *. subst. reflexivity. }
  unfold slots_of46 in H12, H35.
  injection H12 as Hv2 Hb2 Hn2. injection H35 as Hv5 Hb5 Hn5.
  split; [reflexivity|]. rewrite Hn5, Hb5, Hv5.
  clear E1 E2 E4 E5 Hv5 Hb5 Hn5. destruct (GL46.bi_type info).
  - apply bind_inv in E3 as (w2' & ? & [= <- <-] & E3).
    apply bind_inv in E3 as ([head node] & ? & Ea & E3).
    destruct (GL46.getFreeVBOBinding (GL46.vbos w2)) as [[h n]|] eqn:Eh;
      [|discriminate Ea].
    injection Ea as -> -> <-.
    apply bind_inv in E3 as (binding & ? & Eb & E3).
    destruct (chain_get head node) as [b|] eqn:Ec; [|discriminate Eb].
    injection Eb as -> <-.
    apply bind_inv in E3 as ([] & w6 & [= <-] & E3).
    apply bind_inv in E3 as ([] & w7 & E7 & [= <- <-]).
    match type of E7 with
    | ?m _ = _ => assert (Hk : keeps slots_of46 m) by keeps46
    end.
    apply Hk in E7. unfold slots_of46 in E7. injection E7 as -> -> ->.
    rewrite <- Hv2, <- Hb2, <- Hn2.
    split; [destruct w2; reflexivity|]. eexists.
    split; [destruct w2; reflexivity|].
    split; [reflexivity|]. split; [reflexivity|].
    exists head, node, binding. split; [exact Eh|].
    split; [exact Ec|]. split; [destruct w2; reflexivity | reflexivity].
  - injection E3 as <- <-. rewrite Hv2, Hb2, Hn2.
    split; [reflexivity|]. eexists. split; [reflexivity|]. auto.
Qed.

(** What [destroyBuffer] does. *)
Lemma destroyBuffer46_inv buffer w w' :
  GL46.destroyBuffer D buffer w = Some (tt, w') ->
  match find_object buffer (GL46.buffers w) with
  | None => w' = w
  | Some object =>
      GL46.buffers w' = erase_first buffer (GL46.buffers w)
      /\ GL46.next_address w' = GL46.next_address w
      /\ gl_log (GL46.gl w')
         = gl_log (GL46.gl w) ++ [glDeleteBuffers (GL46.bufobj object)]
      /\ match GL46.vbo object with
         | Some slot =>
             exists binding,
               chain_get (GL46.vbos w) slot = Some binding
               /\ GL46.vbos w'
                  = chain_set (GL46.vbos w) slot
                      (GL46.set_is_free true binding)
         | None => GL46.vbos w' = GL46.vbos w
         end
  end.
Proof.
  unfold GL46.destroyBuffer. intros E.
  destruct w as [om ib vb ss ps bs rs na g ms]. run46_in E.
  cbn [GL46.buffers GL46.vbos GL46.next_address GL46.gl].
  destruct (find_object buffer bs) as [object|];
    [|injection E as <-; reflexivity].
  destruct (GL46.vbo object) as [slot|].
  - destruct (chain_get vb slot) as [binding|] eqn:Eb; [|discriminate E].
    injection E as <-. cbn. rewrite gl_exec_log. eauto 8.
  - injection E as <-. cbn. rewrite gl_exec_log. auto.
Qed.

Lemma tail_numbered46_new f g :
  tail_numbered46
    (GL46.vbos (GL46.GLRenderDevice D size_bits sizeof_DrawCmd f g)) = true.
Proof. unfold GL46.GLRenderDevice. destruct f; reflexivity. Qed.

Lemma tail_numbered46_step op w w' :
  tail_numbered46 (GL46.vbos w) = true ->
  run_op46 D K size_bits op w = Some (tt, w') ->
  tail_numbered46 (GL46.vbos w') = true.
Proof.
  intros Hw.
  destruct op as [info | buffer | buffer size data | info | pipeline];
    cbn [run_op46]; intros E.
  - apply bind_inv in E as (a & w1 & E & [= <-]).
    apply createBuffer46_inv in E as (_ & _ & b & _ & _ & _ & E).
    destruct (GL46.bi_type info).
    + destruct E as (head & node & binding & Ea & Eb & -> & _).
      apply tail_numbered46_set; [|exact Eb].
      eapply getFreeVBOBinding46_loop_spec; [| | |exact Ea]; auto.
    + destruct E as [-> _]. exact Hw.
  - apply destroyBuffer46_inv in E.
    destruct (find_object buffer (GL46.buffers w)) as [object|];
      [|rewrite E; exact Hw].
    destruct E as (_ & _ & _ & E).
    destruct (GL46.vbo object) as [slot|]; [|rewrite E; exact Hw].
    destruct E as (binding & Eb & ->).
    apply tail_numbered46_set; assumption.
  - rewrite (keeps_resizeBuffer46 _ _ _ _ _ _ E). exact Hw.
  - apply bind_inv in E as (a & w1 & E & [= <-]).
    rewrite (keeps_createPipeline46 _ _ _ _ E). exact Hw.
  - rewrite (keeps_destroyPipeline46 _ _ _ _ E). exact Hw.
Qed.

Lemma reachable46_tail_numbered w :
  reachable46 D K size_bits sizeof_DrawCmd w ->
  tail_numbered46 (GL46.vbos w) = true.
Proof.
  induction 1 as [f g | w op w' _ IH E].
  - apply tail_numbered46_new.
  - eapply tail_numbered46_step; eassumption.
Qed.

Lemma reachable46_after op w :
  reachable46 D K size_bits sizeof_DrawCmd w ->
  run_op46 D K size_bits op w <> None ->
  reachable46 D K size_bits sizeof_DrawCmd (after46 D K size_bits op w).
Proof.
  intros Hr Hd. unfold after46.
  destruct (run_op46 D K size_bits op w) as [[[] w']|] eqn:E;
    [|congruence].
  eapply reachable46_step; eassumption.
Qed.

End Slots46.

(** X15: on a 4.6 device reached from a new one by creating, resizing and
    destroying buffers and pipelines, the tail of the slot chain bears the
    number 0 and every other node the number 1, so that the slot of a
    vertex buffer is 0 or 1 however many of them are alive. *)
Theorem slots46_are_zero_or_one D K size_bits sizeof_DrawCmd w :
  reachable46 D K size_bits sizeof_DrawCmd w ->
  (forall p binding,
     chain_get (GL46.vbos w) p = Some binding ->
     GL46.vbo_index binding = if decide (p = 0%nat) then 0 else 1)
  /\ forall buffer i, slot46 w buffer = Some i -> i = 0 \/ i = 1.
Proof.
  intros Hr. apply reachable46_tail_numbered in Hr.
  assert (Hidx : forall p binding,
            chain_get (GL46.vbos w) p = Some binding ->
            GL46.vbo_index binding = if decide (p = 0%nat) then 0 else 1).
  { intros p binding. apply tail_numbered46_index, Hr. }
  split; [exact Hidx|].
  intros buffer i. unfold slot46.
  destruct (find_object buffer (GL46.buffers w)) as [object|];
    [|discriminate 1].
  destruct (GL46.vbo object) as [p|]; [|discriminate 1].
  destruct (chain_get (GL46.vbos w) p) as [binding|] eqn:Eb;
    [|discriminate 1].
  intros [= <-]. rewrite (Hidx _ _ Eb).
  destruct (decide (p = 0%nat)); auto.
Qed.

Lemma slots46_are_zero_or_one_witness :
  let w := sample_reached46 in
  reachable46 sample_driver sample_cull_flags46 64 20 w
  /\ (forall p binding,
        chain_get (GL46.vbos w) p = Some binding ->
        GL46.vbo_index binding = if decide (p = 0%nat) then 0 else 1)
  /\ forall buffer i, slot46 w buffer = Some i -> i = 0 \/ i = 1.
Proof.
  cbv zeta.
  assert (Hr : reachable46 sample_driver sample_cull_flags46 64 20
                 sample_reached46).
  { unfold sample_reached46. cbv zeta.
    repeat (apply reachable46_after; [|vm_compute; discriminate]).
    apply reachable46_new. }
  split; [exact Hr|].
  exact (slots46_are_zero_or_one _ _ _ _ _ Hr).
Defined.

(** * The buffers of the 4.6 device *)

Lemma find_object_None {A} a (l : list (nat * A)) :
  find_object a l = None <-> a ∉ l.*1.
Proof.
  induction l as [|x l IH]; cbn [find_object fmap list_fmap].
  - split; [intros _ H; apply elem_of_nil in H; exact H | reflexivity].
  - rewrite not_elem_of_cons. destruct (decide (fst x = a)) as [->|Hne].
    + split; [discriminate | intros [H _]; congruence].
    + rewrite IH. split; [intros H; split; [congruence | exact H] | tauto].
Qed.

Lemma erase_first_fresh {A} a (l : list (nat * A)) :
  NoDup l.*1 -> a ∉ (erase_first a l).*1.
Proof.
  induction l as [|x l IH]; cbn [erase_first fmap list_fmap]; intros Hnd.
  - apply not_elem_of_nil.
  - apply NoDup_cons in Hnd as [Hx Hnd].
    destruct (decide (fst x = a)) as [<-|Hne]; [exact Hx|].
    cbn [fmap list_fmap]. apply not_elem_of_cons. split; [congruence|].
    apply IH, Hnd.
Qed.

Lemma erase_first_sublist {A} a (l : list (nat * A)) :
  erase_first a l `sublist_of` l.
Proof.
  induction l as [|x l IH]; cbn [erase_first]; [constructor|].
  destruct (decide (fst x = a)); [apply sublist_cons | apply sublist_skip];
    [reflexivity | exact IH].
Qed.

Lemma Forall_sublist_of {A} (P : A -> Prop) (l1 l2 : list A) :
  l1 `sublist_of` l2 -> Forall P l2 -> Forall P l1.
Proof.
  intros Hsub H. rewrite Forall_forall in *. intros x Hx.
  apply H. eapply elem_of_sublist; eassumption.
Qed.

Section Buffers46.

Context (D : Driver) (K : GL46.CullFlags) (size_bits sizeof_DrawCmd : Z).

Lemma destroyBuffer46_defined buffer w :
  Forall (fun x => forall p, GL46.vbo (snd x) = Some p ->
                             (p < length (GL46.vbos w))%nat)
    (GL46.buffers w) ->
  exists w', GL46.destroyBuffer D buffer w = Some (tt, w').
Proof.
  intros Hheld. unfold GL46.destroyBuffer.
  destruct w as [om ib vb ss ps bs rs na g ms]. cbn in Hheld.
  cbv [bind ret get modify undefined lift_option GL46.gl_call
       GL46.deref_vbo GL46.buffers GL46.vbos].
  destruct (find_object buffer bs) as [object|] eqn:Ef; [|eauto].
  destruct (GL46.vbo object) as [slot|] eqn:Es; [|eauto]. cbn.
  assert (Hin : exists a, (a, object) ∈ bs).
  { clear -Ef. induction bs as [|[a o] l IH]; [discriminate Ef|].
    cbn [find_object fst snd] in Ef. destruct (decide (a = buffer)).
    - injection Ef as ->. exists a. left.
    - destruct (IH Ef) as [a' Ha]. exists a'. right. exact Ha. }
  destruct Hin as [a Ha]. rewrite Forall_forall in Hheld.
  specialize (Hheld _ Ha slot Es). unfold chain_get.
  destruct (reverse vb !! slot) as [binding|] eqn:Eb; [eauto|].
  apply lookup_ge_None_1 in Eb. rewrite length_reverse in Eb. lia.
Qed.

Lemma resizeBuffer46_inv buffer size data w w' :
  GL46.resizeBuffer D size_bits buffer size data w = Some (tt, w') ->
  exists object,
    find_object buffer (GL46.buffers w) = Some object
    /\ GL46.buffers w'
       = map (fun x => if decide (fst x = buffer)
                       then (fst x, GL46.set_size size (snd x)) else x)
           (GL46.buffers w)
    /\ GL46.vbos w' = GL46.vbos w
    /\ GL46.next_address w' = GL46.next_address w
    /\ gl_log (GL46.gl w')
       = gl_log (GL46.gl w)
         ++ [glNamedBufferData (GL46.bufobj object)
               (to_signed size_bits size) data GL_DYNAMIC_DRAW].
Proof.
  unfold GL46.resizeBuffer. intros E.
  destruct w as [om ib vb ss ps bs rs na g ms]. run46_in E.
  cbn [GL46.buffers GL46.vbos GL46.next_address GL46.gl].
  destruct (find_object buffer bs) as [object|]; [|discriminate E].
  injection E as <-. exists object. cbn. rewrite gl_exec_log. auto.
Qed.

Lemma createPipeline46_inv info w a w' :
  GL46.createPipeline D K info w = Some (a, w') ->
  GL46.vbos w' = GL46.vbos w
  /\ GL46.buffers w' = GL46.buffers w
  /\ GL46.next_address w' = S (GL46.next_address w).
Proof.
  unfold GL46.createPipeline. intros E.
  apply bind_inv in E as (address & w1 & [= <- <-] & E).
  match type of E with
  | ?m ?s = _ => assert (Hk : keeps slots_of46 m) by keeps46
  end.
  apply Hk in E. unfold slots_of46 in E. injection E as -> -> ->.
  destruct w; auto.
Qed.

Lemma keeps_slots_destroyPipeline46 pipeline :
  keeps slots_of46 (GL46.destroyPipeline D pipeline).
Proof. unfold GL46.destroyPipeline. keeps46. Qed.

Lemma buffers_inv46_new f g :
  buffers_inv46 (GL46.GLRenderDevice D size_bits sizeof_DrawCmd f g).
Proof.
  assert (H : slots_of46 (GL46.GLRenderDevice D size_bits sizeof_DrawCmd f g)
              = ([ {| GL46.vbo_index := 0; GL46.is_free := true |} ], [],
                 0%nat)).
  { unfold GL46.GLRenderDevice. destruct f; reflexivity. }
  unfold slots_of46 in H. injection H as Hv Hb Hn.
  unfold buffers_inv46. rewrite Hv, Hb.
  split; [reflexivity|]. repeat split; constructor.
Qed.

Lemma buffers_inv46_step op w w' :
  buffers_inv46 w ->
  run_op46 D K size_bits op w = Some (tt, w') ->
  buffers_inv46 w'.
Proof.
  intros (Hnum & Hfresh & Hnd & Hheld) E.
  pose proof (tail_numbered46_step D K size_bits _ _ _ Hnum E) as Hnum'.
  unfold buffers_inv46. split; [exact Hnum'|]. clear Hnum'.
  destruct op as [info | buffer | buffer size data | info | pipeline];
    cbn [run_op46] in E.
  - apply bind_inv in E as (a & w1 & E & [= ->]).
    apply createBuffer46_inv in E as (-> & -> & b & -> & _ & _ & E).
    assert (Hlen : (length (GL46.vbos w) <= length (GL46.vbos w'))%nat
                   /\ forall p, GL46.vbo b = Some p ->
                                (p < length (GL46.vbos w'))%nat).
    { destruct (GL46.bi_type info).
      - destruct E as (head & node & binding & Ea & Eb & -> & ->).
        rewrite chain_set_length.
        apply getFreeVBOBinding46_loop_spec in Ea as (_ & Hle & _); auto.
        split; [exact Hle|]. intros p [= <-]. eapply chain_get_lt, Eb.
      - destruct E as [-> ->]. split; [lia | discriminate]. }
    destruct Hlen as [Hle Hb]. split; [|split].
    + apply Forall_app. split.
      * eapply Forall_impl; [exact Hfresh|]. cbn. intros; lia.
      * constructor; [cbn; lia | constructor].
    + rewrite fmap_app. apply NoDup_app. split; [exact Hnd|].
      split; [|apply NoDup_singleton].
      intros x Hx Hx'. apply list_elem_of_singleton in Hx'. subst x.
      apply list_elem_of_fmap in Hx as ([a' b'] & Ha & Hin).
      rewrite Forall_forall in Hfresh. apply Hfresh in Hin.
      cbn in Ha, Hin. lia.
    + apply Forall_app. split.
      * eapply Forall_impl; [exact Hheld|]. cbn. intros x Hx p Hp.
        specialize (Hx p Hp). lia.
      * constructor; [exact Hb | constructor].
  - apply destroyBuffer46_inv in E.
    destruct (find_object buffer (GL46.buffers w)) as [object|];
      [|rewrite E; auto].
    destruct E as (-> & -> & _ & E).
    assert (Hlen : length (GL46.vbos w') = length (GL46.vbos w)).
    { destruct (GL46.vbo object); [|rewrite E; reflexivity].
      destruct E as (binding & _ & ->). apply chain_set_length. }
    rewrite Hlen.
    pose proof (erase_first_sublist buffer (GL46.buffers w)) as Hsub.
    split; [eapply Forall_sublist_of; eassumption|].
    split; [|eapply Forall_sublist_of; eassumption].
    eapply sublist_NoDup; [exact Hnd|]. apply fmap_sublist, Hsub.
  - apply resizeBuffer46_inv in E as (object & _ & -> & -> & -> & _).
    split; [|split].
    + apply Forall_forall. intros x Hx.
      apply list_elem_of_fmap in Hx as (y & -> & Hy).
      rewrite Forall_forall in Hfresh. specialize (Hfresh _ Hy).
      destruct (decide (fst y = buffer)); exact Hfresh.
    + replace ((map _ (GL46.buffers w)).*1) with (GL46.buffers w).*1;
        [exact Hnd|].
      clear. induction (GL46.buffers w) as [|x l IH]; [reflexivity|].
      cbn [map fmap list_fmap] in *. rewrite IH.
      destruct (decide (fst x = buffer)); reflexivity.
    + apply Forall_forall. intros x Hx.
      apply list_elem_of_fmap in Hx as (y & -> & Hy).
      rewrite Forall_forall in Hheld. specialize (Hheld _ Hy).
      destruct (decide (fst y = buffer)); exact Hheld.
  - apply bind_inv in E as (a & w1 & E & [= ->]).
    apply createPipeline46_inv in E as (-> & -> & ->).
    split; [|auto].
    eapply Forall_impl; [exact Hfresh|]. cbn. intros; lia.
  - apply keeps_slots_destroyPipeline46 in E. unfold slots_of46 in E.
    injection E as -> -> ->. auto.
Qed.

Lemma reachable46_buffers_inv w :
  reachable46 D K size_bits sizeof_DrawCmd w -> buffers_inv46 w.
Proof.
  induction 1 as [f g | w op w' _ IH E].
  - apply buffers_inv46_new.
  - eapply buffers_inv46_step; eassumption.
Qed.

End Buffers46.

(** X16: on a 4.6 device reached from a new one, destroying a buffer always
    returns, whatever the handle; afterwards the handle is not registered,
    and destroying it once more changes nothing: no object is touched and
    no command reaches the context. *)
Theorem destroyBuffer46_twice_is_once D K size_bits sizeof_DrawCmd w buffer :
  reachable46 D K size_bits sizeof_DrawCmd w ->
  exists w1,
    GL46.destroyBuffer D buffer w = Some (tt, w1)
    /\ registered buffer (GL46.buffers w1) = false
    /\ GL46.destroyBuffer D buffer w1 = Some (tt, w1).
Proof.
  intros Hr. apply reachable46_buffers_inv in Hr as (_ & _ & Hnd & Hheld).
  destruct (destroyBuffer46_defined D buffer w Hheld) as [w1 E].
  exists w1. split; [exact E|].
  assert (Hout : buffer ∉ (GL46.buffers w1).*1).
  { apply destroyBuffer46_inv in E.
    destruct (find_object buffer (GL46.buffers w)) as [object|] eqn:Ef.
    - destruct E as (-> & _). apply erase_first_fresh, Hnd.
    - rewrite E. apply find_object_None, Ef. }
  split.
  - unfold registered. apply bool_decide_eq_false. exact Hout.
  - apply find_object_None in Hout. unfold GL46.destroyBuffer.
    cbv [bind get]. rewrite Hout. reflexivity.
Qed.

Lemma destroyBuffer46_twice_is_once_witness :
  reachable46 sample_driver sample_cull_flags46 64 20 sample_reached46
  /\ exists w1,
       GL46.destroyBuffer sample_driver 3%nat sample_reached46
       = Some (tt, w1)
       /\ registered 3%nat (GL46.buffers w1) = false
       /\ GL46.destroyBuffer sample_driver 3%nat w1 = Some (tt, w1).
Proof.
  assert (Hr : reachable46 sample_driver sample_cull_flags46 64 20
                 sample_reached46).
  { unfold sample_reached46. cbv zeta.
    repeat (apply reachable46_after; [|vm_compute; discriminate]).
    apply reachable46_new. }
  split; [exact Hr|].
  exact (destroyBuffer46_twice_is_once _ _ _ _ _ 3%nat Hr).
Defined.

Lemma find_object_resized buffer size (object : GL46.Buffer) l :
  find_object buffer l = Some object ->
  find_object buffer
    (map (fun x => if decide (fst x = buffer)
                   then (fst x, GL46.set_size size (snd x)) else x) l)
  = Some (GL46.set_size size object).
Proof.
  induction l as [|x l IH]; [discriminate 1|].
  cbn [find_object map]. destruct (decide (fst x = buffer)) as [Hx|Hx].
  - intros [= <-]. cbn [fst snd]. rewrite decide_True by exact Hx.
    reflexivity.
  - rewrite decide_False by exact Hx. exact IH.
Qed.

(** X17: on the 4.6 device, resizing a live buffer sets the capacity that
    its writes are checked against: a write that follows is handed to the
    context exactly when the end of its range, computed in [size_t], lies
    below the new size, whatever the size of the buffer was before. *)
Theorem resizeBuffer_sets_write_capacity
    D size_bits w buffer object size data offset n bytes :
  find_object buffer (GL46.buffers w) = Some object ->
  let accepted := wrap size_bits (offset + n) <? size in
  exists w1 w2,
    GL46.resizeBuffer D size_bits buffer size data w = Some (tt, w1)
    /\ find_object buffer (GL46.buffers w1)
       = Some (GL46.set_size size object)
    /\ GL46.writeBuffer D size_bits (GL46.set_size size object) offset n
         bytes w1
       = Some (accepted, w2)
    /\ gl_log (GL46.gl w2)
       = gl_log (GL46.gl w)
         ++ glNamedBufferData (GL46.bufobj object)
              (to_signed size_bits size) data GL_DYNAMIC_DRAW
            :: (if accepted then
                  [glNamedBufferSubData (GL46.bufobj object)
                     (to_signed size_bits offset) (to_signed size_bits n)
                     bytes]
                else []).
Proof.
  intros Ef accepted.
  destruct (GL46.resizeBuffer D size_bits buffer size data w)
    as [[[] w1]|] eqn:E.
  - exists w1. apply resizeBuffer46_inv in E as (o & Eo & Eb & _ & _ & Eg).
    rewrite Ef in Eo. injection Eo as <-.
    unfold GL46.writeBuffer. cbn [GL46.set_size GL46.size GL46.bufobj].
    assert (Hacc : (wrap size_bits (offset + n) >=? size) = negb accepted).
    { unfold accepted. rewrite Z.geb_leb, Z.ltb_antisym, negb_involutive.
      reflexivity. }
    rewrite Hacc. destruct accepted; cbn [negb].
    + eexists. split; [reflexivity|].
      split; [rewrite Eb; apply find_object_resized, Ef|].
      split; [reflexivity|].
      cbv [bind ret modify GL46.gl_call]. rewrite gl_set_gl46, gl_exec_log, Eg.
      rewrite <- app_assoc. reflexivity.
    + exists w1. split; [reflexivity|].
      split; [rewrite Eb; apply find_object_resized, Ef|].
      split; [reflexivity | exact Eg].
  - exfalso. unfold GL46.resizeBuffer in E. cbv [bind get lift_option] in E.
    rewrite Ef in E. discriminate E.
Qed.

Lemma resizeBuffer_sets_write_capacity_witness :
  let w := sample_buffer46 in
  let object := {| GL46.bufobj := 2; GL46.vbo := Some 0%nat;
                   GL46.size := 48 |} in
  find_object 0%nat (GL46.buffers w) = Some object
  /\ exists w1 w2,
       GL46.resizeBuffer sample_driver 64 0%nat 96 None w = Some (tt, w1)
       /\ find_object 0%nat (GL46.buffers w1)
          = Some (GL46.set_size 96 object)
       /\ GL46.writeBuffer sample_driver 64 (GL46.set_size 96 object) 48 16
            [] w1
          = Some (wrap 64 (48 + 16) <? 96, w2)
       /\ gl_log (GL46.gl w2)
          = gl_log (GL46.gl w)
            ++ glNamedBufferData (GL46.bufobj object) (to_signed 64 96) None
                 GL_DYNAMIC_DRAW
               :: (if wrap 64 (48 + 16) <? 96 then
                     [glNamedBufferSubData (GL46.bufobj object)
                        (to_signed 64 48) (to_signed 64 16) []]
                   else []).
Proof.
  cbv zeta.
  assert (Ef : find_object 0%nat (GL46.buffers sample_buffer46)
               = Some {| GL46.bufobj := 2; GL46.vbo := Some 0%nat;
                         GL46.size := 48 |}) by (vm_compute; reflexivity).
  split; [exact Ef|].
  exact (resizeBuffer_sets_write_capacity sample_driver 64 _ _ _ 96 None 48
           16 [] Ef).
Defined.

(** ** Destroying a vertex buffer of the 3.3 device *)

Lemma chain_get_elem_of {A} (l : list A) p x :
  chain_get l p = Some x -> x ∈ l.
Proof.
  unfold chain_get. intros H. apply list_elem_of_lookup_2 in H.
  apply elem_of_reverse in H. rewrite reverse_involutive in H. exact H.
Qed.

Lemma destroyBuffer33_defined D a b w slot binding :
  registered a (GL33.buffers w) = true ->
  GL33.vbo b = Some slot ->
  chain_get (GL33.vbos w) slot = Some binding ->
  exists w1, GL33.destroyBuffer D (a, b) w = Some (tt, w1).
Proof.
  intros Er Es Eb. unfold GL33.destroyBuffer.
  cbv [bind get modify lift_option ret GL33.deref_vbo GL33.gl_call].
  cbn [fst snd]. rewrite Er, Es.
  destruct w as [odm maxb vbos bp pls bufs heap na g msgs].
  cbn [GL33.vbos GL33.set_buffers] in *. rewrite Eb. eauto.
Qed.

(** X18: on a 3.3 device reached from a new one, destroying a live vertex
    buffer returns, takes the buffer off the notification list and frees
    the node it held.  The vertex buffer created next takes a node of the
    chain as it is, one at or nearer the head than the node just freed:
    the chain does not grow. *)
Theorem destroyBuffer33_frees_slot_for_reuse D K size_bits w a b :
  reachable33 D K size_bits w ->
  Z.of_nat (length (GL33.vbos w)) < 2 ^ 32 ->
  (a, b) ∈ GL33.buffers w ->
  exists w1 p binding,
    GL33.destroyBuffer D (a, b) w = Some (tt, w1)
    /\ registered a (GL33.buffers w1) = false
    /\ GL33.vbo b = Some p
    /\ chain_get (GL33.vbos w1) p = Some binding
    /\ GL33.is_free binding = true
    /\ forall info a' b' w2,
         GL33.bci_type info = GL33.VERTEX_BUFFER ->
         GL33.createBuffer D size_bits info w1 = Some ((a', b'), w2) ->
         length (GL33.vbos w2) = length (GL33.vbos w)
         /\ exists q, GL33.vbo b' = Some q /\ (p <= q)%nat.
Proof.
  intros Hr Hlen Hin.
  destruct (reachable33_slots_inv _ _ _ _ Hr Hlen)
    as (_ & _ & _ & Hnd & _ & Hocc).
  assert (Er : registered a (GL33.buffers w) = true).
  { apply bool_decide_eq_true, list_elem_of_fmap. exists (a, b). auto. }
  assert (Hb : GL33.vbo b ∈ held33 w).
  { apply list_elem_of_fmap. exists (a, b). auto. }
  apply Hocc in Hb as (p & binding & Ep & Eb & _).
  destruct (destroyBuffer33_defined D a b w p binding Er Ep Eb) as [w1 E].
  exists w1, p, (GL33.set_is_free true binding).
  split; [exact E|].
  apply destroyBuffer33_inv in E as (_ & _ & E). cbn [fst snd] in E.
  rewrite Er in E. destruct E as (slot & binding' & Es & Eb' & Ev & Ebufs).
  rewrite Ep in Es. injection Es as <-.
  rewrite Eb in Eb'. injection Eb' as <-.
  pose proof (chain_get_lt _ _ _ Eb) as Hp.
  assert (Efree : chain_get (GL33.vbos w1) p
                  = Some (GL33.set_is_free true binding)).
  { rewrite Ev, chain_get_set, decide_True by (exact Hp || reflexivity).
    reflexivity. }
  split.
  { rewrite Ebufs. apply bool_decide_eq_false, erase_first_fresh, Hnd. }
  split; [exact Ep|]. split; [exact Efree|]. split; [reflexivity|].
  intros info a' b' w2 Ht Ec.
  apply createBuffer33_inv in Ec as (_ & _ & _ & _ & _ & Ec).
  rewrite Ht in Ec.
  destruct Ec as (head & node & bnode & Ea & _ & Ev2 & _ & Enode).
  rewrite Ev2, chain_set_length.
  unfold GL33.getFreeVBOBinding in Ea.
  pose proof (getFreeVBOBinding_find_spec (GL33.vbos w1)) as Hfind.
  destruct (GL33.getFreeVBOBinding_find (GL33.vbos w1)) as [q|].
  - injection Ea as <- <-. rewrite Ev, chain_set_length.
    split; [reflexivity|]. exists q. split; [exact Enode|].
    destruct Hfind as (_ & _ & _ & _ & Hafter).
    destruct (decide (p <= q)%nat) as [Hle|Hgt]; [exact Hle|].
    assert (Hq : (q < p)%nat) by lia.
    specialize (Hafter _ _ Hq Efree). discriminate Hafter.
  - exfalso. apply chain_get_elem_of in Efree.
    assert (Hex : existsb GL33.is_free (GL33.vbos w1) = true).
    { apply existsb_exists. exists (GL33.set_is_free true binding).
      split; [apply list_elem_of_In, Efree | reflexivity]. }
    congruence.
Qed.

Lemma destroyBuffer33_frees_slot_for_reuse_witness :
  let w := sample_reached33 in
  let b := {| GL33.bufobj := 4; GL33.vbo := Some 1%nat; GL33.size := 16 |} in
  reachable33 sample_driver sample_cull_flags33 64 w
  /\ Z.of_nat (length (GL33.vbos w)) < 2 ^ 32
  /\ (2%nat, b) ∈ GL33.buffers w
  /\ exists w1 p binding,
       GL33.destroyBuffer sample_driver (2%nat, b) w = Some (tt, w1)
       /\ registered 2%nat (GL33.buffers w1) = false
       /\ GL33.vbo b = Some p
       /\ chain_get (GL33.vbos w1) p = Some binding
       /\ GL33.is_free binding = true
       /\ forall info a' b' w2,
            GL33.bci_type info = GL33.VERTEX_BUFFER ->
            GL33.createBuffer sample_driver 64 info w1
            = Some ((a', b'), w2) ->
            length (GL33.vbos w2) = length (GL33.vbos w)
            /\ exists q, GL33.vbo b' = Some q /\ (p <= q)%nat.
Proof.
  cbv zeta.
  assert (Hr : reachable33 sample_driver sample_cull_flags33 64
                 sample_reached33).
  { unfold sample_reached33. cbv zeta.
    repeat (apply reachable33_after;
            [| first [exact I
                     | intros _; apply list_elem_of_In; vm_compute; auto]
             | vm_compute; discriminate]).
    apply reachable33_new. }
  assert (Hlen : Z.of_nat (length (GL33.vbos sample_reached33)) < 2 ^ 32)
    by (vm_compute; reflexivity).
  assert (Hin : (2%nat, {| GL33.bufobj := 4; GL33.vbo := Some 1%nat;
                           GL33.size := 16 |})
                ∈ GL33.buffers sample_reached33)
    by (apply list_elem_of_In; vm_compute; auto).
  split; [exact Hr|]. split; [exact Hlen|]. split; [exact Hin|].
  exact (destroyBuffer33_frees_slot_for_reuse _ _ _ _ _ _ Hr Hlen Hin).
Defined.

(** * The vertex array of a new pipeline of the 4.6 device *)

Lemma chain_get_defined {A} (l : list A) p :
  (p < length l)%nat -> exists x, chain_get l p = Some x.
Proof.
  intros Hp. unfold chain_get.
  destruct (reverse l !! p) as [x|] eqn:E; [eauto|].
  apply lookup_ge_None_1 in E. rewrite length_reverse in E. lia.
Qed.

Section NewPipeline46.

Context (D : Driver) (K : GL46.CullFlags).

(** A loop whose body only talks to the context. *)
Lemma for_each_gl_calls46 {A} (f : A -> list GLCall) l
    (body : A -> M GL46.World unit) w :
  (forall x w, body x w
               = Some (tt, GL46.set_gl (gl_run D (f x) (GL46.gl w)) w)) ->
  for_each l body w
  = Some (tt, GL46.set_gl (gl_run D (concat (map f l)) (GL46.gl w)) w).
Proof.
  intros Hbody. revert w.
  induction l as [|x l IH]; intros w; cbn [for_each map concat].
  - rewrite gl_run_nil, set_gl_gl46. reflexivity.
  - rewrite run_bind, Hbody, IH, gl_set_gl46, set_gl_set_gl46, gl_run_app.
    reflexivity.
Qed.

(** The loop over the live buffers. *)
Lemma bind_vertex_buffers46 w0 vaobj stride l g :
  Forall (fun x => forall p, GL46.vbo (snd x) = Some p ->
                             (p < length (GL46.vbos w0))%nat) l ->
  for_each l (fun '(_, buffer) =>
      match GL46.vbo buffer with
      | Some slot =>
          bind (GL46.deref_vbo slot) (fun binding =>
          GL46.gl_call D (glVertexArrayVertexBuffer vaobj
                            (GL46.vbo_index binding) (GL46.bufobj buffer) 0
                            (int32 stride)))
      | None => ret tt
      end) (GL46.set_gl g w0)
  = Some (tt, GL46.set_gl
                (gl_run D (omap (vertex_buffer_call46 w0 vaobj stride) l) g)
                w0).
Proof.
  intros Hl. revert g.
  induction Hl as [|[a b] l Hx _ IH]; intros g; [reflexivity|].
  cbn [for_each omap list_omap]. rewrite run_bind. cbn [snd] in Hx.
  destruct (GL46.vbo b) as [p|] eqn:Ep.
  - destruct (chain_get_defined (GL46.vbos w0) p (Hx p eq_refl))
      as [binding Eb].
    assert (Hcall : vertex_buffer_call46 w0 vaobj stride (a, b)
                    = Some (glVertexArrayVertexBuffer vaobj
                              (GL46.vbo_index binding) (GL46.bufobj b) 0
                              (int32 stride))).
    { unfold vertex_buffer_call46, slot_of46. cbn [snd].
      rewrite Ep, Eb. reflexivity. }
    rewrite Hcall. unfold GL46.deref_vbo. rewrite !run_bind.
    change (get (GL46.set_gl g w0))
      with (Some (GL46.set_gl g w0, GL46.set_gl g w0)).
    cbv beta iota.
    replace (GL46.vbos (GL46.set_gl g w0)) with (GL46.vbos w0)
      by reflexivity.
    rewrite Eb. cbn [lift_option]. rewrite run_ret, run_gl_call46.
    rewrite gl_set_gl46, set_gl_set_gl46, IH. reflexivity.
  - assert (Hcall : vertex_buffer_call46 w0 vaobj stride (a, b) = None).
    { unfold vertex_buffer_call46, slot_of46. cbn [snd].
      rewrite Ep. reflexivity. }
    rewrite Hcall, run_ret. apply IH.
Qed.

(** What the commands of the loop leave in the vertex array. *)
Lemma bound_by_vertex_buffer_calls46 w0 vaobj stride l g i :
  Forall (fun x => forall p, GL46.vbo (snd x) = Some p ->
                             (p < length (GL46.vbos w0))%nat) l ->
  gl_vertex_buffer
    (gl_run D (omap (vertex_buffer_call46 w0 vaobj stride) l) g) vaobj i
  = match last (filter (fun x => slot_of46 w0 (snd x) = Some i) l) with
    | Some x => Some (GL46.bufobj (snd x))
    | None => gl_vertex_buffer g vaobj i
    end.
Proof.
  intros Hl. revert g.
  induction Hl as [|x l Hx _ IH]; intros g; [reflexivity|].
  cbn [omap list_omap]. rewrite filter_cons.
  destruct (slot_of46 w0 (snd x)) as [j|] eqn:Ej.
  - assert (Hcall : vertex_buffer_call46 w0 vaobj stride x
                    = Some (glVertexArrayVertexBuffer vaobj j
                              (GL46.bufobj (snd x)) 0 (int32 stride))).
    { unfold vertex_buffer_call46. rewrite Ej. reflexivity. }
    rewrite Hcall, gl_run_cons. fold (@omap list _).
    rewrite IH.
    destruct (decide (Some j = Some i)) as [[= ->]|Hne].
    + rewrite last_cons.
      destruct (last (filter _ l)); [reflexivity|].
      unfold gl_vertex_buffer. destruct g. cbn.
      apply lookup_insert_eq.
    + destruct (last (filter _ l)); [reflexivity|].
      unfold gl_vertex_buffer. destruct g. cbn.
      apply lookup_insert_ne. congruence.
  - assert (Hcall : vertex_buffer_call46 w0 vaobj stride x = None).
    { unfold vertex_buffer_call46. rewrite Ej. reflexivity. }
    rewrite Hcall, decide_False by discriminate. apply IH.
Qed.

End NewPipeline46.

(** The commands that bind no buffer into a vertex array and delete no
    vertex array leave the bindings alone. *)
Lemma gl_run_concat_vertex_buffers {A} D (f : A -> list GLCall) l g :
  (forall x, Forall (fun c => match c with
                              | glBindVertexBuffer _ _ _ _
                              | glVertexArrayVertexBuffer _ _ _ _ _
                              | glDeleteVertexArrays _ => False
                              | _ => True
                              end) (f x)) ->
  gl_vertex_buffers (gl_run D (concat (map f l)) g) = gl_vertex_buffers g.
Proof.
  intros Hf. apply gl_run_vertex_buffers, Forall_concat, Forall_forall.
  intros calls Hc. apply list_elem_of_fmap in Hc as (x & -> & _). apply Hf.
Qed.

(** The run of [createPipeline]. *)
Lemma createPipeline46_run D K info w :
  held_in_chain46 w ->
  exists calls pipeline,
    let ppo := gl_next_name (GL46.gl w) in
    let vao := ppo + 1 in
    let g :=
      gl_run D
        (omap (vertex_buffer_call46 w vao (GL46.pi_vertex_stride info))
           (GL46.buffers w))
        (gl_run D calls
           (gl_exec D (glCreateVertexArrays vao)
              (gl_exec D (glCreateProgramPipelines ppo) (GL46.gl w)))) in
    GL46.createPipeline D K info w
    = Some (GL46.next_address w,
            GL46.set_pipelines
              (GL46.pipelines w ++ [(GL46.next_address w, pipeline)])
              (GL46.set_gl g
                 (GL46.set_next_address (S (GL46.next_address w)) w)))
    /\ GL46.ppobj pipeline = ppo
    /\ GL46.vaobj pipeline = vao
    /\ forall g0, gl_vertex_buffers (gl_run D calls g0) = gl_vertex_buffers g0.
Proof.
  intros Hheld. unfold GL46.createPipeline.
  rewrite run_bind.
  change (GL46.new_address w)
    with (Some (GL46.next_address w,
                GL46.set_next_address (S (GL46.next_address w)) w)).
  cbv beta iota.
  rewrite run_bind, run_gl_gen46. cbv beta iota.
  rewrite run_bind, run_gl_gen46. cbv beta iota zeta.
  rewrite !gl_set_gl46, !set_gl_set_gl46.
  set (w0 := GL46.set_next_address (S (GL46.next_address w)) w).
  change (GL46.gl w0) with (GL46.gl w).
  set (n := gl_next_name (GL46.gl w)).
  assert (Hvao : gl_next_name (gl_exec D (glCreateProgramPipelines n)
                                 (GL46.gl w)) = n + 1)
    by (unfold n; destruct (GL46.gl w); reflexivity).
  rewrite Hvao.
  set (g2 := gl_exec D (glCreateVertexArrays (n + 1))
               (gl_exec D (glCreateProgramPipelines n) (GL46.gl w))).
  cbn [GL46.attributes GL46.vertex_stride].
  rewrite run_bind.
  match goal with
  | |- context [for_each ?l1 (fun attrib =>
                  bind (GL46.gl_call D (@?c1 attrib))
                    (fun _ => GL46.gl_call D (@?c2 attrib)))] =>
      rewrite (for_each_gl_calls46 D (fun attrib => [c1 attrib; c2 attrib]))
        by reflexivity;
      pose (calls1 := concat (map (fun attrib => [c1 attrib; c2 attrib]) l1));
      assert (H1 : forall g0, gl_vertex_buffers (gl_run D calls1 g0)
                              = gl_vertex_buffers g0)
        by (intros g0; apply gl_run_concat_vertex_buffers;
            intros attrib; repeat constructor);
      fold calls1
  end.
  cbv beta iota. rewrite gl_set_gl46, set_gl_set_gl46, run_bind.
  match goal with
  | |- context [for_each ?l2 (fun s => match s with
                                       | Some shader =>
                                           GL46.gl_call D (@?c shader)
                                       | None => ret tt
                                       end)] =>
      rewrite (for_each_gl_calls46 D
                 (fun s => match s with
                           | Some shader => [c shader]
                           | None => []
                           end))
        by (intros [shader|] w1;
            [reflexivity | rewrite gl_run_nil, set_gl_gl46; reflexivity]);
      pose (calls2 := concat (map (fun s => match s with
                                            | Some shader => [c shader]
                                            | None => []
                                            end) l2));
      assert (H2 : forall g0, gl_vertex_buffers (gl_run D calls2 g0)
                              = gl_vertex_buffers g0)
        by (intros g0; apply gl_run_concat_vertex_buffers;
            intros [shader|]; repeat constructor);
      fold calls2
  end.
  cbv beta iota. rewrite gl_set_gl46, set_gl_set_gl46, run_bind.
  match goal with
  | |- context [get ?s] => change (get s) with (Some (s, s))
  end.
  cbv beta iota. rewrite run_bind.
  match goal with
  | |- context [GL46.buffers (GL46.set_gl ?g w0)] =>
      change (GL46.buffers (GL46.set_gl g w0)) with (GL46.buffers w)
  end.
  rewrite (bind_vertex_buffers46 D w0 (n + 1) (GL46.pi_vertex_stride info)
             (GL46.buffers w) _ Hheld).
  cbv beta iota. rewrite run_bind.
  match goal with
  | |- context [modify ?f ?s] => change (modify f s) with (Some (tt, f s))
  end.
  cbv beta iota. rewrite run_ret.
  exists (calls1 ++ calls2). eexists. cbv zeta. rewrite gl_run_app.
  split; [reflexivity|]. split; [reflexivity|]. split; [reflexivity|].
  intros g0. rewrite gl_run_app, H2, H1. reflexivity.
Qed.

(** X19: a new pipeline of the 4.6 device, created while every node held by
    a live buffer is a node of the slot chain and no vertex array of a name
    not yet generated has a binding.  The creation returns and registers the
    pipeline, and each binding of its vertex array holds the live buffer of
    that slot that was registered last, or nothing when no live buffer has
    the slot. *)
Theorem createPipeline46_binds_last_buffer_of_each_slot D K info w :
  held_in_chain46 w ->
  (forall v i, gl_next_name (GL46.gl w) <= v ->
               gl_vertex_buffer (GL46.gl w) v i = None) ->
  exists a w' pipeline,
    GL46.createPipeline D K info w = Some (a, w')
    /\ GL46.pipelines w' = GL46.pipelines w ++ [(a, pipeline)]
    /\ forall i,
         gl_vertex_buffer (GL46.gl w') (GL46.vaobj pipeline) i
         = last_of_slot46 w i.
Proof.
  intros Hheld Hfresh.
  destruct (createPipeline46_run D K info w Hheld)
    as (calls & pipeline & E & _ & Hvao & Hcalls).
  cbv zeta in E. eexists; eexists; exists pipeline.
  split; [exact E|]. split; [reflexivity|]. intros i.
  unfold GL46.set_pipelines. cbn [GL46.gl]. rewrite gl_set_gl46, Hvao.
  rewrite (bound_by_vertex_buffer_calls46 D w _ _ _ _ i Hheld).
  unfold last_of_slot46.
  destruct (last (filter _ (GL46.buffers w))) as [x|]; [reflexivity|].
  cbn [fmap option_fmap option_map].
  unfold gl_vertex_buffer in *. rewrite Hcalls.
  replace (gl_vertex_buffers
             (gl_exec D (glCreateVertexArrays (gl_next_name (GL46.gl w) + 1))
                (gl_exec D (glCreateProgramPipelines
                              (gl_next_name (GL46.gl w))) (GL46.gl w))))
    with (gl_vertex_buffers (GL46.gl w))
    by (destruct (GL46.gl w); reflexivity).
  apply Hfresh. lia.
Qed.

Lemma fresh_vertex_arrays g :
  forallb (fun kv => fst (fst kv) <? gl_next_name g)
    (map_to_list (gl_vertex_buffers g)) = true ->
  forall v i, gl_next_name g <= v -> gl_vertex_buffer g v i = None.
Proof.
  intros H v i Hv. unfold gl_vertex_buffer.
  destruct (gl_vertex_buffers g !! (v, i)) as [b|] eqn:E; [|reflexivity].
  apply elem_of_map_to_list, list_elem_of_In in E.
  rewrite forallb_forall in H. apply H, Z.ltb_lt in E. cbn in E. lia.
Qed.

Lemma createPipeline46_binds_last_buffer_of_each_slot_witness :
  let w := sample_reached46 in
  held_in_chain46 w
  /\ (forall v i, gl_next_name (GL46.gl w) <= v ->
                  gl_vertex_buffer (GL46.gl w) v i = None)
  /\ exists a w' pipeline,
       GL46.createPipeline sample_driver sample_cull_flags46
         sample_pipeline46 w = Some (a, w')
       /\ GL46.pipelines w' = GL46.pipelines w ++ [(a, pipeline)]
       /\ forall i,
            gl_vertex_buffer (GL46.gl w') (GL46.vaobj pipeline) i
            = last_of_slot46 w i.
Proof.
  cbv zeta.
  assert (Hheld : held_in_chain46 sample_reached46).
  { unfold held_in_chain46. vm_compute.
    repeat (constructor; [intros p [= <-]; lia|]). constructor. }
  assert (Hfresh : forall v i,
            gl_next_name (GL46.gl sample_reached46) <= v ->
            gl_vertex_buffer (GL46.gl sample_reached46) v i = None).
  { apply fresh_vertex_arrays. vm_compute. reflexivity. }
  split; [exact Hheld|]. split; [exact Hfresh|].
  exact (createPipeline46_binds_last_buffer_of_each_slot sample_driver
           sample_cull_flags46 sample_pipeline46 _ Hheld Hfresh).
Defined.

(** The commands of the loop over the live buffers touch the bindings of
    their vertex array only. *)
Lemma vertex_buffer_calls46_frame D w0 vaobj stride l g k :
  fst k <> vaobj ->
  gl_vertex_buffers
    (gl_run D (omap (vertex_buffer_call46 w0 vaobj stride) l) g) !! k
  = gl_vertex_buffers g !! k.
Proof.
  intros Hk. revert g. induction l as [|x l IH]; intros g; [reflexivity|].
  cbn [omap list_omap]. unfold vertex_buffer_call46 at 1.
  destruct (slot_of46 w0 (snd x)) as [j|];
    cbn [fmap option_fmap option_map]; [|apply IH].
  rewrite gl_run_cons. fold (@omap list _). rewrite IH.
  destruct g. cbn. apply lookup_insert_ne. intros <-. apply Hk. reflexivity.
Qed.

(** X20: creating a pipeline on the 4.6 device and destroying it again, from
    a device whose live buffers hold nodes of the slot chain, whose
    pipelines have addresses below the next one and whose context has no
    binding in a vertex array not yet generated.  Both calls return; the
    lists of pipelines and buffers, the slot chain and the bindings of all
    vertex arrays are as before, and the vertex array and the program
    pipeline of the pipeline are deleted, in this order. *)
Theorem createPipeline46_destroyPipeline46_round_trip D K info w :
  held_in_chain46 w ->
  (forall v i, gl_next_name (GL46.gl w) <= v ->
               gl_vertex_buffer (GL46.gl w) v i = None) ->
  Forall (fun x => (fst x < GL46.next_address w)%nat) (GL46.pipelines w) ->
  exists a w1 w2 pipeline,
    GL46.createPipeline D K info w = Some (a, w1)
    /\ find_object a (GL46.pipelines w1) = Some pipeline
    /\ GL46.destroyPipeline D a w1 = Some (tt, w2)
    /\ GL46.pipelines w2 = GL46.pipelines w
    /\ GL46.buffers w2 = GL46.buffers w
    /\ GL46.vbos w2 = GL46.vbos w
    /\ gl_vertex_buffers (GL46.gl w2) = gl_vertex_buffers (GL46.gl w)
    /\ gl_log (GL46.gl w2)
       = gl_log (GL46.gl w1)
         ++ [glDeleteVertexArrays (GL46.vaobj pipeline);
             glDeleteProgramPipelines (GL46.ppobj pipeline)].
Proof.
  intros Hheld Hfresh Haddr.
  destruct (createPipeline46_run D K info w Hheld)
    as (calls & pipeline & E & Hppo & Hvao & Hcalls).
  cbv zeta in E.
  match type of E with
  | _ = Some (_, GL46.set_pipelines _ (GL46.set_gl ?g1 _)) => set (g := g1) in *
  end.
  match type of E with
  | _ = Some (_, ?s) => set (w1 := s) in *
  end.
  assert (Hp1 : GL46.pipelines w1
                = GL46.pipelines w ++ [(GL46.next_address w, pipeline)])
    by reflexivity.
  exists (GL46.next_address w), w1. eexists; exists pipeline.
  split; [exact E|]. rewrite Hp1.
  assert (Ef : find_object (GL46.next_address w)
                 (GL46.pipelines w ++ [(GL46.next_address w, pipeline)])
               = Some pipeline) by (apply find_object_app_fresh, Haddr).
  split; [exact Ef|].
  unfold GL46.destroyPipeline. cbv [bind get]. rewrite Hp1, Ef.
  unfold GL46.gl_call. cbv [modify].
  rewrite (erase_first_app_fresh _ _ _ Haddr).
  split; [reflexivity|].
  do 3 (split; [reflexivity|]).
  rewrite !gl_set_gl46.
  change (GL46.gl (GL46.set_pipelines (GL46.pipelines w) w1)) with g.
  change (GL46.gl w1) with g.
  split; [|rewrite !gl_exec_log, <- app_assoc; reflexivity].
  rewrite Hvao, Hppo.
  set (vao := gl_next_name (GL46.gl w) + 1).
  assert (Hg : gl_vertex_buffers
                 (gl_exec D (glDeleteProgramPipelines
                               (gl_next_name (GL46.gl w)))
                    (gl_exec D (glDeleteVertexArrays vao) g))
               = filter (fun kv => fst (fst kv) <> vao)
                   (gl_vertex_buffers g))
    by (destruct g; reflexivity).
  rewrite Hg. apply map_eq. intros k.
  destruct (decide (fst k = vao)) as [Hk|Hk].
  - transitivity (@None Z).
    + apply map_lookup_filter_None. right. intros x _ Hx. apply Hx, Hk.
    + symmetry. destruct k as [v i]. cbn in Hk. subst v.
      apply (Hfresh vao i). unfold vao. lia.
  - transitivity (gl_vertex_buffers g !! k).
    + destruct (gl_vertex_buffers g !! k) as [x|] eqn:Ex.
      * apply map_lookup_filter_Some. split; [exact Ex | exact Hk].
      * apply map_lookup_filter_None. left. exact Ex.
    + unfold g. rewrite vertex_buffer_calls46_frame by exact Hk.
      rewrite Hcalls. destruct (GL46.gl w). reflexivity.
Qed.

Lemma createPipeline46_destroyPipeline46_round_trip_witness :
  let w := sample_reached46 in
  held_in_chain46 w
  /\ (forall v i, gl_next_name (GL46.gl w) <= v ->
                  gl_vertex_buffer (GL46.gl w) v i = None)
  /\ Forall (fun x => (fst x < GL46.next_address w)%nat) (GL46.pipelines w)
  /\ exists a w1 w2 pipeline,
       GL46.createPipeline sample_driver sample_cull_flags46
         sample_pipeline46 w = Some (a, w1)
       /\ find_object a (GL46.pipelines w1) = Some pipeline
       /\ GL46.destroyPipeline sample_driver a w1 = Some (tt, w2)
       /\ GL46.pipelines w2 = GL46.pipelines w
       /\ GL46.buffers w2 = GL46.buffers w
       /\ GL46.vbos w2 = GL46.vbos w
       /\ gl_vertex_buffers (GL46.gl w2) = gl_vertex_buffers (GL46.gl w)
       /\ gl_log (GL46.gl w2)
          = gl_log (GL46.gl w1)
            ++ [glDeleteVertexArrays (GL46.vaobj pipeline);
                glDeleteProgramPipelines (GL46.ppobj pipeline)].
Proof.
  cbv zeta.
  assert (Hheld : held_in_chain46 sample_reached46).
  { unfold held_in_chain46. vm_compute.
    repeat (constructor; [intros p [= <-]; lia|]). constructor. }
  assert (Hfresh : forall v i,
            gl_next_name (GL46.gl sample_reached46) <= v ->
            gl_vertex_buffer (GL46.gl sample_reached46) v i = None).
  { apply fresh_vertex_arrays. vm_compute. reflexivity. }
  assert (Haddr : Forall (fun x => (fst x < GL46.next_address
                                              sample_reached46)%nat)
                    (GL46.pipelines sample_reached46)).
  { vm_compute. repeat (constructor; [lia|]). constructor. }
  split; [exact Hheld|]. split; [exact Hfresh|]. split; [exact Haddr|].
  exact (createPipeline46_destroyPipeline46_round_trip sample_driver
           sample_cull_flags46 sample_pipeline46 _ Hheld Hfresh Haddr).
Defined.

(** * The translations of pipeline state *)

Ltac translation_injective :=
  let a := fresh "a" in
  let b := fresh "b" in
  let H := fresh "H" in
  intros a b; split; [|intros ->; reflexivity];
  destruct a, b; intros H; try reflexivity; vm_compute in H; discriminate H.

(** X21: the translations of blend equations, blend functions, depth
    functions, attribute types, index types, primitive modes and fill
    modes into enumerants of the context lose nothing, on both devices: two
    values of the interface have the same translation only when they are
    the same value.  On the 3.3 device the size of an index determines its
    type as well. *)
Theorem pipeline_state_translations_are_injective :
  ((forall a b, GL33.getBlendEquation a = GL33.getBlendEquation b <-> a = b)
   /\ (forall a b, GL33.getBlendFunc a = GL33.getBlendFunc b <-> a = b)
   /\ (forall a b, GL33.getDepthFunc a = GL33.getDepthFunc b <-> a = b)
   /\ (forall a b, GL33.getAttribType a = GL33.getAttribType b <-> a = b)
   /\ (forall a b, GL33.getIndexType a = GL33.getIndexType b <-> a = b)
   /\ (forall a b, GL33.getIndexSize a = GL33.getIndexSize b <-> a = b)
   /\ (forall a b,
         GL33.getPrimitiveType a = GL33.getPrimitiveType b <-> a = b)
   /\ (forall a b, GL33.getFillMode a = GL33.getFillMode b <-> a = b))
  /\ ((forall a b, GL46.getBlendEquation a = GL46.getBlendEquation b <-> a = b)
      /\ (forall a b, GL46.getBlendFunc a = GL46.getBlendFunc b <-> a = b)
      /\ (forall a b, GL46.getDepthFunc a = GL46.getDepthFunc b <-> a = b)
      /\ (forall a b, GL46.getAttribType a = GL46.getAttribType b <-> a = b)
      /\ (forall a b, GL46.getIndexType a = GL46.getIndexType b <-> a = b)
      /\ (forall a b,
            GL46.getPrimitiveType a = GL46.getPrimitiveType b <-> a = b)
      /\ (forall a b, GL46.getFillMode a = GL46.getFillMode b <-> a = b)).
Proof.
  split.
  - repeat match goal with |- _ /\ _ => split end; translation_injective.
  - repeat match goal with |- _ /\ _ => split end; translation_injective.
Qed.

(** * A new vertex buffer and the pipelines of the 4.6 device *)

Lemma getFreeVBOBinding46_loop_defined begin chain :
  chain <> [] ->
  exists head node, GL46.getFreeVBOBinding_loop begin chain = Some (head, node).
Proof.
  induction chain as [|x l IH]; [congruence|]. intros _.
  cbn [GL46.getFreeVBOBinding_loop].
  destruct (GL46.is_free x); [eauto|].
  destruct l as [|y l]; [eauto|]. apply IH. discriminate.
Qed.

(** The commands that bind one buffer at one index leave it bound there in
    every vertex array they name. *)
Lemma bound_in_every_pipeline46 D index bufobj
    (l : list (nat * GL46.Pipeline)) g x :
  x ∈ l ->
  gl_vertex_buffer
    (gl_run D
       (concat (map (fun y : nat * GL46.Pipeline =>
                       [glVertexArrayVertexBuffer (GL46.vaobj (snd y)) index
                          bufobj 0 (int32 (GL46.vertex_stride (snd y)))]) l))
       g)
    (GL46.vaobj (snd x)) index
  = Some bufobj.
Proof.
  intros Hx.
  assert (Hkeep : forall l g k,
            gl_vertex_buffers g !! k = Some bufobj ->
            gl_vertex_buffers
              (gl_run D
                 (concat (map (fun y : nat * GL46.Pipeline =>
                                 [glVertexArrayVertexBuffer
                                    (GL46.vaobj (snd y)) index bufobj 0
                                    (int32 (GL46.vertex_stride (snd y)))]) l))
                 g) !! k = Some bufobj).
  { clear. intros l. induction l as [|y l IH]; intros g k Hk; [exact Hk|].
    cbn [map concat app]. rewrite gl_run_cons. apply IH.
    destruct g. cbn in *.
    destruct (decide ((GL46.vaobj (snd y), index) = k)) as [<-|Hne].
    - apply lookup_insert_eq.
    - rewrite lookup_insert_ne by exact Hne. exact Hk. }
  unfold gl_vertex_buffer. revert g.
  induction l as [|y l IH]; intros g; [apply elem_of_nil in Hx; destruct Hx|].
  cbn [map concat app]. rewrite gl_run_cons.
  apply elem_of_cons in Hx as [->|Hx]; [|apply IH, Hx].
  apply Hkeep. destruct g. cbn. apply lookup_insert_eq.
Qed.

(** X22: on a 4.6 device reached from a new one, the creation of a vertex
    buffer returns and registers the buffer; the buffer holds slot 0 or 1,
    and in the vertex array of every live pipeline the binding of that slot
    holds the new buffer, whichever buffer it held before. *)
Theorem createBuffer46_binds_into_every_pipeline
    D K size_bits sizeof_DrawCmd info w :
  reachable46 D K size_bits sizeof_DrawCmd w ->
  GL46.bi_type info = GL46.VERTEX_BUFFER ->
  exists address w' buffer index,
    GL46.createBuffer D size_bits info w = Some (address, w')
    /\ find_object address (GL46.buffers w') = Some buffer
    /\ GL46.bufobj buffer = gl_next_name (GL46.gl w)
    /\ slot_of46 w' buffer = Some index
    /\ (index = 0 \/ index = 1)
    /\ forall x, x ∈ GL46.pipelines w' ->
         gl_vertex_buffer (GL46.gl w') (GL46.vaobj (snd x)) index
         = Some (GL46.bufobj buffer).
Proof.
  intros Hr Htype.
  destruct (reachable46_buffers_inv _ _ _ _ _ Hr) as (Hnum & Hfresh & _ & _).
  assert (Hne : GL46.vbos w <> [])
    by (destruct (GL46.vbos w); [discriminate Hnum | discriminate]).
  destruct (getFreeVBOBinding46_loop_defined (GL46.vbos w) (GL46.vbos w) Hne)
    as (head & node & Ea).
  destruct (getFreeVBOBinding46_loop_spec _ _ _ _ Hnum Hnum
              (fun _ _ => eq_refl) Ea) as (Hnum' & _ & binding & Eb & _).
  pose proof (chain_get_lt _ _ _ Eb) as Hlt.
  unfold GL46.createBuffer. rewrite Htype.
  rewrite run_bind.
  change (GL46.new_address w)
    with (Some (GL46.next_address w,
                GL46.set_next_address (S (GL46.next_address w)) w)).
  cbv beta iota. rewrite run_bind, run_gl_gen46. cbv beta iota.
  set (w0 := GL46.set_next_address (S (GL46.next_address w)) w).
  change (GL46.gl w0) with (GL46.gl w).
  set (n := gl_next_name (GL46.gl w)).
  rewrite run_bind, run_bind.
  match goal with
  | |- context [get ?s] => change (get s) with (Some (s, s))
  end.
  cbv beta iota. rewrite run_bind.
  match goal with
  | |- context [GL46.vbos (GL46.set_gl ?g w0)] =>
      change (GL46.vbos (GL46.set_gl g w0)) with (GL46.vbos w)
  end.
  unfold GL46.getFreeVBOBinding. rewrite Ea. cbn [lift_option].
  rewrite run_ret. cbv beta iota. rewrite run_bind, Eb. cbn [lift_option].
  rewrite run_ret. cbv beta iota. rewrite run_bind.
  match goal with
  | |- context [modify ?f ?s] => change (modify f s) with (Some (tt, f s))
  end.
  cbv beta iota. rewrite run_bind.
  match goal with
  | |- context [for_each ?l (fun '(_, pipeline) =>
                               GL46.gl_call D (@?c pipeline))] =>
      rewrite (for_each_gl_calls46 D (fun y => [c (snd y)]))
        by (intros [a p] w1; reflexivity)
  end.
  cbv beta iota. rewrite run_ret. cbv beta iota.
  cbn [GL46.size GL46.bufobj].
  set (index := GL46.vbo_index binding).
  match goal with
  | |- context [GL46.pipelines (GL46.set_gl ?g w0)] =>
      change (GL46.pipelines (GL46.set_gl g w0)) with (GL46.pipelines w)
  end.
  set (buffer := {| GL46.bufobj := n; GL46.vbo := Some node;
                    GL46.size := GL46.bi_size info |}).
  assert (Hindex : index = 0 \/ index = 1).
  { unfold index.
    rewrite (tail_numbered46_index _ _ _ Hnum' Eb).
    destruct (decide (node = 0%nat)); auto. }
  assert (Hslot : forall w2,
            GL46.vbos w2
            = chain_set head node (GL46.set_is_free false binding) ->
            slot_of46 w2 buffer = Some index).
  { intros w2 Hv. unfold slot_of46. cbn [GL46.vbo buffer]. rewrite Hv.
    rewrite chain_get_set, decide_True by (exact Hlt || reflexivity).
    reflexivity. }
  rewrite run_bind.
  destruct (negb (GL46.bi_size info =? 0)).
  - rewrite run_gl_call46. cbv beta iota. rewrite run_bind.
    match goal with
    | |- context [modify ?f ?s] => change (modify f s) with (Some (tt, f s))
    end.
    cbv beta iota. rewrite run_ret.
    eexists; eexists; exists buffer, index. split; [reflexivity|].
    split; [apply find_object_app_fresh, Hfresh|].
    split; [reflexivity|]. split; [apply Hslot; reflexivity|].
    split; [exact Hindex|]. intros x Hx.
    match goal with
    | |- gl_vertex_buffer (GL46.gl ?s) _ _ = _ =>
        match s with
        | context [gl_exec D ?c (GL46.gl (GL46.set_gl ?g _))] =>
            change (GL46.gl s) with (gl_exec D c g);
            replace (gl_vertex_buffer (gl_exec D c g))
              with (gl_vertex_buffer g)
              by (unfold gl_vertex_buffer; destruct g; reflexivity)
        end
    end.
    apply (bound_in_every_pipeline46 D index n (GL46.pipelines w)). exact Hx.
  - rewrite run_ret. cbv beta iota. rewrite run_bind.
    match goal with
    | |- context [modify ?f ?s] => change (modify f s) with (Some (tt, f s))
    end.
    cbv beta iota. rewrite run_ret.
    eexists; eexists; exists buffer, index. split; [reflexivity|].
    split; [apply find_object_app_fresh, Hfresh|].
    split; [reflexivity|]. split; [apply Hslot; reflexivity|].
    split; [exact Hindex|]. intros x Hx.
    apply (bound_in_every_pipeline46 D index n (GL46.pipelines w)). exact Hx.
Qed.

Lemma createBuffer46_binds_into_every_pipeline_witness :
  let w := sample_reached46 in
  let info := vertex_buffer46 8 in
  reachable46 sample_driver sample_cull_flags46 64 20 w
  /\ GL46.bi_type info = GL46.VERTEX_BUFFER
  /\ exists address w' buffer index,
       GL46.createBuffer sample_driver 64 info w = Some (address, w')
       /\ find_object address (GL46.buffers w') = Some buffer
       /\ GL46.bufobj buffer = gl_next_name (GL46.gl w)
       /\ slot_of46 w' buffer = Some index
       /\ (index = 0 \/ index = 1)
       /\ forall x, x ∈ GL46.pipelines w' ->
            gl_vertex_buffer (GL46.gl w') (GL46.vaobj (snd x)) index
            = Some (GL46.bufobj buffer).
Proof.
  cbv zeta.
  assert (Hr : reachable46 sample_driver sample_cull_flags46 64 20
                 sample_reached46).
  { unfold sample_reached46. cbv zeta.
    repeat (apply reachable46_after; [|vm_compute; discriminate]).
    apply reachable46_new. }
  assert (Ht : GL46.bi_type (vertex_buffer46 8) = GL46.VERTEX_BUFFER)
    by reflexivity.
  split; [exact Hr|]. split; [exact Ht|].
  exact (createBuffer46_binds_into_every_pipeline _ _ _ _ _ _ Hr Ht).
Defined.
